(** * Vulkan backend of picom: a shallow embedding and its verified properties

    The development follows the Vulkan backend contained in [src/inspect.c]
    (device selection, swap chain, image binding, frame sequencing).  Program
    data (the structs [vulkan_data] and [vulkan_image]) is passed explicitly;
    every call into Vulkan, xcb or the C library that creates, destroys,
    records or submits something is appended to a log of calls, together
    with the result the library answered.  The answers themselves are inputs
    of the model: each function takes a record with the answers of the calls
    it makes. *)

From Stdlib Require Import ZArith List Bool String Lia.
From stdpp Require Import base tactics option list.
Import ListNotations.
Local Open Scope Z_scope.

(** ** Machine integers *)

Definition wrap_unsigned (bits x : Z) : Z := x mod 2 ^ bits.
Definition wrap_signed (bits x : Z) : Z :=
  (x + 2 ^ (bits - 1)) mod 2 ^ bits - 2 ^ (bits - 1).

Definition to_uint16 : Z -> Z := wrap_unsigned 16.
Definition to_uint32 : Z -> Z := wrap_unsigned 32.
Definition to_size_t : Z -> Z := wrap_unsigned 64.
Definition to_int16 : Z -> Z := wrap_signed 16.
Definition to_int32 : Z -> Z := wrap_signed 32.

Definition INT32_MAX : Z := 2 ^ 31 - 1.
Definition UINT32_MAX : Z := 2 ^ 32 - 1.

(** [int32_t] arithmetic, two's complement. *)
Definition int32_add (a b : Z) : Z := to_int32 (a + b).
Definition int32_sub (a b : Z) : Z := to_int32 (a - b).

(** ** Handles, enumerations and constants of the Vulkan and xcb headers *)

(** Vulkan handles, xcb ids and pointers are integers; the null handle is 0. *)
Definition handle : Type := Z.
Definition VK_NULL_HANDLE : handle := 0.
Definition XCB_NONE : Z := 0.
Definition NULL : Z := 0.

(** A handle a library hands out on success is never null. *)
Definition new_handle (p : positive) : handle := Z.pos p.

Definition is_null (h : handle) : bool := h =? VK_NULL_HANDLE.

Inductive bind_pixmap_strategy_t : Type :=
| BIND_PIXMAP_STRATEGY_DRI3
| BIND_PIXMAP_STRATEGY_SHM.

Inductive VkImageLayout : Type :=
| VK_IMAGE_LAYOUT_UNDEFINED
| VK_IMAGE_LAYOUT_COLOR_ATTACHMENT_OPTIMAL
| VK_IMAGE_LAYOUT_SHADER_READ_ONLY_OPTIMAL
| VK_IMAGE_LAYOUT_TRANSFER_DST_OPTIMAL
| VK_IMAGE_LAYOUT_PRESENT_SRC_KHR.

Inductive VkComponentSwizzle : Type :=
| VK_COMPONENT_SWIZZLE_IDENTITY
| VK_COMPONENT_SWIZZLE_ZERO
| VK_COMPONENT_SWIZZLE_ONE
| VK_COMPONENT_SWIZZLE_R
| VK_COMPONENT_SWIZZLE_G
| VK_COMPONENT_SWIZZLE_B
| VK_COMPONENT_SWIZZLE_A.

Inductive VkFormat : Type :=
| VK_FORMAT_UNDEFINED
| VK_FORMAT_R8G8B8A8_UNORM
| VK_FORMAT_B8G8R8A8_UNORM
| VK_FORMAT_OTHER (code : Z).

Inductive VkPresentModeKHR : Type :=
| VK_PRESENT_MODE_IMMEDIATE_KHR
| VK_PRESENT_MODE_FIFO_KHR.

Inductive VkShaderStage : Type :=
| VK_SHADER_STAGE_VERTEX_BIT
| VK_SHADER_STAGE_FRAGMENT_BIT.

Definition VK_FENCE_CREATE_SIGNALED_BIT : Z := 1.
Definition VK_QUEUE_GRAPHICS_BIT : Z := 1.
Definition VK_MEMORY_PROPERTY_DEVICE_LOCAL_BIT : Z := 1.
Definition VK_MEMORY_PROPERTY_HOST_VISIBLE_BIT : Z := 2.
Definition VK_DESCRIPTOR_POOL_CREATE_FREE_DESCRIPTOR_SET_BIT : Z := 1.

(** [VK_MAKE_API_VERSION(0, 1, 3, 0)] *)
Definition VK_API_VERSION_1_3 : Z := Z.lor (Z.shiftl 1 22) (Z.shiftl 3 12).

Definition VK_KHR_SURFACE_EXTENSION_NAME : string := "VK_KHR_surface".
Definition VK_KHR_XCB_SURFACE_EXTENSION_NAME : string := "VK_KHR_xcb_surface".
Definition VK_KHR_SWAPCHAIN_EXTENSION_NAME : string := "VK_KHR_swapchain".
Definition VK_EXT_EXTERNAL_MEMORY_DMA_BUF_EXTENSION_NAME : string :=
  "VK_EXT_external_memory_dma_buf".
Definition VK_EXT_IMAGE_DRM_FORMAT_MODIFIER_EXTENSION_NAME : string :=
  "VK_EXT_image_drm_format_modifier".
Definition VK_KHR_EXTERNAL_MEMORY_FD_EXTENSION_NAME : string :=
  "VK_KHR_external_memory_fd".
Definition VK_EXT_EXTERNAL_MEMORY_HOST_EXTENSION_NAME : string :=
  "VK_EXT_external_memory_host".

Record VkRect2D : Type := {
  offset_x : Z; offset_y : Z;          (* int32_t *)
  extent_width : Z; extent_height : Z  (* uint32_t *)
}.

Record VkComponentMapping : Type := {
  comp_r : VkComponentSwizzle; comp_g : VkComponentSwizzle;
  comp_b : VkComponentSwizzle; comp_a : VkComponentSwizzle
}.

(** [pixman_box32_t] and the part of a pixman region the backend reads:
    its bounding box and its array of rectangles. *)
Record pixman_box32_t : Type := { box_x1 : Z; box_y1 : Z; box_x2 : Z; box_y2 : Z }.

Record region_t : Type := {
  region_extents : pixman_box32_t;
  region_rects : list pixman_box32_t
}.

Definition pixman_region32_rectangles (reg : region_t) : Z * list pixman_box32_t :=
  (Z.of_nat (length (region_rects reg)), region_rects reg).

Definition pixman_region32_extents (reg : region_t) : pixman_box32_t :=
  region_extents reg.

Record coord_t : Type := { coord_x : Z; coord_y : Z }.

(** [struct color]: four doubles, kept as their IEEE-754 bit patterns. *)
Record color : Type := { color_red : Z; color_green : Z; color_blue : Z; color_alpha : Z }.

(** ** The backend's structs *)

Set Primitive Projections.

Record vulkan_data : Type := mk_vulkan_data {
  vd_instance : handle;
  vd_surface_connection : handle;
  vd_surface : handle;
  vd_bind_pixmap_strategy : bind_pixmap_strategy_t;
  vd_physical_device : handle;
  vd_min_imported_host_pointer_alignment : Z;
  vd_queue_family_index : Z;
  vd_device : handle;
  vd_queue : handle;
  vd_acquire_next_image_fence : handle;
  vd_queue_submit_fence : handle;
  vd_semaphore : handle;
  vd_width : Z;
  vd_height : Z;
  vd_swapchain : handle;
  vd_swapchain_image_count : Z;
  vd_swapchain_images : option (list handle);
  vd_swapchain_image_layouts : option (list VkImageLayout);
  vd_swapchain_image_views : option (list handle);
  vd_buffer_ages : option (list Z);
  vd_swapchain_image_index : Z;
  vd_descriptor_pool : handle;
  vd_descriptor_set_layout : handle;
  vd_sampler : handle;
  vd_compose_pipeline_layout : handle;
  vd_compose_pipeline : handle;
  vd_fill_pipeline_layout : handle;
  vd_fill_pipeline : handle;
  vd_command_pool : handle;
  vd_command_buffer : handle
}.

Definition set_vd_instance (v : handle) (s : vulkan_data) : vulkan_data :=
  let '(mk_vulkan_data
    _ x1 x2 x3 x4 x5 x6 x7 x8 x9 x10 x11 x12 x13 x14 x15 x16 x17 x18 x19 x20 x21 x22 x23
    x24 x25 x26 x27 x28 x29) := s in
  mk_vulkan_data
    v x1 x2 x3 x4 x5 x6 x7 x8 x9 x10 x11 x12 x13 x14 x15 x16 x17 x18 x19 x20 x21 x22 x23
    x24 x25 x26 x27 x28 x29.

Definition set_vd_surface_connection (v : handle) (s : vulkan_data) : vulkan_data :=
  let '(mk_vulkan_data
    x0 _ x2 x3 x4 x5 x6 x7 x8 x9 x10 x11 x12 x13 x14 x15 x16 x17 x18 x19 x20 x21 x22 x23
    x24 x25 x26 x27 x28 x29) := s in
  mk_vulkan_data
    x0 v x2 x3 x4 x5 x6 x7 x8 x9 x10 x11 x12 x13 x14 x15 x16 x17 x18 x19 x20 x21 x22 x23
    x24 x25 x26 x27 x28 x29.

Definition set_vd_surface (v : handle) (s : vulkan_data) : vulkan_data :=
  let '(mk_vulkan_data
    x0 x1 _ x3 x4 x5 x6 x7 x8 x9 x10 x11 x12 x13 x14 x15 x16 x17 x18 x19 x20 x21 x22 x23
    x24 x25 x26 x27 x28 x29) := s in
  mk_vulkan_data
    x0 x1 v x3 x4 x5 x6 x7 x8 x9 x10 x11 x12 x13 x14 x15 x16 x17 x18 x19 x20 x21 x22 x23
    x24 x25 x26 x27 x28 x29.

Definition set_vd_bind_pixmap_strategy (v : bind_pixmap_strategy_t) (s : vulkan_data) : vulkan_data :=
  let '(mk_vulkan_data
    x0 x1 x2 _ x4 x5 x6 x7 x8 x9 x10 x11 x12 x13 x14 x15 x16 x17 x18 x19 x20 x21 x22 x23
    x24 x25 x26 x27 x28 x29) := s in
  mk_vulkan_data
    x0 x1 x2 v x4 x5 x6 x7 x8 x9 x10 x11 x12 x13 x14 x15 x16 x17 x18 x19 x20 x21 x22 x23
    x24 x25 x26 x27 x28 x29.

Definition set_vd_physical_device (v : handle) (s : vulkan_data) : vulkan_data :=
  let '(mk_vulkan_data
    x0 x1 x2 x3 _ x5 x6 x7 x8 x9 x10 x11 x12 x13 x14 x15 x16 x17 x18 x19 x20 x21 x22 x23
    x24 x25 x26 x27 x28 x29) := s in
  mk_vulkan_data
    x0 x1 x2 x3 v x5 x6 x7 x8 x9 x10 x11 x12 x13 x14 x15 x16 x17 x18 x19 x20 x21 x22 x23
    x24 x25 x26 x27 x28 x29.

Definition set_vd_min_imported_host_pointer_alignment (v : Z) (s : vulkan_data) : vulkan_data :=
  let '(mk_vulkan_data
    x0 x1 x2 x3 x4 _ x6 x7 x8 x9 x10 x11 x12 x13 x14 x15 x16 x17 x18 x19 x20 x21 x22 x23
    x24 x25 x26 x27 x28 x29) := s in
  mk_vulkan_data
    x0 x1 x2 x3 x4 v x6 x7 x8 x9 x10 x11 x12 x13 x14 x15 x16 x17 x18 x19 x20 x21 x22 x23
    x24 x25 x26 x27 x28 x29.

Definition set_vd_queue_family_index (v : Z) (s : vulkan_data) : vulkan_data :=
  let '(mk_vulkan_data
    x0 x1 x2 x3 x4 x5 _ x7 x8 x9 x10 x11 x12 x13 x14 x15 x16 x17 x18 x19 x20 x21 x22 x23
    x24 x25 x26 x27 x28 x29) := s in
  mk_vulkan_data
    x0 x1 x2 x3 x4 x5 v x7 x8 x9 x10 x11 x12 x13 x14 x15 x16 x17 x18 x19 x20 x21 x22 x23
    x24 x25 x26 x27 x28 x29.

Definition set_vd_device (v : handle) (s : vulkan_data) : vulkan_data :=
  let '(mk_vulkan_data
    x0 x1 x2 x3 x4 x5 x6 _ x8 x9 x10 x11 x12 x13 x14 x15 x16 x17 x18 x19 x20 x21 x22 x23
    x24 x25 x26 x27 x28 x29) := s in
  mk_vulkan_data
    x0 x1 x2 x3 x4 x5 x6 v x8 x9 x10 x11 x12 x13 x14 x15 x16 x17 x18 x19 x20 x21 x22 x23
    x24 x25 x26 x27 x28 x29.

Definition set_vd_queue (v : handle) (s : vulkan_data) : vulkan_data :=
  let '(mk_vulkan_data
    x0 x1 x2 x3 x4 x5 x6 x7 _ x9 x10 x11 x12 x13 x14 x15 x16 x17 x18 x19 x20 x21 x22 x23
    x24 x25 x26 x27 x28 x29) := s in
  mk_vulkan_data
    x0 x1 x2 x3 x4 x5 x6 x7 v x9 x10 x11 x12 x13 x14 x15 x16 x17 x18 x19 x20 x21 x22 x23
    x24 x25 x26 x27 x28 x29.

Definition set_vd_acquire_next_image_fence (v : handle) (s : vulkan_data) : vulkan_data :=
  let '(mk_vulkan_data
    x0 x1 x2 x3 x4 x5 x6 x7 x8 _ x10 x11 x12 x13 x14 x15 x16 x17 x18 x19 x20 x21 x22 x23
    x24 x25 x26 x27 x28 x29) := s in
  mk_vulkan_data
    x0 x1 x2 x3 x4 x5 x6 x7 x8 v x10 x11 x12 x13 x14 x15 x16 x17 x18 x19 x20 x21 x22 x23
    x24 x25 x26 x27 x28 x29.

Definition set_vd_queue_submit_fence (v : handle) (s : vulkan_data) : vulkan_data :=
  let '(mk_vulkan_data
    x0 x1 x2 x3 x4 x5 x6 x7 x8 x9 _ x11 x12 x13 x14 x15 x16 x17 x18 x19 x20 x21 x22 x23 x24
    x25 x26 x27 x28 x29) := s in
  mk_vulkan_data
    x0 x1 x2 x3 x4 x5 x6 x7 x8 x9 v x11 x12 x13 x14 x15 x16 x17 x18 x19 x20 x21 x22 x23 x24
    x25 x26 x27 x28 x29.

Definition set_vd_semaphore (v : handle) (s : vulkan_data) : vulkan_data :=
  let '(mk_vulkan_data
    x0 x1 x2 x3 x4 x5 x6 x7 x8 x9 x10 _ x12 x13 x14 x15 x16 x17 x18 x19 x20 x21 x22 x23 x24
    x25 x26 x27 x28 x29) := s in
  mk_vulkan_data
    x0 x1 x2 x3 x4 x5 x6 x7 x8 x9 x10 v x12 x13 x14 x15 x16 x17 x18 x19 x20 x21 x22 x23 x24
    x25 x26 x27 x28 x29.

Definition set_vd_width (v : Z) (s : vulkan_data) : vulkan_data :=
  let '(mk_vulkan_data
    x0 x1 x2 x3 x4 x5 x6 x7 x8 x9 x10 x11 _ x13 x14 x15 x16 x17 x18 x19 x20 x21 x22 x23 x24
    x25 x26 x27 x28 x29) := s in
  mk_vulkan_data
    x0 x1 x2 x3 x4 x5 x6 x7 x8 x9 x10 x11 v x13 x14 x15 x16 x17 x18 x19 x20 x21 x22 x23 x24
    x25 x26 x27 x28 x29.

Definition set_vd_height (v : Z) (s : vulkan_data) : vulkan_data :=
  let '(mk_vulkan_data
    x0 x1 x2 x3 x4 x5 x6 x7 x8 x9 x10 x11 x12 _ x14 x15 x16 x17 x18 x19 x20 x21 x22 x23 x24
    x25 x26 x27 x28 x29) := s in
  mk_vulkan_data
    x0 x1 x2 x3 x4 x5 x6 x7 x8 x9 x10 x11 x12 v x14 x15 x16 x17 x18 x19 x20 x21 x22 x23 x24
    x25 x26 x27 x28 x29.

Definition set_vd_swapchain (v : handle) (s : vulkan_data) : vulkan_data :=
  let '(mk_vulkan_data
    x0 x1 x2 x3 x4 x5 x6 x7 x8 x9 x10 x11 x12 x13 _ x15 x16 x17 x18 x19 x20 x21 x22 x23 x24
    x25 x26 x27 x28 x29) := s in
  mk_vulkan_data
    x0 x1 x2 x3 x4 x5 x6 x7 x8 x9 x10 x11 x12 x13 v x15 x16 x17 x18 x19 x20 x21 x22 x23 x24
    x25 x26 x27 x28 x29.

Definition set_vd_swapchain_image_count (v : Z) (s : vulkan_data) : vulkan_data :=
  let '(mk_vulkan_data
    x0 x1 x2 x3 x4 x5 x6 x7 x8 x9 x10 x11 x12 x13 x14 _ x16 x17 x18 x19 x20 x21 x22 x23 x24
    x25 x26 x27 x28 x29) := s in
  mk_vulkan_data
    x0 x1 x2 x3 x4 x5 x6 x7 x8 x9 x10 x11 x12 x13 x14 v x16 x17 x18 x19 x20 x21 x22 x23 x24
    x25 x26 x27 x28 x29.

Definition set_vd_swapchain_images (v : option (list handle)) (s : vulkan_data) : vulkan_data :=
  let '(mk_vulkan_data
    x0 x1 x2 x3 x4 x5 x6 x7 x8 x9 x10 x11 x12 x13 x14 x15 _ x17 x18 x19 x20 x21 x22 x23 x24
    x25 x26 x27 x28 x29) := s in
  mk_vulkan_data
    x0 x1 x2 x3 x4 x5 x6 x7 x8 x9 x10 x11 x12 x13 x14 x15 v x17 x18 x19 x20 x21 x22 x23 x24
    x25 x26 x27 x28 x29.

Definition set_vd_swapchain_image_layouts (v : option (list VkImageLayout)) (s : vulkan_data) : vulkan_data :=
  let '(mk_vulkan_data
    x0 x1 x2 x3 x4 x5 x6 x7 x8 x9 x10 x11 x12 x13 x14 x15 x16 _ x18 x19 x20 x21 x22 x23 x24
    x25 x26 x27 x28 x29) := s in
  mk_vulkan_data
    x0 x1 x2 x3 x4 x5 x6 x7 x8 x9 x10 x11 x12 x13 x14 x15 x16 v x18 x19 x20 x21 x22 x23 x24
    x25 x26 x27 x28 x29.

Definition set_vd_swapchain_image_views (v : option (list handle)) (s : vulkan_data) : vulkan_data :=
  let '(mk_vulkan_data
    x0 x1 x2 x3 x4 x5 x6 x7 x8 x9 x10 x11 x12 x13 x14 x15 x16 x17 _ x19 x20 x21 x22 x23 x24
    x25 x26 x27 x28 x29) := s in
  mk_vulkan_data
    x0 x1 x2 x3 x4 x5 x6 x7 x8 x9 x10 x11 x12 x13 x14 x15 x16 x17 v x19 x20 x21 x22 x23 x24
    x25 x26 x27 x28 x29.

Definition set_vd_buffer_ages (v : option (list Z)) (s : vulkan_data) : vulkan_data :=
  let '(mk_vulkan_data
    x0 x1 x2 x3 x4 x5 x6 x7 x8 x9 x10 x11 x12 x13 x14 x15 x16 x17 x18 _ x20 x21 x22 x23 x24
    x25 x26 x27 x28 x29) := s in
  mk_vulkan_data
    x0 x1 x2 x3 x4 x5 x6 x7 x8 x9 x10 x11 x12 x13 x14 x15 x16 x17 x18 v x20 x21 x22 x23 x24
    x25 x26 x27 x28 x29.

Definition set_vd_swapchain_image_index (v : Z) (s : vulkan_data) : vulkan_data :=
  let '(mk_vulkan_data
    x0 x1 x2 x3 x4 x5 x6 x7 x8 x9 x10 x11 x12 x13 x14 x15 x16 x17 x18 x19 _ x21 x22 x23 x24
    x25 x26 x27 x28 x29) := s in
  mk_vulkan_data
    x0 x1 x2 x3 x4 x5 x6 x7 x8 x9 x10 x11 x12 x13 x14 x15 x16 x17 x18 x19 v x21 x22 x23 x24
    x25 x26 x27 x28 x29.

Definition set_vd_descriptor_pool (v : handle) (s : vulkan_data) : vulkan_data :=
  let '(mk_vulkan_data
    x0 x1 x2 x3 x4 x5 x6 x7 x8 x9 x10 x11 x12 x13 x14 x15 x16 x17 x18 x19 x20 _ x22 x23 x24
    x25 x26 x27 x28 x29) := s in
  mk_vulkan_data
    x0 x1 x2 x3 x4 x5 x6 x7 x8 x9 x10 x11 x12 x13 x14 x15 x16 x17 x18 x19 x20 v x22 x23 x24
    x25 x26 x27 x28 x29.

Definition set_vd_descriptor_set_layout (v : handle) (s : vulkan_data) : vulkan_data :=
  let '(mk_vulkan_data
    x0 x1 x2 x3 x4 x5 x6 x7 x8 x9 x10 x11 x12 x13 x14 x15 x16 x17 x18 x19 x20 x21 _ x23 x24
    x25 x26 x27 x28 x29) := s in
  mk_vulkan_data
    x0 x1 x2 x3 x4 x5 x6 x7 x8 x9 x10 x11 x12 x13 x14 x15 x16 x17 x18 x19 x20 x21 v x23 x24
    x25 x26 x27 x28 x29.

Definition set_vd_sampler (v : handle) (s : vulkan_data) : vulkan_data :=
  let '(mk_vulkan_data
    x0 x1 x2 x3 x4 x5 x6 x7 x8 x9 x10 x11 x12 x13 x14 x15 x16 x17 x18 x19 x20 x21 x22 _ x24
    x25 x26 x27 x28 x29) := s in
  mk_vulkan_data
    x0 x1 x2 x3 x4 x5 x6 x7 x8 x9 x10 x11 x12 x13 x14 x15 x16 x17 x18 x19 x20 x21 x22 v x24
    x25 x26 x27 x28 x29.

Definition set_vd_compose_pipeline_layout (v : handle) (s : vulkan_data) : vulkan_data :=
  let '(mk_vulkan_data
    x0 x1 x2 x3 x4 x5 x6 x7 x8 x9 x10 x11 x12 x13 x14 x15 x16 x17 x18 x19 x20 x21 x22 x23 _
    x25 x26 x27 x28 x29) := s in
  mk_vulkan_data
    x0 x1 x2 x3 x4 x5 x6 x7 x8 x9 x10 x11 x12 x13 x14 x15 x16 x17 x18 x19 x20 x21 x22 x23 v
    x25 x26 x27 x28 x29.

Definition set_vd_compose_pipeline (v : handle) (s : vulkan_data) : vulkan_data :=
  let '(mk_vulkan_data
    x0 x1 x2 x3 x4 x5 x6 x7 x8 x9 x10 x11 x12 x13 x14 x15 x16 x17 x18 x19 x20 x21 x22 x23
    x24 _ x26 x27 x28 x29) := s in
  mk_vulkan_data
    x0 x1 x2 x3 x4 x5 x6 x7 x8 x9 x10 x11 x12 x13 x14 x15 x16 x17 x18 x19 x20 x21 x22 x23
    x24 v x26 x27 x28 x29.

Definition set_vd_fill_pipeline_layout (v : handle) (s : vulkan_data) : vulkan_data :=
  let '(mk_vulkan_data
    x0 x1 x2 x3 x4 x5 x6 x7 x8 x9 x10 x11 x12 x13 x14 x15 x16 x17 x18 x19 x20 x21 x22 x23
    x24 x25 _ x27 x28 x29) := s in
  mk_vulkan_data
    x0 x1 x2 x3 x4 x5 x6 x7 x8 x9 x10 x11 x12 x13 x14 x15 x16 x17 x18 x19 x20 x21 x22 x23
    x24 x25 v x27 x28 x29.

Definition set_vd_fill_pipeline (v : handle) (s : vulkan_data) : vulkan_data :=
  let '(mk_vulkan_data
    x0 x1 x2 x3 x4 x5 x6 x7 x8 x9 x10 x11 x12 x13 x14 x15 x16 x17 x18 x19 x20 x21 x22 x23
    x24 x25 x26 _ x28 x29) := s in
  mk_vulkan_data
    x0 x1 x2 x3 x4 x5 x6 x7 x8 x9 x10 x11 x12 x13 x14 x15 x16 x17 x18 x19 x20 x21 x22 x23
    x24 x25 x26 v x28 x29.

Definition set_vd_command_pool (v : handle) (s : vulkan_data) : vulkan_data :=
  let '(mk_vulkan_data
    x0 x1 x2 x3 x4 x5 x6 x7 x8 x9 x10 x11 x12 x13 x14 x15 x16 x17 x18 x19 x20 x21 x22 x23
    x24 x25 x26 x27 _ x29) := s in
  mk_vulkan_data
    x0 x1 x2 x3 x4 x5 x6 x7 x8 x9 x10 x11 x12 x13 x14 x15 x16 x17 x18 x19 x20 x21 x22 x23
    x24 x25 x26 x27 v x29.

Definition set_vd_command_buffer (v : handle) (s : vulkan_data) : vulkan_data :=
  let '(mk_vulkan_data
    x0 x1 x2 x3 x4 x5 x6 x7 x8 x9 x10 x11 x12 x13 x14 x15 x16 x17 x18 x19 x20 x21 x22 x23
    x24 x25 x26 x27 x28 _) := s in
  mk_vulkan_data
    x0 x1 x2 x3 x4 x5 x6 x7 x8 x9 x10 x11 x12 x13 x14 x15 x16 x17 x18 x19 x20 x21 x22 x23
    x24 x25 x26 x27 x28 v.

Record vulkan_image : Type := mk_vulkan_image {
  vi_refcount : Z;
  vi_has_alpha : bool;
  vi_pixmap : Z;
  vi_owned : bool;
  vi_width : Z;
  vi_height : Z;
  vi_image : handle;
  vi_memory : handle;
  vi_shm_id : Z;
  vi_shm_address : Z;
  vi_shm_segment : Z;
  vi_staging_buffer : handle;
  vi_staging_memory : handle;
  vi_image_view : handle;
  vi_descriptor_set : handle
}.

Definition set_vi_refcount (v : Z) (s : vulkan_image) : vulkan_image :=
  let '(mk_vulkan_image
    _ x1 x2 x3 x4 x5 x6 x7 x8 x9 x10 x11 x12 x13 x14) := s in
  mk_vulkan_image
    v x1 x2 x3 x4 x5 x6 x7 x8 x9 x10 x11 x12 x13 x14.

Definition set_vi_has_alpha (v : bool) (s : vulkan_image) : vulkan_image :=
  let '(mk_vulkan_image
    x0 _ x2 x3 x4 x5 x6 x7 x8 x9 x10 x11 x12 x13 x14) := s in
  mk_vulkan_image
    x0 v x2 x3 x4 x5 x6 x7 x8 x9 x10 x11 x12 x13 x14.

Definition set_vi_pixmap (v : Z) (s : vulkan_image) : vulkan_image :=
  let '(mk_vulkan_image
    x0 x1 _ x3 x4 x5 x6 x7 x8 x9 x10 x11 x12 x13 x14) := s in
  mk_vulkan_image
    x0 x1 v x3 x4 x5 x6 x7 x8 x9 x10 x11 x12 x13 x14.

Definition set_vi_owned (v : bool) (s : vulkan_image) : vulkan_image :=
  let '(mk_vulkan_image
    x0 x1 x2 _ x4 x5 x6 x7 x8 x9 x10 x11 x12 x13 x14) := s in
  mk_vulkan_image
    x0 x1 x2 v x4 x5 x6 x7 x8 x9 x10 x11 x12 x13 x14.

Definition set_vi_width (v : Z) (s : vulkan_image) : vulkan_image :=
  let '(mk_vulkan_image
    x0 x1 x2 x3 _ x5 x6 x7 x8 x9 x10 x11 x12 x13 x14) := s in
  mk_vulkan_image
    x0 x1 x2 x3 v x5 x6 x7 x8 x9 x10 x11 x12 x13 x14.

Definition set_vi_height (v : Z) (s : vulkan_image) : vulkan_image :=
  let '(mk_vulkan_image
    x0 x1 x2 x3 x4 _ x6 x7 x8 x9 x10 x11 x12 x13 x14) := s in
  mk_vulkan_image
    x0 x1 x2 x3 x4 v x6 x7 x8 x9 x10 x11 x12 x13 x14.

Definition set_vi_image (v : handle) (s : vulkan_image) : vulkan_image :=
  let '(mk_vulkan_image
    x0 x1 x2 x3 x4 x5 _ x7 x8 x9 x10 x11 x12 x13 x14) := s in
  mk_vulkan_image
    x0 x1 x2 x3 x4 x5 v x7 x8 x9 x10 x11 x12 x13 x14.

Definition set_vi_memory (v : handle) (s : vulkan_image) : vulkan_image :=
  let '(mk_vulkan_image
    x0 x1 x2 x3 x4 x5 x6 _ x8 x9 x10 x11 x12 x13 x14) := s in
  mk_vulkan_image
    x0 x1 x2 x3 x4 x5 x6 v x8 x9 x10 x11 x12 x13 x14.

Definition set_vi_shm_id (v : Z) (s : vulkan_image) : vulkan_image :=
  let '(mk_vulkan_image
    x0 x1 x2 x3 x4 x5 x6 x7 _ x9 x10 x11 x12 x13 x14) := s in
  mk_vulkan_image
    x0 x1 x2 x3 x4 x5 x6 x7 v x9 x10 x11 x12 x13 x14.

Definition set_vi_shm_address (v : Z) (s : vulkan_image) : vulkan_image :=
  let '(mk_vulkan_image
    x0 x1 x2 x3 x4 x5 x6 x7 x8 _ x10 x11 x12 x13 x14) := s in
  mk_vulkan_image
    x0 x1 x2 x3 x4 x5 x6 x7 x8 v x10 x11 x12 x13 x14.

Definition set_vi_shm_segment (v : Z) (s : vulkan_image) : vulkan_image :=
  let '(mk_vulkan_image
    x0 x1 x2 x3 x4 x5 x6 x7 x8 x9 _ x11 x12 x13 x14) := s in
  mk_vulkan_image
    x0 x1 x2 x3 x4 x5 x6 x7 x8 x9 v x11 x12 x13 x14.

Definition set_vi_staging_buffer (v : handle) (s : vulkan_image) : vulkan_image :=
  let '(mk_vulkan_image
    x0 x1 x2 x3 x4 x5 x6 x7 x8 x9 x10 _ x12 x13 x14) := s in
  mk_vulkan_image
    x0 x1 x2 x3 x4 x5 x6 x7 x8 x9 x10 v x12 x13 x14.

Definition set_vi_staging_memory (v : handle) (s : vulkan_image) : vulkan_image :=
  let '(mk_vulkan_image
    x0 x1 x2 x3 x4 x5 x6 x7 x8 x9 x10 x11 _ x13 x14) := s in
  mk_vulkan_image
    x0 x1 x2 x3 x4 x5 x6 x7 x8 x9 x10 x11 v x13 x14.

Definition set_vi_image_view (v : handle) (s : vulkan_image) : vulkan_image :=
  let '(mk_vulkan_image
    x0 x1 x2 x3 x4 x5 x6 x7 x8 x9 x10 x11 x12 _ x14) := s in
  mk_vulkan_image
    x0 x1 x2 x3 x4 x5 x6 x7 x8 x9 x10 x11 x12 v x14.

Definition set_vi_descriptor_set (v : handle) (s : vulkan_image) : vulkan_image :=
  let '(mk_vulkan_image
    x0 x1 x2 x3 x4 x5 x6 x7 x8 x9 x10 x11 x12 x13 _) := s in
  mk_vulkan_image
    x0 x1 x2 x3 x4 x5 x6 x7 x8 x9 x10 x11 x12 x13 v.

Unset Primitive Projections.

(** [struct backend_image]: the handle given to the caller; [bi_inner] is the
    reference-counted [vulkan_image] it points to. *)
Record backend_image : Type := {
  bi_inner : vulkan_image;
  bi_ewidth : Z;
  bi_eheight : Z
}.

(** [ccalloc(1, struct vulkan_data)]: every field zero. *)
Definition vulkan_data_zero : vulkan_data :=
  mk_vulkan_data 0 0 0 BIND_PIXMAP_STRATEGY_DRI3 0 0 0 0 0 0 0 0 0 0 0 0
    None None None None 0 0 0 0 0 0 0 0 0 0.

(** [ccalloc(1, struct vulkan_image)]: every field zero. *)
Definition vulkan_image_zero : vulkan_image :=
  mk_vulkan_image 0 false 0 false 0 0 0 0 0 0 0 0 0 0 0.

(** Arrays behind a pointer: [None] is the null pointer.  Reading or writing
    through a null pointer or past the end is undefined in C; the model
    reads a default and leaves the array as it is. *)
Definition array_get {A} (d : A) (a : option (list A)) (i : Z) : A :=
  match a with
  | Some l => default d (l !! Z.to_nat i)
  | None => d
  end.

Definition array_set {A} (a : option (list A)) (i : Z) (v : A) : option (list A) :=
  match a with
  | Some l => Some (<[Z.to_nat i := v]> l)
  | None => None
  end.

(** ** The log of library calls *)

Inductive heap_object : Type :=
| Buffer_ages | Swapchain_image_views | Swapchain_image_layouts | Swapchain_images
| Shader_stage_create_infos | Vulkan_data | Vulkan_image | Backend_image.

(** How device memory is obtained in [vkAllocateMemory]. *)
Inductive memory_import : Type :=
| No_import
| Import_fd (fd : Z)
| Import_host_pointer (address : Z).

(** The data of one [vkCmdPushConstants]. *)
Inductive push_data : Type :=
| Push_uint32 (l : list Z)
| Push_int32 (l : list Z)
| Push_float_of_double (l : list Z).

Inductive call : Type :=
(* instance, surface, device *)
| vkCreateInstance (api_version : Z) (extensions : list string) (r : option handle)
| xcb_connect (connection : handle)
| vkCreateXcbSurfaceKHR (instance connection window : Z) (r : option handle)
| vkCreateDevice (physical_device : handle) (queue_family : Z)
    (extensions : list string) (r : option handle)
| vkCreateFence (device : handle) (flags : Z) (r : option handle)
| vkCreateSemaphore (device : handle) (r : option handle)
(* swap chain *)
| vkCreateSwapchainKHR (device surface : handle) (min_image_count : Z)
    (format : VkFormat) (present_mode : VkPresentModeKHR) (r : option handle)
| vkCreateImageView (device image : handle) (format : VkFormat)
    (components : VkComponentMapping) (r : option handle)
| vkAcquireNextImageKHR (device swapchain semaphore fence : handle) (r : option Z)
| vkWaitForFences (device fence : handle) (ok : bool)
| vkResetFences (device fence : handle) (ok : bool)
(* descriptors and pipelines *)
| vkCreateDescriptorPool (device : handle) (flags max_sets descriptor_count : Z)
    (r : option handle)
| vkCreateDescriptorSetLayout (device : handle) (r : option handle)
| vkCreateSampler (device : handle) (r : option handle)
| vkCreateShaderModule (device : handle) (shader_name : string) (r : option handle)
| vkDestroyShaderModule (device module : handle)
| vkCreatePipelineLayout (device : handle) (set_layouts : list handle)
    (push_constant_ranges : list (VkShaderStage * Z * Z)) (r : option handle)
| vkCreateGraphicsPipelines (device layout : handle) (stages : list handle)
    (r : option handle)
| vkCreateCommandPool (device : handle) (queue_family : Z) (r : option handle)
| vkAllocateCommandBuffers (device pool : handle) (r : option handle)
(* teardown *)
| vkDeviceWaitIdle (device : handle) (ok : bool)
| vkFreeCommandBuffers (device pool command_buffer : handle)
| vkDestroyCommandPool (device pool : handle)
| vkDestroyPipeline (device pipeline : handle)
| vkDestroyPipelineLayout (device layout : handle)
| vkDestroySampler (device sampler : handle)
| vkDestroyDescriptorSetLayout (device layout : handle)
| vkDestroyDescriptorPool (device pool : handle)
| vkDestroyImageView (device view : handle)
| vkDestroySwapchainKHR (device swapchain : handle)
| vkDestroySemaphore (device semaphore : handle)
| vkDestroyFence (device fence : handle)
| vkDestroyDevice (device : handle)
| vkDestroySurfaceKHR (instance surface : handle)
| xcb_disconnect (connection : handle)
| vkDestroyInstance (instance : handle)
| free (object : heap_object)
(* command recording and submission *)
| vkResetCommandBuffer (command_buffer : handle) (ok : bool)
| vkBeginCommandBuffer (command_buffer : handle) (ok : bool)
| vkEndCommandBuffer (command_buffer : handle) (ok : bool)
| vkCmdPipelineBarrier (command_buffer image : handle) (old_layout new_layout : VkImageLayout)
| vkCmdCopyBufferToImage (command_buffer buffer image : handle) (x y width height : Z)
| vkCmdBeginRendering (command_buffer view : handle) (render_area : VkRect2D)
| vkCmdEndRendering (command_buffer : handle)
| vkCmdBindPipeline (command_buffer pipeline : handle)
| vkCmdSetScissor (command_buffer : handle) (scissor : VkRect2D)
| vkCmdBindDescriptorSets (command_buffer layout set : handle)
| vkCmdPushConstants (command_buffer layout : handle) (stage : VkShaderStage)
    (offset size : Z) (data : push_data)
| vkCmdDraw (command_buffer : handle)
    (vertex_count instance_count first_vertex first_instance : Z)
| vkQueueSubmit (queue command_buffer : handle) (wait_semaphores signal_semaphores : list handle)
    (fence : handle) (ok : bool)
| vkQueuePresentKHR (queue swapchain : handle) (image_index : Z) (ok : bool)
| xcb_shm_get_image (pixmap x y width height segment : Z) (ok : bool)
(* image binding *)
| xcb_dri3_buffers_from_pixmap (pixmap : Z) (fds : option (list Z))
| vkCreateImage (device : handle) (width height : Z) (plane_count : option Z)
    (r : option handle)
| vkAllocateMemory (device : handle) (size type_index : Z) (import : memory_import)
    (r : option handle)
| vkBindImageMemory (device image memory : handle) (ok : bool)
| shmget (size : Z) (r : Z)
| shmat (id : Z) (r : Z)
| xcb_shm_attach (segment id : Z) (ok : bool)
| vkCreateBuffer (device : handle) (size : Z) (r : option handle)
| vkBindBufferMemory (device buffer memory : handle) (ok : bool)
| vkAllocateDescriptorSets (device pool layout : handle) (r : option handle)
| vkUpdateDescriptorSets (device set sampler view : handle)
| vkFreeDescriptorSets (device pool set : handle)
| vkDestroyImage (device image : handle)
| vkFreeMemory (device memory : handle)
| vkDestroyBuffer (device buffer : handle)
| xcb_shm_detach (segment : Z)
| shmdt (address : Z)
| shmctl_IPC_RMID (id : Z)
| xcb_free_pixmap (pixmap : Z).

(** ** The monad of the backend's functions

    A computation reads the log of the calls made so far (most recent call
    first), extends it, and either returns, or aborts the process (a failed
    [assert]), or runs into behaviour that C or Vulkan leave undefined (a
    read of freed memory, a call outside of what the library is defined
    for); of a run that is undefined nothing is known from there on. *)

Inductive outcome (A : Type) : Type :=
| Done (a : A)
| Aborted
| Undefined.
Arguments Done {A} a.
Arguments Aborted {A}.
Arguments Undefined {A}.

Definition M (A : Type) : Type := list call -> outcome A * list call.

Definition ret {A} (a : A) : M A := fun h => (Done a, h).

Definition bind {A B} (m : M A) (k : A -> M B) : M B :=
  fun h =>
    match m h with
    | (Done a, h') => k a h'
    | (Aborted, h') => (Aborted, h')
    | (Undefined, h') => (Undefined, h')
    end.

Declare Scope vk_scope.
Delimit Scope vk_scope with vk.
Notation "x <- m ;; k" := (bind m (fun x => k))
  (at level 90, m at next level, right associativity) : vk_scope.
Notation "m ;;; k" := (bind m (fun _ => k))
  (at level 90, right associativity) : vk_scope.
Local Open Scope vk_scope.

(** Make a call whose answer nobody looks at. *)
Definition emit (c : call) : M unit := fun h => (Done tt, c :: h).

(** Make a call, log it with its answer and hand the answer on. *)
Definition ask {R} (c : R -> call) (answer : R) : M R :=
  fun h => (Done answer, c answer :: h).

(** The run has left what C and Vulkan define. *)
Definition undefined {A} : M A := fun h => (Undefined, h).

(** [assert(b)]: nothing when assertions are compiled out ([NDEBUG]). *)
Definition assert_ (NDEBUG : bool) (b : bool) : M unit :=
  fun h => if NDEBUG || b then (Done tt, h) else (Aborted, h).

Definition when (b : bool) (m : M unit) : M unit := if b then m else ret tt.

(** [for (x in l) body(x)] *)
Fixpoint for_each {A} (l : list A) (body : A -> M unit) : M unit :=
  match l with
  | [] => ret tt
  | x :: l' => body x ;;; for_each l' body
  end.

(** The calls of a computation that starts with an empty log, oldest first. *)
Definition calls {A} (m : M A) : list call := rev (snd (m [])).
Definition result {A} (m : M A) : outcome A := fst (m []).

(** A library's answer to a call that creates an object. *)
Definition created (answer : option positive) : option handle := new_handle <$> answer.

(** ** Frame sequencer: prepare, compose, fill, present *)

Record prepare_answers : Type := {
  prepare_wait_for_fences : bool;
  prepare_reset_fences : bool;
  prepare_reset_command_buffer : bool;
  prepare_begin_command_buffer : bool
}.

(** [vk_prepare]: a failing call is only reported, the function goes on. *)
Definition vk_prepare (e : prepare_answers) (vd : vulkan_data) : M vulkan_data :=
  let index := vd_swapchain_image_index vd in
  _ <- ask (vkWaitForFences (vd_device vd) (vd_queue_submit_fence vd))
         (prepare_wait_for_fences e) ;;
  _ <- ask (vkResetFences (vd_device vd) (vd_queue_submit_fence vd))
         (prepare_reset_fences e) ;;
  _ <- ask (vkResetCommandBuffer (vd_command_buffer vd)) (prepare_reset_command_buffer e) ;;
  _ <- ask (vkBeginCommandBuffer (vd_command_buffer vd)) (prepare_begin_command_buffer e) ;;
  emit (vkCmdPipelineBarrier (vd_command_buffer vd)
          (array_get VK_NULL_HANDLE (vd_swapchain_images vd) index)
          (array_get VK_IMAGE_LAYOUT_UNDEFINED (vd_swapchain_image_layouts vd) index)
          VK_IMAGE_LAYOUT_COLOR_ATTACHMENT_OPTIMAL) ;;;
  ret (set_vd_swapchain_image_layouts
         (array_set (vd_swapchain_image_layouts vd) index
            VK_IMAGE_LAYOUT_COLOR_ATTACHMENT_OPTIMAL) vd).

(** The render area of a draw pass: the bounding box of the region. *)
Definition render_area_of (extents : pixman_box32_t) : VkRect2D :=
  {| offset_x := box_x1 extents;
     offset_y := box_y1 extents;
     extent_width := to_uint32 (int32_sub (box_x2 extents) (box_x1 extents));
     extent_height := to_uint32 (int32_sub (box_y2 extents) (box_y1 extents)) |}.

Definition box_push_data (r : pixman_box32_t) : push_data :=
  Push_int32 [box_x1 r; box_y1 r; box_x2 r; box_y2 r].

(** The body of the loop over the rectangles, the same in compose and fill:
    push the rectangle, draw four vertices. *)
Definition draw_rect (vd : vulkan_data) (layout : handle) (r : pixman_box32_t) : M unit :=
  emit (vkCmdPushConstants (vd_command_buffer vd) layout VK_SHADER_STAGE_VERTEX_BIT 8 16
          (box_push_data r)) ;;;
  emit (vkCmdDraw (vd_command_buffer vd) 4 1 0 0).

(** The shared-memory strategy reads the pixmap back into the segment and
    copies the staging buffer into the image before it is sampled. *)
Definition compose_refresh_shm (shm_get_image_reply : bool) (vd : vulkan_data)
    (vi : vulkan_image) (image_coords : coord_t) (extents : pixman_box32_t) : M unit :=
  let x := to_int16 (int32_sub (box_x1 extents) (coord_x image_coords)) in
  let y := to_int16 (int32_sub (box_y1 extents) (coord_y image_coords)) in
  let width := to_uint16 (int32_sub (box_x2 extents) (box_x1 extents)) in
  let height := to_uint16 (int32_sub (box_y2 extents) (box_y1 extents)) in
  _ <- ask (xcb_shm_get_image (vi_pixmap vi) x y width height (vi_shm_segment vi))
         shm_get_image_reply ;;
  emit (vkCmdPipelineBarrier (vd_command_buffer vd) (vi_image vi)
          VK_IMAGE_LAYOUT_SHADER_READ_ONLY_OPTIMAL VK_IMAGE_LAYOUT_TRANSFER_DST_OPTIMAL) ;;;
  emit (vkCmdCopyBufferToImage (vd_command_buffer vd) (vi_staging_buffer vi) (vi_image vi)
          x y width height) ;;;
  emit (vkCmdPipelineBarrier (vd_command_buffer vd) (vi_image vi)
          VK_IMAGE_LAYOUT_TRANSFER_DST_OPTIMAL VK_IMAGE_LAYOUT_SHADER_READ_ONLY_OPTIMAL).

(** [vk_compose]; the mask, its coordinates and the visible region are not
    used by the function.  [shm_get_image_reply] tells whether the readback
    request was answered. *)
Definition vk_compose (NDEBUG : bool) (shm_get_image_reply : bool) (vd : vulkan_data)
    (image : backend_image) (image_coords : coord_t) (reg_paint : region_t)
    : M vulkan_data :=
  let '(n_rects, rects) := pixman_region32_rectangles reg_paint in
  if n_rects <? 1 then
    assert_ NDEBUG (0 <=? n_rects) ;;;
    ret vd
  else
    let vi := bi_inner image in
    let extents := pixman_region32_extents reg_paint in
    when (match vd_bind_pixmap_strategy vd with
          | BIND_PIXMAP_STRATEGY_SHM => true
          | BIND_PIXMAP_STRATEGY_DRI3 => false
          end)
      (compose_refresh_shm shm_get_image_reply vd vi image_coords extents) ;;;
    let render_area := render_area_of extents in
    emit (vkCmdBeginRendering (vd_command_buffer vd)
            (array_get VK_NULL_HANDLE (vd_swapchain_image_views vd)
               (vd_swapchain_image_index vd))
            render_area) ;;;
    emit (vkCmdBindPipeline (vd_command_buffer vd) (vd_compose_pipeline vd)) ;;;
    emit (vkCmdSetScissor (vd_command_buffer vd) render_area) ;;;
    emit (vkCmdBindDescriptorSets (vd_command_buffer vd) (vd_compose_pipeline_layout vd)
            (vi_descriptor_set vi)) ;;;
    emit (vkCmdPushConstants (vd_command_buffer vd) (vd_compose_pipeline_layout vd)
            VK_SHADER_STAGE_VERTEX_BIT 0 8 (Push_uint32 [vd_width vd; vd_height vd])) ;;;
    emit (vkCmdPushConstants (vd_command_buffer vd) (vd_compose_pipeline_layout vd)
            VK_SHADER_STAGE_VERTEX_BIT 24 8
            (Push_int32 [coord_x image_coords; coord_y image_coords])) ;;;
    for_each (take (Z.to_nat (to_uint32 n_rects)) rects)
      (draw_rect vd (vd_compose_pipeline_layout vd)) ;;;
    emit (vkCmdEndRendering (vd_command_buffer vd)) ;;;
    ret vd.

(** [vk_fill] *)
Definition vk_fill (NDEBUG : bool) (vd : vulkan_data) (c : color) (region : region_t)
    : M vulkan_data :=
  let '(n_rects, rects) := pixman_region32_rectangles region in
  if n_rects <? 1 then
    assert_ NDEBUG (0 <=? n_rects) ;;;
    ret vd
  else
    let extents := pixman_region32_extents region in
    let render_area := render_area_of extents in
    emit (vkCmdBeginRendering (vd_command_buffer vd)
            (array_get VK_NULL_HANDLE (vd_swapchain_image_views vd)
               (vd_swapchain_image_index vd))
            render_area) ;;;
    emit (vkCmdBindPipeline (vd_command_buffer vd) (vd_fill_pipeline vd)) ;;;
    emit (vkCmdSetScissor (vd_command_buffer vd) render_area) ;;;
    emit (vkCmdPushConstants (vd_command_buffer vd) (vd_fill_pipeline_layout vd)
            VK_SHADER_STAGE_VERTEX_BIT 0 8 (Push_uint32 [vd_width vd; vd_height vd])) ;;;
    emit (vkCmdPushConstants (vd_command_buffer vd) (vd_fill_pipeline_layout vd)
            VK_SHADER_STAGE_FRAGMENT_BIT 32 16
            (Push_float_of_double [color_red c; color_green c; color_blue c; color_alpha c])) ;;;
    for_each (take (Z.to_nat (to_uint32 n_rects)) rects)
      (draw_rect vd (vd_fill_pipeline_layout vd)) ;;;
    emit (vkCmdEndRendering (vd_command_buffer vd)) ;;;
    ret vd.

Record present_answers : Type := {
  present_end_command_buffer : bool;
  present_queue_submit : bool;
  present_queue_present : bool;
  present_acquire_next_image : option Z;
  present_wait_for_fences : bool;
  present_reset_fences : bool
}.

(** One round of the loop over the buffer ages in [vk_present]. *)
Definition age_step (index : Z) (ages : option (list Z)) (i : nat) : option (list Z) :=
  if negb (Z.of_nat i =? index) && negb (array_get 0 ages (Z.of_nat i) =? -1)
  then array_set ages (Z.of_nat i) (int32_add (array_get 0 ages (Z.of_nat i)) 1)
  else ages.

(** The buffer ages after presenting image [index]:
    [buffer_ages[index] = 1], then the loop over all [count] images. *)
Definition update_buffer_ages (index count : Z) (ages : option (list Z)) : option (list Z) :=
  fold_left (age_step index) (seq 0 (Z.to_nat count)) (array_set ages index 1).

(** [vk_present]: a failing call is only reported; when no next image could
    be acquired the index stays as it was. *)
Definition vk_present (e : present_answers) (vd : vulkan_data) : M vulkan_data :=
  let index := vd_swapchain_image_index vd in
  emit (vkCmdPipelineBarrier (vd_command_buffer vd)
          (array_get VK_NULL_HANDLE (vd_swapchain_images vd) index)
          VK_IMAGE_LAYOUT_COLOR_ATTACHMENT_OPTIMAL VK_IMAGE_LAYOUT_PRESENT_SRC_KHR) ;;;
  let vd := set_vd_swapchain_image_layouts
              (array_set (vd_swapchain_image_layouts vd) index
                 VK_IMAGE_LAYOUT_PRESENT_SRC_KHR) vd in
  _ <- ask (vkEndCommandBuffer (vd_command_buffer vd)) (present_end_command_buffer e) ;;
  _ <- ask (vkQueueSubmit (vd_queue vd) (vd_command_buffer vd)
              [vd_semaphore vd] [vd_semaphore vd] (vd_queue_submit_fence vd))
         (present_queue_submit e) ;;
  _ <- ask (vkQueuePresentKHR (vd_queue vd) (vd_swapchain vd) index)
         (present_queue_present e) ;;
  let vd := set_vd_buffer_ages
              (update_buffer_ages index (vd_swapchain_image_count vd) (vd_buffer_ages vd))
              vd in
  next <- ask (vkAcquireNextImageKHR (vd_device vd) (vd_swapchain vd) (vd_semaphore vd)
                 (vd_acquire_next_image_fence vd))
            (present_acquire_next_image e) ;;
  let vd := match next with
            | Some i => set_vd_swapchain_image_index i vd
            | None => vd
            end in
  _ <- ask (vkWaitForFences (vd_device vd) (vd_acquire_next_image_fence vd))
         (present_wait_for_fences e) ;;
  _ <- ask (vkResetFences (vd_device vd) (vd_acquire_next_image_fence vd))
         (present_reset_fences e) ;;
  ret vd.

(** [vk_buffer_age] *)
Definition vk_buffer_age (vd : vulkan_data) : Z :=
  array_get 0 (vd_buffer_ages vd) (vd_swapchain_image_index vd).

(** ** Initialisation: instance, surface, device *)

(** The part of [session_t] the backend reads. *)
Record session_t : Type := {
  dri3_exists : bool;
  shm_exists : bool;
  o_vsync : bool
}.

(** [vk_has_extension]: a linear search with [strcmp]. *)
Fixpoint vk_has_extension (properties : list string) (extension : string) : bool :=
  match properties with
  | [] => false
  | p :: rest => if String.eqb p extension then true else vk_has_extension rest extension
  end.

Definition instance_extension_names : list string :=
  [VK_KHR_SURFACE_EXTENSION_NAME; VK_KHR_XCB_SURFACE_EXTENSION_NAME].

Record instance_answers : Type := {
  ia_enumerate_count : bool;
  ia_enumerate : option (list string);
  ia_create_instance : option positive
}.

(** [vk_create_instance] *)
Definition vk_create_instance (e : instance_answers) (vd : vulkan_data)
    : M (bool * vulkan_data) :=
  if negb (ia_enumerate_count e) then ret (false, vd)
  else
    match ia_enumerate e with
    | None => ret (false, vd)
    | Some properties =>
      if negb (forallb (vk_has_extension properties) instance_extension_names)
      then ret (false, vd)
      else
        r <- ask (vkCreateInstance VK_API_VERSION_1_3 instance_extension_names)
               (created (ia_create_instance e)) ;;
        match r with
        | None => ret (false, vd)
        | Some h => ret (true, set_vd_instance h vd)
        end
    end.

Record surface_answers : Type := {
  sfa_connection : positive;
  sfa_connection_has_error : bool;
  sfa_create_surface : option positive
}.

(** [vk_create_surface] *)
Definition vk_create_surface (e : surface_answers) (vd : vulkan_data) (window : Z)
    : M (bool * vulkan_data) :=
  c <- ask xcb_connect (new_handle (sfa_connection e)) ;;
  let vd := set_vd_surface_connection c vd in
  if sfa_connection_has_error e then ret (false, vd)
  else
    r <- ask (vkCreateXcbSurfaceKHR (vd_instance vd) (vd_surface_connection vd) window)
           (created (sfa_create_surface e)) ;;
    match r with
    | None => ret (false, vd)
    | Some h => ret (true, set_vd_surface h vd)
    end.

(** What the driver reports about one queue family and one physical device.
    [None] stands for a query that failed. *)
Record queue_family_t : Type := {
  qf_queue_flags : Z;
  qf_supports_xcb_presentation : bool;
  qf_supports_surface : option bool
}.

Record physical_device_t : Type := {
  pd_handle : positive;
  pd_api_version : Z;
  pd_enumerate_count : bool;
  pd_extensions : option (list string);
  pd_min_imported_host_pointer_alignment : Z;
  pd_queue_families : list queue_family_t
}.

(** [vk_select_physical_device]: the first device, in enumeration order, that
    reports Vulkan 1.3 or later, whose extensions can be enumerated and
    include all of [enabled_extension_names]. *)
Fixpoint vk_select_physical_device (vd : vulkan_data)
    (physical_devices : list physical_device_t) (enabled_extension_names : list string)
    : vulkan_data :=
  match physical_devices with
  | [] => vd
  | d :: rest =>
    if pd_api_version d <? VK_API_VERSION_1_3
    then vk_select_physical_device vd rest enabled_extension_names
    else if negb (pd_enumerate_count d)
    then vk_select_physical_device vd rest enabled_extension_names
    else
      match pd_extensions d with
      | None => vk_select_physical_device vd rest enabled_extension_names
      | Some properties =>
        if negb (forallb (vk_has_extension properties) enabled_extension_names)
        then vk_select_physical_device vd rest enabled_extension_names
        else
          let vd := set_vd_physical_device (new_handle (pd_handle d)) vd in
          match vd_bind_pixmap_strategy vd with
          | BIND_PIXMAP_STRATEGY_SHM =>
            set_vd_min_imported_host_pointer_alignment
              (pd_min_imported_host_pointer_alignment d) vd
          | BIND_PIXMAP_STRATEGY_DRI3 => vd
          end
      end
  end.

Definition common_extension_names : list string := [VK_KHR_SWAPCHAIN_EXTENSION_NAME].

Definition dri3_extension_names : list string :=
  [VK_EXT_EXTERNAL_MEMORY_DMA_BUF_EXTENSION_NAME;
   VK_EXT_IMAGE_DRM_FORMAT_MODIFIER_EXTENSION_NAME;
   VK_KHR_EXTERNAL_MEMORY_FD_EXTENSION_NAME].

Definition shm_extension_names : list string :=
  [VK_EXT_EXTERNAL_MEMORY_HOST_EXTENSION_NAME].

(** The first half of [vk_create_device]: the choice of the strategy and of
    the physical device.  Returns the list of extensions to enable too. *)
Definition select_strategy (session : session_t) (physical_devices : list physical_device_t)
    (vd : vulkan_data) : vulkan_data * list string :=
  let enabled_extension_names : list string := [] in
  let '(vd, enabled_extension_names) :=
    if dri3_exists session then
      let vd := set_vd_bind_pixmap_strategy BIND_PIXMAP_STRATEGY_DRI3 vd in
      let names := common_extension_names ++ dri3_extension_names in
      (vk_select_physical_device vd physical_devices names, names)
    else (vd, enabled_extension_names) in
  if is_null (vd_physical_device vd) && shm_exists session then
    let vd := set_vd_bind_pixmap_strategy BIND_PIXMAP_STRATEGY_SHM vd in
    let names := common_extension_names ++ shm_extension_names in
    (vk_select_physical_device vd physical_devices names, names)
  else (vd, enabled_extension_names).

(** The loop over the queue families of the chosen device.  [None]: a query
    failed; [Some i]: the index found, [UINT32_MAX] when there is none. *)
Fixpoint find_queue_family (families : list queue_family_t) (i : Z) : option Z :=
  match families with
  | [] => Some UINT32_MAX
  | q :: rest =>
    let has_graphics_bit_set := negb (Z.land (qf_queue_flags q) VK_QUEUE_GRAPHICS_BIT =? 0) in
    match qf_supports_surface q with
    | None => None
    | Some supports_surface =>
      if has_graphics_bit_set && qf_supports_xcb_presentation q && supports_surface
      then Some i
      else find_queue_family rest (i + 1)
    end
  end.

(** The driver's record of the device behind a handle. *)
Definition queue_families_of (physical_devices : list physical_device_t) (h : handle)
    : list queue_family_t :=
  match List.find (fun d => new_handle (pd_handle d) =? h) physical_devices with
  | Some d => pd_queue_families d
  | None => []
  end.

Record device_answers : Type := {
  da_enumerate_count : bool;
  da_physical_devices : option (list physical_device_t);
  da_create_device : option positive;
  da_get_memory_fd_properties_proc : bool;
  da_get_memory_host_pointer_properties_proc : bool;
  da_queue : positive
}.

(** [vk_create_device] *)
Definition vk_create_device (e : device_answers) (session : session_t) (vd : vulkan_data)
    : M (bool * vulkan_data) :=
  if negb (da_enumerate_count e) then ret (false, vd)
  else
    match da_physical_devices e with
    | None => ret (false, vd)
    | Some physical_devices =>
      let '(vd, enabled_extension_names) := select_strategy session physical_devices vd in
      if is_null (vd_physical_device vd) then ret (false, vd)
      else
        let vd := set_vd_queue_family_index UINT32_MAX vd in
        match find_queue_family
                (queue_families_of physical_devices (vd_physical_device vd)) 0 with
        | None => ret (false, vd)
        | Some index =>
          let vd := set_vd_queue_family_index index vd in
          if vd_queue_family_index vd =? UINT32_MAX then ret (false, vd)
          else
            r <- ask (vkCreateDevice (vd_physical_device vd) (vd_queue_family_index vd)
                        enabled_extension_names)
                   (created (da_create_device e)) ;;
            match r with
            | None => ret (false, vd)
            | Some h =>
              let vd := set_vd_device h vd in
              let proc_found :=
                match vd_bind_pixmap_strategy vd with
                | BIND_PIXMAP_STRATEGY_DRI3 => da_get_memory_fd_properties_proc e
                | BIND_PIXMAP_STRATEGY_SHM => da_get_memory_host_pointer_properties_proc e
                end in
              if negb proc_found then ret (false, vd)
              else ret (true, set_vd_queue (new_handle (da_queue e)) vd)
            end
        end
    end.

(** ** Fences and semaphore *)

Record sync_answers : Type := {
  sya_acquire_next_image_fence : option positive;
  sya_queue_submit_fence : option positive;
  sya_semaphore : option positive
}.

(** [vk_create_fences_and_semaphore] *)
Definition vk_create_fences_and_semaphore (e : sync_answers) (vd : vulkan_data)
    : M (bool * vulkan_data) :=
  r <- ask (vkCreateFence (vd_device vd) 0) (created (sya_acquire_next_image_fence e)) ;;
  match r with
  | None => ret (false, vd)
  | Some h =>
    let vd := set_vd_acquire_next_image_fence h vd in
    r <- ask (vkCreateFence (vd_device vd) VK_FENCE_CREATE_SIGNALED_BIT)
           (created (sya_queue_submit_fence e)) ;;
    match r with
    | None => ret (false, vd)
    | Some h =>
      let vd := set_vd_queue_submit_fence h vd in
      r <- ask (vkCreateSemaphore (vd_device vd)) (created (sya_semaphore e)) ;;
      match r with
      | None => ret (false, vd)
      | Some h => ret (true, set_vd_semaphore h vd)
      end
    end
  end.

(** ** Swap chain *)

(** [vk_destroy_swapchain] *)
Definition vk_destroy_swapchain (vd : vulkan_data) : M unit :=
  when (bool_decide (vd_buffer_ages vd <> None)) (emit (free Buffer_ages)) ;;;
  match vd_swapchain_image_views vd with
  | Some views =>
    for_each (take (Z.to_nat (vd_swapchain_image_count vd)) views)
      (fun view => when (negb (is_null view)) (emit (vkDestroyImageView (vd_device vd) view))) ;;;
    emit (free Swapchain_image_views)
  | None => ret tt
  end ;;;
  when (bool_decide (vd_swapchain_image_layouts vd <> None))
    (emit (free Swapchain_image_layouts)) ;;;
  when (bool_decide (vd_swapchain_images vd <> None)) (emit (free Swapchain_images)) ;;;
  when (negb (is_null (vd_swapchain vd)))
    (emit (vkDestroySwapchainKHR (vd_device vd) (vd_swapchain vd))).

Record surface_capabilities_t : Type := {
  current_extent_width : Z;
  current_extent_height : Z;
  min_image_count : Z
}.

Record swapchain_answers : Type := {
  swa_surface_capabilities : option surface_capabilities_t;
  swa_surface_format_count : bool;
  swa_surface_formats : list VkFormat;
  (** what the local [surface_format], never initialised, holds when no
      entry of the list matches *)
  swa_indeterminate_format : VkFormat;
  swa_create_swapchain : option positive;
  swa_swapchain_images : option (list positive);
  swa_create_image_views : list (option positive);
  swa_acquire_next_image : option Z;
  swa_wait_for_fences : bool;
  swa_reset_fences : bool
}.

Definition is_B8G8R8A8_UNORM (f : VkFormat) : bool :=
  match f with VK_FORMAT_B8G8R8A8_UNORM => true | _ => false end.

Definition is_UNDEFINED (f : VkFormat) : bool :=
  match f with VK_FORMAT_UNDEFINED => true | _ => false end.

Definition identity_components : VkComponentMapping :=
  {| comp_r := VK_COMPONENT_SWIZZLE_R; comp_g := VK_COMPONENT_SWIZZLE_G;
     comp_b := VK_COMPONENT_SWIZZLE_B; comp_a := VK_COMPONENT_SWIZZLE_A |}.

(** The loop of [vk_create_swapchain] over the images, from index [i] on:
    reset the layout, create the view, set the buffer age to -1.  Stops with
    [false] at the first view that cannot be created. *)
Fixpoint create_image_views (answers : list (option positive)) (n : nat) (i : Z)
    (vd : vulkan_data) : M (bool * vulkan_data) :=
  match n with
  | O => ret (true, vd)
  | S n' =>
    let vd := set_vd_swapchain_image_layouts
                (array_set (vd_swapchain_image_layouts vd) i VK_IMAGE_LAYOUT_UNDEFINED) vd in
    r <- ask (vkCreateImageView (vd_device vd)
                (array_get VK_NULL_HANDLE (vd_swapchain_images vd) i)
                VK_FORMAT_B8G8R8A8_UNORM identity_components)
           (created (mjoin (answers !! Z.to_nat i))) ;;
    match r with
    | None => ret (false, vd)
    | Some view =>
      let vd := set_vd_swapchain_image_views
                  (array_set (vd_swapchain_image_views vd) i view) vd in
      let vd := set_vd_buffer_ages (array_set (vd_buffer_ages vd) i (-1)) vd in
      create_image_views answers n' (i + 1) vd
    end
  end.

(** [vk_create_swapchain] *)
Definition vk_create_swapchain (e : swapchain_answers) (vd : vulkan_data)
    (is_vsync_enabled : bool) : M (bool * vulkan_data) :=
  match swa_surface_capabilities e with
  | None => ret (false, vd)
  | Some surface_capabilities =>
    let vd := set_vd_width (current_extent_width surface_capabilities) vd in
    let vd := set_vd_height (current_extent_height surface_capabilities) vd in
    if negb (swa_surface_format_count e) then ret (false, vd)
    else
      let surface_format :=
        default (swa_indeterminate_format e)
          (List.find is_B8G8R8A8_UNORM (swa_surface_formats e)) in
      if is_UNDEFINED surface_format then ret (false, vd)
      else
        r <- ask (vkCreateSwapchainKHR (vd_device vd) (vd_surface vd)
                    (min_image_count surface_capabilities) surface_format
                    (if is_vsync_enabled then VK_PRESENT_MODE_FIFO_KHR
                     else VK_PRESENT_MODE_IMMEDIATE_KHR))
               (created (swa_create_swapchain e)) ;;
        match r with
        | None => ret (false, vd)
        | Some h =>
          let vd := set_vd_swapchain h vd in
          match swa_swapchain_images e with
          | None => ret (false, vd)
          | Some images =>
            let n := length images in
            let vd := set_vd_swapchain_image_count (Z.of_nat n) vd in
            let vd := set_vd_swapchain_images (Some (new_handle <$> images)) vd in
            let vd := set_vd_swapchain_image_layouts
                        (Some (replicate n VK_IMAGE_LAYOUT_UNDEFINED)) vd in
            let vd := set_vd_swapchain_image_views (Some (replicate n VK_NULL_HANDLE)) vd in
            let vd := set_vd_buffer_ages (Some (replicate n 0)) vd in
            p <- create_image_views (swa_create_image_views e) n 0 vd ;;
            let '(ok, vd) := p in
            if negb ok then ret (false, vd)
            else
              next <- ask (vkAcquireNextImageKHR (vd_device vd) (vd_swapchain vd)
                             (vd_semaphore vd) (vd_acquire_next_image_fence vd))
                        (swa_acquire_next_image e) ;;
              match next with
              | None => ret (false, vd)
              | Some i =>
                let vd := set_vd_swapchain_image_index i vd in
                w <- ask (vkWaitForFences (vd_device vd) (vd_acquire_next_image_fence vd))
                       (swa_wait_for_fences e) ;;
                if negb w then ret (false, vd)
                else
                  r <- ask (vkResetFences (vd_device vd) (vd_acquire_next_image_fence vd))
                         (swa_reset_fences e) ;;
                  if negb r then ret (false, vd) else ret (true, vd)
              end
          end
        end
  end.

(** ** Descriptor pool, pipelines, command pool *)

Record descriptor_pool_answers : Type := {
  dpa_descriptor_pool : option positive;
  dpa_descriptor_set_layout : option positive;
  dpa_sampler : option positive
}.

(** [vk_create_descriptor_pool]: room for 32 sets of one combined image
    sampler each; single sets can be given back. *)
Definition vk_create_descriptor_pool (e : descriptor_pool_answers) (vd : vulkan_data)
    : M (bool * vulkan_data) :=
  r <- ask (vkCreateDescriptorPool (vd_device vd)
              VK_DESCRIPTOR_POOL_CREATE_FREE_DESCRIPTOR_SET_BIT 32 32)
         (created (dpa_descriptor_pool e)) ;;
  match r with
  | None => ret (false, vd)
  | Some h =>
    let vd := set_vd_descriptor_pool h vd in
    r <- ask (vkCreateDescriptorSetLayout (vd_device vd))
           (created (dpa_descriptor_set_layout e)) ;;
    match r with
    | None => ret (false, vd)
    | Some h =>
      let vd := set_vd_descriptor_set_layout h vd in
      r <- ask (vkCreateSampler (vd_device vd)) (created (dpa_sampler e)) ;;
      match r with
      | None => ret (false, vd)
      | Some h => ret (true, set_vd_sampler h vd)
      end
    end
  end.

(** The two-element array of shader stages; only the modules matter. *)
Definition shader_stages : Type := list handle.

(** What a pointer to such an array points to: the stages, or memory that
    has been given back with [free]. *)
Inductive stage_array : Type :=
| Stages (infos : shader_stages)
| Freed.

(** [vk_destroy_pipeline_shader_stage_create_infos]: destroys the modules
    of the array and frees it.  Called on an array that has been freed it
    reads freed memory and frees it again, which C leaves undefined. *)
Definition vk_destroy_pipeline_shader_stage_create_infos (vd : vulkan_data)
    (infos : stage_array) : M unit :=
  match infos with
  | Stages infos =>
    for_each (take 2 infos)
      (fun module => when (negb (is_null module))
                       (emit (vkDestroyShaderModule (vd_device vd) module))) ;;;
    emit (free Shader_stage_create_infos)
  | Freed => undefined
  end.

Record shader_answers : Type := {
  sha_compiler_initialize : bool;
  sha_compile_vertex : bool;
  sha_vertex_module : option positive;
  sha_compile_fragment : bool;
  sha_fragment_module : option positive
}.

(** [vk_create_pipeline_shader_stage_create_infos]: compile and wrap the
    vertex shader, then the fragment shader. *)
Definition vk_create_pipeline_shader_stage_create_infos (e : shader_answers)
    (vd : vulkan_data) (vertex_shader_name fragment_shader_name : string)
    (infos : shader_stages) : M (bool * shader_stages) :=
  if negb (sha_compiler_initialize e) then ret (false, infos)
  else if negb (sha_compile_vertex e) then ret (false, infos)
  else
    r <- ask (vkCreateShaderModule (vd_device vd) vertex_shader_name)
           (created (sha_vertex_module e)) ;;
    match r with
    | None => ret (false, infos)
    | Some vertex =>
      let infos := <[0%nat := vertex]> infos in
      if negb (sha_compile_fragment e) then ret (false, infos)
      else
        r <- ask (vkCreateShaderModule (vd_device vd) fragment_shader_name)
               (created (sha_fragment_module e)) ;;
        match r with
        | None => ret (false, infos)
        | Some fragment => ret (true, <[1%nat := fragment]> infos)
        end
    end.

Record pipeline_answers : Type := {
  pa_compose_shaders : shader_answers;
  pa_fill_shaders : shader_answers;
  pa_compose_pipeline_layout : option positive;
  pa_compose_pipeline : option positive;
  pa_fill_pipeline_layout : option positive;
  pa_fill_pipeline : option positive
}.

(** [vk_create_pipelines]; the label [err] destroys both arrays of stages.
    The array of compose stages is destroyed as soon as the compose pipeline
    exists; the jumps to [err] that come after it hand the pointer to the
    freed array on. *)
Definition vk_create_pipelines (e : pipeline_answers) (vd : vulkan_data)
    : M (bool * vulkan_data) :=
  let compose_infos : shader_stages := [VK_NULL_HANDLE; VK_NULL_HANDLE] in
  let fill_infos : shader_stages := [VK_NULL_HANDLE; VK_NULL_HANDLE] in
  let err (compose_infos fill_infos : stage_array) (vd : vulkan_data)
      : M (bool * vulkan_data) :=
    vk_destroy_pipeline_shader_stage_create_infos vd fill_infos ;;;
    vk_destroy_pipeline_shader_stage_create_infos vd compose_infos ;;;
    ret (false, vd) in
  p <-
    vk_create_pipeline_shader_stage_create_infos (pa_compose_shaders e) vd
      "compose_vertex_shader" "compose_fragment_shader" compose_infos ;;
  let '(ok, compose_infos) := p in
  if negb ok then err (Stages compose_infos) (Stages fill_infos) vd
  else
    p <-
      vk_create_pipeline_shader_stage_create_infos (pa_fill_shaders e) vd
        "fill_vertex_shader" "fill_fragment_shader" fill_infos ;;
    let '(ok, fill_infos) := p in
    if negb ok then err (Stages compose_infos) (Stages fill_infos) vd
    else
      r <- ask (vkCreatePipelineLayout (vd_device vd) [vd_descriptor_set_layout vd]
                  [(VK_SHADER_STAGE_VERTEX_BIT, 0, 32)])
             (created (pa_compose_pipeline_layout e)) ;;
      match r with
      | None => err (Stages compose_infos) (Stages fill_infos) vd
      | Some h =>
        let vd := set_vd_compose_pipeline_layout h vd in
        r <- ask (vkCreateGraphicsPipelines (vd_device vd) (vd_compose_pipeline_layout vd)
                    compose_infos)
               (created (pa_compose_pipeline e)) ;;
        match r with
        | None => err (Stages compose_infos) (Stages fill_infos) vd
        | Some h =>
          let vd := set_vd_compose_pipeline h vd in
          vk_destroy_pipeline_shader_stage_create_infos vd (Stages compose_infos) ;;;
          r <- ask (vkCreatePipelineLayout (vd_device vd) []
                      [(VK_SHADER_STAGE_VERTEX_BIT, 0, 24);
                       (VK_SHADER_STAGE_FRAGMENT_BIT, 32, 16)])
                 (created (pa_fill_pipeline_layout e)) ;;
          match r with
          | None => err Freed (Stages fill_infos) vd
          | Some h =>
            let vd := set_vd_fill_pipeline_layout h vd in
            r <- ask (vkCreateGraphicsPipelines (vd_device vd) (vd_fill_pipeline_layout vd)
                        fill_infos)
                   (created (pa_fill_pipeline e)) ;;
            match r with
            | None => err Freed (Stages fill_infos) vd
            | Some h =>
              let vd := set_vd_fill_pipeline h vd in
              vk_destroy_pipeline_shader_stage_create_infos vd (Stages fill_infos) ;;;
              ret (true, vd)
            end
          end
        end
      end.

Record command_pool_answers : Type := {
  cpa_command_pool : option positive;
  cpa_command_buffer : option positive
}.

(** [vk_create_command_pool] *)
Definition vk_create_command_pool (e : command_pool_answers) (vd : vulkan_data)
    : M (bool * vulkan_data) :=
  r <- ask (vkCreateCommandPool (vd_device vd) (vd_queue_family_index vd))
         (created (cpa_command_pool e)) ;;
  match r with
  | None => ret (false, vd)
  | Some h =>
    let vd := set_vd_command_pool h vd in
    r <- ask (vkAllocateCommandBuffers (vd_device vd) (vd_command_pool vd))
           (created (cpa_command_buffer e)) ;;
    match r with
    | None => ret (false, vd)
    | Some h => ret (true, set_vd_command_buffer h vd)
    end
  end.

(** ** Teardown and start-up of the backend *)

(** Destroy [h] with [destroy] unless it is the null handle. *)
Definition destroy_unless_null (h : handle) (destroy : call) : M unit :=
  when (negb (is_null h)) (emit destroy).

(** [vk_deinit] *)
Definition vk_deinit (wait_idle : bool) (vd : vulkan_data) : M unit :=
  when (negb (is_null (vd_device vd)))
    (_ <- ask (vkDeviceWaitIdle (vd_device vd)) wait_idle ;; ret tt) ;;;
  destroy_unless_null (vd_command_buffer vd)
    (vkFreeCommandBuffers (vd_device vd) (vd_command_pool vd) (vd_command_buffer vd)) ;;;
  destroy_unless_null (vd_command_pool vd)
    (vkDestroyCommandPool (vd_device vd) (vd_command_pool vd)) ;;;
  destroy_unless_null (vd_fill_pipeline vd)
    (vkDestroyPipeline (vd_device vd) (vd_fill_pipeline vd)) ;;;
  destroy_unless_null (vd_fill_pipeline_layout vd)
    (vkDestroyPipelineLayout (vd_device vd) (vd_fill_pipeline_layout vd)) ;;;
  destroy_unless_null (vd_compose_pipeline vd)
    (vkDestroyPipeline (vd_device vd) (vd_compose_pipeline vd)) ;;;
  destroy_unless_null (vd_compose_pipeline_layout vd)
    (vkDestroyPipelineLayout (vd_device vd) (vd_compose_pipeline_layout vd)) ;;;
  destroy_unless_null (vd_sampler vd) (vkDestroySampler (vd_device vd) (vd_sampler vd)) ;;;
  destroy_unless_null (vd_descriptor_set_layout vd)
    (vkDestroyDescriptorSetLayout (vd_device vd) (vd_descriptor_set_layout vd)) ;;;
  destroy_unless_null (vd_descriptor_pool vd)
    (vkDestroyDescriptorPool (vd_device vd) (vd_descriptor_pool vd)) ;;;
  vk_destroy_swapchain vd ;;;
  destroy_unless_null (vd_semaphore vd)
    (vkDestroySemaphore (vd_device vd) (vd_semaphore vd)) ;;;
  destroy_unless_null (vd_queue_submit_fence vd)
    (vkDestroyFence (vd_device vd) (vd_queue_submit_fence vd)) ;;;
  destroy_unless_null (vd_acquire_next_image_fence vd)
    (vkDestroyFence (vd_device vd) (vd_acquire_next_image_fence vd)) ;;;
  destroy_unless_null (vd_device vd) (vkDestroyDevice (vd_device vd)) ;;;
  destroy_unless_null (vd_surface vd) (vkDestroySurfaceKHR (vd_instance vd) (vd_surface vd)) ;;;
  emit (xcb_disconnect (vd_surface_connection vd)) ;;;
  destroy_unless_null (vd_instance vd) (vkDestroyInstance (vd_instance vd)) ;;;
  emit (free Vulkan_data).

Record init_answers : Type := {
  init_instance : instance_answers;
  init_surface : surface_answers;
  init_device : device_answers;
  init_sync : sync_answers;
  init_swapchain : swapchain_answers;
  init_descriptor_pool : descriptor_pool_answers;
  init_pipelines : pipeline_answers;
  init_command_pool : command_pool_answers;
  init_deinit_wait_idle : bool
}.

(** One step of [vk_init]: on failure jump to [err], which tears down what
    exists and returns no handle. *)
Definition init_step (e : init_answers) (step : M (bool * vulkan_data))
    (next : vulkan_data -> M (option vulkan_data)) : M (option vulkan_data) :=
  p <- step ;;
  let '(ok, vd) := p in
  if negb ok then vk_deinit (init_deinit_wait_idle e) vd ;;; ret None
  else next vd.

(** [vk_init] *)
Definition vk_init (e : init_answers) (session : session_t) (window : Z)
    : M (option vulkan_data) :=
  let vd := vulkan_data_zero in
  init_step e (vk_create_instance (init_instance e) vd) (fun vd =>
  init_step e (vk_create_surface (init_surface e) vd window) (fun vd =>
  init_step e (vk_create_device (init_device e) session vd) (fun vd =>
  init_step e (vk_create_fences_and_semaphore (init_sync e) vd) (fun vd =>
  init_step e (vk_create_swapchain (init_swapchain e) vd (o_vsync session)) (fun vd =>
  init_step e (vk_create_descriptor_pool (init_descriptor_pool e) vd) (fun vd =>
  init_step e (vk_create_pipelines (init_pipelines e) vd) (fun vd =>
  init_step e (vk_create_command_pool (init_command_pool e) vd) (fun vd =>
  ret (Some vd))))))))).

(** ** Image binder *)

(** The descriptor pools as the log shows them: the number of sets a pool
    was made for, and the sets allocated from it and not yet freed. *)
Fixpoint pool_max_sets (pool : handle) (h : list call) : option Z :=
  match h with
  | [] => None
  | vkCreateDescriptorPool _ _ max_sets _ (Some p) :: rest =>
    if p =? pool then Some max_sets else pool_max_sets pool rest
  | _ :: rest => pool_max_sets pool rest
  end.

Fixpoint pool_sets_in_use (pool : handle) (h : list call) : Z :=
  match h with
  | [] => 0
  | vkAllocateDescriptorSets _ p _ (Some _) :: rest =>
    (if p =? pool then 1 else 0) + pool_sets_in_use pool rest
  | vkFreeDescriptorSets _ p _ :: rest =>
    pool_sets_in_use pool rest - (if p =? pool then 1 else 0)
  | _ :: rest => pool_sets_in_use pool rest
  end.

(** As many sets of the pool are in use as it was made for. *)
Definition pool_exhausted (pool : handle) (h : list call) : bool :=
  match pool_max_sets pool h with
  | Some max_sets => max_sets <=? pool_sets_in_use pool h
  | None => false
  end.

(** The driver has granted no set of [pool] beyond the number the pool was
    made for: every allocation from it that succeeded found it not
    exhausted.  Vulkan lets a driver refuse an allocation from an exhausted
    pool with [VK_ERROR_OUT_OF_POOL_MEMORY] and does not oblige it to. *)
Fixpoint pool_respected (pool : handle) (h : list call) : bool :=
  match h with
  | [] => true
  | vkAllocateDescriptorSets _ p _ (Some _) :: rest =>
    negb ((p =? pool) && pool_exhausted pool rest) && pool_respected pool rest
  | _ :: rest => pool_respected pool rest
  end.

(** [vkAllocateDescriptorSets] for one set: the backend keeps no count of
    the sets it has taken and goes by what the driver answers. *)
Definition allocate_descriptor_set (device pool layout : handle) (answer : option positive)
    : M (option handle) :=
  ask (vkAllocateDescriptorSets device pool layout) (created answer).

Record memory_requirements_t : Type := {
  mr_size : Z;
  mr_memory_type_bits : Z
}.

(** The search for a memory type: the first index [i], counted from [i0],
    whose bit is set in [type_bits] and whose flags include [property];
    [UINT32_MAX] when there is none. *)
Fixpoint find_memory_type (type_bits property : Z) (memory_types : list Z) (i0 : Z) : Z :=
  match memory_types with
  | [] => UINT32_MAX
  | property_flags :: rest =>
    let is_supported := negb (Z.land type_bits (Z.shiftl 1 i0) =? 0) in
    let has_property_bit_set := negb (Z.land property_flags property =? 0) in
    if is_supported && has_property_bit_set then i0
    else find_memory_type type_bits property rest (i0 + 1)
  end.

(** The reply to [xcb_dri3_buffers_from_pixmap]; the three arrays have
    [nfd] entries each. *)
Record dri3_reply_t : Type := {
  r_width : Z;
  r_height : Z;
  r_nfd : Z;
  r_modifier : Z;
  r_offsets : list Z;
  r_strides : list Z;
  r_buffers : list Z
}.

Record dri3_answers : Type := {
  d3_buffers_from_pixmap : option dri3_reply_t;
  d3_create_image : option positive;
  d3_memory_requirements : memory_requirements_t;
  d3_memory_types : list Z;
  d3_memory_fd_properties : option Z;
  d3_allocate_memory : option positive;
  d3_bind_image_memory : bool
}.

(** The file descriptors a reply carries: the first [nfd] entries of its
    array of buffers. *)
Definition reply_fds (r : dri3_reply_t) : list Z :=
  (fun i => default 0 (r_buffers r !! i)) <$> seq 0 (Z.to_nat (r_nfd r)).

Arguments reply_fds : simpl never.

(** [vk_bind_pixmap_dri3].  The image is created with [nfd] as the number
    of its memory planes and a pointer to the one plane layout made of
    [offsets[0]] and [strides[0]]: for a reply with a count other than one,
    which is what the assertion is there for, [vkCreateImage] is called
    outside of what Vulkan defines (it is to be given as many plane layouts
    as the count says), and for a count of zero the entries read do not
    exist. *)
Definition vk_bind_pixmap_dri3 (NDEBUG : bool) (e : dri3_answers) (vd : vulkan_data)
    (vi : vulkan_image) : M (bool * vulkan_image) :=
  _ <- ask (xcb_dri3_buffers_from_pixmap (vi_pixmap vi))
             (reply_fds <$> d3_buffers_from_pixmap e) ;;
  match d3_buffers_from_pixmap e with
  | None => ret (false, vi)
  | Some r =>
    let vi := set_vi_width (r_width r) vi in
    let vi := set_vi_height (r_height r) vi in
    assert_ NDEBUG (r_nfd r =? 1) ;;;
    if negb (r_nfd r =? 1) then undefined
    else
      i <- ask (vkCreateImage (vd_device vd) (vi_width vi) (vi_height vi) (Some (r_nfd r)))
             (created (d3_create_image e)) ;;
      match i with
      | None => ret (false, vi)
      | Some image =>
        let vi := set_vi_image image vi in
        let fd := default 0 (r_buffers r !! 0%nat) in
        match d3_memory_fd_properties e with
        | None => ret (false, vi)
        | Some fd_memory_type_bits =>
          let memory_type_index :=
            find_memory_type
              (Z.land (mr_memory_type_bits (d3_memory_requirements e)) fd_memory_type_bits)
              VK_MEMORY_PROPERTY_DEVICE_LOCAL_BIT (d3_memory_types e) 0 in
          if memory_type_index =? UINT32_MAX then ret (false, vi)
          else
            m <- ask (vkAllocateMemory (vd_device vd) (mr_size (d3_memory_requirements e))
                        memory_type_index (Import_fd fd))
                   (created (d3_allocate_memory e)) ;;
            match m with
            | None => ret (false, vi)
            | Some memory =>
              let vi := set_vi_memory memory vi in
              ok <- ask (vkBindImageMemory (vd_device vd) (vi_image vi) (vi_memory vi))
                      (d3_bind_image_memory e) ;;
              if negb ok then ret (false, vi) else ret (true, vi)
            end
        end
      end
  end.

(** [vk_release_image_shm] *)
Definition vk_release_image_shm (vd : vulkan_data) (vi : vulkan_image) : M unit :=
  when (negb (vi_staging_buffer vi =? VK_NULL_HANDLE))
    (emit (vkDestroyBuffer (vd_device vd) (vi_staging_buffer vi))) ;;;
  when (negb (vi_staging_memory vi =? VK_NULL_HANDLE))
    (emit (vkFreeMemory (vd_device vd) (vi_staging_memory vi))) ;;;
  when (negb (vi_shm_segment vi =? XCB_NONE)) (emit (xcb_shm_detach (vi_shm_segment vi))) ;;;
  when (negb (vi_shm_address vi =? -1)) (emit (shmdt (vi_shm_address vi))) ;;;
  when (negb (vi_shm_id vi =? -1)) (emit (shmctl_IPC_RMID (vi_shm_id vi))).

(** The size of the shared segment: [width * height * 4] in [size_t], then
    [(size - 1) + alignment - (size - 1) % alignment]. *)
Definition shm_segment_size (width height alignment : Z) : Z :=
  let size := to_size_t (to_size_t (width * height) * 4) in
  to_size_t (to_size_t (to_size_t (size - 1) + alignment)
             - to_size_t (size - 1) mod alignment).

Record shm_answers : Type := {
  sh_geometry : option (Z * Z);
  sh_create_image : option positive;
  sh_image_memory_requirements : memory_requirements_t;
  sh_memory_types : list Z;
  sh_allocate_image_memory : option positive;
  sh_bind_image_memory : bool;
  sh_shmget : Z;
  sh_shmat : Z;
  sh_new_id : Z;
  sh_shm_attach : bool;
  sh_create_buffer : option positive;
  sh_buffer_memory_requirements : memory_requirements_t;
  sh_memory_host_pointer_properties : option Z;
  sh_allocate_staging_memory : option positive;
  sh_bind_buffer_memory : bool
}.

(** The second half of [vk_bind_pixmap_shm]: the staging buffer on top of the
    attached segment. *)
Definition bind_staging_buffer (e : shm_answers) (vd : vulkan_data) (size : Z)
    (vi : vulkan_image) : M (bool * vulkan_image) :=
  b <- ask (vkCreateBuffer (vd_device vd) size) (created (sh_create_buffer e)) ;;
  match b with
  | None => ret (false, vi)
  | Some buffer =>
    let vi := set_vi_staging_buffer buffer vi in
    match sh_memory_host_pointer_properties e with
    | None => ret (false, vi)
    | Some host_memory_type_bits =>
      let buffer_memory_type_index :=
        find_memory_type
          (Z.land (mr_memory_type_bits (sh_buffer_memory_requirements e))
             host_memory_type_bits)
          VK_MEMORY_PROPERTY_HOST_VISIBLE_BIT (sh_memory_types e) 0 in
      if buffer_memory_type_index =? UINT32_MAX then ret (false, vi)
      else
        m <- ask (vkAllocateMemory (vd_device vd)
                    (mr_size (sh_buffer_memory_requirements e)) buffer_memory_type_index
                    (Import_host_pointer (vi_shm_address vi)))
               (created (sh_allocate_staging_memory e)) ;;
        match m with
        | None => ret (false, vi)
        | Some memory =>
          let vi := set_vi_staging_memory memory vi in
          ok <- ask (vkBindBufferMemory (vd_device vd) (vi_staging_buffer vi)
                       (vi_staging_memory vi))
                  (sh_bind_buffer_memory e) ;;
          if negb ok then ret (false, vi) else ret (true, vi)
        end
    end
  end.

(** [vk_bind_pixmap_shm] *)
Definition vk_bind_pixmap_shm (e : shm_answers) (vd : vulkan_data) (vi : vulkan_image)
    : M (bool * vulkan_image) :=
  match sh_geometry e with
  | None => ret (false, vi)
  | Some (width, height) =>
    let vi := set_vi_width width vi in
    let vi := set_vi_height height vi in
    i <- ask (vkCreateImage (vd_device vd) (vi_width vi) (vi_height vi) None)
           (created (sh_create_image e)) ;;
    match i with
    | None => ret (false, vi)
    | Some image =>
      let vi := set_vi_image image vi in
      let image_memory_type_index :=
        find_memory_type (mr_memory_type_bits (sh_image_memory_requirements e))
          VK_MEMORY_PROPERTY_DEVICE_LOCAL_BIT (sh_memory_types e) 0 in
      if image_memory_type_index =? UINT32_MAX then ret (false, vi)
      else
        m <- ask (vkAllocateMemory (vd_device vd)
                    (mr_size (sh_image_memory_requirements e)) image_memory_type_index
                    No_import)
               (created (sh_allocate_image_memory e)) ;;
        match m with
        | None => ret (false, vi)
        | Some memory =>
          let vi := set_vi_memory memory vi in
          ok <- ask (vkBindImageMemory (vd_device vd) (vi_image vi) (vi_memory vi))
                  (sh_bind_image_memory e) ;;
          if negb ok then ret (false, vi)
          else
            let size :=
              shm_segment_size (vi_width vi) (vi_height vi)
                (vd_min_imported_host_pointer_alignment vd) in
            id <- ask (shmget size) (sh_shmget e) ;;
            let vi := set_vi_shm_id id vi in
            if vi_shm_id vi =? -1 then ret (false, vi)
            else
              address <- ask (shmat (vi_shm_id vi)) (sh_shmat e) ;;
              let vi := set_vi_shm_address address vi in
              if vi_shm_address vi =? -1 then ret (false, vi)
              else
                let vi := set_vi_shm_segment (sh_new_id e) vi in
                attached <- ask (xcb_shm_attach (vi_shm_segment vi)
                                   (to_uint32 (vi_shm_id vi)))
                              (sh_shm_attach e) ;;
                if negb attached then ret (false, set_vi_shm_segment XCB_NONE vi)
                else bind_staging_buffer e vd size vi
        end
    end
  end.

(** [vk_release_image]: the handle is freed, the image only when this was the
    last reference.  Returns the image when it lives on. *)
Definition vk_release_image (wait_idle : bool) (vd : vulkan_data) (image : backend_image)
    : M (option vulkan_image) :=
  let vi := bi_inner image in
  emit (free Backend_image) ;;;
  let vi := set_vi_refcount (int32_sub (vi_refcount vi) 1) vi in
  if 0 <? vi_refcount vi then ret (Some vi)
  else
    _ <- ask (vkDeviceWaitIdle (vd_device vd)) wait_idle ;;
    when (negb (vi_descriptor_set vi =? VK_NULL_HANDLE))
      (emit (vkFreeDescriptorSets (vd_device vd) (vd_descriptor_pool vd)
               (vi_descriptor_set vi))) ;;;
    when (negb (vi_image_view vi =? VK_NULL_HANDLE))
      (emit (vkDestroyImageView (vd_device vd) (vi_image_view vi))) ;;;
    match vd_bind_pixmap_strategy vd with
    | BIND_PIXMAP_STRATEGY_SHM => vk_release_image_shm vd vi
    | BIND_PIXMAP_STRATEGY_DRI3 => ret tt
    end ;;;
    when (negb (vi_image vi =? VK_NULL_HANDLE))
      (emit (vkDestroyImage (vd_device vd) (vi_image vi))) ;;;
    when (negb (vi_memory vi =? VK_NULL_HANDLE))
      (emit (vkFreeMemory (vd_device vd) (vi_memory vi))) ;;;
    when (vi_owned vi && negb (vi_pixmap vi =? XCB_NONE))
      (emit (xcb_free_pixmap (vi_pixmap vi))) ;;;
    emit (free Vulkan_image) ;;;
    ret None.

(** The field of [struct xvisual_info] the backend reads. *)
Record xvisual_info : Type := { alpha_size : Z }.

Record bind_answers : Type := {
  ba_dri3 : dri3_answers;
  ba_shm : shm_answers;
  ba_create_image_view : option positive;
  ba_allocate_descriptor_set : option positive;
  ba_wait_for_fences : bool;
  ba_reset_fences : bool;
  ba_reset_command_buffer : bool;
  ba_begin_command_buffer : bool;
  ba_end_command_buffer : bool;
  ba_queue_submit : bool;
  ba_release_wait_idle : bool
}.

(** The swizzle of the sampled view. *)
Definition image_view_components (vi : vulkan_image) : VkComponentMapping :=
  {| comp_r := VK_COMPONENT_SWIZZLE_B;
     comp_g := VK_COMPONENT_SWIZZLE_G;
     comp_b := VK_COMPONENT_SWIZZLE_R;
     comp_a := if vi_has_alpha vi then VK_COMPONENT_SWIZZLE_A else VK_COMPONENT_SWIZZLE_ONE |}.

(** The handle of [vk_bind_pixmap]; its effective size is set once the
    strategy has bound the pixmap. *)
Definition handle_of (vi : vulkan_image) : backend_image :=
  {| bi_inner := vi; bi_ewidth := vi_width vi; bi_eheight := vi_height vi |}.

(** The one-shot submission at the end of [vk_bind_pixmap] that moves the new
    image to the layout the shaders read it in. *)
Definition bind_transition (e : bind_answers) (vd : vulkan_data) (vi : vulkan_image)
    : M bool :=
  ok <- ask (vkWaitForFences (vd_device vd) (vd_queue_submit_fence vd))
          (ba_wait_for_fences e) ;;
  if negb ok then ret false
  else
    ok <- ask (vkResetFences (vd_device vd) (vd_queue_submit_fence vd))
            (ba_reset_fences e) ;;
    if negb ok then ret false
    else
      ok <- ask (vkResetCommandBuffer (vd_command_buffer vd)) (ba_reset_command_buffer e) ;;
      if negb ok then ret false
      else
        ok <- ask (vkBeginCommandBuffer (vd_command_buffer vd))
                (ba_begin_command_buffer e) ;;
        if negb ok then ret false
        else
          emit (vkCmdPipelineBarrier (vd_command_buffer vd) (vi_image vi)
                  VK_IMAGE_LAYOUT_UNDEFINED VK_IMAGE_LAYOUT_SHADER_READ_ONLY_OPTIMAL) ;;;
          ok <- ask (vkEndCommandBuffer (vd_command_buffer vd))
                  (ba_end_command_buffer e) ;;
          if negb ok then ret false
          else
            ask (vkQueueSubmit (vd_queue vd) (vd_command_buffer vd) [] []
                   (vd_queue_submit_fence vd))
              (ba_queue_submit e).

(** [vk_bind_pixmap]; the label [err] releases the image and returns no
    handle. *)
Definition vk_bind_pixmap (NDEBUG : bool) (e : bind_answers) (vd : vulkan_data)
    (pixmap : Z) (visual_info : xvisual_info) (owned : bool) : M (option backend_image) :=
  let vi := vulkan_image_zero in
  let vi := set_vi_refcount 1 vi in
  let vi := set_vi_has_alpha (0 <? alpha_size visual_info) vi in
  let vi := set_vi_pixmap pixmap vi in
  let vi := set_vi_owned owned vi in
  let err (vi : vulkan_image) : M (option backend_image) :=
    _ <- vk_release_image (ba_release_wait_idle e) vd (handle_of vi) ;;
    ret None in
  p <- match vd_bind_pixmap_strategy vd with
       | BIND_PIXMAP_STRATEGY_DRI3 => vk_bind_pixmap_dri3 NDEBUG (ba_dri3 e) vd vi
       | BIND_PIXMAP_STRATEGY_SHM => vk_bind_pixmap_shm (ba_shm e) vd vi
       end ;;
  let '(ok, vi) := p in
  if negb ok then err vi
  else
    v <- ask (vkCreateImageView (vd_device vd) (vi_image vi) VK_FORMAT_R8G8B8A8_UNORM
                (image_view_components vi))
           (created (ba_create_image_view e)) ;;
    match v with
    | None => err vi
    | Some view =>
      let vi := set_vi_image_view view vi in
      s <- allocate_descriptor_set (vd_device vd) (vd_descriptor_pool vd)
             (vd_descriptor_set_layout vd) (ba_allocate_descriptor_set e) ;;
      match s with
      | None => err vi
      | Some set =>
        let vi := set_vi_descriptor_set set vi in
        emit (vkUpdateDescriptorSets (vd_device vd) (vi_descriptor_set vi) (vd_sampler vd)
                (vi_image_view vi)) ;;;
        ok <- bind_transition e vd vi ;;
        if negb ok then err vi else ret (Some (handle_of vi))
      end
    end.

(** ** The fence of the queue

    Vulkan's rule for a fence, read off the log: the submissions guarded by
    [fence] that may still be executing are those made since the last wait
    on [fence] that succeeded (or since the device was last seen idle). *)
Fixpoint in_flight (fence : handle) (h : list call) : nat :=
  match h with
  | [] => 0
  | vkQueueSubmit _ _ _ _ f true :: rest =>
    if f =? fence then S (in_flight fence rest) else in_flight fence rest
  | vkWaitForFences _ f true :: rest =>
    if f =? fence then 0%nat else in_flight fence rest
  | vkDeviceWaitIdle _ true :: _ => 0%nat
  | _ :: rest => in_flight fence rest
  end.

(** The calls that start over the recording of a command buffer. *)
Definition rerecords (command_buffer : handle) (c : call) : bool :=
  match c with
  | vkResetCommandBuffer b _ => b =? command_buffer
  | vkBeginCommandBuffer b _ => b =? command_buffer
  | _ => false
  end.

(** Throughout the log at most one submission was in flight, and whenever
    the command buffer was reset or begun none was. *)
Fixpoint recording_safe (command_buffer fence : handle) (h : list call) : bool :=
  match h with
  | [] => true
  | c :: rest =>
    (if rerecords command_buffer c then Nat.eqb (in_flight fence rest) 0 else true)
    && Nat.leb (in_flight fence (c :: rest)) 1
    && recording_safe command_buffer fence rest
  end.

(** ** Sessions: what the orchestrator calls after the start-up *)

Inductive draw_op : Type :=
| Compose (shm_get_image_reply : bool) (image : backend_image) (image_coords : coord_t)
    (reg_paint : region_t)
| Fill (c : color) (region : region_t).

(** One frame: prepare, any number of compose and fill, present. *)
Record frame : Type := {
  frame_prepare : prepare_answers;
  frame_draws : list draw_op;
  frame_present : present_answers
}.

Inductive op : Type :=
| Frame (f : frame)
| Bind_pixmap (e : bind_answers) (pixmap : Z) (visual_info : xvisual_info) (owned : bool)
| Release_image (i : nat) (wait_idle : bool).

(** The backend and the handles the orchestrator holds. *)
Record session_state : Type := {
  ss_vd : vulkan_data;
  ss_images : list backend_image
}.

Definition run_draw (NDEBUG : bool) (vd : vulkan_data) (d : draw_op) : M vulkan_data :=
  match d with
  | Compose reply image image_coords reg_paint =>
    vk_compose NDEBUG reply vd image image_coords reg_paint
  | Fill c region => vk_fill NDEBUG vd c region
  end.

Fixpoint run_draws (NDEBUG : bool) (draws : list draw_op) (vd : vulkan_data)
    : M vulkan_data :=
  match draws with
  | [] => ret vd
  | d :: rest => vd <- run_draw NDEBUG vd d ;; run_draws NDEBUG rest vd
  end.

Definition run_frame (NDEBUG : bool) (f : frame) (vd : vulkan_data) : M vulkan_data :=
  vd <- vk_prepare (frame_prepare f) vd ;;
  vd <- run_draws NDEBUG (frame_draws f) vd ;;
  vk_present (frame_present f) vd.

(** One call of the orchestrator.  A bind that succeeds adds its handle; a
    release drops the handle, unless the image lives on, in which case the
    handle stands for the references that are left.  Releasing a handle the
    orchestrator does not hold is not a call it makes. *)
Definition run_op (NDEBUG : bool) (s : session_state) (o : op) : M session_state :=
  match o with
  | Frame f =>
    vd <- run_frame NDEBUG f (ss_vd s) ;;
    ret {| ss_vd := vd; ss_images := ss_images s |}
  | Bind_pixmap e pixmap visual_info owned =>
    r <- vk_bind_pixmap NDEBUG e (ss_vd s) pixmap visual_info owned ;;
    match r with
    | Some image => ret {| ss_vd := ss_vd s; ss_images := image :: ss_images s |}
    | None => ret s
    end
  | Release_image i wait_idle =>
    match ss_images s !! i with
    | None => ret s
    | Some image =>
      r <- vk_release_image wait_idle (ss_vd s) image ;;
      match r with
      | None => ret {| ss_vd := ss_vd s; ss_images := delete i (ss_images s) |}
      | Some vi =>
        ret {| ss_vd := ss_vd s; ss_images := <[i := handle_of vi]> (ss_images s) |}
      end
    end
  end.

Fixpoint run_ops (NDEBUG : bool) (ops : list op) (s : session_state) : M session_state :=
  match ops with
  | [] => ret s
  | o :: rest => s <- run_op NDEBUG s o ;; run_ops NDEBUG rest s
  end.


(** ** Auxiliary functions used to state the properties *)

(** The age of image [i] after a present of image [index], from its age
    before. *)
Definition age_after (index : Z) (i : nat) (a : Z) : Z :=
  if Z.of_nat i =? index then 1
  else if a =? -1 then -1
  else int32_add a 1.

(** What the loop of [vk_present] does to slot [i] once the presented slot
    holds 1. *)
Definition loop_age (index : Z) (i : nat) (a : Z) : Z :=
  if negb (Z.of_nat i =? index) && negb (a =? -1) then int32_add a 1 else a.

(** The calls the loop over the rectangles records: per rectangle one push
    of its bounds and one draw. *)
Definition draw_calls (vd : vulkan_data) (layout : handle) (rects : list pixman_box32_t)
    : list call :=
  flat_map (fun r =>
    [vkCmdPushConstants (vd_command_buffer vd) layout VK_SHADER_STAGE_VERTEX_BIT 8 16
       (box_push_data r);
     vkCmdDraw (vd_command_buffer vd) 4 1 0 0]) rects.

Definition is_draw (c : call) : bool :=
  match c with vkCmdDraw _ _ _ _ _ => true | _ => false end.

Definition is_scissor (c : call) : bool :=
  match c with vkCmdSetScissor _ _ => true | _ => false end.

Definition count_draws (t : list call) : nat := length (List.filter is_draw t).

(** What compose records before the loop when nothing has to be read back,
    and what the shared-memory strategy records ahead of that. *)
Definition compose_prologue (vd : vulkan_data) (vi : vulkan_image) (image_coords : coord_t)
    (extents : pixman_box32_t) : list call :=
  [vkCmdBeginRendering (vd_command_buffer vd)
     (array_get VK_NULL_HANDLE (vd_swapchain_image_views vd) (vd_swapchain_image_index vd))
     (render_area_of extents);
   vkCmdBindPipeline (vd_command_buffer vd) (vd_compose_pipeline vd);
   vkCmdSetScissor (vd_command_buffer vd) (render_area_of extents);
   vkCmdBindDescriptorSets (vd_command_buffer vd) (vd_compose_pipeline_layout vd)
     (vi_descriptor_set vi);
   vkCmdPushConstants (vd_command_buffer vd) (vd_compose_pipeline_layout vd)
     VK_SHADER_STAGE_VERTEX_BIT 0 8 (Push_uint32 [vd_width vd; vd_height vd]);
   vkCmdPushConstants (vd_command_buffer vd) (vd_compose_pipeline_layout vd)
     VK_SHADER_STAGE_VERTEX_BIT 24 8
     (Push_int32 [coord_x image_coords; coord_y image_coords])].

(** What the shared-memory strategy issues ahead of the prologue: the
    readback request and the copy of the staging buffer between two layout
    transitions.  The zero-copy strategy issues nothing. *)
Definition refresh_calls (reply : bool) (vd : vulkan_data) (vi : vulkan_image)
    (image_coords : coord_t) (extents : pixman_box32_t) : list call :=
  match vd_bind_pixmap_strategy vd with
  | BIND_PIXMAP_STRATEGY_DRI3 => []
  | BIND_PIXMAP_STRATEGY_SHM =>
    let x := to_int16 (int32_sub (box_x1 extents) (coord_x image_coords)) in
    let y := to_int16 (int32_sub (box_y1 extents) (coord_y image_coords)) in
    let width := to_uint16 (int32_sub (box_x2 extents) (box_x1 extents)) in
    let height := to_uint16 (int32_sub (box_y2 extents) (box_y1 extents)) in
    [xcb_shm_get_image (vi_pixmap vi) x y width height (vi_shm_segment vi) reply;
     vkCmdPipelineBarrier (vd_command_buffer vd) (vi_image vi)
       VK_IMAGE_LAYOUT_SHADER_READ_ONLY_OPTIMAL VK_IMAGE_LAYOUT_TRANSFER_DST_OPTIMAL;
     vkCmdCopyBufferToImage (vd_command_buffer vd) (vi_staging_buffer vi) (vi_image vi)
       x y width height;
     vkCmdPipelineBarrier (vd_command_buffer vd) (vi_image vi)
       VK_IMAGE_LAYOUT_TRANSFER_DST_OPTIMAL VK_IMAGE_LAYOUT_SHADER_READ_ONLY_OPTIMAL]
  end.

Definition fill_prologue (vd : vulkan_data) (c : color) (extents : pixman_box32_t)
    : list call :=
  [vkCmdBeginRendering (vd_command_buffer vd)
     (array_get VK_NULL_HANDLE (vd_swapchain_image_views vd) (vd_swapchain_image_index vd))
     (render_area_of extents);
   vkCmdBindPipeline (vd_command_buffer vd) (vd_fill_pipeline vd);
   vkCmdSetScissor (vd_command_buffer vd) (render_area_of extents);
   vkCmdPushConstants (vd_command_buffer vd) (vd_fill_pipeline_layout vd)
     VK_SHADER_STAGE_VERTEX_BIT 0 8 (Push_uint32 [vd_width vd; vd_height vd]);
   vkCmdPushConstants (vd_command_buffer vd) (vd_fill_pipeline_layout vd)
     VK_SHADER_STAGE_FRAGMENT_BIT 32 16
     (Push_float_of_double [color_red c; color_green c; color_blue c; color_alpha c])].

(** The reading of the draw-count law that asks for a scissor update per
    rectangle: for every rectangle of the region the log holds a scissor
    update scoped to that very rectangle. *)
Definition scissor_per_rectangle (vd : vulkan_data) (rects : list pixman_box32_t)
    (t : list call) : Prop :=
  Forall (fun r => In (vkCmdSetScissor (vd_command_buffer vd) (render_area_of r)) t) rects.

(** ** Sample data *)

Definition sample_vd : vulkan_data :=
  mk_vulkan_data 1 2 3 BIND_PIXMAP_STRATEGY_DRI3 4 0 0 5 6 7 8 9 1920 1080 10 2
    (Some [11; 12]) (Some [VK_IMAGE_LAYOUT_PRESENT_SRC_KHR; VK_IMAGE_LAYOUT_UNDEFINED])
    (Some [13; 14]) (Some [1; -1]) 1 15 16 17 18 19 20 21 22 23.

Definition sample_vd_shm : vulkan_data :=
  set_vd_min_imported_host_pointer_alignment 4096
    (set_vd_bind_pixmap_strategy BIND_PIXMAP_STRATEGY_SHM sample_vd).

Definition sample_image : backend_image :=
  {| bi_inner := mk_vulkan_image 1 false 77 false 64 64 30 31 0 0 0 0 0 32 33;
     bi_ewidth := 64; bi_eheight := 64 |}.

Definition sample_box (a b c d : Z) : pixman_box32_t :=
  {| box_x1 := a; box_y1 := b; box_x2 := c; box_y2 := d |}.

(** Two disjoint rectangles and their bounding box. *)
Definition sample_region : region_t :=
  {| region_extents := sample_box 0 0 30 30;
     region_rects := [sample_box 0 0 10 10; sample_box 20 20 30 30] |}.

Definition sample_color : color :=
  {| color_red := 0; color_green := 0; color_blue := 0; color_alpha := 0 |}.

Definition sample_present_answers : present_answers :=
  {| present_end_command_buffer := true; present_queue_submit := true;
     present_queue_present := true; present_acquire_next_image := Some 0;
     present_wait_for_fences := true; present_reset_fences := true |}.


(** The image views created in a log, most recent first: image, components
    and the view handed out. *)
Fixpoint view_creations (h : list call) : list (handle * VkComponentMapping * option handle) :=
  match h with
  | [] => []
  | vkCreateImageView _ image _ components r :: rest =>
    (image, components, r) :: view_creations rest
  | _ :: rest => view_creations rest
  end.

(** A computation only adds calls that satisfy [P] to the log. *)
Definition logs {A} (P : call -> bool) (m : M A) : Prop :=
  forall h, exists t, snd (m h) = t ++ h /\ Forall (fun c => P c = true) t.

(** A computation always returns: it neither aborts nor leaves what is
    defined. *)
Definition returns {A} (m : M A) : Prop :=
  forall h, exists a, fst (m h) = Done a.

Definition not_view_creation (c : call) : bool :=
  match c with vkCreateImageView _ _ _ _ _ => false | _ => true end.

(** Whatever a computation returns satisfies [Q]. *)
Definition yields {A} (Q : A -> Prop) (m : M A) : Prop :=
  forall h a h', m h = (Done a, h') -> Q a.

Definition sample_dri3_reply : dri3_reply_t :=
  {| r_width := 64; r_height := 64; r_nfd := 1; r_modifier := 0;
     r_offsets := [0]; r_strides := [256]; r_buffers := [5] |}.

Definition sample_dri3_answers : dri3_answers :=
  {| d3_buffers_from_pixmap := Some sample_dri3_reply;
     d3_create_image := Some 40%positive;
     d3_memory_requirements := {| mr_size := 16384; mr_memory_type_bits := 3 |};
     d3_memory_types := [0; 1];
     d3_memory_fd_properties := Some 2;
     d3_allocate_memory := Some 41%positive;
     d3_bind_image_memory := true |}.

Definition sample_shm_answers : shm_answers :=
  {| sh_geometry := Some (64, 64);
     sh_create_image := Some 40%positive;
     sh_image_memory_requirements := {| mr_size := 16384; mr_memory_type_bits := 3 |};
     sh_memory_types := [2; 1];
     sh_allocate_image_memory := Some 41%positive;
     sh_bind_image_memory := true;
     sh_shmget := 7;
     sh_shmat := 4096;
     sh_new_id := 99;
     sh_shm_attach := true;
     sh_create_buffer := Some 42%positive;
     sh_buffer_memory_requirements := {| mr_size := 16384; mr_memory_type_bits := 1 |};
     sh_memory_host_pointer_properties := Some 1;
     sh_allocate_staging_memory := Some 43%positive;
     sh_bind_buffer_memory := true |}.

Definition sample_bind_answers : bind_answers :=
  {| ba_dri3 := sample_dri3_answers;
     ba_shm := sample_shm_answers;
     ba_create_image_view := Some 44%positive;
     ba_allocate_descriptor_set := Some 45%positive;
     ba_wait_for_fences := true;
     ba_reset_fences := true;
     ba_reset_command_buffer := true;
     ba_begin_command_buffer := true;
     ba_end_command_buffer := true;
     ba_queue_submit := true;
     ba_release_wait_idle := true |}.

(** A device supports a set of extensions: all of them appear in the list it
    reports. *)
Definition supports_extensions (names : list string) (d : physical_device_t) : bool :=
  match pd_extensions d with
  | Some properties => forallb (vk_has_extension properties) names
  | None => false
  end.

(** A device passes [vk_select_physical_device]: it reports Vulkan 1.3 or
    later, its extensions can be enumerated, and it supports [names]. *)
Definition suitable (names : list string) (d : physical_device_t) : bool :=
  negb (pd_api_version d <? VK_API_VERSION_1_3)
  && pd_enumerate_count d
  && supports_extensions names d.

(** The strategy and device by the fixed priority: zero-copy when the server
    has DRI3 and a device is suitable for it, else shared memory when the
    server has it and a device is suitable for it, else nothing. *)
Definition strategy_by_priority (session : session_t) (devices : list physical_device_t)
    : option (bind_pixmap_strategy_t * physical_device_t) :=
  match (if dri3_exists session
         then List.find (suitable (common_extension_names ++ dri3_extension_names)) devices
         else None) with
  | Some d => Some (BIND_PIXMAP_STRATEGY_DRI3, d)
  | None =>
    match (if shm_exists session
           then List.find (suitable (common_extension_names ++ shm_extension_names)) devices
           else None) with
    | Some d => Some (BIND_PIXMAP_STRATEGY_SHM, d)
    | None => None
    end
  end.

Definition all_extensions : list string :=
  common_extension_names ++ dri3_extension_names ++ shm_extension_names.

Definition sample_queue_family : queue_family_t :=
  {| qf_queue_flags := 1; qf_supports_xcb_presentation := true;
     qf_supports_surface := Some true |}.

(** A device with every extension the backend can ask for. *)
Definition sample_device (api_version : Z) : physical_device_t :=
  {| pd_handle := 4%positive;
     pd_api_version := api_version;
     pd_enumerate_count := true;
     pd_extensions := Some all_extensions;
     pd_min_imported_host_pointer_alignment := 4096;
     pd_queue_families := [sample_queue_family] |}.

(** [VK_MAKE_API_VERSION(0, 1, 2, 0)] *)
Definition VK_API_VERSION_1_2 : Z := Z.lor (Z.shiftl 1 22) (Z.shiftl 2 12).

Definition sample_shader_answers (vertex fragment : positive) : shader_answers :=
  {| sha_compiler_initialize := true;
     sha_compile_vertex := true; sha_vertex_module := Some vertex;
     sha_compile_fragment := true; sha_fragment_module := Some fragment |}.

(** Answers of a start-up in which every call succeeds, for the given list
    of physical devices. *)
Definition sample_init_answers (devices : list physical_device_t) : init_answers :=
  {| init_instance :=
       {| ia_enumerate_count := true;
          ia_enumerate := Some instance_extension_names;
          ia_create_instance := Some 1%positive |};
     init_surface :=
       {| sfa_connection := 2%positive; sfa_connection_has_error := false;
          sfa_create_surface := Some 3%positive |};
     init_device :=
       {| da_enumerate_count := true;
          da_physical_devices := Some devices;
          da_create_device := Some 5%positive;
          da_get_memory_fd_properties_proc := true;
          da_get_memory_host_pointer_properties_proc := true;
          da_queue := 6%positive |};
     init_sync :=
       {| sya_acquire_next_image_fence := Some 7%positive;
          sya_queue_submit_fence := Some 8%positive;
          sya_semaphore := Some 9%positive |};
     init_swapchain :=
       {| swa_surface_capabilities :=
            Some {| current_extent_width := 1920; current_extent_height := 1080;
                    min_image_count := 2 |};
          swa_surface_format_count := true;
          swa_surface_formats := [VK_FORMAT_B8G8R8A8_UNORM];
          swa_indeterminate_format := VK_FORMAT_UNDEFINED;
          swa_create_swapchain := Some 10%positive;
          swa_swapchain_images := Some [11%positive; 12%positive];
          swa_create_image_views := [Some 13%positive; Some 14%positive];
          swa_acquire_next_image := Some 0;
          swa_wait_for_fences := true;
          swa_reset_fences := true |};
     init_descriptor_pool :=
       {| dpa_descriptor_pool := Some 15%positive;
          dpa_descriptor_set_layout := Some 16%positive;
          dpa_sampler := Some 17%positive |};
     init_pipelines :=
       {| pa_compose_shaders := sample_shader_answers 24 25;
          pa_fill_shaders := sample_shader_answers 26 27;
          pa_compose_pipeline_layout := Some 18%positive;
          pa_compose_pipeline := Some 19%positive;
          pa_fill_pipeline_layout := Some 20%positive;
          pa_fill_pipeline := Some 21%positive |};
     init_command_pool :=
       {| cpa_command_pool := Some 22%positive; cpa_command_buffer := Some 23%positive |};
     init_deinit_wait_idle := true |}.

(** The same, except that the fill pipeline cannot be created. *)
Definition sample_init_answers_no_fill_pipeline (devices : list physical_device_t)
    : init_answers :=
  let e := sample_init_answers devices in
  {| init_instance := init_instance e;
     init_surface := init_surface e;
     init_device := init_device e;
     init_sync := init_sync e;
     init_swapchain := init_swapchain e;
     init_descriptor_pool := init_descriptor_pool e;
     init_pipelines :=
       {| pa_compose_shaders := pa_compose_shaders (init_pipelines e);
          pa_fill_shaders := pa_fill_shaders (init_pipelines e);
          pa_compose_pipeline_layout := pa_compose_pipeline_layout (init_pipelines e);
          pa_compose_pipeline := pa_compose_pipeline (init_pipelines e);
          pa_fill_pipeline_layout := pa_fill_pipeline_layout (init_pipelines e);
          pa_fill_pipeline := None |};
     init_command_pool := init_command_pool e;
     init_deinit_wait_idle := init_deinit_wait_idle e |}.

Definition sample_session : session_t :=
  {| dri3_exists := true; shm_exists := true; o_vsync := true |}.

(** The later steps of the start-up leave the strategy and the physical
    device as they are. *)
Definition keeps_device (vd : vulkan_data) (p : bool * vulkan_data) : Prop :=
  vd_bind_pixmap_strategy (snd p) = vd_bind_pixmap_strategy vd /\
  vd_physical_device (snd p) = vd_physical_device vd.

Definition with_dri3 (d : dri3_answers) (e : bind_answers) : bind_answers :=
  {| ba_dri3 := d; ba_shm := ba_shm e;
     ba_create_image_view := ba_create_image_view e;
     ba_allocate_descriptor_set := ba_allocate_descriptor_set e;
     ba_wait_for_fences := ba_wait_for_fences e;
     ba_reset_fences := ba_reset_fences e;
     ba_reset_command_buffer := ba_reset_command_buffer e;
     ba_begin_command_buffer := ba_begin_command_buffer e;
     ba_end_command_buffer := ba_end_command_buffer e;
     ba_queue_submit := ba_queue_submit e;
     ba_release_wait_idle := ba_release_wait_idle e |}.

(** A reply for a buffer of two planes, with a descriptor for each;
    everything else succeeds. *)
Definition sample_dri3_reply_two_planes : dri3_reply_t :=
  {| r_width := 64; r_height := 64; r_nfd := 2; r_modifier := 0;
     r_offsets := [0; 16384]; r_strides := [256; 64]; r_buffers := [5; 6] |}.

Definition sample_bind_answers_two_planes : bind_answers :=
  with_dri3
    {| d3_buffers_from_pixmap := Some sample_dri3_reply_two_planes;
       d3_create_image := d3_create_image sample_dri3_answers;
       d3_memory_requirements := d3_memory_requirements sample_dri3_answers;
       d3_memory_types := d3_memory_types sample_dri3_answers;
       d3_memory_fd_properties := d3_memory_fd_properties sample_dri3_answers;
       d3_allocate_memory := d3_allocate_memory sample_dri3_answers;
       d3_bind_image_memory := d3_bind_image_memory sample_dri3_answers |}
    sample_bind_answers.

(** No reply to the geometry request of the shared-memory bind. *)
Definition sample_bind_answers_no_geometry : bind_answers :=
  {| ba_dri3 := sample_dri3_answers;
     ba_shm :=
       {| sh_geometry := None;
          sh_create_image := sh_create_image sample_shm_answers;
          sh_image_memory_requirements := sh_image_memory_requirements sample_shm_answers;
          sh_memory_types := sh_memory_types sample_shm_answers;
          sh_allocate_image_memory := sh_allocate_image_memory sample_shm_answers;
          sh_bind_image_memory := true;
          sh_shmget := sh_shmget sample_shm_answers;
          sh_shmat := sh_shmat sample_shm_answers;
          sh_new_id := sh_new_id sample_shm_answers;
          sh_shm_attach := true;
          sh_create_buffer := sh_create_buffer sample_shm_answers;
          sh_buffer_memory_requirements := sh_buffer_memory_requirements sample_shm_answers;
          sh_memory_host_pointer_properties :=
            sh_memory_host_pointer_properties sample_shm_answers;
          sh_allocate_staging_memory := sh_allocate_staging_memory sample_shm_answers;
          sh_bind_buffer_memory := true |};
     ba_create_image_view := ba_create_image_view sample_bind_answers;
     ba_allocate_descriptor_set := ba_allocate_descriptor_set sample_bind_answers;
     ba_wait_for_fences := true;
     ba_reset_fences := true;
     ba_reset_command_buffer := true;
     ba_begin_command_buffer := true;
     ba_end_command_buffer := true;
     ba_queue_submit := true;
     ba_release_wait_idle := true |}.

(** Calls that leave the fence, the queue and the recording alone. *)
Definition fence_quiet (c : call) : bool :=
  match c with
  | vkQueueSubmit _ _ _ _ _ _ | vkWaitForFences _ _ _ | vkDeviceWaitIdle _ _
  | vkResetCommandBuffer _ _ | vkBeginCommandBuffer _ _ => false
  | _ => true
  end.

(** Calls that leave every descriptor pool alone. *)
Definition pool_quiet (c : call) : bool :=
  match c with
  | vkCreateDescriptorPool _ _ _ _ _ | vkAllocateDescriptorSets _ _ _ _
  | vkFreeDescriptorSets _ _ _ => false
  | _ => true
  end.

Definition quiet (c : call) : bool := fence_quiet c && pool_quiet c.

(** Calls that neither submit, nor start a recording over, nor take or give
    back a descriptor set. *)
Definition startup_quiet (c : call) : bool :=
  match c with
  | vkQueueSubmit _ _ _ _ _ _ | vkResetCommandBuffer _ _ | vkBeginCommandBuffer _ _
  | vkAllocateDescriptorSets _ _ _ _ | vkFreeDescriptorSets _ _ _ => false
  | _ => true
  end.

(** The fields of the backend that stay as the start-up left them. *)
Definition same_objects (vd vd' : vulkan_data) : Prop :=
  vd_device vd' = vd_device vd /\
  vd_bind_pixmap_strategy vd' = vd_bind_pixmap_strategy vd /\
  vd_queue vd' = vd_queue vd /\
  vd_queue_submit_fence vd' = vd_queue_submit_fence vd /\
  vd_descriptor_pool vd' = vd_descriptor_pool vd /\
  vd_descriptor_set_layout vd' = vd_descriptor_set_layout vd /\
  vd_command_buffer vd' = vd_command_buffer vd.

(** The handles the orchestrator holds are the only reference to their
    image, and each image owns a descriptor set. *)
Definition sole_owner (image : backend_image) : Prop :=
  vi_refcount (bi_inner image) = 1 /\ vi_descriptor_set (bi_inner image) <> VK_NULL_HANDLE.

(** A call that is made only under a condition. *)
Definition opt_call (b : bool) (c : call) : list call := if b then [c] else [].

(** The calls of [vk_release_image_shm], oldest first. *)
Definition shm_release_calls (vd : vulkan_data) (vi : vulkan_image) : list call :=
  opt_call (negb (vi_staging_buffer vi =? VK_NULL_HANDLE))
    (vkDestroyBuffer (vd_device vd) (vi_staging_buffer vi))
  ++ opt_call (negb (vi_staging_memory vi =? VK_NULL_HANDLE))
       (vkFreeMemory (vd_device vd) (vi_staging_memory vi))
  ++ opt_call (negb (vi_shm_segment vi =? XCB_NONE)) (xcb_shm_detach (vi_shm_segment vi))
  ++ opt_call (negb (vi_shm_address vi =? -1)) (shmdt (vi_shm_address vi))
  ++ opt_call (negb (vi_shm_id vi =? -1)) (shmctl_IPC_RMID (vi_shm_id vi)).

(** The calls of a final [vk_release_image] after the descriptor set has
    been given back, oldest first. *)
Definition release_tail_calls (vd : vulkan_data) (vi : vulkan_image) : list call :=
  opt_call (negb (vi_image_view vi =? VK_NULL_HANDLE))
    (vkDestroyImageView (vd_device vd) (vi_image_view vi))
  ++ match vd_bind_pixmap_strategy vd with
     | BIND_PIXMAP_STRATEGY_SHM => shm_release_calls vd vi
     | BIND_PIXMAP_STRATEGY_DRI3 => []
     end
  ++ opt_call (negb (vi_image vi =? VK_NULL_HANDLE)) (vkDestroyImage (vd_device vd) (vi_image vi))
  ++ opt_call (negb (vi_memory vi =? VK_NULL_HANDLE))
       (vkFreeMemory (vd_device vd) (vi_memory vi))
  ++ opt_call (vi_owned vi && negb (vi_pixmap vi =? XCB_NONE)) (xcb_free_pixmap (vi_pixmap vi))
  ++ [free Vulkan_image].

(** The accounting of the descriptor pool during a session that started
    with the backend [vd0]: the pool was made for 32 sets, the sets in use
    are those of the images the orchestrator holds, one each, and these are
    at most 32 as long as the driver has granted no set beyond the 32. *)
Definition pool_invariant (vd0 : vulkan_data) (s : session_state) (h : list call) : Prop :=
  same_objects vd0 (ss_vd s) /\
  Forall sole_owner (ss_images s) /\
  pool_max_sets (vd_descriptor_pool vd0) h = Some 32 /\
  pool_sets_in_use (vd_descriptor_pool vd0) h = Z.of_nat (length (ss_images s)) /\
  (pool_respected (vd_descriptor_pool vd0) h = true -> (length (ss_images s) <= 32)%nat).

(** The wait of the prepare of an operation succeeded, if it has one. *)
Definition prepare_wait_succeeds (o : op) : bool :=
  match o with
  | Frame f => prepare_wait_for_fences (frame_prepare f)
  | _ => true
  end.


(** The calls of [vk_prepare] on the backend [vd], oldest first. *)
Definition prepare_calls (e : prepare_answers) (vd : vulkan_data) : list call :=
  [vkWaitForFences (vd_device vd) (vd_queue_submit_fence vd) (prepare_wait_for_fences e);
   vkResetFences (vd_device vd) (vd_queue_submit_fence vd) (prepare_reset_fences e);
   vkResetCommandBuffer (vd_command_buffer vd) (prepare_reset_command_buffer e);
   vkBeginCommandBuffer (vd_command_buffer vd) (prepare_begin_command_buffer e);
   vkCmdPipelineBarrier (vd_command_buffer vd)
     (array_get VK_NULL_HANDLE (vd_swapchain_images vd) (vd_swapchain_image_index vd))
     (array_get VK_IMAGE_LAYOUT_UNDEFINED (vd_swapchain_image_layouts vd)
        (vd_swapchain_image_index vd))
     VK_IMAGE_LAYOUT_COLOR_ATTACHMENT_OPTIMAL].

(** A start-up that succeeds, the backend it hands out and its log. *)
Definition sample_started : outcome (option vulkan_data) * list call :=
  vk_init (sample_init_answers [sample_device VK_API_VERSION_1_3]) sample_session 9 [].

Definition sample_started_vd : vulkan_data :=
  match fst sample_started with
  | Done (Some vd) => vd
  | _ => vulkan_data_zero
  end.

Definition sample_started_log : list call := snd sample_started.

Definition sample_session_state : session_state :=
  {| ss_vd := sample_started_vd; ss_images := [] |}.

(** A frame that fills one region; [wait] is the answer to the wait of its
    prepare, every other call succeeds. *)
Definition sample_frame (wait : bool) : frame :=
  {| frame_prepare :=
       {| prepare_wait_for_fences := wait; prepare_reset_fences := true;
          prepare_reset_command_buffer := true; prepare_begin_command_buffer := true |};
     frame_draws := [Fill sample_color sample_region];
     frame_present := sample_present_answers |}.

Definition sample_bind : op :=
  Bind_pixmap sample_bind_answers 77 {| alpha_size := 8 |} false.

Definition sample_ops : list op :=
  [Frame (sample_frame true); sample_bind; Frame (sample_frame true);
   Release_image 0 true; sample_bind; Frame (sample_frame true)].


(** The session [ops] run after the sample start-up, the state it ends in
    and its log. *)
Definition sample_run (ops : list op) : outcome session_state * list call :=
  run_ops false ops sample_session_state sample_started_log.

Definition sample_final (ops : list op) : session_state :=
  match fst (sample_run ops) with
  | Done s => s
  | _ => sample_session_state
  end.

Definition sample_final_log (ops : list op) : list call := snd (sample_run ops).

(** The [k]-th bind of a series: the driver answers each with handles of
    its own, and grants the descriptor set or refuses it. *)
Definition sample_bind_nth (granted : bool) (k : nat) : op :=
  Bind_pixmap
    {| ba_dri3 :=
         {| d3_buffers_from_pixmap :=
              Some {| r_width := 64; r_height := 64; r_nfd := 1; r_modifier := 0;
                      r_offsets := [0]; r_strides := [256];
                      r_buffers := [Z.of_nat (5 + k)] |};
            d3_create_image := Some (Pos.of_nat (100 + 4 * k));
            d3_memory_requirements := d3_memory_requirements sample_dri3_answers;
            d3_memory_types := d3_memory_types sample_dri3_answers;
            d3_memory_fd_properties := d3_memory_fd_properties sample_dri3_answers;
            d3_allocate_memory := Some (Pos.of_nat (101 + 4 * k));
            d3_bind_image_memory := true |};
       ba_shm := sample_shm_answers;
       ba_create_image_view := Some (Pos.of_nat (102 + 4 * k));
       ba_allocate_descriptor_set :=
         if granted then Some (Pos.of_nat (103 + 4 * k)) else None;
       ba_wait_for_fences := true;
       ba_reset_fences := true;
       ba_reset_command_buffer := true;
       ba_begin_command_buffer := true;
       ba_end_command_buffer := true;
       ba_queue_submit := true;
       ba_release_wait_idle := true |}
    (Z.of_nat (77 + k)) {| alpha_size := 8 |} false.

(** As many binds as the pool has sets, each granted its set. *)
Definition sample_ops_32_binds : list op := sample_bind_nth true <$> seq 0 32.

(** One bind more, granted its set as well. *)
Definition sample_ops_33_binds : list op := sample_ops_32_binds ++ [sample_bind_nth true 32].

(** One bind more, refused its set. *)
Definition sample_ops_32_binds_and_one_refused : list op :=
  sample_ops_32_binds ++ [sample_bind_nth false 32].

(** The descriptor sets of the images the orchestrator holds. *)
Definition descriptor_sets_held (s : session_state) : list handle :=
  (fun image => vi_descriptor_set (bi_inner image)) <$> ss_images s.

(** What a bind takes from the pool. *)
Definition sets_taken (r : option backend_image) : Z :=
  match r with
  | Some _ => 1
  | None => 0
  end.

(** * The window picker of the inspector

    [inspect_select_window] grabs the pointer and reads X events until the
    user has clicked on a window.  The status of the grab and the events
    the server delivers are inputs of the model; the requests the function
    sends are logged, most recent first. *)

(** [xcb_generic_event_t], and the two fields of a button event the picker
    reads. *)
Record xcb_event : Type := {
  ev_response_type : Z;   (* uint8_t *)
  ev_child : Z;
  ev_root : Z
}.

Definition XCB_BUTTON_PRESS : Z := 4.
Definition XCB_BUTTON_RELEASE : Z := 5.
Definition XCB_GRAB_STATUS_SUCCESS : Z := 0.

(** [XCB_EVENT_RESPONSE_TYPE(e)], that is [e->response_type & ~0x80]. *)
Definition XCB_EVENT_RESPONSE_TYPE (ev : xcb_event) : Z :=
  Z.land (ev_response_type ev) (Z.lnot 128).

Inductive x_request : Type :=
| xcb_open_font
| xcb_create_glyph_cursor
| xcb_grab_pointer (status : Z)
| xcb_allow_events
| xcb_ungrab_pointer.

(** What one event does to [target] and [buttons_pressed] (an [int]). *)
Definition select_step (ev : xcb_event) (target buttons_pressed : Z) : Z * Z :=
  if XCB_EVENT_RESPONSE_TYPE ev =? XCB_BUTTON_PRESS then
    let target :=
      if target =? XCB_NONE then
        let target := ev_child ev in
        if target =? XCB_NONE then ev_root ev else target
      else target in
    (target, int32_add buttons_pressed 1)
  else if XCB_EVENT_RESPONSE_TYPE ev =? XCB_BUTTON_RELEASE then
    (target, if 0 <? buttons_pressed then int32_sub buttons_pressed 1 else buttons_pressed)
  else (target, buttons_pressed).

(** The loop of [inspect_select_window].  [events] is what the successive
    calls of [xcb_wait_for_event] return ([None]: the connection is lost);
    when it is used up the function is still waiting, and the result is
    [None]. *)
Fixpoint select_loop (events : list (option xcb_event)) (target buttons_pressed : Z)
    (log : list x_request) : option Z * list x_request :=
  if (target =? XCB_NONE) || (0 <? buttons_pressed) then
    let log := xcb_allow_events :: log in
    match events with
    | [] => (None, log)
    | None :: _ => (Some 1, log)
    | Some ev :: rest =>
      let '(target, buttons_pressed) := select_step ev target buttons_pressed in
      select_loop rest target buttons_pressed log
    end
  else (Some target, xcb_ungrab_pointer :: log).

(** [inspect_select_window] *)
Definition inspect_select_window (grab_status : Z) (events : list (option xcb_event))
    : option Z * list x_request :=
  let log := [xcb_grab_pointer grab_status; xcb_create_glyph_cursor; xcb_open_font] in
  if negb (grab_status =? XCB_GRAB_STATUS_SUCCESS) then (Some 1, log)
  else select_loop events XCB_NONE 0 log.

(** A button press, a button release; the window a press picks. *)
Definition is_press (ev : xcb_event) : bool :=
  XCB_EVENT_RESPONSE_TYPE ev =? XCB_BUTTON_PRESS.

Definition is_release (ev : xcb_event) : bool :=
  XCB_EVENT_RESPONSE_TYPE ev =? XCB_BUTTON_RELEASE.

Definition is_button (ev : xcb_event) : bool := is_press ev || is_release ev.

Definition picked (ev : xcb_event) : Z :=
  if ev_child ev =? XCB_NONE then ev_root ev else ev_child ev.

(** The events that are neither lost connections nor button events are
    dropped. *)
Definition button_events (events : list (option xcb_event)) : list (option xcb_event) :=
  List.filter (fun e => match e with Some ev => is_button ev | None => true end) events.

(** The number of times the picker has waited for an event. *)
Definition events_awaited (log : list x_request) : nat :=
  length (List.filter (fun r => match r with xcb_allow_events => true | _ => false end) log).

(** The pointer has been released: the last request is the ungrab. *)
Definition pointer_released (log : list x_request) : Prop :=
  exists rest, log = xcb_ungrab_pointer :: rest.

(** Events that are delivered and are no button events. *)
Definition no_button_events (events : list (option xcb_event)) : Prop :=
  Forall (fun e => exists ev, e = Some ev /\ is_button ev = false) events.

Definition sample_event (response_type child root : Z) : option xcb_event :=
  Some {| ev_response_type := response_type; ev_child := child; ev_root := root |}.

(** Pointer motion, a click on window 77 with a second button pressed in
    between on window 88, more motion. *)
Definition sample_events : list (option xcb_event) :=
  [sample_event 6 0 1; sample_event 4 77 1; sample_event 6 77 1; sample_event 4 88 1;
   sample_event 5 77 1; sample_event 133 77 1; sample_event 6 77 1].

(** * Auxiliary notions for the properties of the backend *)

(** A queue family the device loop settles on: it has the graphics bit,
    presents to the X server and supports the surface. *)
Definition queue_family_suitable (q : queue_family_t) : bool :=
  negb (Z.land (qf_queue_flags q) VK_QUEUE_GRAPHICS_BIT =? 0)
  && qf_supports_xcb_presentation q
  && bool_decide (qf_supports_surface q = Some true).

(** The surface query of a queue family came back. *)
Definition surface_query_succeeds (q : queue_family_t) : bool :=
  bool_decide (qf_supports_surface q <> None).

(** A memory type the loops of the image binder settle on: its bit is set
    in [type_bits] and its flags have the bits of [property]. *)
Definition memory_type_suitable (type_bits property : Z) (i : nat) (property_flags : Z)
    : bool :=
  Z.testbit type_bits (Z.of_nat i) && negb (Z.land property_flags property =? 0).

(** A device whose first queue family computes only and whose second one
    draws and presents. *)
Definition sample_device_two_families : physical_device_t :=
  {| pd_handle := 4%positive;
     pd_api_version := VK_API_VERSION_1_3;
     pd_enumerate_count := true;
     pd_extensions := Some all_extensions;
     pd_min_imported_host_pointer_alignment := 4096;
     pd_queue_families :=
       [{| qf_queue_flags := 2; qf_supports_xcb_presentation := true;
           qf_supports_surface := Some true |};
        sample_queue_family] |}.

Definition sample_device_run : outcome (bool * vulkan_data) * list call :=
  vk_create_device (init_device (sample_init_answers [sample_device_two_families]))
    sample_session vulkan_data_zero [].

Definition sample_device_vd : vulkan_data :=
  match fst sample_device_run with
  | Done (_, vd) => vd
  | _ => vulkan_data_zero
  end.

(** What the backend knows about its swap chain images. *)
Definition swapchain_state (vd : vulkan_data)
    : Z * option (list handle) * option (list VkImageLayout) * option (list handle)
      * option (list Z) * Z :=
  (vd_swapchain_image_count vd, vd_swapchain_images vd, vd_swapchain_image_layouts vd,
   vd_swapchain_image_views vd, vd_buffer_ages vd, vd_swapchain_image_index vd).

(** The start-up of the sample session, run on a swap chain of three
    images the first of which is acquired. *)
Definition sample_swapchain_answers : swapchain_answers :=
  {| swa_surface_capabilities :=
       Some {| current_extent_width := 1920; current_extent_height := 1080;
               min_image_count := 3 |};
     swa_surface_format_count := true;
     swa_surface_formats := [VK_FORMAT_R8G8B8A8_UNORM; VK_FORMAT_B8G8R8A8_UNORM];
     swa_indeterminate_format := VK_FORMAT_UNDEFINED;
     swa_create_swapchain := Some 10%positive;
     swa_swapchain_images := Some [11%positive; 12%positive; 13%positive];
     swa_create_image_views := [Some 14%positive; Some 15%positive; Some 16%positive];
     swa_acquire_next_image := Some 0;
     swa_wait_for_fences := true;
     swa_reset_fences := true |}.

Definition sample_swapchain_run : outcome (bool * vulkan_data) * list call :=
  vk_create_swapchain sample_swapchain_answers
    (set_vd_swapchain_image_count 0
       (set_vd_swapchain_images None
          (set_vd_swapchain_image_layouts None
             (set_vd_swapchain_image_views None (set_vd_buffer_ages None sample_vd)))))
    true [].

Definition sample_swapchain_vd : vulkan_data :=
  match fst sample_swapchain_run with
  | Done (_, vd) => vd
  | _ => vulkan_data_zero
  end.

(** * Objects and who holds them

    The objects the backend creates through Vulkan, xcb and the C library,
    read off the log: a call that succeeds in creating an object, a call
    that destroys one.  The file descriptors of a DMA-BUF that come with a
    reply of the X server are objects of the process as well. *)

Inductive object_kind : Type :=
| Instance_object | Connection | Surface | Device | Fence | Semaphore | Swapchain
| Image_view | Descriptor_pool | Descriptor_set_layout | Sampler | Shader_module
| Pipeline_layout | Pipeline | Command_pool | Command_buffer
| Image | Memory | Buffer | Descriptor_set
| Shm_segment | Shm_attachment | X_shm_segment
| File_descriptor.

Definition object : Type := object_kind * Z.

#[global] Instance object_kind_eq_dec : EqDecision object_kind.
Proof. solve_decision. Defined.

Definition object_eq_dec : forall a b : object, {a = b} + {a <> b} := decide_rel eq.

(** An object behind a handle, none behind the null handle. *)
Definition obj (k : object_kind) (h : handle) : list object :=
  if is_null h then [] else [(k, h)].

Definition obj_created (k : object_kind) (r : option handle) : list object :=
  match r with
  | Some h => [(k, h)]
  | None => []
  end.

(** What a call creates; a reply to [xcb_dri3_buffers_from_pixmap] brings
    its file descriptors, open, into the process. *)
Definition creates (c : call) : list object :=
  match c with
  | xcb_dri3_buffers_from_pixmap _ (Some fds) => (fun fd => (File_descriptor, fd)) <$> fds
  | vkCreateInstance _ _ r => obj_created Instance_object r
  | xcb_connect connection => [(Connection, connection)]
  | vkCreateXcbSurfaceKHR _ _ _ r => obj_created Surface r
  | vkCreateDevice _ _ _ r => obj_created Device r
  | vkCreateFence _ _ r => obj_created Fence r
  | vkCreateSemaphore _ r => obj_created Semaphore r
  | vkCreateSwapchainKHR _ _ _ _ _ r => obj_created Swapchain r
  | vkCreateImageView _ _ _ _ r => obj_created Image_view r
  | vkCreateDescriptorPool _ _ _ _ r => obj_created Descriptor_pool r
  | vkCreateDescriptorSetLayout _ r => obj_created Descriptor_set_layout r
  | vkCreateSampler _ r => obj_created Sampler r
  | vkCreateShaderModule _ _ r => obj_created Shader_module r
  | vkCreatePipelineLayout _ _ _ r => obj_created Pipeline_layout r
  | vkCreateGraphicsPipelines _ _ _ r => obj_created Pipeline r
  | vkCreateCommandPool _ _ r => obj_created Command_pool r
  | vkAllocateCommandBuffers _ _ r => obj_created Command_buffer r
  | vkCreateImage _ _ _ _ r => obj_created Image r
  | vkAllocateMemory _ _ _ _ r => obj_created Memory r
  | vkCreateBuffer _ _ r => obj_created Buffer r
  | vkAllocateDescriptorSets _ _ _ r => obj_created Descriptor_set r
  | shmget _ id => if id =? -1 then [] else [(Shm_segment, id)]
  | shmat _ address => if address =? -1 then [] else [(Shm_attachment, address)]
  | xcb_shm_attach segment _ ok => if ok then [(X_shm_segment, segment)] else []
  | _ => []
  end.

(** What a call destroys; [xcb_disconnect] of the null pointer does
    nothing.  A file descriptor that [vkAllocateMemory] imports with success
    is the driver's from then on and no longer the caller's to close; one
    whose import fails stays with the caller. *)
Definition destroys (c : call) : list object :=
  match c with
  | vkAllocateMemory _ _ _ (Import_fd fd) (Some _) => [(File_descriptor, fd)]
  | vkDestroyInstance instance => [(Instance_object, instance)]
  | xcb_disconnect connection => obj Connection connection
  | vkDestroySurfaceKHR _ surface => [(Surface, surface)]
  | vkDestroyDevice device => [(Device, device)]
  | vkDestroyFence _ fence => [(Fence, fence)]
  | vkDestroySemaphore _ semaphore => [(Semaphore, semaphore)]
  | vkDestroySwapchainKHR _ swapchain => [(Swapchain, swapchain)]
  | vkDestroyImageView _ view => [(Image_view, view)]
  | vkDestroyDescriptorPool _ pool => [(Descriptor_pool, pool)]
  | vkDestroyDescriptorSetLayout _ layout => [(Descriptor_set_layout, layout)]
  | vkDestroySampler _ sampler => [(Sampler, sampler)]
  | vkDestroyShaderModule _ module => [(Shader_module, module)]
  | vkDestroyPipelineLayout _ layout => [(Pipeline_layout, layout)]
  | vkDestroyPipeline _ pipeline => [(Pipeline, pipeline)]
  | vkDestroyCommandPool _ pool => [(Command_pool, pool)]
  | vkFreeCommandBuffers _ _ command_buffer => [(Command_buffer, command_buffer)]
  | vkDestroyImage _ image => [(Image, image)]
  | vkFreeMemory _ memory => [(Memory, memory)]
  | vkDestroyBuffer _ buffer => [(Buffer, buffer)]
  | vkFreeDescriptorSets _ _ set => [(Descriptor_set, set)]
  | shmctl_IPC_RMID id => [(Shm_segment, id)]
  | shmdt address => [(Shm_attachment, address)]
  | xcb_shm_detach segment => [(X_shm_segment, segment)]
  | _ => []
  end.

Definition created_objects (h : list call) : list object := flat_map creates h.
Definition destroyed_objects (h : list call) : list object := flat_map destroys h.

(** How often an object occurs. *)
Definition occurrences (o : object) (l : list object) : Z :=
  Z.of_nat (count_occ object_eq_dec l o).

(** The same, object by object. *)
Fixpoint occurrences_each (o : object) (l : list object) : Z :=
  match l with
  | [] => 0
  | a :: l' => occurrences o [a] + occurrences_each o l'
  end.

(** The objects the backend holds in its [vulkan_data]: one per handle
    that is not null, and the views of the swap chain images. *)
Definition held_views (vd : vulkan_data) : list object :=
  match vd_swapchain_image_views vd with
  | Some views => flat_map (obj Image_view) (take (Z.to_nat (vd_swapchain_image_count vd)) views)
  | None => []
  end.

Definition held (vd : vulkan_data) : list object :=
  obj Instance_object (vd_instance vd)
  ++ obj Connection (vd_surface_connection vd)
  ++ obj Surface (vd_surface vd)
  ++ obj Device (vd_device vd)
  ++ obj Fence (vd_acquire_next_image_fence vd)
  ++ obj Fence (vd_queue_submit_fence vd)
  ++ obj Semaphore (vd_semaphore vd)
  ++ obj Swapchain (vd_swapchain vd)
  ++ held_views vd
  ++ obj Descriptor_pool (vd_descriptor_pool vd)
  ++ obj Descriptor_set_layout (vd_descriptor_set_layout vd)
  ++ obj Sampler (vd_sampler vd)
  ++ obj Pipeline_layout (vd_compose_pipeline_layout vd)
  ++ obj Pipeline (vd_compose_pipeline vd)
  ++ obj Pipeline_layout (vd_fill_pipeline_layout vd)
  ++ obj Pipeline (vd_fill_pipeline vd)
  ++ obj Command_pool (vd_command_pool vd)
  ++ obj Command_buffer (vd_command_buffer vd).

(** Every object created up to now whose kind is among [K] is destroyed or
    held by the backend, and nothing else is. *)
Definition tracks (K : object_kind -> Prop) (vd : vulkan_data) (h : list call) : Prop :=
  forall o,
    K (fst o) ->
    occurrences o (created_objects h)
    = occurrences o (destroyed_objects h) + occurrences o (held vd).

Definition any_kind (k : object_kind) : Prop := True.
Definition no_shader_module (k : object_kind) : Prop := k <> Shader_module.

(** The calls by which the loop of [vk_create_swapchain] creates the views
    [new_views] for the images from index [k] on, oldest first, and the
    call that fails for image [k]. *)
Definition view_call (vd : vulkan_data) (k : nat) (r : option handle) : call :=
  vkCreateImageView (vd_device vd)
    (array_get VK_NULL_HANDLE (vd_swapchain_images vd) (Z.of_nat k))
    VK_FORMAT_B8G8R8A8_UNORM identity_components r.

Definition view_calls (vd : vulkan_data) (k : nat) (new_views : list handle) : list call :=
  imap (fun j v => view_call vd (k + j) (Some v)) new_views.

(** The handles of the backend behind which an object can be, in the order
    of their creation, and all that decides what the backend holds. *)
Definition handle_fields (vd : vulkan_data) : list handle :=
  [vd_instance vd; vd_surface_connection vd; vd_surface vd; vd_device vd;
   vd_acquire_next_image_fence vd; vd_queue_submit_fence vd; vd_semaphore vd;
   vd_swapchain vd; vd_descriptor_pool vd; vd_descriptor_set_layout vd; vd_sampler vd;
   vd_compose_pipeline_layout vd; vd_compose_pipeline vd; vd_fill_pipeline_layout vd;
   vd_fill_pipeline vd; vd_command_pool vd; vd_command_buffer vd].

Definition held_fields (vd : vulkan_data) : list handle * option (list handle) * Z :=
  (handle_fields vd, vd_swapchain_image_views vd, vd_swapchain_image_count vd).

(** The start-up has not yet come to the handles from position [n] on, nor,
    up to the swap chain, to the array of views. *)
Definition fresh_from (n : nat) (vd : vulkan_data) : Prop :=
  Forall (fun h => h = VK_NULL_HANDLE) (drop n (handle_fields vd)) /\
  ((n <= 7)%nat -> vd_swapchain_image_views vd = None).

(** A computation that creates nothing and destroys the objects [objs],
    each as often as it is listed. *)
Definition releases (objs : list object) (m : M unit) : Prop :=
  forall h, exists t,
    m h = (Done tt, t ++ h) /\
    created_objects t = [] /\
    forall o, occurrences o (destroyed_objects t) = occurrences o objs.

(** Every object created whose kind is among [K] has been destroyed as
    often as it was created, and nothing else of these kinds has. *)
Definition all_destroyed (K : object_kind -> Prop) (h : list call) : Prop :=
  forall o,
    K (fst o) ->
    occurrences o (created_objects h) = occurrences o (destroyed_objects h).

(** ** The shader stages of [vk_create_pipelines] *)

Definition answered {A} (a : option A) : bool :=
  match a with Some _ => true | None => false end.

(** Both modules of a pair of shaders come into being. *)
Definition shader_modules_created (e : shader_answers) : bool :=
  sha_compiler_initialize e && sha_compile_vertex e && answered (sha_vertex_module e)
  && sha_compile_fragment e && answered (sha_fragment_module e).

(** The compose pipeline comes into being, the fill pipeline layout or
    the fill pipeline does not. *)
Definition fails_after_compose_pipeline (e : pipeline_answers) : bool :=
  shader_modules_created (pa_compose_shaders e)
  && shader_modules_created (pa_fill_shaders e)
  && answered (pa_compose_pipeline_layout e)
  && answered (pa_compose_pipeline e)
  && negb (answered (pa_fill_pipeline_layout e) && answered (pa_fill_pipeline e)).

Definition compose_modules (e : pipeline_answers) : list object :=
  obj_created Shader_module (created (sha_vertex_module (pa_compose_shaders e)))
  ++ obj_created Shader_module (created (sha_fragment_module (pa_compose_shaders e))).

Definition is_stage_array_free (c : call) : bool :=
  match c with
  | free Shader_stage_create_infos => true
  | _ => false
  end.

(** How often an array of shader stages is freed. *)
Definition stage_array_frees (t : list call) : nat := length (List.filter is_stage_array_free t).

(** ** The objects of a bound image *)

(** Every kind of object but those of shared memory: the segments and
    attachments of System V and the segments of the X server. *)
Definition outside_shared_memory (k : object_kind) : bool :=
  match k with
  | Shm_segment | Shm_attachment | X_shm_segment => false
  | _ => true
  end.

(** The objects that are counted for a backend: all of them under DRI3, for
    which shared memory is not used, those outside shared memory else. *)
Definition counted (vd : vulkan_data) (o : object) : Prop :=
  vd_bind_pixmap_strategy vd = BIND_PIXMAP_STRATEGY_DRI3 \/ outside_shared_memory (fst o) = true.

(** What [vk_release_image] destroys of an image that goes. *)
Definition image_objects (strategy : bind_pixmap_strategy_t) (vi : vulkan_image) : list object :=
  obj Descriptor_set (vi_descriptor_set vi)
  ++ obj Image_view (vi_image_view vi)
  ++ match strategy with
     | BIND_PIXMAP_STRATEGY_SHM =>
       obj Buffer (vi_staging_buffer vi)
       ++ obj Memory (vi_staging_memory vi)
       ++ (if vi_shm_segment vi =? XCB_NONE then [] else [(X_shm_segment, vi_shm_segment vi)])
       ++ (if vi_shm_address vi =? -1 then [] else [(Shm_attachment, vi_shm_address vi)])
       ++ (if vi_shm_id vi =? -1 then [] else [(Shm_segment, vi_shm_id vi)])
     | BIND_PIXMAP_STRATEGY_DRI3 => []
     end
  ++ obj Image (vi_image vi)
  ++ obj Memory (vi_memory vi).

Definition images_objects (vd : vulkan_data) (images : list backend_image) : list object :=
  flat_map (fun image => image_objects (vd_bind_pixmap_strategy vd) (bi_inner image)) images.

(** The import of the buffer of a pixmap into device memory succeeds: the
    image is created, the properties of the descriptor are known, a memory
    type suits, and [vkAllocateMemory] succeeds. *)
Definition import_succeeds (e : dri3_answers) : bool :=
  answered (d3_create_image e)
  && match d3_memory_fd_properties e with
     | Some fd_memory_type_bits =>
       negb (find_memory_type
               (Z.land (mr_memory_type_bits (d3_memory_requirements e)) fd_memory_type_bits)
               VK_MEMORY_PROPERTY_DEVICE_LOCAL_BIT (d3_memory_types e) 0 =? UINT32_MAX)
       && answered (d3_allocate_memory e)
     | None => false
     end.

(** The file descriptors a bind leaves open and forgets: under DRI3, those
    of the reply, unless the import succeeds.  [vk_bind_pixmap_dri3] has no
    call of [close], and the handle of the image has no field for them. *)
Definition descriptors_left_open (strategy : bind_pixmap_strategy_t) (e : bind_answers)
    : list object :=
  match strategy, d3_buffers_from_pixmap (ba_dri3 e) with
  | BIND_PIXMAP_STRATEGY_DRI3, Some r =>
    if import_succeeds (ba_dri3 e) then []
    else (fun fd => (File_descriptor, fd)) <$> reply_fds r
  | _, _ => []
  end.

(** The same, for the binds of a session. *)
Definition session_descriptors_left_open (strategy : bind_pixmap_strategy_t)
    (ops : list op) : list object :=
  flat_map (fun o => match o with
                     | Bind_pixmap e _ _ _ => descriptors_left_open strategy e
                     | _ => []
                     end) ops.

(** Every counted object created up to now is destroyed, held by the
    backend, held by an image the orchestrator has a handle of, or among
    the objects [lost]. *)
Definition session_tracks (lost : list object) (s : session_state) (h : list call) : Prop :=
  forall o,
    counted (ss_vd s) o ->
    occurrences o (created_objects h)
    = occurrences o (destroyed_objects h)
      + occurrences o (held (ss_vd s))
      + occurrences o (images_objects (ss_vd s) (ss_images s))
      + occurrences o lost.

(** As [releases], for a computation with a result, of which [Q] holds. *)
Definition releases_to {A} (Q : A -> Prop) (objs : list object) (m : M A) : Prop :=
  forall h, exists a t,
    m h = (Done a, t ++ h) /\
    Q a /\
    created_objects t = [] /\
    forall o, occurrences o (destroyed_objects t) = occurrences o objs.

Definition is_free_pixmap (pixmap : Z) (c : call) : bool :=
  match c with
  | xcb_free_pixmap p => p =? pixmap
  | _ => false
  end.

(** How often the pixmap is freed. *)
Definition pixmap_frees (pixmap : Z) (t : list call) : nat :=
  length (List.filter (is_free_pixmap pixmap) t).

(** A start-up that finds no physical device, and its log. *)
Definition sample_failed_start : outcome (option vulkan_data) * list call :=
  vk_init (sample_init_answers []) sample_session 9 [].

(** A session in which every image bound is released again. *)
Definition sample_ops_all_released : list op :=
  [Frame (sample_frame true); sample_bind; Frame (sample_frame true);
   Release_image 0 true].

(** A bind under DRI3 for which no memory can be allocated. *)
Definition sample_bind_answers_no_memory : bind_answers :=
  with_dri3
    {| d3_buffers_from_pixmap := d3_buffers_from_pixmap sample_dri3_answers;
       d3_create_image := d3_create_image sample_dri3_answers;
       d3_memory_requirements := d3_memory_requirements sample_dri3_answers;
       d3_memory_types := d3_memory_types sample_dri3_answers;
       d3_memory_fd_properties := d3_memory_fd_properties sample_dri3_answers;
       d3_allocate_memory := None;
       d3_bind_image_memory := true |}
    sample_bind_answers.

(** * Sessions, call by call *)

(** The calls [vk_compose] and [vk_fill] can make. *)
Definition draw_call (c : call) : bool :=
  match c with
  | vkCmdBeginRendering _ _ _ | vkCmdEndRendering _ | vkCmdBindPipeline _ _
  | vkCmdSetScissor _ _ | vkCmdBindDescriptorSets _ _ _ | vkCmdPushConstants _ _ _ _ _ _
  | vkCmdDraw _ _ _ _ _ | vkCmdPipelineBarrier _ _ _ _
  | vkCmdCopyBufferToImage _ _ _ _ _ _ _ | xcb_shm_get_image _ _ _ _ _ _ _ => true
  | _ => false
  end.

(** The calls [vk_bind_pixmap] and [vk_release_image] can make. *)
Definition binder_call (c : call) : bool :=
  match c with
  | xcb_dri3_buffers_from_pixmap _ _
  | vkCreateImage _ _ _ _ _ | vkAllocateMemory _ _ _ _ _ | vkBindImageMemory _ _ _ _
  | shmget _ _ | shmat _ _ | xcb_shm_attach _ _ _ | vkCreateBuffer _ _ _
  | vkBindBufferMemory _ _ _ _ | vkAllocateDescriptorSets _ _ _ _
  | vkUpdateDescriptorSets _ _ _ _ | vkFreeDescriptorSets _ _ _ | vkDestroyImage _ _
  | vkFreeMemory _ _ | vkDestroyBuffer _ _ | xcb_shm_detach _ | shmdt _
  | shmctl_IPC_RMID _ | xcb_free_pixmap _
  | vkCreateImageView _ _ _ _ _ | vkDestroyImageView _ _
  | vkWaitForFences _ _ _ | vkResetFences _ _ _ | vkResetCommandBuffer _ _
  | vkBeginCommandBuffer _ _ | vkCmdPipelineBarrier _ _ _ _ | vkEndCommandBuffer _ _
  | vkQueueSubmit _ _ _ _ _ _ | vkDeviceWaitIdle _ _
  | free Backend_image | free Vulkan_image => true
  | _ => false
  end.

(** The backend after [vk_prepare]. *)
Definition prepare_result (vd : vulkan_data) : vulkan_data :=
  set_vd_swapchain_image_layouts
    (array_set (vd_swapchain_image_layouts vd) (vd_swapchain_image_index vd)
       VK_IMAGE_LAYOUT_COLOR_ATTACHMENT_OPTIMAL) vd.

(** The calls of [vk_present], oldest first, and the backend after it. *)
Definition present_calls (e : present_answers) (vd : vulkan_data) : list call :=
  [vkCmdPipelineBarrier (vd_command_buffer vd)
     (array_get VK_NULL_HANDLE (vd_swapchain_images vd) (vd_swapchain_image_index vd))
     VK_IMAGE_LAYOUT_COLOR_ATTACHMENT_OPTIMAL VK_IMAGE_LAYOUT_PRESENT_SRC_KHR;
   vkEndCommandBuffer (vd_command_buffer vd) (present_end_command_buffer e);
   vkQueueSubmit (vd_queue vd) (vd_command_buffer vd) [vd_semaphore vd] [vd_semaphore vd]
     (vd_queue_submit_fence vd) (present_queue_submit e);
   vkQueuePresentKHR (vd_queue vd) (vd_swapchain vd) (vd_swapchain_image_index vd)
     (present_queue_present e);
   vkAcquireNextImageKHR (vd_device vd) (vd_swapchain vd) (vd_semaphore vd)
     (vd_acquire_next_image_fence vd) (present_acquire_next_image e);
   vkWaitForFences (vd_device vd) (vd_acquire_next_image_fence vd)
     (present_wait_for_fences e);
   vkResetFences (vd_device vd) (vd_acquire_next_image_fence vd) (present_reset_fences e)].

Definition present_result (e : present_answers) (vd : vulkan_data) : vulkan_data :=
  set_vd_swapchain_image_index
    (default (vd_swapchain_image_index vd) (present_acquire_next_image e))
    (set_vd_buffer_ages
       (update_buffer_ages (vd_swapchain_image_index vd) (vd_swapchain_image_count vd)
          (vd_buffer_ages vd))
       (set_vd_swapchain_image_layouts
          (array_set (vd_swapchain_image_layouts vd) (vd_swapchain_image_index vd)
             VK_IMAGE_LAYOUT_PRESENT_SRC_KHR) vd)).

(** ** Rendering scopes

    Dynamic rendering, read off the calls, oldest first: a scope is opened
    by [vkCmdBeginRendering] and closed by [vkCmdEndRendering]; state
    changes and draws need an open scope, layout transitions and copies a
    closed one.  [None]: a call was made in the wrong place. *)
Definition render_step (inside : bool) (c : call) : option bool :=
  match c with
  | vkCmdBeginRendering _ _ _ => if inside then None else Some true
  | vkCmdEndRendering _ => if inside then Some false else None
  | vkCmdBindPipeline _ _ | vkCmdSetScissor _ _ | vkCmdBindDescriptorSets _ _ _
  | vkCmdPushConstants _ _ _ _ _ _ | vkCmdDraw _ _ _ _ _ =>
    if inside then Some true else None
  | vkCmdPipelineBarrier _ _ _ _ | vkCmdCopyBufferToImage _ _ _ _ _ _ _
  | vkEndCommandBuffer _ _ | vkBeginCommandBuffer _ _ | vkResetCommandBuffer _ _
  | vkQueueSubmit _ _ _ _ _ _ =>
    if inside then None else Some false
  | _ => Some inside
  end.

Fixpoint render_run (inside : bool) (l : list call) : option bool :=
  match l with
  | [] => Some inside
  | c :: rest =>
    match render_step inside c with
    | Some inside' => render_run inside' rest
    | None => None
    end
  end.

(** Every scope is closed, and every call was made in its place. *)
Definition rendering_scoped (l : list call) : bool :=
  match render_run false l with
  | Some false => true
  | _ => false
  end.

(** A computation that returns takes the scopes from state [s] to [s']. *)
Definition moves {A} (s s' : bool) (m : M A) : Prop :=
  forall h a h', m h = (Done a, h') ->
    exists t, h' = t ++ h /\ render_run s (rev t) = Some s'.

(** What one call of the orchestrator amounts to: a frame prepares, draws
    and presents; a bind or a release leaves the backend as it is and makes
    calls of the image binder only. *)
Definition op_shape (s : session_state) (o : op) (h : list call) (s' : session_state)
    (h' : list call) : Prop :=
  match o with
  | Frame f =>
    exists draws,
      Forall (fun c => draw_call c = true) draws /\
      rendering_scoped (rev draws) = true /\
      ss_vd s' = present_result (frame_present f) (prepare_result (ss_vd s)) /\
      ss_images s' = ss_images s /\
      h' = rev (present_calls (frame_present f) (prepare_result (ss_vd s)))
           ++ draws ++ rev (prepare_calls (frame_prepare f) (ss_vd s)) ++ h
  | _ =>
    exists t, Forall (fun c => binder_call c = true) t /\ ss_vd s' = ss_vd s /\ h' = t ++ h
  end.

(** The images handed to [vkQueuePresentKHR], most recent first. *)
Fixpoint present_requests (h : list call) : list Z :=
  match h with
  | [] => []
  | vkQueuePresentKHR _ _ image_index _ :: rest => image_index :: present_requests rest
  | _ :: rest => present_requests rest
  end.

(** The age of image [i] by the present requests made: 1 when it was the
    last one presented, one more for every request since, -1 when it has
    never been presented. *)
Fixpoint frames_since (i : Z) (requests : list Z) : Z :=
  match requests with
  | [] => -1
  | image_index :: rest =>
    if image_index =? i then 1
    else if frames_since i rest =? -1 then -1 else frames_since i rest + 1
  end.

(** Every image index the swap chain hands out in the session is one of
    its [count] images. *)
Definition acquire_in_range (count : Z) (o : op) : bool :=
  match o with
  | Frame f =>
    match present_acquire_next_image (frame_present f) with
    | Some i => (0 <=? i) && (i <? count)
    | None => true
    end
  | _ => true
  end.

Definition acquires_in_range (count : Z) (ops : list op) : bool :=
  forallb (acquire_in_range count) ops.

(** The calls [vk_init] and [vk_deinit] can make. *)
Definition init_call (c : call) : bool :=
  match c with
  | vkCreateInstance _ _ _ | xcb_connect _ | vkCreateXcbSurfaceKHR _ _ _ _
  | vkCreateDevice _ _ _ _ | vkCreateFence _ _ _ | vkCreateSemaphore _ _
  | vkCreateSwapchainKHR _ _ _ _ _ _ | vkCreateImageView _ _ _ _ _
  | vkAcquireNextImageKHR _ _ _ _ _ | vkWaitForFences _ _ _ | vkResetFences _ _ _
  | vkCreateDescriptorPool _ _ _ _ _ | vkCreateDescriptorSetLayout _ _
  | vkCreateSampler _ _ | vkCreateShaderModule _ _ _ | vkDestroyShaderModule _ _
  | vkCreatePipelineLayout _ _ _ _ | vkCreateGraphicsPipelines _ _ _ _
  | vkCreateCommandPool _ _ _ | vkAllocateCommandBuffers _ _ _
  | vkDeviceWaitIdle _ _ | vkFreeCommandBuffers _ _ _ | vkDestroyCommandPool _ _
  | vkDestroyPipeline _ _ | vkDestroyPipelineLayout _ _ | vkDestroySampler _ _
  | vkDestroyDescriptorSetLayout _ _ | vkDestroyDescriptorPool _ _
  | vkDestroyImageView _ _ | vkDestroySwapchainKHR _ _ | vkDestroySemaphore _ _
  | vkDestroyFence _ _ | vkDestroyDevice _ | vkDestroySurfaceKHR _ _
  | xcb_disconnect _ | vkDestroyInstance _ | free _ => true
  | _ => false
  end.

(** A frame after which the swap chain hands out image [next]. *)
Definition sample_frame_next (next : Z) : frame :=
  {| frame_prepare := frame_prepare (sample_frame true);
     frame_draws := frame_draws (sample_frame true);
     frame_present :=
       {| present_end_command_buffer := true; present_queue_submit := true;
          present_queue_present := true; present_acquire_next_image := Some next;
          present_wait_for_fences := true; present_reset_fences := true |} |}.

(** Three frames on the two images of the sample swap chain, in turn. *)
Definition sample_ops_three_frames : list op :=
  [Frame (sample_frame_next 1); sample_bind; Frame (sample_frame_next 0);
   Frame (sample_frame_next 1)].

(** The buffer ages of a swap chain of [n] images follow the present
    requests, as long as fewer than [INT32_MAX] were made. *)
Definition ages_follow_requests (n : nat) (s : session_state) (h : list call) : Prop :=
  vd_swapchain_image_count (ss_vd s) = Z.of_nat n /\
  0 <= vd_swapchain_image_index (ss_vd s) < Z.of_nat n /\
  (Z.of_nat (length (present_requests h)) < INT32_MAX ->
   exists ages,
     vd_buffer_ages (ss_vd s) = Some ages /\ length ages = n /\
     forall i, (i < n)%nat ->
       ages !! i = Some (frames_since (Z.of_nat i) (present_requests h))).

(** The layout the backend has on record for image [i] by the present
    requests made: undefined until the image is presented for the first
    time, and the layout of presentation from then on. *)
Definition layout_on_record (i : Z) (requests : list Z) : VkImageLayout :=
  if frames_since i requests =? -1 then VK_IMAGE_LAYOUT_UNDEFINED
  else VK_IMAGE_LAYOUT_PRESENT_SRC_KHR.

Definition layouts_follow_requests (n : nat) (s : session_state) (h : list call) : Prop :=
  0 <= vd_swapchain_image_index (ss_vd s) < Z.of_nat n /\
  exists layouts,
    vd_swapchain_image_layouts (ss_vd s) = Some layouts /\ length layouts = n /\
    forall i, (i < n)%nat ->
      layouts !! i = Some (layout_on_record (Z.of_nat i) (present_requests h)).

(** * Verified properties *)

(** ** Machine integers *)

Lemma to_int32_small x : - 2 ^ 31 <= x < 2 ^ 31 -> to_int32 x = x.
Proof.
  intros Hx. unfold to_int32, wrap_signed.
  replace (32 - 1) with 31 by lia.
  rewrite Z.mod_small; lia.
Qed.

Lemma int32_add_no_overflow a b :
  - 2 ^ 31 <= a + b < 2 ^ 31 -> int32_add a b = a + b.
Proof. apply to_int32_small. Qed.

(** ** Running the monad *)

Lemma bind_done {A B} (m : M A) (k : A -> M B) h a h' :
  m h = (Done a, h') -> bind m k h = k a h'.
Proof. intros Hm. unfold bind. now rewrite Hm. Qed.

Lemma bind_aborted {A B} (m : M A) (k : A -> M B) h h' :
  m h = (Aborted, h') -> bind m k h = (Aborted, h').
Proof. intros Hm. unfold bind. now rewrite Hm. Qed.

(** ** Buffer ages *)

Lemma age_step_lookup (index : Z) (l : list Z) (i j : nat) :
  exists l',
    age_step index (Some l) i = Some l' /\
    length l' = length l /\
    l' !! j = if decide (j = i) then loop_age index i <$> l !! i else l !! j.
Proof.
  unfold age_step, array_get, array_set, loop_age.
  rewrite Nat2Z.id.
  destruct (l !! i) as [a|] eqn:Hi; simpl.
  - destruct (negb (Z.of_nat i =? index) && negb (a =? -1)) eqn:Hc.
    + eexists; split; [reflexivity|]. split; [apply length_insert|].
      destruct (decide (j = i)) as [->|Hne].
      * apply list_lookup_insert_eq. now apply lookup_lt_Some with a.
      * rewrite list_lookup_insert_ne by congruence. reflexivity.
    + exists l. split; [reflexivity|]. split; [reflexivity|].
      destruct (decide (j = i)) as [->|]; [|reflexivity].
      now rewrite Hi.
  - apply lookup_ge_None_1 in Hi.
    exists l. split.
    + destruct (negb (Z.of_nat i =? index) && true); [|reflexivity].
      now rewrite list_insert_ge by lia.
    + split; [reflexivity|].
      destruct (decide (j = i)) as [->|]; [|reflexivity].
      now apply lookup_ge_None_2.
Qed.

(** After [n] rounds the first [n] slots have been visited once each. *)
Lemma age_loop_lookup (index : Z) (n : nat) (l : list Z) :
  exists l',
    fold_left (age_step index) (seq 0 n) (Some l) = Some l' /\
    length l' = length l /\
    forall j, l' !! j = if decide (j < n)%nat then loop_age index j <$> l !! j else l !! j.
Proof.
  induction n as [|n IH].
  - exists l. split; [reflexivity|]. split; [reflexivity|].
    intros j. destruct (decide (j < 0)%nat); [lia|reflexivity].
  - destruct IH as (l1 & Hfold & Hlen & Hlook).
    rewrite seq_S, fold_left_app, Hfold. simpl.
    destruct (age_step_lookup index l1 n n) as (l2 & Hstep & Hlen2 & _).
    exists l2. split; [exact Hstep|]. split; [congruence|].
    intros j. destruct (age_step_lookup index l1 n j) as (l2' & Hstep' & _ & Hj).
    assert (l2' = l2) as -> by congruence.
    rewrite Hj, !Hlook.
    destruct (decide (j = n)) as [->|Hne].
    + destruct (decide (n < n)%nat); [lia|].
      destruct (decide (n < S n)%nat); [reflexivity|lia].
    + destruct (decide (j < n)%nat), (decide (j < S n)%nat); (reflexivity || lia).
Qed.

Lemma update_buffer_ages_lookup (index : Z) (ages : list Z) :
  0 <= index < Z.of_nat (length ages) ->
  exists ages',
    update_buffer_ages index (Z.of_nat (length ages)) (Some ages) = Some ages' /\
    length ages' = length ages /\
    forall i, ages' !! i = age_after index i <$> ages !! i.
Proof.
  intros Hidx. unfold update_buffer_ages, array_set. rewrite Nat2Z.id.
  destruct (age_loop_lookup index (length ages) (<[Z.to_nat index := 1]> ages))
    as (l' & Hfold & Hlen & Hlook).
  rewrite length_insert in Hlen.
  exists l'. split; [exact Hfold|]. split; [exact Hlen|].
  intros i. rewrite Hlook.
  destruct (decide (i < length ages)%nat) as [Hlt|Hge].
  - unfold loop_age, age_after.
    destruct (Z.eqb_spec (Z.of_nat i) index) as [Heq|Hne].
    + subst index. rewrite Nat2Z.id, list_lookup_insert_eq by exact Hlt.
      destruct (lookup_lt_is_Some_2 ages i Hlt) as [a ->]. reflexivity.
    + rewrite list_lookup_insert_ne by lia.
      destruct (ages !! i) as [a|]; [|reflexivity]. simpl.
      destruct (a =? -1) eqn:Ha; [|reflexivity].
      apply Z.eqb_eq in Ha. now subst a.
  - rewrite !(lookup_ge_None_2 ages) by lia.
    rewrite lookup_ge_None_2 by (rewrite length_insert; lia).
    reflexivity.
Qed.

(** What [vk_present] leaves in the struct. *)
Lemma vk_present_buffer_ages e vd h :
  exists vd' h',
    vk_present e vd h = (Done vd', h') /\
    vd_buffer_ages vd' =
      update_buffer_ages (vd_swapchain_image_index vd) (vd_swapchain_image_count vd)
        (vd_buffer_ages vd) /\
    vd_swapchain_image_count vd' = vd_swapchain_image_count vd.
Proof.
  unfold vk_present, bind, ask, emit, ret. simpl.
  destruct (present_acquire_next_image e); eexists _, _; repeat split.
Qed.

(** C1. After [vk_present] the age of the image just presented is 1, the age
    of every other image that had been presented before (age other than -1)
    has gone up by exactly one (in [int32_t], so by one as an integer below
    [INT32_MAX]), and an image never presented keeps the age -1. *)
Theorem present_updates_buffer_ages
    (e : present_answers) (vd : vulkan_data) (h : list call) (ages : list Z) :
  vd_buffer_ages vd = Some ages ->
  vd_swapchain_image_count vd = Z.of_nat (length ages) ->
  0 <= vd_swapchain_image_index vd < Z.of_nat (length ages) ->
  exists vd' h' ages',
    vk_present e vd h = (Done vd', h') /\
    vd_buffer_ages vd' = Some ages' /\
    length ages' = length ages /\
    ages' !! Z.to_nat (vd_swapchain_image_index vd) = Some 1 /\
    forall (i : nat) (a : Z),
      Z.of_nat i <> vd_swapchain_image_index vd ->
      ages !! i = Some a ->
      (a <> -1 ->
         ages' !! i = Some (int32_add a 1) /\
         (- 2 ^ 31 <= a < INT32_MAX -> ages' !! i = Some (a + 1))) /\
      (a = -1 -> ages' !! i = Some (-1)).
Proof.
  intros Hages Hcount Hidx.
  destruct (vk_present_buffer_ages e vd h) as (vd' & h' & Hrun & Hb & _).
  destruct (update_buffer_ages_lookup (vd_swapchain_image_index vd) ages Hidx)
    as (ages' & Hupd & Hlen & Hlook).
  exists vd', h', ages'. split; [exact Hrun|].
  split; [rewrite Hb, Hages, Hcount; exact Hupd|].
  split; [exact Hlen|]. split.
  - rewrite Hlook.
    destruct (lookup_lt_is_Some_2 ages (Z.to_nat (vd_swapchain_image_index vd)))
      as [a ->]; [lia|].
    simpl. unfold age_after. rewrite Z2Nat.id by lia. now rewrite Z.eqb_refl.
  - intros i a Hne Hi. rewrite Hlook, Hi. simpl. unfold age_after.
    destruct (Z.eqb_spec (Z.of_nat i) (vd_swapchain_image_index vd)); [contradiction|].
    split.
    + intros Ha. destruct (Z.eqb_spec a (-1)); [contradiction|].
      split; [reflexivity|]. intros Hr. f_equal.
      apply int32_add_no_overflow. unfold INT32_MAX in Hr. lia.
    + intros ->. reflexivity.
Qed.

Lemma present_updates_buffer_ages_witness :
  exists vd' h' ages',
    vk_present sample_present_answers sample_vd [] = (Done vd', h') /\
    vd_buffer_ages vd' = Some ages' /\
    length ages' = length [1; -1] /\
    ages' !! Z.to_nat (vd_swapchain_image_index sample_vd) = Some 1 /\
    forall (i : nat) (a : Z),
      Z.of_nat i <> vd_swapchain_image_index sample_vd ->
      [1; -1] !! i = Some a ->
      (a <> -1 ->
         ages' !! i = Some (int32_add a 1) /\
         (- 2 ^ 31 <= a < INT32_MAX -> ages' !! i = Some (a + 1))) /\
      (a = -1 -> ages' !! i = Some (-1)).
Proof.
  apply (present_updates_buffer_ages sample_present_answers sample_vd [] [1; -1]).
  - reflexivity.
  - reflexivity.
  - simpl. lia.
Defined.

(** ** Compose and fill *)

Lemma for_each_draw_rect vd layout rects h :
  for_each rects (draw_rect vd layout) h = (Done tt, rev (draw_calls vd layout rects) ++ h).
Proof.
  revert h. induction rects as [|r rects IH]; intros h; [reflexivity|].
  simpl. unfold bind at 1. unfold draw_rect at 1. unfold bind, emit. simpl.
  rewrite IH. f_equal.
  rewrite <- !app_assoc. reflexivity.
Qed.

Lemma count_draws_draw_calls vd layout rects :
  count_draws (draw_calls vd layout rects) = length rects.
Proof.
  unfold count_draws. induction rects as [|r rects IH]; [reflexivity|].
  simpl. now rewrite IH.
Qed.

Lemma count_draws_app t1 t2 : count_draws (t1 ++ t2) = (count_draws t1 + count_draws t2)%nat.
Proof. unfold count_draws. now rewrite List.filter_app, length_app. Qed.

Lemma filter_scissor_draw_calls vd layout rects :
  List.filter is_scissor (draw_calls vd layout rects) = [].
Proof. induction rects as [|r rects IH]; [reflexivity|exact IH]. Qed.

Lemma take_all_rects (rects : list pixman_box32_t) :
  Z.of_nat (length rects) <= INT32_MAX ->
  take (Z.to_nat (to_uint32 (Z.of_nat (length rects)))) rects = rects.
Proof.
  intros Hk. unfold to_uint32, wrap_unsigned.
  rewrite Z.mod_small by (unfold INT32_MAX in Hk; lia).
  rewrite Nat2Z.id. apply firstn_all.
Qed.

(** The log of a compose over at least one rectangle. *)
Lemma vk_compose_calls NDEBUG reply vd image image_coords extents rects h :
  (1 <= length rects)%nat ->
  Z.of_nat (length rects) <= INT32_MAX ->
  vk_compose NDEBUG reply vd image image_coords
    {| region_extents := extents; region_rects := rects |} h
  = (Done vd,
     rev (refresh_calls reply vd (bi_inner image) image_coords extents
          ++ compose_prologue vd (bi_inner image) image_coords extents
          ++ draw_calls vd (vd_compose_pipeline_layout vd) rects
          ++ [vkCmdEndRendering (vd_command_buffer vd)]) ++ h).
Proof.
  intros Hk1 Hk.
  assert ((Z.of_nat (length rects) <? 1) = false) as Hlt by (apply Z.ltb_ge; lia).
  unfold vk_compose, refresh_calls, pixman_region32_rectangles, pixman_region32_extents.
  cbn [region_rects region_extents]. rewrite Hlt, take_all_rects by exact Hk.
  destruct (vd_bind_pixmap_strategy vd);
    unfold bind, when, compose_refresh_shm, bind, ask, emit, ret; cbn beta iota;
    rewrite for_each_draw_rect; simpl;
    rewrite !rev_app_distr; simpl; rewrite <- !app_assoc; reflexivity.
Qed.

Lemma refresh_calls_no_draw_no_scissor reply vd vi image_coords extents :
  count_draws (refresh_calls reply vd vi image_coords extents) = 0%nat /\
  List.filter is_scissor (refresh_calls reply vd vi image_coords extents) = [].
Proof. unfold refresh_calls. destruct (vd_bind_pixmap_strategy vd); split; reflexivity. Qed.

(** The log of a fill over at least one rectangle. *)
Lemma vk_fill_calls NDEBUG vd c extents rects h :
  (1 <= length rects)%nat ->
  Z.of_nat (length rects) <= INT32_MAX ->
  vk_fill NDEBUG vd c {| region_extents := extents; region_rects := rects |} h
  = (Done vd,
     rev (fill_prologue vd c extents
          ++ draw_calls vd (vd_fill_pipeline_layout vd) rects
          ++ [vkCmdEndRendering (vd_command_buffer vd)]) ++ h).
Proof.
  intros Hk1 Hk.
  assert ((Z.of_nat (length rects) <? 1) = false) as Hlt by (apply Z.ltb_ge; lia).
  unfold vk_fill, pixman_region32_rectangles, pixman_region32_extents.
  cbn [region_rects region_extents]. rewrite Hlt, take_all_rects by exact Hk.
  unfold bind, emit, ret. cbn beta iota.
  rewrite for_each_draw_rect. simpl.
  rewrite !rev_app_distr. simpl. rewrite <- !app_assoc. reflexivity.
Qed.

(** C2 (amended). A compose or a fill over a region of K >= 1 rectangles
    records exactly K draws, each one right after a push of the bounds of
    its own rectangle; the scissor is set once per call, ahead of the first
    draw, to the bounding box of the whole region. *)
Theorem compose_fill_draws_per_rectangle
    (NDEBUG reply : bool) (vd : vulkan_data) (image : backend_image)
    (image_coords : coord_t) (c : color) (extents : pixman_box32_t)
    (rects : list pixman_box32_t) (h : list call) :
  (1 <= length rects)%nat ->
  Z.of_nat (length rects) <= INT32_MAX ->
  let region := {| region_extents := extents; region_rects := rects |} in
  let composed :=
    refresh_calls reply vd (bi_inner image) image_coords extents
    ++ compose_prologue vd (bi_inner image) image_coords extents
    ++ draw_calls vd (vd_compose_pipeline_layout vd) rects
    ++ [vkCmdEndRendering (vd_command_buffer vd)] in
  let filled :=
    fill_prologue vd c extents
    ++ draw_calls vd (vd_fill_pipeline_layout vd) rects
    ++ [vkCmdEndRendering (vd_command_buffer vd)] in
  vk_compose NDEBUG reply vd image image_coords region h = (Done vd, rev composed ++ h) /\
  vk_fill NDEBUG vd c region h = (Done vd, rev filled ++ h) /\
  count_draws composed = length rects /\
  count_draws filled = length rects /\
  List.filter is_scissor composed
    = [vkCmdSetScissor (vd_command_buffer vd) (render_area_of extents)] /\
  List.filter is_scissor filled
    = [vkCmdSetScissor (vd_command_buffer vd) (render_area_of extents)].
Proof.
  intros Hk1 Hk region composed filled.
  destruct (refresh_calls_no_draw_no_scissor reply vd (bi_inner image) image_coords extents)
    as [Hd Hs].
  split; [now apply vk_compose_calls|].
  split; [now apply vk_fill_calls|].
  unfold composed, filled.
  rewrite !count_draws_app, !List.filter_app, !count_draws_draw_calls,
    !filter_scissor_draw_calls, Hd, Hs.
  unfold count_draws. simpl. repeat split; lia.
Qed.

Lemma compose_fill_draws_per_rectangle_witness :
  let vd := sample_vd_shm in
  let rects := region_rects sample_region in
  let extents := region_extents sample_region in
  let image_coords := {| coord_x := 0; coord_y := 0 |} in
  let composed :=
    refresh_calls true vd (bi_inner sample_image) image_coords extents
    ++ compose_prologue vd (bi_inner sample_image) image_coords extents
    ++ draw_calls vd (vd_compose_pipeline_layout vd) rects
    ++ [vkCmdEndRendering (vd_command_buffer vd)] in
  let filled :=
    fill_prologue vd sample_color extents
    ++ draw_calls vd (vd_fill_pipeline_layout vd) rects
    ++ [vkCmdEndRendering (vd_command_buffer vd)] in
  vk_compose false true vd sample_image image_coords sample_region []
    = (Done vd, rev composed ++ []) /\
  vk_fill false vd sample_color sample_region [] = (Done vd, rev filled ++ []) /\
  count_draws composed = 2%nat /\
  count_draws filled = 2%nat /\
  List.filter is_scissor composed
    = [vkCmdSetScissor (vd_command_buffer vd) (render_area_of extents)] /\
  List.filter is_scissor filled
    = [vkCmdSetScissor (vd_command_buffer vd) (render_area_of extents)].
Proof.
  apply (compose_fill_draws_per_rectangle false true sample_vd_shm sample_image
           {| coord_x := 0; coord_y := 0 |} sample_color
           (region_extents sample_region) (region_rects sample_region) []).
  - simpl. lia.
  - vm_compute. discriminate.
Defined.

(** The claim as worded fails on a region of two rectangles: the only
    scissor update of the compose is the one for the bounding box, so no
    scissor update is scoped to either rectangle. *)
Lemma compose_scissor_not_per_rectangle :
  count_draws (calls (vk_compose false true sample_vd sample_image
                        {| coord_x := 0; coord_y := 0 |} sample_region)) = 2%nat /\
  ~ scissor_per_rectangle sample_vd (region_rects sample_region)
      (calls (vk_compose false true sample_vd sample_image
                {| coord_x := 0; coord_y := 0 |} sample_region)).
Proof.
  split; [reflexivity|].
  unfold scissor_per_rectangle. intros H.
  apply Forall_cons_1 in H as [H _].
  vm_compute in H.
  repeat (destruct H as [H|H]; [discriminate H|]).
  exact H.
Qed.

(** C6. A compose or a fill over a region without rectangles returns
    normally, with the backend state as it was and nothing added to the log:
    no draw, no recorded command, no readback request. *)
Theorem compose_fill_empty_region
    (NDEBUG reply : bool) (vd : vulkan_data) (image : backend_image)
    (image_coords : coord_t) (c : color) (extents : pixman_box32_t) (h : list call) :
  let region := {| region_extents := extents; region_rects := [] |} in
  vk_compose NDEBUG reply vd image image_coords region h = (Done vd, h) /\
  vk_fill NDEBUG vd c region h = (Done vd, h).
Proof.
  unfold vk_compose, vk_fill, bind, assert_, ret. simpl.
  destruct NDEBUG; split; reflexivity.
Qed.

(** ** The size of the shared segment *)





(** ** Reasoning about what a computation adds to the log *)

Section Logs.

Context (P : call -> bool).

Lemma logs_ret {A} (a : A) : logs P (ret a).
Proof. intros h. exists []. split; [reflexivity|constructor]. Qed.

Lemma logs_emit c : P c = true -> logs P (emit c).
Proof. intros Hc h. exists [c]. split; [reflexivity|]. now repeat constructor. Qed.

Lemma logs_ask {R} (c : R -> call) (answer : R) : P (c answer) = true -> logs P (ask c answer).
Proof. intros Hc h. exists [c answer]. split; [reflexivity|]. now repeat constructor. Qed.

Lemma logs_assert NDEBUG b : logs P (assert_ NDEBUG b).
Proof.
  intros h. exists []. split; [|constructor].
  unfold assert_. now destruct (NDEBUG || b).
Qed.

Lemma logs_bind {A B} (m : M A) (k : A -> M B) :
  logs P m -> (forall a, logs P (k a)) -> logs P (bind m k).
Proof.
  intros Hm Hk h. unfold bind.
  destruct (Hm h) as (t1 & Ht1 & HP1).
  destruct (m h) as [[a| |] h1]; simpl in Ht1; subst h1.
  - destruct (Hk a (t1 ++ h)) as (t2 & Ht2 & HP2).
    exists (t2 ++ t1). split; [now rewrite Ht2, app_assoc|].
    apply Forall_app; auto.
  - exists t1. auto.
  - exists t1. auto.
Qed.

Lemma logs_undefined {A} : logs P (@undefined A).
Proof. intros h. exists []. split; [reflexivity|constructor]. Qed.

Lemma logs_when b (m : M unit) : logs P m -> logs P (when b m).
Proof. intros Hm. destruct b; [exact Hm|apply logs_ret]. Qed.

Lemma logs_for_each {A} (l : list A) (body : A -> M unit) :
  (forall x, logs P (body x)) -> logs P (for_each l body).
Proof.
  intros Hb. induction l as [|x l IH]; simpl.
  - apply logs_ret.
  - apply logs_bind; [apply Hb|intros _; exact IH].
Qed.

End Logs.

Section Returns.

Lemma returns_ret {A} (a : A) : returns (ret a).
Proof. intros h. now exists a. Qed.

Lemma returns_emit c : returns (emit c).
Proof. intros h. now exists tt. Qed.

Lemma returns_ask {R} (c : R -> call) (answer : R) : returns (ask c answer).
Proof. intros h. now exists answer. Qed.

Lemma returns_bind {A B} (m : M A) (k : A -> M B) :
  returns m -> (forall a, returns (k a)) -> returns (bind m k).
Proof.
  intros Hm Hk h. unfold bind.
  destruct (Hm h) as (a & Ha).
  destruct (m h) as [[a'| |] h1]; simpl in Ha; [|discriminate..].
  apply Hk.
Qed.

Lemma returns_when b (m : M unit) : returns m -> returns (when b m).
Proof. intros Hm. destruct b; [exact Hm|apply returns_ret]. Qed.

Lemma returns_for_each {A} (l : list A) (body : A -> M unit) :
  (forall x, returns (body x)) -> returns (for_each l body).
Proof.
  intros Hb. induction l as [|x l IH]; simpl.
  - apply returns_ret.
  - apply returns_bind; [apply Hb|intros _; exact IH].
Qed.

End Returns.

(** One step of a proof of [logs P m] or [returns m], by the shape of [m]. *)
Ltac monad_step :=
  lazymatch goal with
  | |- logs _ (bind _ _) => apply logs_bind; [|intros ?]
  | |- logs _ (ret _) => apply logs_ret
  | |- logs _ (emit _) => apply logs_emit; reflexivity
  | |- logs _ (ask _ _) => apply logs_ask; reflexivity
  | |- logs _ (when _ _) => apply logs_when
  | |- logs _ (assert_ _ _) => apply logs_assert
  | |- logs _ undefined => apply logs_undefined
  | |- logs _ (for_each _ _) => apply logs_for_each; intros ?
  | |- logs _ (match ?x with _ => _ end) => destruct x
  | |- returns (bind _ _) => apply returns_bind; [|intros ?]
  | |- returns (ret _) => apply returns_ret
  | |- returns (emit _) => apply returns_emit
  | |- returns (ask _ _) => apply returns_ask
  | |- returns (when _ _) => apply returns_when
  | |- returns (for_each _ _) => apply returns_for_each; intros ?
  | |- returns (match ?x with _ => _ end) => destruct x
  end.

Ltac monad_steps := repeat (cbv zeta; monad_step).

Lemma logs_snd {A} P (m : M A) h :
  logs P m -> exists t, snd (m h) = t ++ h /\ Forall (fun c => P c = true) t.
Proof. intros Hm. apply Hm. Qed.

(** Rewriting with an equation about a field of the structs, whichever way
    the projection happens to be displayed in the goal. *)
Ltac unfold_fields H :=
  unfold
    vd_instance, vd_surface_connection, vd_surface, vd_bind_pixmap_strategy,
    vd_physical_device, vd_min_imported_host_pointer_alignment, vd_queue_family_index,
    vd_device, vd_queue, vd_acquire_next_image_fence, vd_queue_submit_fence, vd_semaphore,
    vd_width, vd_height, vd_swapchain, vd_swapchain_image_count, vd_swapchain_images,
    vd_swapchain_image_layouts, vd_swapchain_image_views, vd_buffer_ages,
    vd_swapchain_image_index, vd_descriptor_pool, vd_descriptor_set_layout, vd_sampler,
    vd_compose_pipeline_layout, vd_compose_pipeline, vd_fill_pipeline_layout,
    vd_fill_pipeline, vd_command_pool, vd_command_buffer, vi_refcount, vi_has_alpha,
    vi_pixmap, vi_owned, vi_width, vi_height, vi_image, vi_memory, vi_shm_id,
    vi_shm_address, vi_shm_segment, vi_staging_buffer, vi_staging_memory, vi_image_view,
    vi_descriptor_set in H.

Ltac rewrite_field_in H Hyp :=
  first
    [ rewrite H in Hyp
    | let H' := fresh in
      pose proof H as H'; unfold_fields H'; rewrite H' in Hyp; clear H'
    | unfold_fields Hyp; rewrite H in Hyp ].

Ltac rewrite_field H :=
  first
    [ rewrite H
    | let H' := fresh in
      pose proof H as H'; unfold_fields H'; rewrite H'; clear H' ].

(** ** Image views of bound images *)

Lemma view_creations_app t h :
  Forall (fun c => not_view_creation c = true) t ->
  view_creations (t ++ h) = view_creations h.
Proof.
  induction 1 as [|c t Hc _ IH]; [reflexivity|].
  simpl. destruct c; try discriminate Hc; exact IH.
Qed.

Lemma vk_release_image_shm_returns vd vi : returns (vk_release_image_shm vd vi).
Proof. unfold vk_release_image_shm. monad_steps. Qed.

Lemma vk_release_image_returns wait_idle vd image :
  returns (vk_release_image wait_idle vd image).
Proof.
  unfold vk_release_image. monad_steps; apply vk_release_image_shm_returns.
Qed.

Lemma vk_bind_pixmap_dri3_views NDEBUG e vd vi :
  logs not_view_creation (vk_bind_pixmap_dri3 NDEBUG e vd vi).
Proof. unfold vk_bind_pixmap_dri3. monad_steps. Qed.

Lemma vk_bind_pixmap_shm_views e vd vi :
  logs not_view_creation (vk_bind_pixmap_shm e vd vi).
Proof. unfold vk_bind_pixmap_shm, bind_staging_buffer. monad_steps. Qed.

Lemma bind_transition_views e vd vi :
  logs not_view_creation (bind_transition e vd vi).
Proof. unfold bind_transition. monad_steps. Qed.

Lemma yields_ret {A} (Q : A -> Prop) (a : A) : Q a -> yields Q (ret a).
Proof. intros Ha h a' h' [= <- _]. exact Ha. Qed.

Lemma yields_ask {R} (Q : R -> Prop) (c : R -> call) (answer : R) :
  Q answer -> yields Q (ask c answer).
Proof. intros Ha h a' h' [= <- _]. exact Ha. Qed.

Lemma yields_bind {A B} (Q : B -> Prop) (m : M A) (k : A -> M B) :
  (forall a, yields Q (k a)) -> yields Q (bind m k).
Proof.
  intros Hk h b h'. unfold bind.
  destruct (m h) as [[a| |] h1]; [apply Hk|discriminate..].
Qed.

Lemma yields_undefined {A} (Q : A -> Prop) : yields Q undefined.
Proof. intros h a h'. discriminate. Qed.

Ltac yields_step :=
  lazymatch goal with
  | |- yields _ (bind _ _) => apply yields_bind; intros ?
  | |- yields _ (ret _) => apply yields_ret
  | |- yields _ undefined => apply yields_undefined
  | |- yields _ (ask _ _) => apply yields_ask
  | |- yields _ (match ?x with _ => _ end) => destruct x
  end.

Ltac yields_steps := repeat (cbv zeta; yields_step).

Lemma vk_bind_pixmap_dri3_has_alpha NDEBUG e vd vi :
  yields (fun p => vi_has_alpha (snd p) = vi_has_alpha vi)
    (vk_bind_pixmap_dri3 NDEBUG e vd vi).
Proof. unfold vk_bind_pixmap_dri3. yields_steps; reflexivity. Qed.

Lemma vk_bind_pixmap_shm_has_alpha e vd vi :
  yields (fun p => vi_has_alpha (snd p) = vi_has_alpha vi) (vk_bind_pixmap_shm e vd vi).
Proof. unfold vk_bind_pixmap_shm, bind_staging_buffer. yields_steps; reflexivity. Qed.

(** The label [err] of [vk_bind_pixmap] never hands out a handle. *)
Lemma release_then_none wait_idle vd image h :
  exists h', bind (vk_release_image wait_idle vd image) (fun _ => ret None) h
             = (Done (@None backend_image), h').
Proof.
  unfold bind. destruct (vk_release_image_returns wait_idle vd image h) as (r & Hr).
  destruct (vk_release_image wait_idle vd image h) as [[r'| |] h1]; [|discriminate..].
  now exists h1.
Qed.

(** A successful [vk_bind_pixmap], step by step. *)
Lemma vk_bind_pixmap_success NDEBUG e vd pixmap visual_info owned h image h' :
  vk_bind_pixmap NDEBUG e vd pixmap visual_info owned h = (Done (Some image), h') ->
  exists vi h1 view set h2,
    let vi0 := set_vi_owned owned (set_vi_pixmap pixmap
                 (set_vi_has_alpha (0 <? alpha_size visual_info)
                    (set_vi_refcount 1 vulkan_image_zero))) in
    match vd_bind_pixmap_strategy vd with
    | BIND_PIXMAP_STRATEGY_DRI3 => vk_bind_pixmap_dri3 NDEBUG (ba_dri3 e) vd vi0
    | BIND_PIXMAP_STRATEGY_SHM => vk_bind_pixmap_shm (ba_shm e) vd vi0
    end h
    = (Done (true, vi), h1) /\
    created (ba_create_image_view e) = Some view /\
    created (ba_allocate_descriptor_set e) = Some set /\
    h2 = vkUpdateDescriptorSets (vd_device vd) set (vd_sampler vd) view
         :: vkAllocateDescriptorSets (vd_device vd) (vd_descriptor_pool vd)
              (vd_descriptor_set_layout vd) (Some set)
         :: vkCreateImageView (vd_device vd) (vi_image vi) VK_FORMAT_R8G8B8A8_UNORM
              (image_view_components vi) (Some view)
         :: h1 /\
    bind_transition e vd (set_vi_descriptor_set set (set_vi_image_view view vi)) h2
    = (Done true, h') /\
    image = handle_of (set_vi_descriptor_set set (set_vi_image_view view vi)).
Proof.
  unfold vk_bind_pixmap. cbv zeta. intros Hrun.
  unfold bind at 1 in Hrun.
  match type of Hrun with
  | context [let (_, _) := ?m h in _] => destruct (m h) as [[[ok vi]| |] h1] eqn:Hs
  end; [|discriminate..].
  destruct ok; simpl in Hrun.
  2:{ destruct (release_then_none (ba_release_wait_idle e) vd (handle_of vi) h1) as (hx & Hx).
      rewrite Hx in Hrun. discriminate. }
  unfold bind at 1, ask at 1 in Hrun.
  destruct (created (ba_create_image_view e)) as [view|] eqn:Hv.
  2:{ destruct (release_then_none (ba_release_wait_idle e) vd (handle_of vi)
                  (vkCreateImageView (vd_device vd) (vi_image vi) VK_FORMAT_R8G8B8A8_UNORM
                     (image_view_components vi) None :: h1)) as (hx & Hx).
      rewrite Hx in Hrun. discriminate. }
  unfold bind at 1, allocate_descriptor_set at 1, ask at 1 in Hrun.
  destruct (created (ba_allocate_descriptor_set e)) as [set|] eqn:Ha.
  2:{ match type of Hrun with
      | bind (vk_release_image ?w ?d ?i) _ ?hh = _ =>
        destruct (release_then_none w d i hh) as (hx & Hx)
      end.
      rewrite Hx in Hrun. discriminate. }
  unfold bind at 1, emit at 1 in Hrun. unfold bind at 1 in Hrun.
  match type of Hrun with
  | context [match bind_transition ?a ?b ?c ?d with _ => _ end] =>
    destruct (bind_transition a b c d) as [[ok2| |] h4] eqn:Ht
  end; [|discriminate..].
  destruct ok2; simpl in Hrun.
  2:{ match type of Hrun with
      | bind (vk_release_image ?w ?d ?i) _ ?hh = _ =>
        destruct (release_then_none w d i hh) as (hx & Hx)
      end.
      rewrite Hx in Hrun. discriminate. }
  unfold ret in Hrun. injection Hrun as <- <-.
  exists vi, h1, view, set. eexists. repeat split; try eassumption; try reflexivity.
Qed.

(** C9 (amended). Every bound image got its sampled view created with
    red and blue swapped and green in place; the alpha channel of the view
    is the constant one exactly when the alpha size of the visual is not
    positive, be it zero or negative, and the alpha of the image exactly
    when it is positive. *)
Theorem bound_image_view_swizzle
    (NDEBUG : bool) (e : bind_answers) (vd : vulkan_data) (pixmap : Z)
    (visual_info : xvisual_info) (owned : bool) (h : list call)
    (image : backend_image) (h' : list call) :
  vk_bind_pixmap NDEBUG e vd pixmap visual_info owned h = (Done (Some image), h') ->
  exists components,
    view_creations h'
    = (vi_image (bi_inner image), components, Some (vi_image_view (bi_inner image)))
      :: view_creations h /\
    comp_r components = VK_COMPONENT_SWIZZLE_B /\
    comp_g components = VK_COMPONENT_SWIZZLE_G /\
    comp_b components = VK_COMPONENT_SWIZZLE_R /\
    (comp_a components = VK_COMPONENT_SWIZZLE_ONE \/
     comp_a components = VK_COMPONENT_SWIZZLE_A) /\
    (comp_a components = VK_COMPONENT_SWIZZLE_ONE <-> alpha_size visual_info <= 0) /\
    (comp_a components = VK_COMPONENT_SWIZZLE_A <-> 0 < alpha_size visual_info).
Proof.
  intros Hrun.
  destruct (vk_bind_pixmap_success _ _ _ _ _ _ _ _ _ Hrun)
    as (vi & h1 & view & set & h2 & Hs & Hv & Ha & -> & Ht & ->).
  cbv zeta in Hs.
  assert (vi_has_alpha vi = (0 <? alpha_size visual_info)
          /\ view_creations h1 = view_creations h) as [Halpha Hviews].
  { destruct (vd_bind_pixmap_strategy vd).
    - split.
      + pose proof (vk_bind_pixmap_dri3_has_alpha NDEBUG (ba_dri3 e) vd) as Hy.
        unfold yields in Hy. apply Hy in Hs. exact Hs.
      + match type of Hs with
        | vk_bind_pixmap_dri3 _ _ _ ?v _ = _ =>
          destruct (vk_bind_pixmap_dri3_views NDEBUG (ba_dri3 e) vd v h) as (t & Ht1 & HP)
        end.
        rewrite Hs in Ht1. simpl in Ht1. subst h1. now apply view_creations_app.
    - split.
      + pose proof (vk_bind_pixmap_shm_has_alpha (ba_shm e) vd) as Hy.
        unfold yields in Hy. apply Hy in Hs. exact Hs.
      + match type of Hs with
        | vk_bind_pixmap_shm _ _ ?v _ = _ =>
          destruct (vk_bind_pixmap_shm_views (ba_shm e) vd v h) as (t & Ht1 & HP)
        end.
        rewrite Hs in Ht1. simpl in Ht1. subst h1. now apply view_creations_app. }
  exists (image_view_components vi).
  split.
  { match type of Ht with
    | bind_transition _ _ ?v ?hh = _ =>
      destruct (bind_transition_views e vd v hh) as (t & Ht1 & HP)
    end.
    rewrite Ht in Ht1. simpl in Ht1. subst h'.
    rewrite view_creations_app by exact HP. simpl. now rewrite Hviews. }
  unfold image_view_components. simpl. rewrite Halpha.
  destruct (Z.ltb_spec 0 (alpha_size visual_info));
    repeat split; try reflexivity; try (now left); try (now right);
    try (intros; lia); try discriminate.
Qed.

Lemma bound_image_view_swizzle_witness :
  exists image h',
    vk_bind_pixmap false sample_bind_answers sample_vd 77 {| alpha_size := 8 |} true []
    = (Done (Some image), h') /\
    exists components,
      view_creations h'
      = (vi_image (bi_inner image), components, Some (vi_image_view (bi_inner image)))
        :: view_creations [] /\
      comp_r components = VK_COMPONENT_SWIZZLE_B /\
      comp_g components = VK_COMPONENT_SWIZZLE_G /\
      comp_b components = VK_COMPONENT_SWIZZLE_R /\
      (comp_a components = VK_COMPONENT_SWIZZLE_ONE \/
       comp_a components = VK_COMPONENT_SWIZZLE_A) /\
      (comp_a components = VK_COMPONENT_SWIZZLE_ONE <-> alpha_size {| alpha_size := 8 |} <= 0) /\
      (comp_a components = VK_COMPONENT_SWIZZLE_A <-> 0 < alpha_size {| alpha_size := 8 |}).
Proof.
  eexists _, _. split; [vm_compute; reflexivity|].
  apply (bound_image_view_swizzle false sample_bind_answers sample_vd 77
           {| alpha_size := 8 |} true []).
  vm_compute. reflexivity.
Defined.

(** The claim as worded fails for a visual whose alpha size is negative
    (-1 stands for a size that is not known): the size is not zero, and
    still the view of the bound image has the constant one for alpha. *)
Lemma negative_alpha_size_counterexample :
  alpha_size {| alpha_size := -1 |} <> 0 /\
  exists image h' components,
    vk_bind_pixmap false sample_bind_answers sample_vd 77 {| alpha_size := -1 |} true []
    = (Done (Some image), h') /\
    view_creations h'
    = [(vi_image (bi_inner image), components, Some (vi_image_view (bi_inner image)))] /\
    comp_a components = VK_COMPONENT_SWIZZLE_ONE.
Proof.
  split; [discriminate|].
  eexists _, _, _. split; [vm_compute; reflexivity|]. split; reflexivity.
Qed.

(** ** Choice of the import strategy *)

Lemma yields_bind_strong {A B} (R : A -> Prop) (Q : B -> Prop) (m : M A) (k : A -> M B) :
  yields R m -> (forall a, R a -> yields Q (k a)) -> yields Q (bind m k).
Proof.
  intros Hm Hk h b h'. unfold bind.
  destruct (m h) as [[a| |] h1] eqn:Hmh; [|discriminate..].
  apply Hk. now apply (Hm h a h1).
Qed.

Lemma yields_weaken {A} (R Q : A -> Prop) (m : M A) :
  (forall a, R a -> Q a) -> yields R m -> yields Q m.
Proof. intros HRQ Hm h a h' Hrun. apply HRQ. now apply (Hm h a h'). Qed.

(** The device [vk_select_physical_device] picks, written into the struct. *)
Lemma vk_select_physical_device_find vd devices names :
  vk_select_physical_device vd devices names
  = match List.find (suitable names) devices with
    | Some d =>
      let vd := set_vd_physical_device (new_handle (pd_handle d)) vd in
      match vd_bind_pixmap_strategy vd with
      | BIND_PIXMAP_STRATEGY_SHM =>
        set_vd_min_imported_host_pointer_alignment
          (pd_min_imported_host_pointer_alignment d) vd
      | BIND_PIXMAP_STRATEGY_DRI3 => vd
      end
    | None => vd
    end.
Proof.
  induction devices as [|d devices IH]; [reflexivity|].
  simpl. unfold suitable, supports_extensions.
  destruct (pd_api_version d <? VK_API_VERSION_1_3); [exact IH|].
  destruct (pd_enumerate_count d); [|exact IH].
  destruct (pd_extensions d) as [properties|]; [|exact IH].
  simpl. destruct (forallb (vk_has_extension properties) names); [reflexivity|exact IH].
Qed.

Lemma select_strategy_by_priority session devices vd :
  vd_physical_device vd = VK_NULL_HANDLE ->
  match strategy_by_priority session devices with
  | Some (s, d) =>
    vd_bind_pixmap_strategy (fst (select_strategy session devices vd)) = s /\
    vd_physical_device (fst (select_strategy session devices vd)) = new_handle (pd_handle d)
  | None => vd_physical_device (fst (select_strategy session devices vd)) = VK_NULL_HANDLE
  end.
Proof.
  intros Hnull. pose proof Hnull as Hnull'. unfold vd_physical_device in Hnull'.
  unfold strategy_by_priority, select_strategy.
  destruct (dri3_exists session).
  - rewrite vk_select_physical_device_find.
    destruct (List.find (suitable (common_extension_names ++ dri3_extension_names)) devices)
      as [d|].
    + cbn. split; reflexivity.
    + cbn. first [rewrite Hnull|rewrite Hnull']. cbn.
      destruct (shm_exists session).
      * cbn. rewrite vk_select_physical_device_find.
        destruct (List.find _ devices) as [d|]; cbn; [split; reflexivity|exact Hnull].
      * cbn. exact Hnull.
  - cbn. first [rewrite Hnull|rewrite Hnull']. cbn.
    destruct (shm_exists session).
    + cbn. rewrite vk_select_physical_device_find.
      destruct (List.find _ devices) as [d|]; cbn; [split; reflexivity|exact Hnull].
    + cbn. exact Hnull.
Qed.
Lemma vk_create_device_by_priority e session vd devices :
  vd_physical_device vd = VK_NULL_HANDLE ->
  da_physical_devices e = Some devices ->
  yields (fun p =>
            match strategy_by_priority session devices with
            | Some (s, d) =>
              fst p = true \/ da_enumerate_count e = true ->
              vd_bind_pixmap_strategy (snd p) = s /\
              vd_physical_device (snd p) = new_handle (pd_handle d)
            | None => fst p = false /\ (da_enumerate_count e = true ->
                                        vd_physical_device (snd p) = VK_NULL_HANDLE)
            end)
    (vk_create_device e session vd).
Proof.
  intros Hnull Hdev.
  pose proof (select_strategy_by_priority session devices vd Hnull) as Hsel.
  unfold vk_create_device. rewrite Hdev.
  destruct (da_enumerate_count e).
  2:{ apply yields_ret. destruct (strategy_by_priority session devices) as [[s d]|]; simpl.
      - intros [H|H]; discriminate H.
      - split; [reflexivity|discriminate]. }
  cbn [negb].
  destruct (select_strategy session devices vd) as [vd1 names]. cbn [fst] in Hsel.
  destruct (strategy_by_priority session devices) as [[s d]|].
  - destruct Hsel as [Hs Hp].
    yields_steps; intros _; cbn; split; assumption.
  - destruct (is_null (vd_physical_device vd1)) eqn:Hn.
    + apply yields_ret. cbn. split; [reflexivity|]. intros _. exact Hsel.
    + exfalso. unfold is_null in Hn. apply Z.eqb_neq in Hn. exact (Hn Hsel).
Qed.

Ltac keeps_device_tac := yields_steps; split; reflexivity.

Lemma vk_create_instance_keeps_device e vd :
  yields (keeps_device vd) (vk_create_instance e vd).
Proof. unfold vk_create_instance. keeps_device_tac. Qed.

Lemma vk_create_surface_keeps_device e vd window :
  yields (keeps_device vd) (vk_create_surface e vd window).
Proof. unfold vk_create_surface. keeps_device_tac. Qed.

Lemma vk_create_fences_and_semaphore_keeps_device e vd :
  yields (keeps_device vd) (vk_create_fences_and_semaphore e vd).
Proof. unfold vk_create_fences_and_semaphore. keeps_device_tac. Qed.

Lemma create_image_views_keeps_device answers n : forall i vd,
  yields (keeps_device vd) (create_image_views answers n i vd).
Proof.
  induction n as [|n IH]; intros i vd; simpl.
  - apply yields_ret. split; reflexivity.
  - yields_steps; [|split; reflexivity].
    eapply yields_weaken; [|apply IH].
    intros p [Hs Hp]. split; [exact Hs|exact Hp].
Qed.

Lemma vk_create_swapchain_keeps_device e vd vsync :
  yields (keeps_device vd) (vk_create_swapchain e vd vsync).
Proof.
  unfold vk_create_swapchain.
  destruct (swa_surface_capabilities e) as [caps|]; [|keeps_device_tac].
  cbv zeta.
  destruct (negb (swa_surface_format_count e)); [keeps_device_tac|].
  destruct (is_UNDEFINED _); [keeps_device_tac|].
  apply yields_bind; intros r. destruct r as [sc|]; [|keeps_device_tac].
  destruct (swa_swapchain_images e) as [images|]; [|keeps_device_tac].
  eapply yields_bind_strong; [apply create_image_views_keeps_device|].
  intros [ok vd1] [Hs Hp]. simpl in Hs, Hp.
  yields_steps; split; cbn; assumption.
Qed.

Lemma vk_create_descriptor_pool_keeps_device e vd :
  yields (keeps_device vd) (vk_create_descriptor_pool e vd).
Proof. unfold vk_create_descriptor_pool. keeps_device_tac. Qed.

Lemma vk_create_pipelines_keeps_device e vd :
  yields (keeps_device vd) (vk_create_pipelines e vd).
Proof. unfold vk_create_pipelines. keeps_device_tac. Qed.

Lemma vk_create_command_pool_keeps_device e vd :
  yields (keeps_device vd) (vk_create_command_pool e vd).
Proof. unfold vk_create_command_pool. keeps_device_tac. Qed.

Lemma yields_init_step (R : bool * vulkan_data -> Prop) (Q : option vulkan_data -> Prop)
    e step next :
  yields R step ->
  (forall vd, R (true, vd) -> yields Q (next vd)) ->
  Q None ->
  yields Q (init_step e step next).
Proof.
  intros Hstep Hnext Hnone. unfold init_step.
  eapply yields_bind_strong; [exact Hstep|].
  intros [ok vd] HR. destruct ok; simpl.
  - now apply Hnext.
  - apply yields_bind. intros _. now apply yields_ret.
Qed.

(** None of the functions of the start-up aborts. *)
Lemma vk_destroy_swapchain_returns vd : returns (vk_destroy_swapchain vd).
Proof. unfold vk_destroy_swapchain. monad_steps. Qed.

Lemma vk_deinit_returns wait_idle vd : returns (vk_deinit wait_idle vd).
Proof.
  unfold vk_deinit, destroy_unless_null. monad_steps. apply vk_destroy_swapchain_returns.
Qed.

Lemma vk_create_instance_returns e vd : returns (vk_create_instance e vd).
Proof. unfold vk_create_instance. monad_steps. Qed.

Lemma vk_create_surface_returns e vd window : returns (vk_create_surface e vd window).
Proof. unfold vk_create_surface. monad_steps. Qed.

Lemma vk_create_device_returns e session vd : returns (vk_create_device e session vd).
Proof. unfold vk_create_device. monad_steps. Qed.

Lemma vk_create_fences_and_semaphore_returns e vd :
  returns (vk_create_fences_and_semaphore e vd).
Proof. unfold vk_create_fences_and_semaphore. monad_steps. Qed.

Lemma create_image_views_returns answers n : forall i vd,
  returns (create_image_views answers n i vd).
Proof.
  induction n as [|n IH]; intros i vd; simpl; monad_steps. apply IH.
Qed.

Lemma vk_create_swapchain_returns e vd vsync : returns (vk_create_swapchain e vd vsync).
Proof.
  unfold vk_create_swapchain. monad_steps. apply create_image_views_returns.
Qed.

Lemma vk_create_descriptor_pool_returns e vd : returns (vk_create_descriptor_pool e vd).
Proof. unfold vk_create_descriptor_pool. monad_steps. Qed.

(** Fix the next answer the computation of the goal looks at, the answers
    being variables. *)
Ltac answer_of_goal :=
  match goal with
  | |- context [if negb ?b then _ else _] => is_var b; destruct b; cbn
  | |- context [if ?b then _ else _] => is_var b; destruct b; cbn
  | |- context [match ?x with Some _ => _ | None => _ end] => is_var x; destruct x; cbn
  | |- context [new_handle <$> ?x] => is_var x; destruct x; cbn
  end.

(** [vk_create_pipelines] returns, unless it comes to its label [err] with
    the compose stages freed. *)
Lemma vk_create_pipelines_returns e vd :
  fails_after_compose_pipeline e = false -> returns (vk_create_pipelines e vd).
Proof.
  destruct e as [[ci cv cvm cf cfm] [fi fv fvm ff ffm] cl cp fl fp].
  intros Hlate h. revert Hlate.
  unfold vk_create_pipelines, vk_create_pipeline_shader_stage_create_infos,
    vk_destroy_pipeline_shader_stage_create_infos, bind, ask, ret, emit, when, created.
  cbv zeta. cbn.
  repeat answer_of_goal.
  all: first [discriminate | intros _; eexists; reflexivity].
Qed.

Lemma vk_create_command_pool_returns e vd : returns (vk_create_command_pool e vd).
Proof. unfold vk_create_command_pool. monad_steps. Qed.

(** A step of the start-up returns when the steps after it do so for what
    it hands on. *)
Lemma init_step_returns (R : bool * vulkan_data -> Prop) e step next :
  returns step -> yields R step ->
  (forall vd, R (true, vd) -> returns (next vd)) ->
  returns (init_step e step next).
Proof.
  intros Hs HR Hn h. unfold init_step, bind.
  destruct (Hs h) as ([ok vd] & Hrun).
  destruct (step h) as [o h1] eqn:Hstep. cbn in Hrun. subst o.
  destruct ok; cbn [negb].
  - apply Hn. exact (HR h _ h1 Hstep).
  - destruct (vk_deinit_returns (init_deinit_wait_idle e) vd h1) as ([] & Hd).
    destruct (vk_deinit _ vd h1) as [o h2]. cbn in Hd. subst o. now exists None.
Qed.

Lemma yields_anything {A} (m : M A) : yields (fun _ => True) m.
Proof. intros h a h' _. exact I. Qed.

(** The start-up returns when the step that creates the pipelines does. *)
Lemma vk_init_returns e session window :
  fails_after_compose_pipeline (init_pipelines e) = false ->
  returns (vk_init e session window).
Proof.
  intros Hlate. unfold vk_init.
  eapply init_step_returns;
    [apply vk_create_instance_returns|apply yields_anything|intros ? _].
  eapply init_step_returns;
    [apply vk_create_surface_returns|apply yields_anything|intros ? _].
  eapply init_step_returns;
    [apply vk_create_device_returns|apply yields_anything|intros ? _].
  eapply init_step_returns;
    [apply vk_create_fences_and_semaphore_returns|apply yields_anything|intros ? _].
  eapply init_step_returns;
    [apply vk_create_swapchain_returns|apply yields_anything|intros ? _].
  eapply init_step_returns;
    [apply vk_create_descriptor_pool_returns|apply yields_anything|intros ? _].
  eapply init_step_returns;
    [now apply vk_create_pipelines_returns|apply yields_anything|intros ? _].
  eapply init_step_returns;
    [apply vk_create_command_pool_returns|apply yields_anything|intros ? _].
  apply returns_ret.
Qed.

Lemma vk_init_by_priority e session window devices :
  da_physical_devices (init_device e) = Some devices ->
  yields (fun r =>
            match strategy_by_priority session devices with
            | Some (s, d) =>
              forall vd, r = Some vd ->
                vd_bind_pixmap_strategy vd = s /\
                vd_physical_device vd = new_handle (pd_handle d)
            | None => r = None
            end)
    (vk_init e session window).
Proof.
  intros Hdev. unfold vk_init.
  assert (match strategy_by_priority session devices with
          | Some (s, d) =>
            forall vd, @None vulkan_data = Some vd ->
              vd_bind_pixmap_strategy vd = s /\
              vd_physical_device vd = new_handle (pd_handle d)
          | None => @None vulkan_data = None
          end) as Hnone.
  { destruct (strategy_by_priority session devices) as [[s d]|]; [discriminate|reflexivity]. }
  eapply yields_init_step; [apply vk_create_instance_keeps_device| |exact Hnone].
  intros vd1 [_ Hp1]. cbn in Hp1.
  eapply yields_init_step; [apply vk_create_surface_keeps_device| |exact Hnone].
  intros vd2 [_ Hp2]. cbn in Hp2.
  eapply yields_init_step;
    [apply (vk_create_device_by_priority _ session vd2 devices);
       [exact (eq_trans Hp2 Hp1)|exact Hdev]
    | |exact Hnone].
  intros vd3 H3. cbn in H3.
  destruct (strategy_by_priority session devices) as [[s d]|].
  2:{ destruct H3 as [H3 _]. discriminate H3. }
  destruct (H3 (or_introl eq_refl)) as [Hs3 Hp3]. clear H3.
  eapply yields_init_step;
    [apply vk_create_fences_and_semaphore_keeps_device| |exact Hnone].
  intros vd4 [Hs4 Hp4]. cbn in Hs4, Hp4.
  eapply yields_init_step; [apply vk_create_swapchain_keeps_device| |exact Hnone].
  intros vd5 [Hs5 Hp5]. cbn in Hs5, Hp5.
  eapply yields_init_step; [apply vk_create_descriptor_pool_keeps_device| |exact Hnone].
  intros vd6 [Hs6 Hp6]. cbn in Hs6, Hp6.
  eapply yields_init_step; [apply vk_create_pipelines_keeps_device| |exact Hnone].
  intros vd7 [Hs7 Hp7]. cbn in Hs7, Hp7.
  eapply yields_init_step; [apply vk_create_command_pool_keeps_device| |exact Hnone].
  intros vd8 [Hs8 Hp8]. cbn in Hs8, Hp8.
  apply yields_ret. intros vd [= <-]. split.
  - exact (eq_trans Hs8 (eq_trans Hs7 (eq_trans Hs6 (eq_trans Hs5 (eq_trans Hs4 Hs3))))).
  - exact (eq_trans Hp8 (eq_trans Hp7 (eq_trans Hp6 (eq_trans Hp5 (eq_trans Hp4 Hp3))))).
Qed.

(** Without a device to run on the start-up returns, and it returns no
    backend. *)
Lemma vk_init_no_device e session window devices h :
  da_physical_devices (init_device e) = Some devices ->
  strategy_by_priority session devices = None ->
  exists h', vk_init e session window h = (Done None, h').
Proof.
  intros Hdev Hnone.
  assert (returns (vk_init e session window)) as Hret.
  { unfold vk_init.
    eapply (init_step_returns (keeps_device vulkan_data_zero));
      [apply vk_create_instance_returns|apply vk_create_instance_keeps_device|].
    intros vd1 [_ Hp1]. cbn in Hp1.
    eapply (init_step_returns (keeps_device vd1));
      [apply vk_create_surface_returns|apply vk_create_surface_keeps_device|].
    intros vd2 [_ Hp2]. cbn in Hp2.
    eapply (init_step_returns (fun p => fst p = false));
      [apply vk_create_device_returns| |intros vd3 H3; discriminate H3].
    eapply yields_weaken;
      [|apply (vk_create_device_by_priority _ session vd2 devices);
          [exact (eq_trans Hp2 Hp1)|exact Hdev]].
    intros p Hp. rewrite Hnone in Hp. exact (proj1 Hp). }
  destruct (Hret h) as (r & Hr).
  destruct (vk_init e session window h) as [o h'] eqn:Hinit. cbn in Hr. subst o.
  pose proof (vk_init_by_priority e session window devices Hdev h r h' Hinit) as Hres.
  rewrite Hnone in Hres. subst r. now exists h'.
Qed.

(** C3 (amended). The start-up takes the zero-copy strategy whenever the
    server has DRI3 and some enumerated device is suitable for it: the
    device reports Vulkan 1.3 or later, its extension list can be read, and
    the list holds the swap-chain and zero-copy extensions.  Otherwise it
    takes the shared-memory strategy when the server has it and a device is
    suitable for that.  When neither path yields a device, the device step
    fails and the start-up returns no handle.  With a device the start-up
    returns, with a backend of that strategy and device or with none,
    unless the creation of the pipelines comes to its label [err] after it
    has freed the compose stages. *)
Theorem init_selects_strategy_by_priority
    (e : init_answers) (session : session_t) (window : Z) (devices : list physical_device_t)
    (vd0 : vulkan_data) (h : list call) :
  da_physical_devices (init_device e) = Some devices ->
  da_enumerate_count (init_device e) = true ->
  vd_physical_device vd0 = VK_NULL_HANDLE ->
  exists ok vd1 h1,
    vk_create_device (init_device e) session vd0 h = (Done (ok, vd1), h1) /\
    match strategy_by_priority session devices with
    | Some (s, d) =>
      vd_bind_pixmap_strategy vd1 = s /\
      vd_physical_device vd1 = new_handle (pd_handle d) /\
      (forall r h', vk_init e session window h = (Done r, h') ->
         forall vd, r = Some vd ->
           vd_bind_pixmap_strategy vd = s /\
           vd_physical_device vd = new_handle (pd_handle d)) /\
      (fails_after_compose_pipeline (init_pipelines e) = false ->
       exists r h', vk_init e session window h = (Done r, h'))
    | None =>
      ok = false /\ vd_physical_device vd1 = VK_NULL_HANDLE /\
      exists h', vk_init e session window h = (Done None, h')
    end.
Proof.
  intros Hdev Henum Hnull.
  destruct (vk_create_device_returns (init_device e) session vd0 h) as ([ok vd1] & Hd).
  destruct (vk_create_device (init_device e) session vd0 h) as [o h1] eqn:Hrun.
  simpl in Hd. subst o.
  exists ok, vd1, h1. split; [reflexivity|].
  pose proof (vk_create_device_by_priority (init_device e) session vd0 devices Hnull Hdev
                h (ok, vd1) h1 Hrun) as Hsel.
  pose proof (vk_init_by_priority e session window devices Hdev h) as Hres.
  pose proof (vk_init_no_device e session window devices h Hdev) as Hnone.
  cbn in Hsel.
  destruct (strategy_by_priority session devices) as [[s d]|].
  - destruct (Hsel (or_intror Henum)) as [Hs Hp].
    split; [exact Hs|]. split; [exact Hp|]. split.
    + intros r h' Hinit. exact (Hres r h' Hinit).
    + intros Hlate. destruct (vk_init_returns e session window Hlate h) as (r & Hr).
      destruct (vk_init e session window h) as [o h'] eqn:Hinit. cbn in Hr. subst o.
      now exists r, h'.
  - destruct Hsel as [Hok Hp]. auto.
Qed.

Lemma init_selects_strategy_by_priority_witness :
  exists ok vd1 h1,
    vk_create_device (init_device (sample_init_answers [sample_device VK_API_VERSION_1_3]))
      sample_session vulkan_data_zero [] = (Done (ok, vd1), h1) /\
    match strategy_by_priority sample_session [sample_device VK_API_VERSION_1_3] with
    | Some (s, d) =>
      vd_bind_pixmap_strategy vd1 = s /\
      vd_physical_device vd1 = new_handle (pd_handle d) /\
      (forall r h',
         vk_init (sample_init_answers [sample_device VK_API_VERSION_1_3]) sample_session 1 []
         = (Done r, h') ->
         forall vd, r = Some vd ->
           vd_bind_pixmap_strategy vd = s /\
           vd_physical_device vd = new_handle (pd_handle d)) /\
      (fails_after_compose_pipeline
         (init_pipelines (sample_init_answers [sample_device VK_API_VERSION_1_3])) = false ->
       exists r h',
         vk_init (sample_init_answers [sample_device VK_API_VERSION_1_3]) sample_session 1 []
         = (Done r, h'))
    | None =>
      ok = false /\ vd_physical_device vd1 = VK_NULL_HANDLE /\
      exists h',
        vk_init (sample_init_answers [sample_device VK_API_VERSION_1_3]) sample_session 1 []
        = (Done None, h')
    end.
Proof.
  apply (init_selects_strategy_by_priority
           (sample_init_answers [sample_device VK_API_VERSION_1_3]) sample_session 1
           [sample_device VK_API_VERSION_1_3] vulkan_data_zero []);
    reflexivity.
Defined.

(** The claim as worded fails when the only device supports every extension
    but reports Vulkan 1.2: the server has DRI3 and SHM, the device supports
    both extension sets, and still the start-up returns no handle. *)
Lemma init_rejects_old_device_counterexample :
  dri3_exists sample_session = true /\
  existsb (supports_extensions (common_extension_names ++ dri3_extension_names))
    [sample_device VK_API_VERSION_1_2] = true /\
  result (vk_init (sample_init_answers [sample_device VK_API_VERSION_1_2]) sample_session 1)
  = Done None /\
  result (vk_init (sample_init_answers [sample_device VK_API_VERSION_1_3]) sample_session 1)
  <> Done None.
Proof. repeat split; [vm_compute; reflexivity..|vm_compute; discriminate]. Qed.

(** A start-up with a suitable device whose fill pipeline cannot be created
    does not return: [vk_create_pipelines] comes to its label [err] with the
    compose stages freed. *)
Lemma init_reads_freed_stages_example :
  strategy_by_priority sample_session [sample_device VK_API_VERSION_1_3]
  = Some (BIND_PIXMAP_STRATEGY_DRI3, sample_device VK_API_VERSION_1_3) /\
  result (vk_init (sample_init_answers_no_fill_pipeline [sample_device VK_API_VERSION_1_3])
            sample_session 1)
  = Undefined.
Proof. split; vm_compute; reflexivity. Qed.

(** ** Binding through DRI3: the number of descriptors *)

(** Rewrite with the strategy of the backend, however the projection is
    displayed. *)
Ltac rewrite_strategy H :=
  first
    [ rewrite H
    | let H' := fresh in
      pose proof H as H'; unfold vd_bind_pixmap_strategy in H'; rewrite H'; clear H' ].

(** Without a reply the strategy-specific bind fails before it has created
    anything. *)
Lemma vk_bind_pixmap_no_reply NDEBUG e vd pixmap visual_info owned h :
  vd_bind_pixmap_strategy vd = BIND_PIXMAP_STRATEGY_DRI3 ->
  d3_buffers_from_pixmap (ba_dri3 e) = None ->
  vk_bind_pixmap NDEBUG e vd pixmap visual_info owned h
  = (Done None,
     free Vulkan_image
     :: (if owned && negb (pixmap =? XCB_NONE) then [xcb_free_pixmap pixmap] else [])
     ++ vkDeviceWaitIdle (vd_device vd) (ba_release_wait_idle e)
     :: free Backend_image
     :: xcb_dri3_buffers_from_pixmap pixmap None :: h).
Proof.
  intros Hs Hr.
  unfold vk_bind_pixmap, vk_bind_pixmap_dri3, vk_release_image. cbn.
  rewrite_strategy Hs. rewrite Hr. cbn.
  destruct owned, (pixmap =? XCB_NONE); reflexivity.
Qed.

(** C4, where the code misses it.  In the zero-copy bind path a reply with
    a descriptor count other than one is not turned into a failure.  The
    count is looked at by an assertion only: with assertions enabled the
    process aborts on the spot; with assertions compiled out the bind goes
    on to call [vkCreateImage] with that count of planes and its one plane
    layout, which Vulkan leaves undefined.  Either way the bind does not
    return, neither a handle nor none, and nothing of what the reply
    brought is released: the log ends with the reply. *)
Theorem dri3_bind_descriptor_count
    (NDEBUG : bool) (e : bind_answers) (vd : vulkan_data) (pixmap : Z)
    (visual_info : xvisual_info) (owned : bool) (h : list call) (r : dri3_reply_t) :
  vd_bind_pixmap_strategy vd = BIND_PIXMAP_STRATEGY_DRI3 ->
  d3_buffers_from_pixmap (ba_dri3 e) = Some r ->
  r_nfd r <> 1 ->
  vk_bind_pixmap NDEBUG e vd pixmap visual_info owned h
  = (if NDEBUG then Undefined else Aborted,
     xcb_dri3_buffers_from_pixmap pixmap (Some (reply_fds r)) :: h).
Proof.
  intros Hs Hr Hn.
  apply Z.eqb_neq in Hn.
  unfold vk_bind_pixmap, vk_bind_pixmap_dri3. cbn.
  rewrite_strategy Hs. rewrite Hr. cbn. unfold bind, assert_, ask. cbn. rewrite Hn.
  destruct NDEBUG; reflexivity.
Qed.

Lemma dri3_bind_descriptor_count_witness :
  r_nfd <$> d3_buffers_from_pixmap (ba_dri3 sample_bind_answers_two_planes) = Some 2 /\
  vk_bind_pixmap false sample_bind_answers_two_planes sample_vd 77 {| alpha_size := 0 |}
    true []
  = (Aborted, [xcb_dri3_buffers_from_pixmap 77 (Some [5; 6])]) /\
  vk_bind_pixmap true sample_bind_answers_two_planes sample_vd 77 {| alpha_size := 0 |}
    true []
  = (Undefined, [xcb_dri3_buffers_from_pixmap 77 (Some [5; 6])]).
Proof.
  split; [reflexivity|]. split.
  - apply (dri3_bind_descriptor_count false sample_bind_answers_two_planes sample_vd 77
             {| alpha_size := 0 |} true [] sample_dri3_reply_two_planes);
      [reflexivity|reflexivity|discriminate].
  - apply (dri3_bind_descriptor_count true sample_bind_answers_two_planes sample_vd 77
             {| alpha_size := 0 |} true [] sample_dri3_reply_two_planes);
      [reflexivity|reflexivity|discriminate].
Defined.

(** ** Releasing an image of the shared-memory strategy *)

(** A shared-memory bind that fails before the segment exists still detaches
    and removes a segment: the image starts out zeroed, and zero is not the
    value [vk_release_image_shm] takes for "no segment". *)
Lemma failed_shm_bind_releases_segment NDEBUG e vd pixmap visual_info owned h :
  vd_bind_pixmap_strategy vd = BIND_PIXMAP_STRATEGY_SHM ->
  sh_geometry (ba_shm e) = None ->
  vk_bind_pixmap NDEBUG e vd pixmap visual_info owned h
  = (Done None,
     free Vulkan_image
     :: (if owned && negb (pixmap =? XCB_NONE) then [xcb_free_pixmap pixmap] else [])
     ++ shmctl_IPC_RMID 0 :: shmdt NULL
     :: vkDeviceWaitIdle (vd_device vd) (ba_release_wait_idle e)
     :: free Backend_image :: h).
Proof.
  intros Hs Hr.
  unfold vk_bind_pixmap, vk_bind_pixmap_shm, vk_release_image, vk_release_image_shm. cbn.
  rewrite_strategy Hs. rewrite Hr. cbn.
  destruct owned, (pixmap =? XCB_NONE); reflexivity.
Qed.

(** C7, at the input where the code misses it.  The shared-memory bind of
    pixmap 77 gets no reply to its geometry request, so it has neither
    created nor attached a segment; the release on the way out nevertheless
    calls [shmdt] on the null address and removes the segment with id 0. *)
Theorem failed_shm_bind_removes_foreign_segment :
  result (vk_bind_pixmap false sample_bind_answers_no_geometry sample_vd_shm 77
            {| alpha_size := 0 |} false) = Done None /\
  calls (vk_bind_pixmap false sample_bind_answers_no_geometry sample_vd_shm 77
           {| alpha_size := 0 |} false)
  = [free Backend_image; vkDeviceWaitIdle 5 true; shmdt NULL; shmctl_IPC_RMID 0;
     free Vulkan_image].
Proof. split; reflexivity. Qed.

(** ** What quiet calls leave untouched *)

Lemma fence_quiet_app cb fence t h :
  Forall (fun c => fence_quiet c = true) t ->
  in_flight fence (t ++ h) = in_flight fence h /\
  recording_safe cb fence (t ++ h) = recording_safe cb fence h.
Proof.
  induction 1 as [|c t Hc _ [IH1 IH2]]; [split; reflexivity|].
  assert (in_flight fence ((c :: t) ++ h) = in_flight fence h) as Hin.
  { destruct c; try discriminate Hc; exact IH1. }
  split; [exact Hin|].
  change (recording_safe cb fence ((c :: t) ++ h))
    with ((if rerecords cb c then Nat.eqb (in_flight fence (t ++ h)) 0 else true)
          && Nat.leb (in_flight fence ((c :: t) ++ h)) 1
          && recording_safe cb fence (t ++ h)).
  rewrite Hin, IH2.
  assert (rerecords cb c = false) as -> by (destruct c; try discriminate Hc; reflexivity).
  simpl.
  destruct (recording_safe cb fence h) eqn:Hsafe; [|now rewrite andb_false_r].
  rewrite andb_true_r.
  destruct h as [|c0 h0]; [reflexivity|].
  simpl in Hsafe. apply andb_true_iff in Hsafe as [Hsafe _].
  apply andb_true_iff in Hsafe as [_ Hsafe]. exact Hsafe.
Qed.

Lemma pool_quiet_app pool t h :
  Forall (fun c => pool_quiet c = true) t ->
  pool_max_sets pool (t ++ h) = pool_max_sets pool h /\
  pool_sets_in_use pool (t ++ h) = pool_sets_in_use pool h /\
  pool_exhausted pool (t ++ h) = pool_exhausted pool h.
Proof.
  intros Ht.
  assert (pool_max_sets pool (t ++ h) = pool_max_sets pool h /\
          pool_sets_in_use pool (t ++ h) = pool_sets_in_use pool h) as [H1 H2].
  { induction Ht as [|c t Hc _ [IH1 IH2]]; [split; reflexivity|].
    destruct c; try discriminate Hc; split; assumption. }
  unfold pool_exhausted. now rewrite H1, H2.
Qed.

(** What the driver has granted so far stays granted. *)
Lemma pool_respected_app pool t h :
  pool_respected pool (t ++ h) = true -> pool_respected pool h = true.
Proof.
  induction t as [|c t IH]; [auto|].
  destruct c; simpl; try exact IH.
  match goal with r : option handle |- _ => destruct r end; [|exact IH].
  intros H. apply andb_true_iff in H as [_ H]. auto.
Qed.

Lemma logs_extends {A} P (m : M A) h r h' :
  logs P m -> m h = (r, h') -> exists t, h' = t ++ h.
Proof. intros Hm Hrun. destruct (Hm h) as (t & Ht & _). rewrite Hrun in Ht. now exists t. Qed.

Lemma quiet_fence t : Forall (fun c => quiet c = true) t -> Forall (fun c => fence_quiet c = true) t.
Proof.
  intros H. eapply Forall_impl; [exact H|].
  intros c Hc. unfold quiet in Hc. now apply andb_true_iff in Hc.
Qed.

Lemma quiet_pool t : Forall (fun c => quiet c = true) t -> Forall (fun c => pool_quiet c = true) t.
Proof.
  intros H. eapply Forall_impl; [exact H|].
  intros c Hc. unfold quiet in Hc. now apply andb_true_iff in Hc.
Qed.

(** A safe log never has more than one submission in flight. *)
Lemma recording_safe_in_flight cb fence h :
  recording_safe cb fence h = true -> (in_flight fence h <= 1)%nat.
Proof.
  destruct h as [|c h]; [simpl; lia|].
  intros Hsafe. simpl in Hsafe. apply andb_true_iff in Hsafe as [Hsafe _].
  apply andb_true_iff in Hsafe as [_ Hsafe]. now apply Nat.leb_le.
Qed.

(** The log of a start-up: nothing in flight, nothing allocated. *)
Lemma startup_quiet_log cb fence pool t :
  Forall (fun c => startup_quiet c = true) t ->
  in_flight fence t = 0%nat /\ recording_safe cb fence t = true /\
  pool_sets_in_use pool t = 0.
Proof.
  induction 1 as [|c t Hc _ (IH1 & IH2 & IH3)]; [repeat split|].
  assert (in_flight fence (c :: t) = 0%nat) as Hin.
  { destruct c; try discriminate Hc; simpl; try exact IH1.
    - destruct ok; [destruct (fence0 =? fence)|]; (reflexivity || exact IH1).
    - destruct ok; (reflexivity || exact IH1). }
  split; [exact Hin|]. split.
  - change (recording_safe cb fence (c :: t))
      with ((if rerecords cb c then Nat.eqb (in_flight fence t) 0 else true)
            && Nat.leb (in_flight fence (c :: t)) 1
            && recording_safe cb fence t).
    rewrite Hin, IH2, IH1. now destruct (rerecords cb c).
  - destruct c; try discriminate Hc; exact IH3.
Qed.

(** ** What binding and releasing do to the pool and to the fence *)

Lemma bind_emit {B} c (k : unit -> M B) h : bind (emit c) k h = k tt (c :: h).
Proof. reflexivity. Qed.

Lemma bind_ask {R B} (c : R -> call) answer (k : R -> M B) h :
  bind (ask c answer) k h = k answer (c answer :: h).
Proof. reflexivity. Qed.

Lemma bind_when_emit {B} b c (k : unit -> M B) h :
  bind (when b (emit c)) k h = k tt (opt_call b c ++ h).
Proof. destruct b; reflexivity. Qed.

Lemma when_emit b c h : when b (emit c) h = (Done tt, opt_call b c ++ h).
Proof. destruct b; reflexivity. Qed.

Lemma bind_ret {A B} (a : A) (k : A -> M B) h : bind (ret a) k h = k a h.
Proof. reflexivity. Qed.

Lemma vk_release_image_shm_calls vd vi h :
  vk_release_image_shm vd vi h = (Done tt, rev (shm_release_calls vd vi) ++ h).
Proof.
  unfold vk_release_image_shm, shm_release_calls.
  rewrite !bind_when_emit, when_emit, !rev_app_distr, <- !app_assoc.
  repeat f_equal;
    match goal with |- context [opt_call ?b ?c] => destruct b; reflexivity end.
Qed.

Lemma rev_opt_call b c : rev (opt_call b c) = opt_call b c.
Proof. destruct b; reflexivity. Qed.

(** The log of a release of the last reference. *)
Lemma vk_release_image_calls wait_idle vd image h :
  vi_refcount (bi_inner image) = 1 ->
  vk_release_image wait_idle vd image h
  = (Done None,
     rev (release_tail_calls vd (bi_inner image))
     ++ opt_call (negb (vi_descriptor_set (bi_inner image) =? VK_NULL_HANDLE))
          (vkFreeDescriptorSets (vd_device vd) (vd_descriptor_pool vd)
             (vi_descriptor_set (bi_inner image)))
     ++ vkDeviceWaitIdle (vd_device vd) wait_idle :: free Backend_image :: h).
Proof.
  intros Href.
  unfold vk_release_image. cbv zeta. rewrite bind_emit.
  assert (vi_refcount (set_vi_refcount (int32_sub (vi_refcount (bi_inner image)) 1)
                         (bi_inner image)) = 0) as Hzero.
  { cbn. rewrite_field Href. reflexivity. }
  rewrite_field Hzero. cbn [Z.ltb Z.compare].
  rewrite bind_ask, !bind_when_emit.
  unfold release_tail_calls.
  destruct (vd_bind_pixmap_strategy vd).
  - rewrite bind_ret, !bind_when_emit, bind_emit. unfold ret. cbn.
    rewrite !rev_app_distr, !rev_opt_call, <- !app_assoc. reflexivity.
  - rewrite (bind_done _ _ _ _ _ (vk_release_image_shm_calls _ _ _)).
    rewrite !bind_when_emit, bind_emit. unfold ret, shm_release_calls. cbn.
    rewrite !rev_app_distr, !rev_opt_call, <- !app_assoc. reflexivity.
Qed.

Lemma opt_call_quiet b c : quiet c = true -> Forall (fun c => quiet c = true) (opt_call b c).
Proof. intros Hc. destruct b; repeat constructor. exact Hc. Qed.

Lemma release_tail_quiet vd vi : Forall (fun c => quiet c = true) (release_tail_calls vd vi).
Proof.
  unfold release_tail_calls, shm_release_calls.
  repeat (apply Forall_app; split); try (apply opt_call_quiet; reflexivity).
  - destruct (vd_bind_pixmap_strategy vd); [constructor|].
    repeat (apply Forall_app; split); apply opt_call_quiet; reflexivity.
  - repeat constructor.
Qed.

(** Close a goal about [recording_safe] of a log made of explicit calls on
    top of a safe log. *)
Ltac safe_tac Hs :=
  let Hle := fresh "Hle" in
  pose proof (recording_safe_in_flight _ _ _ Hs) as Hle;
  apply Nat.leb_le in Hle;
  cbn; rewrite ?Z.eqb_refl; cbn; rewrite ?Hs, ?Hle; cbn; try reflexivity.

(** Releasing the last reference: the descriptor set, if there is one, goes
    back to the pool; the recording stays safe. *)
Lemma vk_release_image_last wait_idle vd image h :
  vi_refcount (bi_inner image) = 1 ->
  exists h',
    vk_release_image wait_idle vd image h = (Done None, h') /\
    pool_max_sets (vd_descriptor_pool vd) h' = pool_max_sets (vd_descriptor_pool vd) h /\
    pool_sets_in_use (vd_descriptor_pool vd) h'
    = pool_sets_in_use (vd_descriptor_pool vd) h
      - (if vi_descriptor_set (bi_inner image) =? VK_NULL_HANDLE then 0 else 1) /\
    (recording_safe (vd_command_buffer vd) (vd_queue_submit_fence vd) h = true ->
     recording_safe (vd_command_buffer vd) (vd_queue_submit_fence vd) h' = true).
Proof.
  intros Href. eexists. split; [now apply vk_release_image_calls|].
  pose proof (release_tail_quiet vd (bi_inner image)) as Hq.
  apply Forall_rev in Hq.
  destruct (pool_quiet_app (vd_descriptor_pool vd) _
              (opt_call (negb (vi_descriptor_set (bi_inner image) =? VK_NULL_HANDLE))
                 (vkFreeDescriptorSets (vd_device vd) (vd_descriptor_pool vd)
                    (vi_descriptor_set (bi_inner image)))
               ++ vkDeviceWaitIdle (vd_device vd) wait_idle :: free Backend_image :: h)
              (quiet_pool _ Hq)) as (Hmax & Huse & _).
  destruct (fence_quiet_app (vd_command_buffer vd) (vd_queue_submit_fence vd) _
              (opt_call (negb (vi_descriptor_set (bi_inner image) =? VK_NULL_HANDLE))
                 (vkFreeDescriptorSets (vd_device vd) (vd_descriptor_pool vd)
                    (vi_descriptor_set (bi_inner image)))
               ++ vkDeviceWaitIdle (vd_device vd) wait_idle :: free Backend_image :: h)
              (quiet_fence _ Hq)) as (_ & Hsafe).
  rewrite Hmax, Huse, Hsafe. clear Hmax Huse Hsafe Hq.
  destruct (vi_descriptor_set (bi_inner image) =? VK_NULL_HANDLE); cbn.
  - repeat split; try lia.
    intros Hs. destruct wait_idle; safe_tac Hs.
  - rewrite Z.eqb_refl. repeat split; try lia.
    intros Hs. destruct wait_idle; safe_tac Hs.
Qed.

Lemma bind_transition_pool_quiet e vd vi : logs pool_quiet (bind_transition e vd vi).
Proof. unfold bind_transition. monad_steps. Qed.

(** The one-shot submission of a bind keeps the recording safe: it resets
    the command buffer only after its own wait on the fence has succeeded. *)
Lemma bind_transition_effect e vd vi h :
  exists ok h',
    bind_transition e vd vi h = (Done ok, h') /\
    (forall pool,
       pool_max_sets pool h' = pool_max_sets pool h /\
       pool_sets_in_use pool h' = pool_sets_in_use pool h) /\
    (recording_safe (vd_command_buffer vd) (vd_queue_submit_fence vd) h = true ->
     recording_safe (vd_command_buffer vd) (vd_queue_submit_fence vd) h' = true).
Proof.
  destruct (bind_transition e vd vi h) as [o h'] eqn:Hrun.
  assert (forall pool,
            pool_max_sets pool h' = pool_max_sets pool h /\
            pool_sets_in_use pool h' = pool_sets_in_use pool h) as Hpool.
  { intros pool.
    destruct (bind_transition_pool_quiet e vd vi h) as (t & Ht & Hq).
    rewrite Hrun in Ht. simpl in Ht. subst h'.
    destruct (pool_quiet_app pool t h Hq) as (H1 & H2 & _). now split. }
  revert Hrun. unfold bind_transition, bind, ask, emit, ret.
  destruct (ba_wait_for_fences e); cbn;
    [destruct (ba_reset_fences e); cbn;
      [destruct (ba_reset_command_buffer e); cbn;
        [destruct (ba_begin_command_buffer e); cbn;
          [destruct (ba_end_command_buffer e); cbn;
            [destruct (ba_queue_submit e); cbn|]|]|]|]|];
    intros [= <- <-]; eexists _, _; (split; [reflexivity|]); (split; [exact Hpool|]);
    intros Hs; safe_tac Hs.
Qed.

Lemma created_not_null answer h : created answer = Some h -> h <> VK_NULL_HANDLE.
Proof. destruct answer; intros [= <-]; discriminate. Qed.

Lemma vk_bind_pixmap_dri3_quiet NDEBUG e vd vi : logs quiet (vk_bind_pixmap_dri3 NDEBUG e vd vi).
Proof. unfold vk_bind_pixmap_dri3. monad_steps. Qed.

Lemma vk_bind_pixmap_shm_quiet e vd vi : logs quiet (vk_bind_pixmap_shm e vd vi).
Proof. unfold vk_bind_pixmap_shm, bind_staging_buffer. monad_steps. Qed.

Lemma vk_bind_pixmap_dri3_keeps NDEBUG e vd vi :
  yields (fun p => vi_refcount (snd p) = vi_refcount vi /\
                   vi_descriptor_set (snd p) = vi_descriptor_set vi)
    (vk_bind_pixmap_dri3 NDEBUG e vd vi).
Proof. unfold vk_bind_pixmap_dri3. yields_steps; split; reflexivity. Qed.

Lemma vk_bind_pixmap_shm_keeps e vd vi :
  yields (fun p => vi_refcount (snd p) = vi_refcount vi /\
                   vi_descriptor_set (snd p) = vi_descriptor_set vi)
    (vk_bind_pixmap_shm e vd vi).
Proof. unfold vk_bind_pixmap_shm, bind_staging_buffer. yields_steps; split; reflexivity. Qed.

(** The strategy-specific half of a bind: a quiet log, and the image still
    holds one reference and no descriptor set. *)
Lemma strategy_bind_effect NDEBUG e vd vi h ok vi' h1 :
  match vd_bind_pixmap_strategy vd with
  | BIND_PIXMAP_STRATEGY_DRI3 => vk_bind_pixmap_dri3 NDEBUG (ba_dri3 e) vd vi
  | BIND_PIXMAP_STRATEGY_SHM => vk_bind_pixmap_shm (ba_shm e) vd vi
  end h = (Done (ok, vi'), h1) ->
  (exists t, h1 = t ++ h /\ Forall (fun c => quiet c = true) t) /\
  vi_refcount vi' = vi_refcount vi /\
  vi_descriptor_set vi' = vi_descriptor_set vi.
Proof.
  intros Hs. destruct (vd_bind_pixmap_strategy vd).
  - split.
    + destruct (vk_bind_pixmap_dri3_quiet NDEBUG (ba_dri3 e) vd vi h) as (t & Ht & Hq).
      rewrite Hs in Ht. now exists t.
    + exact (vk_bind_pixmap_dri3_keeps NDEBUG (ba_dri3 e) vd vi h (ok, vi') h1 Hs).
  - split.
    + destruct (vk_bind_pixmap_shm_quiet (ba_shm e) vd vi h) as (t & Ht & Hq).
      rewrite Hs in Ht. now exists t.
    + exact (vk_bind_pixmap_shm_keeps (ba_shm e) vd vi h (ok, vi') h1 Hs).
Qed.

(** The label [err] of a bind, for an image with one reference. *)
Lemma bind_err_effect wait_idle vd vi h r h' :
  vi_refcount vi = 1 ->
  bind (vk_release_image wait_idle vd (handle_of vi)) (fun _ => ret None) h
  = (Done r, h') ->
  r = @None backend_image /\
  pool_max_sets (vd_descriptor_pool vd) h' = pool_max_sets (vd_descriptor_pool vd) h /\
  pool_sets_in_use (vd_descriptor_pool vd) h'
  = pool_sets_in_use (vd_descriptor_pool vd) h
    - (if vi_descriptor_set vi =? VK_NULL_HANDLE then 0 else 1) /\
  (recording_safe (vd_command_buffer vd) (vd_queue_submit_fence vd) h = true ->
   recording_safe (vd_command_buffer vd) (vd_queue_submit_fence vd) h' = true).
Proof.
  intros Href Hrun.
  destruct (vk_release_image_last wait_idle vd (handle_of vi) h Href)
    as (h2 & Hrel & Hmax & Huse & Hsafe).
  rewrite (bind_done _ _ _ _ _ Hrel) in Hrun. injection Hrun as <- <-.
  auto.
Qed.

Lemma vk_release_image_any_calls wait_idle vd image :
  logs (fun _ => true) (vk_release_image wait_idle vd image).
Proof. unfold vk_release_image, vk_release_image_shm. monad_steps. Qed.

Lemma vk_bind_pixmap_any_calls NDEBUG e vd pixmap visual_info owned :
  logs (fun _ => true) (vk_bind_pixmap NDEBUG e vd pixmap visual_info owned).
Proof.
  unfold vk_bind_pixmap, allocate_descriptor_set, bind_transition, vk_release_image,
    vk_release_image_shm, vk_bind_pixmap_dri3, vk_bind_pixmap_shm, bind_staging_buffer.
  monad_steps.
Qed.

(** What a bind does to the pool and to the recording, whatever it returns:
    a bind that hands out a handle has taken exactly one descriptor set,
    which the driver granted, from an exhausted pool or not; a bind that
    fails leaves the pool as it was. *)
Lemma vk_bind_pixmap_effect NDEBUG e vd pixmap visual_info owned h r h' :
  vk_bind_pixmap NDEBUG e vd pixmap visual_info owned h = (Done r, h') ->
  pool_max_sets (vd_descriptor_pool vd) h' = pool_max_sets (vd_descriptor_pool vd) h /\
  match r with
  | Some image =>
    (pool_respected (vd_descriptor_pool vd) h' = true ->
     pool_exhausted (vd_descriptor_pool vd) h = false) /\
    created (ba_allocate_descriptor_set e) <> None /\
    pool_sets_in_use (vd_descriptor_pool vd) h'
    = pool_sets_in_use (vd_descriptor_pool vd) h + 1 /\
    sole_owner image
  | None =>
    pool_sets_in_use (vd_descriptor_pool vd) h' = pool_sets_in_use (vd_descriptor_pool vd) h
  end /\
  (recording_safe (vd_command_buffer vd) (vd_queue_submit_fence vd) h = true ->
   recording_safe (vd_command_buffer vd) (vd_queue_submit_fence vd) h' = true).
Proof.
  unfold vk_bind_pixmap. cbv zeta. intros Hrun.
  unfold bind at 1 in Hrun.
  match type of Hrun with
  | context [let (_, _) := ?m h in _] => destruct (m h) as [[[ok vi]| |] h1] eqn:Hs
  end; [|discriminate..].
  apply strategy_bind_effect in Hs. destruct Hs as [(t1 & -> & Hq1) [Href Hdesc]].
  cbn in Href, Hdesc.
  destruct (pool_quiet_app (vd_descriptor_pool vd) t1 h (quiet_pool _ Hq1))
    as (Hmax1 & Huse1 & Hex1).
  destruct (fence_quiet_app (vd_command_buffer vd) (vd_queue_submit_fence vd) t1 h
              (quiet_fence _ Hq1)) as (_ & Hsafe1).
  destruct ok; cbn [negb] in Hrun.
  2:{ apply bind_err_effect in Hrun; [|exact Href].
      destruct Hrun as (-> & Hmax & Huse & Hsafe).
      rewrite_field_in Hdesc Huse. cbn in Huse.
      rewrite Hmax, Huse, Hmax1, Huse1. repeat split; try lia.
      intros Hs. apply Hsafe. now rewrite Hsafe1. }
  rewrite bind_ask in Hrun.
  destruct (created (ba_create_image_view e)) as [view|] eqn:Hv.
  2:{ apply bind_err_effect in Hrun; [|exact Href].
      destruct Hrun as (-> & Hmax & Huse & Hsafe).
      rewrite_field_in Hdesc Huse. cbn in Huse, Hmax.
      rewrite Hmax, Huse, Hmax1, Huse1. repeat split; try lia.
      intros Hs. apply Hsafe. rewrite <- Hsafe1 in Hs. safe_tac Hs. }
  assert (forall x,
            pool_exhausted (vd_descriptor_pool vd)
              (vkCreateImageView (vd_device vd) (vi_image vi) VK_FORMAT_R8G8B8A8_UNORM
                 (image_view_components vi) x :: t1 ++ h)
            = pool_exhausted (vd_descriptor_pool vd) h) as Hex2.
  { intros x. exact Hex1. }
  unfold allocate_descriptor_set at 1 in Hrun. rewrite bind_ask in Hrun.
  destruct (created (ba_allocate_descriptor_set e)) as [set|] eqn:Ha.
  2:{ apply bind_err_effect in Hrun; [|exact Href].
      destruct Hrun as (-> & Hmax & Huse & Hsafe).
      cbn in Huse, Hmax. rewrite_field_in Hdesc Huse. cbn in Huse.
      rewrite Hmax, Huse, Hmax1, Huse1. repeat split; try lia.
      intros Hs. apply Hsafe. rewrite <- Hsafe1 in Hs. safe_tac Hs. }
  rewrite bind_emit in Hrun. unfold bind at 1 in Hrun.
  match type of Hrun with
  | context [bind_transition ?a ?b ?c ?d] =>
    destruct (bind_transition_effect a b c d) as (ok2 & h4 & Ht & Hpool4 & Hsafe4)
  end.
  rewrite Ht in Hrun.
  destruct (logs_extends _ _ _ _ _ (bind_transition_pool_quiet _ _ _) Ht) as [t4 Ht4].
  destruct (Hpool4 (vd_descriptor_pool vd)) as [Hmax4 Huse4]. clear Hpool4.
  cbn in Hmax4, Huse4. rewrite Z.eqb_refl in Huse4.
  pose proof (created_not_null _ _ Ha) as Hset.
  destruct ok2; cbn [negb] in Hrun.
  - unfold ret in Hrun. injection Hrun as <- <-.
    rewrite Hmax4, Huse4, Hmax1, Huse1.
    split; [reflexivity|]. split.
    + split; [|split; [discriminate|split; [lia|split; [exact Href|exact Hset]]]].
      intros Hres. rewrite Ht4 in Hres. apply pool_respected_app in Hres.
      cbn in Hres. rewrite Z.eqb_refl in Hres. cbn in Hres.
      apply andb_true_iff in Hres as [Hres _]. apply negb_true_iff in Hres.
      rewrite <- Hres. symmetry. apply Hex2.
    + intros Hs. apply Hsafe4. rewrite <- Hsafe1 in Hs. safe_tac Hs.
  - apply bind_err_effect in Hrun; [|exact Href].
    destruct Hrun as (-> & Hmax & Huse & Hsafe).
    cbn in Huse. apply Z.eqb_neq in Hset. rewrite Hset in Huse.
    rewrite Hmax, Huse, Hmax4, Huse4, Hmax1, Huse1. repeat split; try lia.
    intros Hs. apply Hsafe, Hsafe4. rewrite <- Hsafe1 in Hs. safe_tac Hs.
Qed.

(** ** What a frame does to the pool and to the fence *)

Lemma same_objects_refl vd : same_objects vd vd.
Proof. repeat split. Qed.

Lemma same_objects_trans vd1 vd2 vd3 :
  same_objects vd1 vd2 -> same_objects vd2 vd3 -> same_objects vd1 vd3.
Proof.
  intros (A1 & A2 & A3 & A4 & A5 & A6 & A7) (B1 & B2 & B3 & B4 & B5 & B6 & B7).
  repeat split; eapply eq_trans; eassumption.
Qed.

(** The log of a prepare. *)
Lemma vk_prepare_calls e vd h :
  exists vd',
    vk_prepare e vd h
    = (Done vd',
       vkCmdPipelineBarrier (vd_command_buffer vd)
         (array_get VK_NULL_HANDLE (vd_swapchain_images vd) (vd_swapchain_image_index vd))
         (array_get VK_IMAGE_LAYOUT_UNDEFINED (vd_swapchain_image_layouts vd)
            (vd_swapchain_image_index vd))
         VK_IMAGE_LAYOUT_COLOR_ATTACHMENT_OPTIMAL
       :: vkBeginCommandBuffer (vd_command_buffer vd) (prepare_begin_command_buffer e)
       :: vkResetCommandBuffer (vd_command_buffer vd) (prepare_reset_command_buffer e)
       :: vkResetFences (vd_device vd) (vd_queue_submit_fence vd) (prepare_reset_fences e)
       :: vkWaitForFences (vd_device vd) (vd_queue_submit_fence vd)
            (prepare_wait_for_fences e)
       :: h) /\
    same_objects vd vd'.
Proof. eexists. split; [reflexivity|]. repeat split. Qed.

Lemma vk_compose_quiet NDEBUG reply vd image image_coords reg_paint :
  logs quiet (vk_compose NDEBUG reply vd image image_coords reg_paint).
Proof. unfold vk_compose, compose_refresh_shm, draw_rect. monad_steps. Qed.

Lemma vk_fill_quiet NDEBUG vd c region : logs quiet (vk_fill NDEBUG vd c region).
Proof. unfold vk_fill, draw_rect. monad_steps. Qed.

Lemma vk_compose_same NDEBUG reply vd image image_coords reg_paint :
  yields (fun vd' => vd' = vd) (vk_compose NDEBUG reply vd image image_coords reg_paint).
Proof. unfold vk_compose. yields_steps; reflexivity. Qed.

Lemma vk_fill_same NDEBUG vd c region :
  yields (fun vd' => vd' = vd) (vk_fill NDEBUG vd c region).
Proof. unfold vk_fill. yields_steps; reflexivity. Qed.

(** The draws of a frame add quiet calls only and return the backend as it
    was. *)
Lemma run_draws_effect NDEBUG draws : forall vd h vd' h',
  run_draws NDEBUG draws vd h = (Done vd', h') ->
  vd' = vd /\ exists t, h' = t ++ h /\ Forall (fun c => quiet c = true) t.
Proof.
  induction draws as [|d draws IH]; intros vd h vd' h' Hrun.
  - injection Hrun as <- <-. split; [reflexivity|]. exists []. split; [reflexivity|constructor].
  - simpl in Hrun. unfold bind in Hrun.
    destruct (run_draw NDEBUG vd d h) as [[vd1| |] h1] eqn:Hd; [|discriminate..].
    assert (vd1 = vd /\ exists t, h1 = t ++ h /\ Forall (fun c => quiet c = true) t)
      as (-> & t1 & -> & Hq1).
    { destruct d as [reply image image_coords reg_paint|c region]; simpl in Hd.
      - split; [exact (vk_compose_same _ _ _ _ _ _ _ _ _ Hd)|].
        destruct (vk_compose_quiet NDEBUG reply vd image image_coords reg_paint h)
          as (t & Ht & Hq).
        rewrite Hd in Ht. now exists t.
      - split; [exact (vk_fill_same _ _ _ _ _ _ _ Hd)|].
        destruct (vk_fill_quiet NDEBUG vd c region h) as (t & Ht & Hq).
        rewrite Hd in Ht. now exists t. }
    apply IH in Hrun as (-> & t2 & -> & Hq2).
    split; [reflexivity|]. exists (t2 ++ t1). split; [now rewrite app_assoc|].
    apply Forall_app; auto.
Qed.

Lemma vk_prepare_pool_quiet e vd : logs pool_quiet (vk_prepare e vd).
Proof. unfold vk_prepare. monad_steps. Qed.

Lemma vk_present_pool_quiet e vd : logs pool_quiet (vk_present e vd).
Proof. unfold vk_present. monad_steps. Qed.

(** A present on top of a log with nothing in flight: one submission goes
    in flight, the recording stays safe. *)
Lemma vk_present_effect e vd h :
  exists vd' h',
    vk_present e vd h = (Done vd', h') /\
    same_objects vd vd' /\
    (in_flight (vd_queue_submit_fence vd) h = 0%nat ->
     recording_safe (vd_command_buffer vd) (vd_queue_submit_fence vd) h = true ->
     recording_safe (vd_command_buffer vd) (vd_queue_submit_fence vd) h' = true).
Proof.
  unfold vk_present, bind, ask, emit, ret. cbn.
  destruct (present_acquire_next_image e); eexists _, _;
    (split; [reflexivity|]); (split; [repeat split|]);
    intros Hz Hs; cbn; rewrite ?Z.eqb_refl;
    destruct (present_queue_submit e), (present_wait_for_fences e);
    cbn; rewrite ?Hz, ?Hs;
    repeat match goal with |- context [Z.eqb ?a ?b] => destruct (Z.eqb a b) end;
    reflexivity.
Qed.

(** A whole frame: the pool is left alone, and the recording stays safe
    when the wait of the prepare has succeeded. *)
Lemma run_frame_effect NDEBUG f vd h vd' h' :
  run_frame NDEBUG f vd h = (Done vd', h') ->
  same_objects vd vd' /\
  (forall pool,
     pool_max_sets pool h' = pool_max_sets pool h /\
     pool_sets_in_use pool h' = pool_sets_in_use pool h) /\
  (prepare_wait_for_fences (frame_prepare f) = true ->
   recording_safe (vd_command_buffer vd) (vd_queue_submit_fence vd) h = true ->
   recording_safe (vd_command_buffer vd) (vd_queue_submit_fence vd) h' = true) /\
  exists t, h' = t ++ h.
Proof.
  unfold run_frame. intros Hrun.
  destruct (vk_prepare_calls (frame_prepare f) vd h) as (vd1 & Hprep & Hsame1).
  rewrite (bind_done _ _ _ _ _ Hprep) in Hrun.
  destruct (vk_prepare_pool_quiet (frame_prepare f) vd h) as (tp & Htp & Hqp).
  rewrite Hprep in Htp. cbn [snd] in Htp.
  unfold bind in Hrun.
  destruct (run_draws NDEBUG (frame_draws f) vd1 _) as [[vd2| |] h2] eqn:Hdraws; [|discriminate..].
  apply run_draws_effect in Hdraws as (-> & td & -> & Hqd).
  destruct (vk_present_effect (frame_present f) vd1
              (td ++ tp ++ h)) as (vd3 & h3 & Hpres & Hsame3 & Hsafe3).
  destruct (vk_present_pool_quiet (frame_present f) vd1 (td ++ tp ++ h)) as (tq & Htq & Hqq).
  rewrite Hpres in Htq. cbn [snd] in Htq.
  rewrite Htp in Hrun. rewrite Hpres in Hrun. injection Hrun as <- <-.
  split; [eapply same_objects_trans; eassumption|]. split.
  - intros pool. rewrite Htq.
    destruct (pool_quiet_app pool tq (td ++ tp ++ h) Hqq) as (-> & -> & _).
    destruct (pool_quiet_app pool td (tp ++ h) (quiet_pool _ Hqd)) as (-> & -> & _).
    destruct (pool_quiet_app pool tp h Hqp) as (-> & -> & _). now split.
  - split; [|exists (tq ++ td ++ tp); rewrite Htq, <- !app_assoc; reflexivity].
    intros Hwait Hs.
    destruct Hsame1 as (_ & _ & _ & Hf & _ & _ & Hcb).
    destruct (fence_quiet_app (vd_command_buffer vd) (vd_queue_submit_fence vd) td (tp ++ h)
                (quiet_fence _ Hqd)) as (Hin & Hsd).
    assert (in_flight (vd_queue_submit_fence vd) (tp ++ h) = 0%nat /\
            recording_safe (vd_command_buffer vd) (vd_queue_submit_fence vd) (tp ++ h)
            = true) as [Hz Hsp].
    { rewrite <- Htp, Hwait. cbn. rewrite !Z.eqb_refl. cbn. rewrite Hs. now split. }
    rewrite <- Hin in Hz. rewrite <- Hsd in Hsp.
    rewrite <- Hf in Hz. rewrite <- Hf, <- Hcb in Hsp. rewrite <- Hf, <- Hcb.
    now apply Hsafe3.
Qed.

(** ** Sessions *)

Lemma pool_invariant_intro vd0 s h :
  same_objects vd0 (ss_vd s) ->
  Forall sole_owner (ss_images s) ->
  pool_max_sets (vd_descriptor_pool vd0) h = Some 32 ->
  pool_sets_in_use (vd_descriptor_pool vd0) h = Z.of_nat (length (ss_images s)) ->
  (pool_respected (vd_descriptor_pool vd0) h = true -> (length (ss_images s) <= 32)%nat) ->
  pool_invariant vd0 s h.
Proof.
  intros H1 H2 H3 H4 H5. exact (conj H1 (conj H2 (conj H3 (conj H4 H5)))).
Qed.

(** One call of the orchestrator keeps the accounting of the pool, and keeps
    the recording safe when the wait of its prepare has succeeded. *)
Lemma run_op_effect NDEBUG vd0 s o h s' h' :
  pool_invariant vd0 s h ->
  run_op NDEBUG s o h = (Done s', h') ->
  pool_invariant vd0 s' h' /\
  (prepare_wait_succeeds o = true ->
   recording_safe (vd_command_buffer vd0) (vd_queue_submit_fence vd0) h = true ->
   recording_safe (vd_command_buffer vd0) (vd_queue_submit_fence vd0) h' = true).
Proof.
  intros (Hsame & Hown & Hmax & Huse & Hlen) Hrun.
  pose proof Hsame as (_ & _ & _ & Hf & Hp & _ & Hcb).
  destruct o as [f|e pixmap visual_info owned|i wait_idle]; simpl in Hrun.
  - unfold bind in Hrun.
    destruct (run_frame NDEBUG f (ss_vd s) h) as [[vd1| |] h1] eqn:Hframe; [|discriminate..].
    injection Hrun as <- <-.
    apply run_frame_effect in Hframe as (Hsame1 & Hpool & Hsafe & t & ->).
    destruct (Hpool (vd_descriptor_pool vd0)) as [Hmax1 Huse1].
    split.
    + apply pool_invariant_intro; cbn.
      * eapply same_objects_trans; eassumption.
      * assumption.
      * exact (eq_trans Hmax1 Hmax).
      * exact (eq_trans Huse1 Huse).
      * intros Hres. apply Hlen. exact (pool_respected_app _ _ _ Hres).
    + simpl. rewrite <- Hf, <- Hcb. exact Hsafe.
  - unfold bind in Hrun.
    destruct (vk_bind_pixmap NDEBUG e (ss_vd s) pixmap visual_info owned h)
      as [[r| |] h1] eqn:Hbind; [|discriminate..].
    destruct (logs_extends _ _ _ _ _ (vk_bind_pixmap_any_calls _ _ _ _ _ _) Hbind)
      as [t Hext].
    apply vk_bind_pixmap_effect in Hbind as (Hmax1 & Hr & Hsafe).
    rewrite Hp in Hmax1, Hr. rewrite Hf, Hcb in Hsafe.
    split; [|intros _; destruct r; injection Hrun as <- <-; exact Hsafe].
    destruct r as [image|]; injection Hrun as <- <-.
    + destruct Hr as (Hex & _ & Huse1 & Hsole).
      apply pool_invariant_intro; cbn.
      * assumption.
      * now constructor.
      * exact (eq_trans Hmax1 Hmax).
      * lia.
      * intros Hres. specialize (Hex Hres).
        unfold pool_exhausted in Hex. rewrite Hmax in Hex. apply Z.leb_gt in Hex.
        lia.
    + apply pool_invariant_intro; try assumption.
      * exact (eq_trans Hmax1 Hmax).
      * exact (eq_trans Hr Huse).
      * intros Hres. apply Hlen. rewrite Hext in Hres.
        exact (pool_respected_app _ _ _ Hres).
  - destruct (ss_images s !! i) as [image|] eqn:Hi.
    2:{ injection Hrun as <- <-. split; [now apply pool_invariant_intro|auto]. }
    pose proof (Forall_lookup_1 _ _ _ _ Hown Hi) as [Href Hdesc].
    destruct (vk_release_image_last wait_idle (ss_vd s) image h Href)
      as (h1 & Hrel & Hmax1 & Huse1 & Hsafe).
    destruct (logs_extends _ _ _ _ _ (vk_release_image_any_calls _ _ _) Hrel) as [t Hext].
    rewrite (bind_done _ _ _ _ _ Hrel) in Hrun. injection Hrun as <- <-.
    apply Z.eqb_neq in Hdesc. rewrite Hdesc in Huse1.
    rewrite Hp in Hmax1, Huse1. rewrite Hf, Hcb in Hsafe.
    pose proof (lookup_lt_Some _ _ _ Hi) as Hlt.
    split; [|intros _; exact Hsafe].
    apply pool_invariant_intro; cbn.
    + assumption.
    + now apply Forall_delete.
    + exact (eq_trans Hmax1 Hmax).
    + rewrite length_delete by eauto. lia.
    + intros Hres. rewrite length_delete by eauto.
      rewrite Hext in Hres. apply pool_respected_app in Hres. apply Hlen in Hres. lia.
Qed.

Lemma run_ops_pool_invariant NDEBUG vd0 ops : forall s h s' h',
  pool_invariant vd0 s h ->
  run_ops NDEBUG ops s h = (Done s', h') ->
  pool_invariant vd0 s' h'.
Proof.
  induction ops as [|o ops IH]; intros s h s' h' Hinv Hrun; simpl in Hrun.
  - now injection Hrun as <- <-.
  - unfold bind in Hrun.
    destruct (run_op NDEBUG s o h) as [[s1| |] h1] eqn:Hop; [|discriminate..].
    apply (run_op_effect _ vd0) in Hop as [Hinv1 _]; [|exact Hinv].
    now apply (IH s1 h1 s' h').
Qed.


(** ** The log of the start-up *)

Lemma vk_destroy_swapchain_startup_quiet vd : logs startup_quiet (vk_destroy_swapchain vd).
Proof. unfold vk_destroy_swapchain. monad_steps. Qed.

Lemma vk_deinit_startup_quiet wait_idle vd : logs startup_quiet (vk_deinit wait_idle vd).
Proof.
  unfold vk_deinit, destroy_unless_null. monad_steps.
  apply vk_destroy_swapchain_startup_quiet.
Qed.

Lemma create_image_views_startup_quiet answers n : forall i vd,
  logs startup_quiet (create_image_views answers n i vd).
Proof. induction n as [|n IH]; intros i vd; simpl; monad_steps. apply IH. Qed.

Lemma vk_create_pipelines_pool_quiet e vd : logs pool_quiet (vk_create_pipelines e vd).
Proof.
  unfold vk_create_pipelines, vk_create_pipeline_shader_stage_create_infos,
    vk_destroy_pipeline_shader_stage_create_infos.
  monad_steps.
Qed.

Lemma vk_create_command_pool_pool_quiet e vd : logs pool_quiet (vk_create_command_pool e vd).
Proof. unfold vk_create_command_pool. monad_steps. Qed.

Lemma init_step_startup_quiet e step next :
  logs startup_quiet step -> (forall vd, logs startup_quiet (next vd)) ->
  logs startup_quiet (init_step e step next).
Proof.
  intros Hs Hn. unfold init_step. monad_steps; [exact Hs| |apply Hn].
  apply vk_deinit_startup_quiet.
Qed.

Lemma vk_create_swapchain_startup_quiet e vd vsync :
  logs startup_quiet (vk_create_swapchain e vd vsync).
Proof. unfold vk_create_swapchain. monad_steps. apply create_image_views_startup_quiet. Qed.

Lemma vk_create_descriptor_pool_startup_quiet e vd :
  logs startup_quiet (vk_create_descriptor_pool e vd).
Proof. unfold vk_create_descriptor_pool. monad_steps. Qed.

Lemma vk_create_pipelines_startup_quiet e vd : logs startup_quiet (vk_create_pipelines e vd).
Proof.
  unfold vk_create_pipelines, vk_create_pipeline_shader_stage_create_infos,
    vk_destroy_pipeline_shader_stage_create_infos.
  monad_steps.
Qed.

Lemma vk_create_command_pool_startup_quiet e vd :
  logs startup_quiet (vk_create_command_pool e vd).
Proof. unfold vk_create_command_pool. monad_steps. Qed.

Lemma vk_init_startup_quiet e session window : logs startup_quiet (vk_init e session window).
Proof.
  unfold vk_init.
  apply init_step_startup_quiet; [unfold vk_create_instance; monad_steps|intros ?].
  apply init_step_startup_quiet; [unfold vk_create_surface; monad_steps|intros ?].
  apply init_step_startup_quiet; [unfold vk_create_device; monad_steps|intros ?].
  apply init_step_startup_quiet;
    [unfold vk_create_fences_and_semaphore; monad_steps|intros ?].
  apply init_step_startup_quiet; [apply vk_create_swapchain_startup_quiet|intros ?].
  apply init_step_startup_quiet; [apply vk_create_descriptor_pool_startup_quiet|intros ?].
  apply init_step_startup_quiet; [apply vk_create_pipelines_startup_quiet|intros ?].
  apply init_step_startup_quiet; [apply vk_create_command_pool_startup_quiet|intros ?].
  apply logs_ret.
Qed.

(** A start-up that hands out a backend went through each of its steps with
    success. *)
Lemma init_step_some e step next h vd h' :
  init_step e step next h = (Done (Some vd), h') ->
  exists vd1 h1, step h = (Done (true, vd1), h1) /\ next vd1 h1 = (Done (Some vd), h').
Proof.
  unfold init_step, bind. intros Hrun.
  destruct (step h) as [[[ok vd1]| |] h1]; [|discriminate..].
  destruct ok; simpl in Hrun.
  - now exists vd1, h1.
  - destruct (vk_deinit (init_deinit_wait_idle e) vd1 h1) as [[[]| |] h2]; discriminate.
Qed.

(** The pool of a backend is made for 32 sets. *)
Lemma vk_create_descriptor_pool_max_sets e vd h vd' h' :
  vk_create_descriptor_pool e vd h = (Done (true, vd'), h') ->
  pool_max_sets (vd_descriptor_pool vd') h' = Some 32.
Proof.
  unfold vk_create_descriptor_pool, bind, ask, ret.
  destruct (created (dpa_descriptor_pool e)) as [pool|]; [|discriminate].
  destruct (created (dpa_descriptor_set_layout e)) as [layout|]; [|discriminate].
  destruct (created (dpa_sampler e)) as [sampler|]; [|discriminate].
  intros [= <- <-]. cbn. now rewrite Z.eqb_refl.
Qed.

Lemma vk_create_pipelines_keeps_pool e vd :
  yields (fun p => vd_descriptor_pool (snd p) = vd_descriptor_pool vd)
    (vk_create_pipelines e vd).
Proof. unfold vk_create_pipelines. yields_steps; reflexivity. Qed.

Lemma vk_create_command_pool_keeps_pool e vd :
  yields (fun p => vd_descriptor_pool (snd p) = vd_descriptor_pool vd)
    (vk_create_command_pool e vd).
Proof. unfold vk_create_command_pool. yields_steps; reflexivity. Qed.

(** The state a session starts from. *)
Lemma vk_init_ready e session window vd h0 :
  vk_init e session window [] = (Done (Some vd), h0) ->
  pool_invariant vd {| ss_vd := vd; ss_images := [] |} h0 /\
  recording_safe (vd_command_buffer vd) (vd_queue_submit_fence vd) h0 = true.
Proof.
  intros Hrun.
  destruct (vk_init_startup_quiet e session window []) as (t & Ht & Hq).
  rewrite Hrun in Ht. simpl in Ht. rewrite app_nil_r in Ht. subst h0.
  destruct (startup_quiet_log (vd_command_buffer vd) (vd_queue_submit_fence vd)
              (vd_descriptor_pool vd) t Hq) as (_ & Hsafe & Huse).
  split; [|exact Hsafe].
  apply pool_invariant_intro; cbn;
    [apply same_objects_refl|constructor| |exact Huse|intros _; lia].
  unfold vk_init in Hrun.
  apply init_step_some in Hrun as (vd1 & h1 & _ & Hrun).
  apply init_step_some in Hrun as (vd2 & h2 & _ & Hrun).
  apply init_step_some in Hrun as (vd3 & h3 & _ & Hrun).
  apply init_step_some in Hrun as (vd4 & h4 & _ & Hrun).
  apply init_step_some in Hrun as (vd5 & h5 & _ & Hrun).
  apply init_step_some in Hrun as (vd6 & h6 & Hpool & Hrun).
  apply init_step_some in Hrun as (vd7 & h7 & Hpipe & Hrun).
  apply init_step_some in Hrun as (vd8 & h8 & Hcmd & Hrun).
  injection Hrun as <- <-.
  apply vk_create_descriptor_pool_max_sets in Hpool.
  pose proof (vk_create_pipelines_keeps_pool _ _ _ _ _ Hpipe) as Hp7.
  pose proof (vk_create_command_pool_keeps_pool _ _ _ _ _ Hcmd) as Hp8.
  cbn in Hp7, Hp8.
  destruct (vk_create_pipelines_pool_quiet (init_pipelines e) vd6 h6) as (t7 & Ht7 & Hq7).
  rewrite Hpipe in Ht7. cbn in Ht7. subst h7.
  destruct (vk_create_command_pool_pool_quiet (init_command_pool e) vd7 (t7 ++ h6))
    as (t8 & Ht8 & Hq8).
  rewrite Hcmd in Ht8. cbn in Ht8. rewrite Ht8.
  destruct (pool_quiet_app (vd_descriptor_pool vd8) t8 (t7 ++ h6) Hq8) as (-> & _).
  destruct (pool_quiet_app (vd_descriptor_pool vd8) t7 h6 Hq7) as (-> & _).
  rewrite <- Hpool. f_equal. exact (eq_trans Hp8 Hp7).
Qed.

(** ** The submit fence *)










Lemma bind_in_session NDEBUG vd0 s h e pixmap visual_info owned r h' :
  pool_invariant vd0 s h ->
  vk_bind_pixmap NDEBUG e (ss_vd s) pixmap visual_info owned h = (Done r, h') ->
  pool_sets_in_use (vd_descriptor_pool vd0) h'
  = pool_sets_in_use (vd_descriptor_pool vd0) h + sets_taken r /\
  (created (ba_allocate_descriptor_set e) = None -> r = None) /\
  (length (ss_images s) = 32%nat ->
   pool_respected (vd_descriptor_pool vd0) h' = true -> r = None).
Proof.
  intros (Hsame & Hown & Hmax & Huse & Hlen) Hbind.
  pose proof Hsame as (_ & _ & _ & _ & Hp & _ & _).
  apply vk_bind_pixmap_effect in Hbind as (_ & Hr & _).
  rewrite Hp in Hr.
  destruct r as [image|].
  - destruct Hr as (Hex & Hset & Huse1 & _).
    split; [exact Huse1|]. split; [intros Hnone; contradiction|].
    intros H32 Hres. specialize (Hex Hres).
    unfold pool_exhausted in Hex. rewrite Hmax in Hex. apply Z.leb_gt in Hex. lia.
  - split; [cbn; rewrite Hr; lia|]. split; reflexivity.
Qed.

Lemma release_in_session vd0 s h i image wait_idle :
  pool_invariant vd0 s h ->
  ss_images s !! i = Some image ->
  exists h',
    vk_release_image wait_idle (ss_vd s) image h = (Done None, h') /\
    pool_sets_in_use (vd_descriptor_pool vd0) h'
    = pool_sets_in_use (vd_descriptor_pool vd0) h - 1.
Proof.
  intros (Hsame & Hown & Hmax & Huse & Hlen) Hi.
  pose proof Hsame as (_ & _ & _ & _ & Hp & _ & _).
  pose proof (Forall_lookup_1 _ _ _ _ Hown Hi) as [Href Hdesc].
  destruct (vk_release_image_last wait_idle (ss_vd s) image h Href)
    as (h1 & Hrel & _ & Huse1 & _).
  apply Z.eqb_neq in Hdesc. rewrite Hdesc in Huse1. rewrite Hp in Huse1.
  exists h1. split; [exact Hrel|exact Huse1].
Qed.

(** * The claims about sessions *)




(** C10 (amended). The descriptor pool is created for 32 sets.  In a
    session after a start-up that succeeded, the sets in use are those of
    the images the orchestrator holds, one each: a bind that succeeds takes
    one set, a bind that fails takes none, a final release gives one back.
    The backend keeps no count of its own: whether a bind gets its set is
    the driver's answer to [vkAllocateDescriptorSets], and a bind the driver
    refuses the set returns no handle.  So the orchestrator holds at most 32
    images, and a bind issued while it holds 32 returns no handle, as long
    as the driver grants no set from the exhausted pool. *)
Theorem bound_images_and_descriptor_sets
    (NDEBUG : bool) (e : init_answers) (session : session_t) (window : Z)
    (vd : vulkan_data) (h0 : list call) (ops : list op) (s' : session_state)
    (h' : list call) :
  vk_init e session window [] = (Done (Some vd), h0) ->
  run_ops NDEBUG ops {| ss_vd := vd; ss_images := [] |} h0 = (Done s', h') ->
  pool_max_sets (vd_descriptor_pool vd) h' = Some 32 /\
  pool_sets_in_use (vd_descriptor_pool vd) h' = Z.of_nat (length (ss_images s')) /\
  (pool_respected (vd_descriptor_pool vd) h' = true -> (length (ss_images s') <= 32)%nat) /\
  (forall ba pixmap visual_info owned r h'',
     vk_bind_pixmap NDEBUG ba (ss_vd s') pixmap visual_info owned h' = (Done r, h'') ->
     pool_sets_in_use (vd_descriptor_pool vd) h''
     = pool_sets_in_use (vd_descriptor_pool vd) h' + sets_taken r /\
     (created (ba_allocate_descriptor_set ba) = None -> r = None) /\
     (length (ss_images s') = 32%nat ->
      pool_respected (vd_descriptor_pool vd) h'' = true -> r = None)) /\
  (forall i image wait_idle,
     ss_images s' !! i = Some image ->
     exists h'',
       vk_release_image wait_idle (ss_vd s') image h' = (Done None, h'') /\
       pool_sets_in_use (vd_descriptor_pool vd) h''
       = pool_sets_in_use (vd_descriptor_pool vd) h' - 1).
Proof.
  intros Hinit Hrun.
  destruct (vk_init_ready _ _ _ _ _ Hinit) as [Hinv0 _].
  pose proof (run_ops_pool_invariant NDEBUG vd ops _ _ _ _ Hinv0 Hrun) as Hinv.
  pose proof Hinv as (_ & _ & Hmax & Huse & Hlen).
  split; [exact Hmax|]. split; [exact Huse|]. split; [exact Hlen|]. split.
  - intros ba pixmap visual_info owned r h'' Hbind.
    exact (bind_in_session _ _ _ _ _ _ _ _ _ _ Hinv Hbind).
  - intros i image wait_idle Hi.
    exact (release_in_session _ _ _ _ _ _ Hinv Hi).
Qed.

Lemma bound_images_and_descriptor_sets_witness :
  length (ss_images (sample_final sample_ops_32_binds_and_one_refused)) = 32%nat /\
  pool_sets_in_use (vd_descriptor_pool sample_started_vd)
    (sample_final_log sample_ops_32_binds_and_one_refused) = 32 /\
  pool_respected (vd_descriptor_pool sample_started_vd)
    (sample_final_log sample_ops_32_binds_and_one_refused) = true /\
  forall ba pixmap visual_info owned r h'',
    vk_bind_pixmap false ba (ss_vd (sample_final sample_ops_32_binds_and_one_refused))
      pixmap visual_info owned (sample_final_log sample_ops_32_binds_and_one_refused)
    = (Done r, h'') ->
    pool_respected (vd_descriptor_pool sample_started_vd) h'' = true ->
    r = None.
Proof.
  assert (length (ss_images (sample_final sample_ops_32_binds_and_one_refused)) = 32%nat)
    as Hlen.
  { vm_compute. reflexivity. }
  destruct (bound_images_and_descriptor_sets false
              (sample_init_answers [sample_device VK_API_VERSION_1_3]) sample_session 9
              sample_started_vd sample_started_log sample_ops_32_binds_and_one_refused
              (sample_final sample_ops_32_binds_and_one_refused)
              (sample_final_log sample_ops_32_binds_and_one_refused))
    as (_ & Huse & _ & Hbind & _).
  - vm_compute. reflexivity.
  - vm_compute. reflexivity.
  - split; [exact Hlen|]. split; [rewrite Huse, Hlen; reflexivity|].
    split; [vm_compute; reflexivity|].
    intros ba pixmap visual_info owned r h'' Hrun Hres.
    exact (proj2 (proj2 (Hbind ba pixmap visual_info owned r h'' Hrun)) Hlen Hres).
Defined.

(** The driver grants a set to each of 33 binds in a row: the 33rd bind,
    issued while 32 images are held, hands out a handle, and the
    orchestrator holds 33 images, each with a descriptor set of its own,
    from a pool made for 32. *)
Lemma bind_beyond_32_sets_counterexample :
  fst sample_started = Done (Some sample_started_vd) /\
  fst (sample_run sample_ops_32_binds) = Done (sample_final sample_ops_32_binds) /\
  length (ss_images (sample_final sample_ops_32_binds)) = 32%nat /\
  (exists image h'',
     run_op false (sample_final sample_ops_32_binds) (sample_bind_nth true 32)
       (sample_final_log sample_ops_32_binds)
     = (Done {| ss_vd := ss_vd (sample_final sample_ops_32_binds);
                ss_images := image :: ss_images (sample_final sample_ops_32_binds) |},
        h'')) /\
  fst (sample_run sample_ops_33_binds) = Done (sample_final sample_ops_33_binds) /\
  length (ss_images (sample_final sample_ops_33_binds)) = 33%nat /\
  NoDup (descriptor_sets_held (sample_final sample_ops_33_binds)) /\
  pool_max_sets (vd_descriptor_pool sample_started_vd) (sample_final_log sample_ops_33_binds)
  = Some 32 /\
  pool_sets_in_use (vd_descriptor_pool sample_started_vd)
    (sample_final_log sample_ops_33_binds) = 33.
Proof.
  split; [vm_compute; reflexivity|]. split; [vm_compute; reflexivity|].
  split; [vm_compute; reflexivity|]. split; [eexists _, _; vm_compute; reflexivity|].
  split; [vm_compute; reflexivity|]. split; [vm_compute; reflexivity|].
  split; [|split; vm_compute; reflexivity].
  apply (bool_decide_unpack _). vm_compute. exact I.
Qed.

(** * The window picker *)

Lemma select_loop_done events target buttons_pressed log :
  (target =? XCB_NONE) || (0 <? buttons_pressed) = false ->
  select_loop events target buttons_pressed log = (Some target, xcb_ungrab_pointer :: log).
Proof. intros H. destruct events as [|[ev|] rest]; simpl; rewrite H; reflexivity. Qed.

Lemma select_loop_event ev rest target buttons_pressed log :
  (target =? XCB_NONE) || (0 <? buttons_pressed) = true ->
  select_loop (Some ev :: rest) target buttons_pressed log
  = select_loop rest (fst (select_step ev target buttons_pressed))
      (snd (select_step ev target buttons_pressed)) (xcb_allow_events :: log).
Proof.
  intros H. simpl. rewrite H.
  destruct (select_step ev target buttons_pressed); reflexivity.
Qed.

Lemma select_loop_lost rest target buttons_pressed log :
  (target =? XCB_NONE) || (0 <? buttons_pressed) = true ->
  select_loop (None :: rest) target buttons_pressed log = (Some 1, xcb_allow_events :: log).
Proof. intros H. simpl. rewrite H. reflexivity. Qed.

Lemma select_loop_waiting target buttons_pressed log :
  (target =? XCB_NONE) || (0 <? buttons_pressed) = true ->
  select_loop [] target buttons_pressed log = (None, xcb_allow_events :: log).
Proof. intros H. simpl. rewrite H. reflexivity. Qed.

(** The target, once set, stays. *)
Lemma select_step_target ev target buttons_pressed :
  target <> XCB_NONE -> fst (select_step ev target buttons_pressed) = target.
Proof.
  intros H. apply Z.eqb_neq in H. unfold select_step.
  destruct (_ =? XCB_BUTTON_PRESS); [rewrite H; reflexivity|].
  destruct (_ =? XCB_BUTTON_RELEASE); reflexivity.
Qed.

Lemma select_step_no_button ev target buttons_pressed :
  is_button ev = false -> select_step ev target buttons_pressed = (target, buttons_pressed).
Proof.
  unfold is_button, is_press, is_release, select_step. intros H.
  apply orb_false_iff in H as [-> ->]. reflexivity.
Qed.

Lemma select_loop_never_none events : forall target buttons_pressed log w log',
  select_loop events target buttons_pressed log = (Some w, log') -> w <> XCB_NONE.
Proof.
  induction events as [|[ev|] rest IH]; intros target p log w log' Hrun;
    destruct ((target =? XCB_NONE) || (0 <? p)) eqn:Hc.
  - rewrite select_loop_waiting in Hrun by exact Hc. discriminate.
  - rewrite select_loop_done in Hrun by exact Hc. injection Hrun as <- <-.
    apply orb_false_iff in Hc as [Hc _]. now apply Z.eqb_neq in Hc.
  - rewrite select_loop_event in Hrun by exact Hc. exact (IH _ _ _ _ _ Hrun).
  - rewrite select_loop_done in Hrun by exact Hc. injection Hrun as <- <-.
    apply orb_false_iff in Hc as [Hc _]. now apply Z.eqb_neq in Hc.
  - rewrite select_loop_lost in Hrun by exact Hc. injection Hrun as <- <-. discriminate.
  - rewrite select_loop_done in Hrun by exact Hc. injection Hrun as <- <-.
    apply orb_false_iff in Hc as [Hc _]. now apply Z.eqb_neq in Hc.
Qed.

(** With the target set, a run that releases the pointer returns it. *)
Lemma select_loop_keeps_target events : forall target buttons_pressed log w log',
  target <> XCB_NONE ->
  select_loop events target buttons_pressed log = (Some w, log') ->
  pointer_released log' ->
  w = target.
Proof.
  induction events as [|[ev|] rest IH]; intros target p log w log' Ht Hrun Hrel;
    destruct ((target =? XCB_NONE) || (0 <? p)) eqn:Hc;
    try (rewrite select_loop_done in Hrun by exact Hc; now injection Hrun as <- <-).
  - rewrite select_loop_waiting in Hrun by exact Hc. discriminate.
  - rewrite select_loop_event in Hrun by exact Hc.
    rewrite (select_step_target ev target p Ht) in Hrun.
    exact (IH _ _ _ _ _ Ht Hrun Hrel).
  - rewrite select_loop_lost in Hrun by exact Hc. injection Hrun as <- <-.
    destruct Hrel as [r Hr]. discriminate.
Qed.

Lemma select_loop_first_press events : forall buttons_pressed log w log',
  select_loop events XCB_NONE buttons_pressed log = (Some w, log') ->
  pointer_released log' ->
  exists pre ev post,
    events = pre ++ Some ev :: post /\
    is_press ev = true /\ picked ev = w /\
    Forall (fun e => exists ev', e = Some ev' /\
                       (is_press ev' = true -> picked ev' = XCB_NONE)) pre.
Proof.
  induction events as [|[ev|] rest IH]; intros p log w log' Hrun Hrel.
  - rewrite select_loop_waiting in Hrun by reflexivity. discriminate.
  - rewrite select_loop_event in Hrun by reflexivity.
    destruct (Z.eq_dec (fst (select_step ev XCB_NONE p)) XCB_NONE) as [Hn|Hn].
    + rewrite Hn in Hrun. destruct (IH _ _ _ _ Hrun Hrel) as (pre & ev1 & post & -> & H1 & H2 & H3).
      exists (Some ev :: pre), ev1, post. repeat split; try assumption.
      constructor; [|exact H3]. exists ev. split; [reflexivity|].
      intros Hp. revert Hn. unfold select_step, picked. unfold is_press in Hp. rewrite Hp.
      simpl. tauto.
    + pose proof (select_loop_keeps_target _ _ _ _ _ _ Hn Hrun Hrel) as ->.
      exists [], ev, rest. repeat split; [| |constructor].
      * unfold is_press. revert Hn. unfold select_step.
        destruct (_ =? XCB_BUTTON_PRESS); [reflexivity|].
        destruct (_ =? XCB_BUTTON_RELEASE); simpl; intros H; now elim H.
      * revert Hn. unfold select_step, picked.
        destruct (_ =? XCB_BUTTON_PRESS); [reflexivity|].
        destruct (_ =? XCB_BUTTON_RELEASE); simpl; intros H; now elim H.
  - rewrite select_loop_lost in Hrun by reflexivity. injection Hrun as <- <-.
    destruct Hrel as [r Hr]. discriminate.
Qed.

Lemma select_loop_skip noise : forall rest target buttons_pressed log,
  no_button_events noise ->
  (target =? XCB_NONE) || (0 <? buttons_pressed) = true ->
  select_loop (noise ++ rest) target buttons_pressed log
  = select_loop rest target buttons_pressed (repeat xcb_allow_events (length noise) ++ log).
Proof.
  induction noise as [|e noise IH]; intros rest target p log Hn Hc; [reflexivity|].
  inversion Hn as [|? ? (ev & -> & Hev) Hn']; subst.
  change ((Some ev :: noise) ++ rest) with (Some ev :: noise ++ rest).
  rewrite select_loop_event by exact Hc.
  rewrite (select_step_no_button _ _ _ Hev). cbn [fst snd].
  rewrite IH by assumption.
  f_equal. change (xcb_allow_events :: log) with ([xcb_allow_events] ++ log).
  rewrite app_assoc. f_equal. cbn [length]. now rewrite <- repeat_cons.
Qed.

Lemma events_awaited_repeat n log :
  events_awaited (repeat xcb_allow_events n ++ log) = (n + events_awaited log)%nat.
Proof.
  unfold events_awaited. induction n as [|n IH]; [reflexivity|].
  cbn. now rewrite IH.
Qed.

Lemma select_loop_result_log events : forall target buttons_pressed log log',
  fst (select_loop events target buttons_pressed log)
  = fst (select_loop events target buttons_pressed log').
Proof.
  induction events as [|[ev|] rest IH]; intros target p log log';
    destruct ((target =? XCB_NONE) || (0 <? p)) eqn:Hc;
    rewrite ?select_loop_done, ?select_loop_waiting, ?select_loop_lost,
      ?select_loop_event by exact Hc; try reflexivity.
  apply IH.
Qed.

Lemma select_loop_button_events events : forall target buttons_pressed log,
  fst (select_loop events target buttons_pressed log)
  = fst (select_loop (button_events events) target buttons_pressed log).
Proof.
  induction events as [|[ev|] rest IH]; intros target p log; [reflexivity| |];
    destruct ((target =? XCB_NONE) || (0 <? p)) eqn:Hc; cbn [button_events List.filter].
  - destruct (is_button ev) eqn:Hb.
    + rewrite !select_loop_event by exact Hc. apply IH.
    + rewrite select_loop_event by exact Hc.
      rewrite (select_step_no_button _ _ _ Hb). cbn [fst snd].
      rewrite (select_loop_result_log rest target p _ log). apply IH.
  - now rewrite !select_loop_done by exact Hc.
  - now rewrite !select_loop_lost by exact Hc.
  - now rewrite !select_loop_done by exact Hc.
Qed.

Lemma select_loop_connection_lost pre post : forall target buttons_pressed log,
  fst (select_loop pre target buttons_pressed log) = None ->
  ~ In xcb_ungrab_pointer log ->
  exists log',
    select_loop (pre ++ None :: post) target buttons_pressed log = (Some 1, log') /\
    ~ In xcb_ungrab_pointer log'.
Proof.
  induction pre as [|[ev|] rest IH]; intros target p log Hw Hlog;
    destruct ((target =? XCB_NONE) || (0 <? p)) eqn:Hc;
    try (rewrite select_loop_done in Hw by exact Hc; discriminate).
  - eexists. split; [apply select_loop_lost; exact Hc|].
    intros [H|H]; [discriminate|auto].
  - rewrite select_loop_event in Hw by exact Hc.
    change ((Some ev :: rest) ++ None :: post) with (Some ev :: rest ++ None :: post).
    rewrite select_loop_event by exact Hc.
    apply IH; [exact Hw|]. intros [H|H]; [discriminate|auto].
  - rewrite select_loop_lost in Hw by exact Hc. discriminate.
Qed.

(** A run of the loop that returns without releasing the pointer has lost
    the connection and returns 1. *)
Lemma select_loop_not_released events : forall target buttons_pressed log w log',
  select_loop events target buttons_pressed log = (Some w, log') ->
  ~ pointer_released log' ->
  w = 1 /\ In None events.
Proof.
  induction events as [|[ev|] rest IH]; intros target p log w log' Hrun Hrel;
    destruct ((target =? XCB_NONE) || (0 <? p)) eqn:Hc;
    try (rewrite select_loop_done in Hrun by exact Hc; injection Hrun as <- <-;
         elim Hrel; eexists; reflexivity).
  - rewrite select_loop_waiting in Hrun by exact Hc. discriminate.
  - rewrite select_loop_event in Hrun by exact Hc.
    destruct (IH _ _ _ _ _ Hrun Hrel) as [-> Hin]. split; [reflexivity|now right].
  - rewrite select_loop_lost in Hrun by exact Hc. injection Hrun as <- <-.
    split; [reflexivity|now left].
Qed.

(** X1. The picker never returns [XCB_NONE].  When it returns with the
    pointer released, the window it returns was picked by a button press
    among the events it read; when it returns without, the grab was refused
    or the connection was lost, and it returns 1. *)
Theorem select_window_never_returns_none
    (grab_status : Z) (events : list (option xcb_event)) (w : Z) (log : list x_request) :
  inspect_select_window grab_status events = (Some w, log) ->
  w <> XCB_NONE /\
  ((pointer_released log /\
    exists ev, In (Some ev) events /\ is_press ev = true /\ picked ev = w) \/
   (~ pointer_released log /\ w = 1 /\
    (grab_status <> XCB_GRAB_STATUS_SUCCESS \/ In None events))).
Proof.
  unfold inspect_select_window.
  destruct (negb (grab_status =? XCB_GRAB_STATUS_SUCCESS)) eqn:Hg.
  - intros [= <- <-]. split; [discriminate|]. right.
    split; [intros [rest Hr]; discriminate|]. split; [reflexivity|]. left.
    apply negb_true_iff in Hg. now apply Z.eqb_neq in Hg.
  - intros Hrun. split; [exact (select_loop_never_none _ _ _ _ _ _ Hrun)|].
    assert (pointer_released log \/ ~ pointer_released log) as [Hrel|Hrel].
    { destruct log as [|[] rest];
        try (right; intros [r Hr]; discriminate).
      left. now exists rest. }
    + left. split; [exact Hrel|].
      destruct (select_loop_first_press _ _ _ _ _ Hrun Hrel)
        as (pre & ev & post & -> & Hp & Hw & _).
      exists ev. split; [|now split].
      apply in_or_app. right. now left.
    + right. split; [exact Hrel|].
      destruct (select_loop_not_released _ _ _ _ _ _ Hrun Hrel) as [-> Hin].
      split; [reflexivity|now right].
Qed.

Lemma select_window_never_returns_none_witness :
  77 <> XCB_NONE /\
  ((pointer_released (snd (inspect_select_window XCB_GRAB_STATUS_SUCCESS sample_events)) /\
    exists ev, In (Some ev) sample_events /\ is_press ev = true /\ picked ev = 77) \/
   (~ pointer_released (snd (inspect_select_window XCB_GRAB_STATUS_SUCCESS sample_events)) /\
    77 = 1 /\
    (XCB_GRAB_STATUS_SUCCESS <> XCB_GRAB_STATUS_SUCCESS \/ In None sample_events))).
Proof.
  apply (select_window_never_returns_none XCB_GRAB_STATUS_SUCCESS sample_events 77
           (snd (inspect_select_window XCB_GRAB_STATUS_SUCCESS sample_events))).
  vm_compute. reflexivity.
Defined.

(** X2. The first button press decides: when the picker returns a window
    and releases the pointer, the window is the child of the first press
    that names a window, or the root window when that press has no child;
    no later press changes it. *)
Theorem select_window_first_press_decides
    (grab_status : Z) (events : list (option xcb_event)) (w : Z) (log : list x_request) :
  inspect_select_window grab_status events = (Some w, log) ->
  pointer_released log ->
  exists pre ev post,
    events = pre ++ Some ev :: post /\
    is_press ev = true /\ picked ev = w /\
    Forall (fun e => exists ev', e = Some ev' /\
                       (is_press ev' = true -> picked ev' = XCB_NONE)) pre.
Proof.
  unfold inspect_select_window.
  destruct (negb (grab_status =? XCB_GRAB_STATUS_SUCCESS)).
  - intros [= <- <-] [rest Hr]. discriminate.
  - apply select_loop_first_press.
Qed.

Lemma select_window_first_press_decides_witness :
  exists pre ev post,
    sample_events = pre ++ Some ev :: post /\
    is_press ev = true /\ picked ev = 77 /\
    Forall (fun e => exists ev', e = Some ev' /\
                       (is_press ev' = true -> picked ev' = XCB_NONE)) pre.
Proof.
  apply (select_window_first_press_decides XCB_GRAB_STATUS_SUCCESS sample_events 77
           (snd (inspect_select_window XCB_GRAB_STATUS_SUCCESS sample_events))).
  - vm_compute. reflexivity.
  - eexists. vm_compute. reflexivity.
Defined.

(** X3. A click selects and ends the picking: after any events that are
    no button events, a press that names a window followed, possibly after
    more such events, by a release makes the picker return that window and
    release the pointer; it reads nothing after the release. *)
Theorem select_window_click
    (pre mid post : list (option xcb_event)) (press release : xcb_event) :
  no_button_events pre -> no_button_events mid ->
  is_press press = true -> picked press <> XCB_NONE -> is_release release = true ->
  exists log,
    inspect_select_window XCB_GRAB_STATUS_SUCCESS
      (pre ++ Some press :: mid ++ Some release :: post)
    = (Some (picked press), log) /\
    pointer_released log /\
    events_awaited log = (length pre + length mid + 2)%nat.
Proof.
  intros Hpre Hmid Hpress Hpick Hrelease.
  unfold inspect_select_window. cbn [negb Z.eqb XCB_GRAB_STATUS_SUCCESS].
  rewrite select_loop_skip by (assumption || reflexivity).
  rewrite select_loop_event by reflexivity.
  assert (select_step press XCB_NONE 0 = (picked press, 1)) as ->.
  { unfold select_step, picked. unfold is_press in Hpress. rewrite Hpress. reflexivity. }
  cbn [fst snd].
  rewrite select_loop_skip by (assumption || (apply orb_true_r)).
  rewrite select_loop_event by apply orb_true_r.
  assert (select_step release (picked press) 1 = (picked press, 0)) as ->.
  { unfold select_step. unfold is_release in Hrelease. rewrite Hrelease.
    destruct (_ =? XCB_BUTTON_PRESS) eqn:Hp; [|reflexivity].
    apply Z.eqb_eq in Hp. apply Z.eqb_eq in Hrelease. rewrite Hp in Hrelease. discriminate. }
  cbn [fst snd].
  apply Z.eqb_neq in Hpick.
  rewrite select_loop_done by (rewrite Hpick; reflexivity).
  eexists. split; [reflexivity|]. split; [eexists; reflexivity|].
  unfold events_awaited. cbn [List.filter length].
  change (length (List.filter _ ?l)) with (events_awaited l).
  rewrite events_awaited_repeat.
  change (events_awaited (xcb_allow_events :: ?l)) with (S (events_awaited l)).
  rewrite events_awaited_repeat. cbn. lia.
Qed.

Lemma select_window_click_witness :
  exists log,
    inspect_select_window XCB_GRAB_STATUS_SUCCESS
      ([sample_event 6 0 1]
       ++ Some {| ev_response_type := 4; ev_child := 0; ev_root := 1 |}
       :: [sample_event 6 77 1]
       ++ Some {| ev_response_type := 133; ev_child := 77; ev_root := 1 |}
       :: [sample_event 4 88 1])
    = (Some 1, log) /\
    pointer_released log /\
    events_awaited log = 4%nat.
Proof.
  apply (select_window_click [sample_event 6 0 1] [sample_event 6 77 1] [sample_event 4 88 1]
           {| ev_response_type := 4; ev_child := 0; ev_root := 1 |}
           {| ev_response_type := 133; ev_child := 77; ev_root := 1 |}).
  - constructor; [eexists; split; reflexivity|constructor].
  - constructor; [eexists; split; reflexivity|constructor].
  - reflexivity.
  - discriminate.
  - reflexivity.
Defined.

(** X4. Events that are no button events do not matter: the picker
    returns the same with them as without them. *)
Theorem select_window_ignores_other_events
    (grab_status : Z) (events : list (option xcb_event)) :
  fst (inspect_select_window grab_status events)
  = fst (inspect_select_window grab_status (button_events events)).
Proof.
  unfold inspect_select_window.
  destruct (negb (grab_status =? XCB_GRAB_STATUS_SUCCESS)); [reflexivity|].
  apply select_loop_button_events.
Qed.

(** X5. When the connection is lost before the picking is over, the picker
    returns 1 and leaves the pointer grabbed: it sends no ungrab. *)
Theorem select_window_connection_lost
    (grab_status : Z) (pre post : list (option xcb_event)) :
  fst (inspect_select_window grab_status pre) = None ->
  exists log,
    inspect_select_window grab_status (pre ++ None :: post) = (Some 1, log) /\
    ~ In xcb_ungrab_pointer log.
Proof.
  unfold inspect_select_window.
  destruct (negb (grab_status =? XCB_GRAB_STATUS_SUCCESS)); [discriminate|].
  intros Hw. apply select_loop_connection_lost; [exact Hw|].
  intros [H|[H|[H|[]]]]; discriminate.
Qed.

Lemma select_window_connection_lost_witness :
  exists log,
    inspect_select_window XCB_GRAB_STATUS_SUCCESS
      ([sample_event 4 77 1] ++ None :: [sample_event 5 77 1]) = (Some 1, log) /\
    ~ In xcb_ungrab_pointer log.
Proof.
  apply (select_window_connection_lost XCB_GRAB_STATUS_SUCCESS [sample_event 4 77 1]
           [sample_event 5 77 1]).
  reflexivity.
Defined.

(** * Searches of the start-up and of the image binder *)

Lemma vk_has_extension_In properties extension :
  vk_has_extension properties extension = true <-> In extension properties.
Proof.
  induction properties as [|p rest IH]; simpl; [split; [discriminate|tauto]|].
  destruct (String.eqb p extension) eqn:Heq.
  - apply String.eqb_eq in Heq. tauto.
  - apply String.eqb_neq in Heq. rewrite IH. split; [tauto|]. intros [H|H]; [contradiction|auto].
Qed.

Lemma find_queue_family_spec families : forall i0 i,
  find_queue_family families i0 = Some i ->
  (i = UINT32_MAX /\
   Forall (fun q => surface_query_succeeds q = true /\ queue_family_suitable q = false)
     families) \/
  (exists k q,
     i = i0 + Z.of_nat k /\ families !! k = Some q /\ queue_family_suitable q = true /\
     forall j q', (j < k)%nat -> families !! j = Some q' ->
       surface_query_succeeds q' = true /\ queue_family_suitable q' = false).
Proof.
  induction families as [|q rest IH]; intros i0 i Hfind; simpl in Hfind.
  - injection Hfind as <-. left. split; [reflexivity|constructor].
  - destruct (qf_supports_surface q) as [supports|] eqn:Hs; [|discriminate].
    destruct (negb (Z.land (qf_queue_flags q) VK_QUEUE_GRAPHICS_BIT =? 0)
              && qf_supports_xcb_presentation q && supports) eqn:Hsuit.
    + injection Hfind as <-. right. exists 0%nat, q.
      split; [lia|]. split; [reflexivity|]. split; [|intros j q' Hj; lia].
      unfold queue_family_suitable. rewrite Hs.
      apply andb_true_iff in Hsuit as [-> ->]. reflexivity.
    + assert (surface_query_succeeds q = true /\ queue_family_suitable q = false) as Hq.
      { unfold surface_query_succeeds, queue_family_suitable. rewrite Hs. split; [reflexivity|].
        destruct supports; [|now rewrite andb_false_r].
        rewrite andb_true_r in Hsuit. now rewrite Hsuit. }
      destruct (IH _ _ Hfind) as [[-> Hall]|(k & q1 & -> & Hk & Hq1 & Hbefore)].
      * left. split; [reflexivity|]. now constructor.
      * right. exists (S k), q1. split; [lia|]. split; [exact Hk|]. split; [exact Hq1|].
        intros [|j] q' Hj Hl; [injection Hl as <-; exact Hq|].
        apply (Hbefore j q'); [lia|exact Hl].
Qed.

Lemma land_shiftl_testbit a i :
  0 <= i -> negb (Z.land a (Z.shiftl 1 i) =? 0) = Z.testbit a i.
Proof.
  intros Hi. rewrite Z.shiftl_1_l.
  destruct (Z.testbit a i) eqn:Hb.
  - apply negb_true_iff, Z.eqb_neq. intros H0.
    assert (Z.testbit (Z.land a (2 ^ i)) i = true) as Hbit.
    { rewrite Z.land_spec, Hb, Z.pow2_bits_true by exact Hi. reflexivity. }
    rewrite H0, Z.bits_0 in Hbit. discriminate.
  - apply negb_false_iff, Z.eqb_eq, Z.bits_inj'. intros n Hn.
    rewrite Z.land_spec, Z.bits_0.
    destruct (Z.eq_dec n i) as [->|Hne]; [now rewrite Hb|].
    rewrite Z.pow2_bits_false by auto. apply andb_false_r.
Qed.

Lemma find_memory_type_spec type_bits property memory_types : forall (k0 : nat) i,
  find_memory_type type_bits property memory_types (Z.of_nat k0) = i ->
  (i = UINT32_MAX /\
   forall j flags, memory_types !! j = Some flags ->
     memory_type_suitable type_bits property (k0 + j) flags = false) \/
  (exists k flags,
     i = Z.of_nat (k0 + k) /\ memory_types !! k = Some flags /\
     memory_type_suitable type_bits property (k0 + k) flags = true /\
     forall j flags', (j < k)%nat -> memory_types !! j = Some flags' ->
       memory_type_suitable type_bits property (k0 + j) flags' = false).
Proof.
  induction memory_types as [|flags rest IH]; intros k0 i Hfind; simpl in Hfind.
  - left. split; [now symmetry|]. intros j f Hl. destruct j; discriminate.
  - rewrite land_shiftl_testbit in Hfind by lia.
    destruct (Z.testbit type_bits (Z.of_nat k0) && negb (Z.land flags property =? 0))
      eqn:Hsuit.
    + right. exists 0%nat, flags. rewrite Nat.add_0_r.
      split; [now symmetry|]. split; [reflexivity|]. split; [exact Hsuit|].
      intros j f Hj. lia.
    + replace (Z.of_nat k0 + 1) with (Z.of_nat (S k0)) in Hfind by lia.
      destruct (IH _ _ Hfind) as [[-> Hall]|(k & f1 & -> & Hk & Hf1 & Hbefore)].
      * left. split; [reflexivity|]. intros [|j] f Hl.
        -- injection Hl as <-. rewrite Nat.add_0_r. exact Hsuit.
        -- replace (k0 + S j)%nat with (S k0 + j)%nat by lia. now apply Hall.
      * right. exists (S k), f1.
        replace (k0 + S k)%nat with (S k0 + k)%nat by lia.
        split; [reflexivity|]. split; [exact Hk|]. split; [exact Hf1|].
        intros [|j] f Hj Hl.
        -- injection Hl as <-. rewrite Nat.add_0_r. exact Hsuit.
        -- replace (k0 + S j)%nat with (S k0 + j)%nat by lia. apply Hbefore; [lia|exact Hl].
Qed.

Ltac absurd_run := let H := fresh in intros H; cbv [ret] in H; discriminate H.

(** X6. [vk_has_extension] answers whether the extension is among the
    properties enumerated. *)
Theorem has_extension_iff_listed (properties : list string) (extension : string) :
  vk_has_extension properties extension = true <-> In extension properties.
Proof. apply vk_has_extension_In. Qed.

(** X7. A device is created only on a suitable queue family: when
    [vk_create_device] succeeds, the queue family index it has stored and
    passed to [vkCreateDevice] is that of the first family of the selected
    device that has the graphics bit, presents to the X server and supports
    the surface; the surface query of every family before it came back. *)
Theorem create_device_first_suitable_queue_family
    (e : device_answers) (session : session_t) (vd vd' : vulkan_data) (h h' : list call)
    (devices : list physical_device_t) :
  da_physical_devices e = Some devices ->
  vk_create_device e session vd h = (Done (true, vd'), h') ->
  let families := queue_families_of devices (vd_physical_device vd') in
  let index := vd_queue_family_index vd' in
  0 <= index /\
  (exists q, families !! Z.to_nat index = Some q /\ queue_family_suitable q = true) /\
  (forall j q', (j < Z.to_nat index)%nat -> families !! j = Some q' ->
     surface_query_succeeds q' = true /\ queue_family_suitable q' = false) /\
  exists extensions,
    h' = vkCreateDevice (vd_physical_device vd') index extensions (Some (vd_device vd')) :: h.
Proof.
  intros Hdev. unfold vk_create_device. rewrite Hdev.
  destruct (negb (da_enumerate_count e)); [absurd_run|].
  destruct (select_strategy session devices vd) as [vd1 names].
  destruct (is_null (vd_physical_device vd1)); [absurd_run|].
  cbn [vd_physical_device set_vd_queue_family_index].
  match goal with
  | |- context [find_queue_family ?f 0] =>
    destruct (find_queue_family f 0) as [index|] eqn:Hfind; [|absurd_run]
  end.
  cbn [vd_queue_family_index set_vd_queue_family_index].
  match goal with
  | |- context [?i =? UINT32_MAX] => destruct (i =? UINT32_MAX) eqn:Hmax; [absurd_run|]
  end.
  unfold bind, ask, ret.
  destruct (created (da_create_device e)) as [device|]; [|absurd_run].
  cbn.
  match goal with |- context [negb ?b] => destruct b end; cbn; intros [= <- <-]; cbn.
  all: apply Z.eqb_neq in Hmax;
    destruct (find_queue_family_spec _ _ _ Hfind) as [[Hi _]|(k & q & Hi & Hk & Hq & Hbefore)];
    [contradiction|];
    rewrite Z.add_0_l in Hi; subst index; rewrite Nat2Z.id;
    (split; [lia|]); (split; [now exists q|]); (split; [exact Hbefore|]);
    eexists; reflexivity.
Qed.

Lemma create_device_first_suitable_queue_family_witness :
  0 <= vd_queue_family_index sample_device_vd /\
  (exists q,
     queue_families_of [sample_device_two_families] (vd_physical_device sample_device_vd)
     !! Z.to_nat (vd_queue_family_index sample_device_vd) = Some q /\
     queue_family_suitable q = true) /\
  (forall j q', (j < Z.to_nat (vd_queue_family_index sample_device_vd))%nat ->
     queue_families_of [sample_device_two_families] (vd_physical_device sample_device_vd)
     !! j = Some q' ->
     surface_query_succeeds q' = true /\ queue_family_suitable q' = false) /\
  exists extensions,
    snd sample_device_run
    = vkCreateDevice (vd_physical_device sample_device_vd)
        (vd_queue_family_index sample_device_vd) extensions
        (Some (vd_device sample_device_vd)) :: [].
Proof.
  apply (create_device_first_suitable_queue_family
           (init_device (sample_init_answers [sample_device_two_families]))
           sample_session vulkan_data_zero sample_device_vd [] (snd sample_device_run)
           [sample_device_two_families]).
  - reflexivity.
  - vm_compute. reflexivity.
Defined.

Ltac run_cases :=
  repeat match goal with
         | |- context [match ?x with _ => _ end] => destruct x eqn:?
         end.

Ltac in_cases H :=
  repeat match type of H with
         | _ \/ _ => destruct H as [H|H]
         | False => destruct H
         | In _ [] => destruct H
         | In _ (_ :: _) => destruct H as [H|H]
         end.

(** X8. The zero-copy binder imports the pixmap's buffer into device-local
    memory the image and the buffer both allow: every [vkAllocateMemory]
    of [vk_bind_pixmap_dri3] imports the first file descriptor of the
    reply, asks for the size the image requires, and names the first
    memory type that is device-local and allowed both by the image's
    requirements and by the descriptor's properties. *)
Theorem dri3_bind_imports_into_first_suitable_memory_type
    (NDEBUG : bool) (e : dri3_answers) (vd : vulkan_data) (vi : vulkan_image)
    (device : handle) (size index : Z) (import : memory_import) (r : option handle) :
  In (vkAllocateMemory device size index import r)
    (calls (vk_bind_pixmap_dri3 NDEBUG e vd vi)) ->
  exists reply fd_type_bits,
    d3_buffers_from_pixmap e = Some reply /\
    d3_memory_fd_properties e = Some fd_type_bits /\
    import = Import_fd (default 0 (r_buffers reply !! 0%nat)) /\
    size = mr_size (d3_memory_requirements e) /\
    let type_bits := Z.land (mr_memory_type_bits (d3_memory_requirements e)) fd_type_bits in
    0 <= index /\
    (exists flags,
       d3_memory_types e !! Z.to_nat index = Some flags /\
       memory_type_suitable type_bits VK_MEMORY_PROPERTY_DEVICE_LOCAL_BIT (Z.to_nat index)
         flags = true) /\
    forall j flags', (j < Z.to_nat index)%nat -> d3_memory_types e !! j = Some flags' ->
      memory_type_suitable type_bits VK_MEMORY_PROPERTY_DEVICE_LOCAL_BIT j flags' = false.
Proof.
  unfold calls, vk_bind_pixmap_dri3, bind, ask, ret, assert_, undefined.
  destruct (d3_buffers_from_pixmap e) as [reply|];
    [|cbn; intros Hin; in_cases Hin; discriminate].
  destruct (r_nfd reply =? 1);
    [rewrite orb_true_r
    |destruct NDEBUG; cbn; intros Hin; in_cases Hin; discriminate].
  destruct (created (d3_create_image e)) as [image|]; [|cbn; intros Hin; in_cases Hin; discriminate].
  destruct (d3_memory_fd_properties e) as [fd_type_bits|];
    [|cbn; intros Hin; in_cases Hin; discriminate].
  match goal with
  | |- context [find_memory_type ?b ?p ?t 0] =>
    destruct (find_memory_type b p t 0 =? UINT32_MAX) eqn:Hmax;
    [cbn; intros Hin; in_cases Hin; discriminate|];
    pose proof (find_memory_type_spec b p t 0 _ eq_refl) as Hspec
  end.
  apply Z.eqb_neq in Hmax.
  destruct Hspec as [[Hi _]|(k & flags & Hi & Hk & Hsuit & Hbefore)]; [contradiction|].
  cbn [Nat.add] in Hi, Hsuit, Hbefore.
  intros Hin.
  assert (vkAllocateMemory device size index import r
          = vkAllocateMemory (vd_device vd) (mr_size (d3_memory_requirements e))
              (Z.of_nat k) (Import_fd (default 0 (r_buffers reply !! 0%nat)))
              (created (d3_allocate_memory e))) as Heq.
  { change (Z.of_nat 0) with 0 in Hi. rewrite <- Hi.
    destruct (created (d3_allocate_memory e)) as [memory|]; cbn in Hin;
      [destruct (d3_bind_image_memory e); cbn in Hin|]; in_cases Hin;
      try discriminate; now symmetry. }
  injection Heq as -> -> -> -> ->.
  exists reply, fd_type_bits. repeat split; try reflexivity; try lia.
  - exists flags. rewrite Nat2Z.id. now split.
  - rewrite Nat2Z.id. exact Hbefore.
Qed.

Lemma dri3_bind_imports_into_first_suitable_memory_type_witness :
  exists reply fd_type_bits,
    d3_buffers_from_pixmap sample_dri3_answers = Some reply /\
    d3_memory_fd_properties sample_dri3_answers = Some fd_type_bits /\
    Import_fd 5 = Import_fd (default 0 (r_buffers reply !! 0%nat)) /\
    16384 = mr_size (d3_memory_requirements sample_dri3_answers) /\
    let type_bits :=
      Z.land (mr_memory_type_bits (d3_memory_requirements sample_dri3_answers))
        fd_type_bits in
    0 <= 1 /\
    (exists flags,
       d3_memory_types sample_dri3_answers !! Z.to_nat 1 = Some flags /\
       memory_type_suitable type_bits VK_MEMORY_PROPERTY_DEVICE_LOCAL_BIT (Z.to_nat 1)
         flags = true) /\
    forall j flags', (j < Z.to_nat 1)%nat ->
      d3_memory_types sample_dri3_answers !! j = Some flags' ->
      memory_type_suitable type_bits VK_MEMORY_PROPERTY_DEVICE_LOCAL_BIT j flags' = false.
Proof.
  apply (dri3_bind_imports_into_first_suitable_memory_type false sample_dri3_answers
           sample_vd vulkan_image_zero (vd_device sample_vd) 16384 1 (Import_fd 5)
           (Some 41)).
  vm_compute. right. right. left. reflexivity.
Defined.

(** X9. The shared-memory binder stages through the segment it attached:
    the staging buffer of [vk_bind_pixmap_shm] has the size of the shared
    segment, and the memory bound to it is the address [shmat] returned,
    imported into the first host-visible memory type that the buffer's
    requirements and the pointer's properties both allow. *)
Theorem shm_bind_stages_through_the_segment
    (e : shm_answers) (vd : vulkan_data) (vi : vulkan_image) :
  let log := calls (vk_bind_pixmap_shm e vd vi) in
  (forall device size r,
     In (vkCreateBuffer device size r) log ->
     exists width height,
       sh_geometry e = Some (width, height) /\
       size = shm_segment_size width height (vd_min_imported_host_pointer_alignment vd) /\
       sh_shmget e <> -1 /\
       In (shmget size (sh_shmget e)) log) /\
  (forall device size index address r,
     In (vkAllocateMemory device size index (Import_host_pointer address) r) log ->
     exists host_type_bits,
       sh_memory_host_pointer_properties e = Some host_type_bits /\
       address = sh_shmat e /\ address <> -1 /\
       In (shmat (sh_shmget e) address) log /\
       let type_bits :=
         Z.land (mr_memory_type_bits (sh_buffer_memory_requirements e)) host_type_bits in
       0 <= index /\
       (exists flags,
          sh_memory_types e !! Z.to_nat index = Some flags /\
          memory_type_suitable type_bits VK_MEMORY_PROPERTY_HOST_VISIBLE_BIT
            (Z.to_nat index) flags = true) /\
       forall j flags', (j < Z.to_nat index)%nat -> sh_memory_types e !! j = Some flags' ->
         memory_type_suitable type_bits VK_MEMORY_PROPERTY_HOST_VISIBLE_BIT j flags' = false).
Proof.
  unfold calls, vk_bind_pixmap_shm, bind_staging_buffer, bind, ask, ret.
  destruct (sh_geometry e) as [[width height]|];
    [|split; intros; simpl in *; contradiction].
  destruct (created (sh_create_image e)) as [image|];
    [|split; intros * Hin; cbn in Hin; in_cases Hin; discriminate].
  match goal with
  | |- context [find_memory_type ?b ?p ?t 0 =? UINT32_MAX] =>
    destruct (find_memory_type b p t 0 =? UINT32_MAX)
  end; [split; intros * Hin; cbn in Hin; in_cases Hin; discriminate|].
  destruct (created (sh_allocate_image_memory e)) as [memory|];
    [|split; intros * Hin; cbn in Hin; in_cases Hin; discriminate].
  destruct (sh_bind_image_memory e);
    [|split; intros * Hin; cbn in Hin; in_cases Hin; discriminate].
  cbn.
  destruct (sh_shmget e =? -1) eqn:Hid;
    [split; intros * Hin; cbn in Hin; in_cases Hin; discriminate|].
  cbn.
  destruct (sh_shmat e =? -1) eqn:Haddr;
    [split; intros * Hin; cbn in Hin; in_cases Hin; discriminate|].
  cbn.
  apply Z.eqb_neq in Hid, Haddr.
  destruct (sh_shm_attach e);
    [|split; intros * Hin; cbn in Hin; in_cases Hin; discriminate].
  cbn.
  destruct (created (sh_create_buffer e)) as [buffer|].
  2:{ split; intros * Hin; cbn in Hin; in_cases Hin; try discriminate.
      injection Hin as <- <- <-. exists width, height. cbn; auto 10. }
  destruct (sh_memory_host_pointer_properties e) as [host_type_bits|].
  2:{ split; intros * Hin; cbn in Hin; in_cases Hin; try discriminate.
      injection Hin as <- <- <-. exists width, height. cbn; auto 10. }
  match goal with
  | |- context [find_memory_type ?b ?p ?t 0 =? UINT32_MAX] =>
    destruct (find_memory_type b p t 0 =? UINT32_MAX) eqn:Hmax;
    [|pose proof (find_memory_type_spec b p t 0 _ eq_refl) as Hspec]
  end.
  { split; intros * Hin; cbn in Hin; in_cases Hin; try discriminate.
    injection Hin as <- <- <-. exists width, height. cbn; auto 10. }
  apply Z.eqb_neq in Hmax.
  destruct Hspec as [[Hi _]|(k & flags & Hi & Hk & Hsuit & Hbefore)]; [contradiction|].
  cbn [Nat.add] in Hi, Hsuit, Hbefore. change (Z.of_nat 0) with 0 in Hi.
  cbn.
  destruct (created (sh_allocate_staging_memory e)) as [staging|]; cbn;
    [destruct (sh_bind_buffer_memory e); cbn|].
  all: split; intros * Hin; in_cases Hin; try discriminate.
  all: try (injection Hin as <- <- <-; exists width, height; cbn; auto 12).
  all: injection Hin as <- <- <- <- <-; exists host_type_bits;
    rewrite Hi, Nat2Z.id;
    (split; [reflexivity|]); (split; [reflexivity|]); (split; [exact Haddr|]);
    (split; [cbn; auto 12|]); (split; [lia|]); (split; [now exists flags|exact Hbefore]).
Qed.

Lemma shm_bind_stages_through_the_segment_witness :
  exists width height,
    sh_geometry sample_shm_answers = Some (width, height) /\
    16384 = shm_segment_size width height
              (vd_min_imported_host_pointer_alignment sample_vd_shm) /\
    sh_shmget sample_shm_answers <> -1 /\
    In (shmget 16384 (sh_shmget sample_shm_answers))
      (calls (vk_bind_pixmap_shm sample_shm_answers sample_vd_shm vulkan_image_zero)).
Proof.
  apply (proj1 (shm_bind_stages_through_the_segment sample_shm_answers sample_vd_shm
                  vulkan_image_zero) 5 16384 (Some 42)).
  vm_compute. do 6 right. left. reflexivity.
Defined.

(** * The swap chain *)

Lemma fill_step {A} (l : list A) (k m : nat) (v : A) (new : list A) :
  (k < length l)%nat ->
  take (S k) (<[k := v]> l) ++ new ++ drop (S k + m) (<[k := v]> l)
  = take k l ++ (v :: new) ++ drop (k + S m) l.
Proof.
  intros Hk.
  rewrite (take_S_r _ _ v) by (apply list_lookup_insert_eq; exact Hk).
  rewrite take_insert_ge by lia. rewrite drop_insert_lt by lia.
  replace (k + S m)%nat with (S k + m)%nat by lia.
  rewrite <- app_assoc. reflexivity.
Qed.

(** The loop over the images: the views it created so far, the calls it
    made, and what it left in the three arrays. *)
Lemma create_image_views_spec answers n : forall k vd h ok vd' h' ls vs ags,
  vd_swapchain_image_layouts vd = Some ls ->
  vd_swapchain_image_views vd = Some vs ->
  vd_buffer_ages vd = Some ags ->
  length ls = (k + n)%nat -> length vs = (k + n)%nat -> length ags = (k + n)%nat ->
  create_image_views answers n (Z.of_nat k) vd h = (Done (ok, vd'), h') ->
  exists new_views ls' vs' ags',
    let m := length new_views in
    let c := if ok then m else S m in
    (m <= n)%nat /\ (ok = true -> m = n) /\ (ok = false -> (m < n)%nat) /\
    Forall (fun v => v <> VK_NULL_HANDLE) new_views /\
    h' = (if ok then [] else [view_call vd (k + m) None])
         ++ rev (view_calls vd k new_views) ++ h /\
    vd' = set_vd_buffer_ages (Some ags')
            (set_vd_swapchain_image_views (Some vs')
               (set_vd_swapchain_image_layouts (Some ls') vd)) /\
    ags' = take k ags ++ replicate m (-1) ++ drop (k + m) ags /\
    vs' = take k vs ++ new_views ++ drop (k + m) vs /\
    ls' = take k ls ++ replicate c VK_IMAGE_LAYOUT_UNDEFINED ++ drop (k + c) ls.
Proof.
  induction n as [|n IH]; intros k vd h ok vd' h' ls vs ags Hls Hvs Hags Hl1 Hl2 Hl3 Hrun.
  - simpl in Hrun. injection Hrun as <- <- <-. exists [], ls, vs, ags. cbn.
    rewrite !Nat.add_0_r, !take_drop.
    repeat split; try lia; try constructor.
    rewrite <- Hls, <- Hvs, <- Hags. reflexivity.
  - simpl in Hrun. unfold bind, ask in Hrun.
    destruct (created (mjoin (answers !! Z.to_nat (Z.of_nat k)))) as [view|] eqn:Hview.
    + replace (Z.of_nat k + 1) with (Z.of_nat (S k)) in Hrun by lia.
      eapply (IH (S k) _ _ _ _ _ (<[k := VK_IMAGE_LAYOUT_UNDEFINED]> ls) (<[k := view]> vs)
                (<[k := -1]> ags)) in Hrun;
        [|cbn; unfold array_set; cbn; rewrite_field Hls; rewrite ?Nat2Z.id; reflexivity
         |cbn; unfold array_set; cbn; rewrite_field Hvs; rewrite ?Nat2Z.id; reflexivity
         |cbn; unfold array_set; cbn; rewrite_field Hags; rewrite ?Nat2Z.id; reflexivity
         |rewrite length_insert; lia..].
      destruct Hrun as (new_views & ls' & vs' & ags' & Hm & Hok & Hfail & Hnn & Hlog & Hvd
                        & -> & -> & ->).
      cbn zeta in *.
      eexists (view :: new_views), _, _, _. cbn [length]. cbn zeta.
      split; [lia|]. split; [intros H; specialize (Hok H); lia|].
      split; [intros H; specialize (Hfail H); lia|].
      split; [constructor; [|exact Hnn]; destruct (mjoin _); [injection Hview as <-|];
              discriminate|].
      split; [|split; [rewrite Hvd; reflexivity|]].
      * rewrite Hlog. unfold view_calls. rewrite imap_cons. cbn [rev].
        rewrite Nat.add_0_r, <- !app_assoc. cbn [app].
        replace (k + S (length new_views))%nat with (S k + length new_views)%nat by lia.
        do 2 f_equal.
        -- f_equal. apply imap_ext. intros j v _. cbn. unfold view_call. cbn. do 2 f_equal. lia.
      * split; [|split].
        -- change (replicate (S (length new_views)) (-1))
             with (-1 :: replicate (length new_views) (-1)).
           apply fill_step. lia.
        -- apply fill_step. lia.
        -- destruct ok; [apply fill_step; lia|].
           change (replicate (S (S (length new_views))) VK_IMAGE_LAYOUT_UNDEFINED)
             with (VK_IMAGE_LAYOUT_UNDEFINED
                   :: replicate (S (length new_views)) VK_IMAGE_LAYOUT_UNDEFINED).
           apply fill_step. lia.
    + cbn in Hrun. injection Hrun as <- <- <-.
      exists [], (<[k := VK_IMAGE_LAYOUT_UNDEFINED]> ls), vs, ags. cbn.
      rewrite !Nat.add_0_r, !take_drop.
      repeat split; try lia; try constructor; try discriminate.
      * unfold array_set. rewrite_field Hls. rewrite Nat2Z.id, <- Hvs, <- Hags. reflexivity.
      * rewrite insert_take_drop by lia. do 3 f_equal. lia.
Qed.

Lemma view_calls_lookup vd k new_views j view :
  new_views !! j = Some view ->
  In (view_call vd (k + j) (Some view)) (view_calls vd k new_views).
Proof.
  intros Hl. unfold view_calls. apply list_elem_of_In.
  exact (elem_of_lookup_imap_2 (fun j v => view_call vd (k + j) (Some v)) _ _ _ Hl).
Qed.

Lemma vk_create_swapchain_success e vd vsync h vd' h' :
  vk_create_swapchain e vd vsync h = (Done (true, vd'), h') ->
  exists caps images views index,
    swa_surface_capabilities e = Some caps /\
    swa_swapchain_images e = Some images /\
    swa_acquire_next_image e = Some index /\
    length views = length images /\
    Forall (fun v => v <> VK_NULL_HANDLE) views /\
    vd' = set_vd_swapchain_image_index index
            (set_vd_buffer_ages (Some (replicate (length images) (-1)))
               (set_vd_swapchain_image_views (Some views)
                  (set_vd_swapchain_image_layouts
                     (Some (replicate (length images) VK_IMAGE_LAYOUT_UNDEFINED))
                     (set_vd_swapchain_images (Some (new_handle <$> images))
                        (set_vd_swapchain_image_count (Z.of_nat (length images))
                           (set_vd_swapchain (vd_swapchain vd')
                              (set_vd_height (current_extent_height caps)
                                 (set_vd_width (current_extent_width caps) vd)))))))) /\
    exists format,
      is_UNDEFINED format = false /\
      (In VK_FORMAT_B8G8R8A8_UNORM (swa_surface_formats e) ->
       format = VK_FORMAT_B8G8R8A8_UNORM) /\
      h' = vkResetFences (vd_device vd) (vd_acquire_next_image_fence vd) true
           :: vkWaitForFences (vd_device vd) (vd_acquire_next_image_fence vd) true
           :: vkAcquireNextImageKHR (vd_device vd) (vd_swapchain vd') (vd_semaphore vd)
                (vd_acquire_next_image_fence vd) (Some index)
           :: rev (view_calls
                     (set_vd_swapchain_images (Some (new_handle <$> images)) vd) 0 views)
           ++ vkCreateSwapchainKHR (vd_device vd) (vd_surface vd) (min_image_count caps)
                format
                (if vsync then VK_PRESENT_MODE_FIFO_KHR else VK_PRESENT_MODE_IMMEDIATE_KHR)
                (Some (vd_swapchain vd'))
           :: h.
Proof.
  intros Hrun. unfold vk_create_swapchain in Hrun.
  destruct (swa_surface_capabilities e) as [caps|]; [|discriminate Hrun].
  cbv zeta in Hrun.
  destruct (negb (swa_surface_format_count e)); [discriminate Hrun|].
  destruct (is_UNDEFINED _) eqn:Hformat; [discriminate Hrun|].
  unfold bind at 1 in Hrun. unfold ask at 1 in Hrun.
  destruct (created (swa_create_swapchain e)) as [swapchain|]; [|discriminate Hrun].
  destruct (swa_swapchain_images e) as [images|]; [|discriminate Hrun].
  unfold bind at 1 in Hrun.
  match type of Hrun with
  | context [create_image_views ?a ?n 0 ?v ?h0] =>
    destruct (create_image_views a n 0 v h0) as [[[ok vd1]| |] h1] eqn:Hloop;
    [|discriminate Hrun..]
  end.
  change 0 with (Z.of_nat 0) in Hloop.
  eapply (create_image_views_spec _ _ 0 _ _ _ _ _
            (replicate (length images) VK_IMAGE_LAYOUT_UNDEFINED)
            (replicate (length images) VK_NULL_HANDLE)
            (replicate (length images) 0)) in Hloop;
    [|reflexivity|reflexivity|reflexivity|rewrite length_replicate; reflexivity..].
  destruct Hloop as (views & ls' & vs' & ags' & Hm & Hok & _ & Hnn & Hlog & Hvd & -> & -> & ->).
  cbv zeta in *.
  destruct ok; [|discriminate Hrun]. specialize (Hok eq_refl).
  cbn [negb] in Hrun. unfold bind, ask, ret in Hrun.
  destruct (swa_acquire_next_image e) as [index|]; [|discriminate Hrun].
  destruct (swa_wait_for_fences e); [|discriminate Hrun].
  destruct (swa_reset_fences e); [|discriminate Hrun].
  cbn in Hrun. injection Hrun as <- <-.
  exists caps, images, views, index.
  rewrite Hok in *. cbn [Nat.add take app] in *.
  rewrite !drop_ge in * by (rewrite length_replicate; lia).
  rewrite !app_nil_r in *.
  repeat (split; [first [reflexivity|assumption]|]).
  split; [rewrite Hvd; reflexivity|].
  eexists. split; [exact Hformat|]. split.
  - intros Hin. destruct (List.find is_B8G8R8A8_UNORM (swa_surface_formats e)) as [f|] eqn:Hf.
    + apply find_some in Hf as [_ Hf]. destruct f; try discriminate. reflexivity.
    + exfalso. eapply find_none in Hf; [|exact Hin]. discriminate.
  - rewrite Hvd, Hlog. reflexivity.
Qed.

(** X10. What a swap chain starts with: when [vk_create_swapchain]
    succeeds, the backend knows as many images as the swap chain has, it
    has created one view for each of them, in order, and none of the views
    is null; every image is recorded in the undefined layout and with
    buffer age -1; the swap chain was created in FIFO mode exactly when
    vsync is enabled, and never with the undefined format. *)
Theorem create_swapchain_initial_state
    (e : swapchain_answers) (vd vd' : vulkan_data) (vsync : bool) (h h' : list call) :
  vk_create_swapchain e vd vsync h = (Done (true, vd'), h') ->
  exists images views,
    swa_swapchain_images e = Some images /\
    vd_swapchain_image_count vd' = Z.of_nat (length images) /\
    vd_swapchain_images vd' = Some (new_handle <$> images) /\
    vd_swapchain_image_views vd' = Some views /\
    length views = length images /\
    Forall (fun v => v <> VK_NULL_HANDLE) views /\
    vd_swapchain_image_layouts vd'
    = Some (replicate (length images) VK_IMAGE_LAYOUT_UNDEFINED) /\
    vd_buffer_ages vd' = Some (replicate (length images) (-1)) /\
    (forall j image view,
       (new_handle <$> images) !! j = Some image -> views !! j = Some view ->
       In (vkCreateImageView (vd_device vd) image VK_FORMAT_B8G8R8A8_UNORM
             identity_components (Some view)) h') /\
    exists format min_image_count,
      is_UNDEFINED format = false /\
      In (vkCreateSwapchainKHR (vd_device vd) (vd_surface vd) min_image_count format
            (if vsync then VK_PRESENT_MODE_FIFO_KHR else VK_PRESENT_MODE_IMMEDIATE_KHR)
            (Some (vd_swapchain vd'))) h'.
Proof.
  intros Hrun.
  destruct (vk_create_swapchain_success _ _ _ _ _ _ Hrun)
    as (caps & images & views & index & _ & Himages & _ & Hlen & Hnn & Hvd & format
        & Hformat & _ & Hlog).
  exists images, views. split; [exact Himages|].
  split; [rewrite Hvd; reflexivity|]. split; [rewrite Hvd; reflexivity|].
  split; [rewrite Hvd; reflexivity|]. split; [exact Hlen|]. split; [exact Hnn|].
  split; [rewrite Hvd; reflexivity|]. split; [rewrite Hvd; reflexivity|]. split.
  - intros j image view Himage Hview. rewrite Hlog.
    do 3 right. apply in_or_app. left. apply in_rev. rewrite rev_involutive.
    pose proof (view_calls_lookup
                  (set_vd_swapchain_images (Some (new_handle <$> images)) vd) 0 views j view
                  Hview) as Hin.
    unfold view_call in Hin. cbn in Hin. unfold array_get in Hin.
    rewrite Nat2Z.id, Himage in Hin. exact Hin.
  - exists format, (min_image_count caps). split; [exact Hformat|].
    rewrite Hlog. do 3 right. apply in_or_app. right. left. reflexivity.
Qed.

Lemma create_swapchain_initial_state_witness :
  vd_buffer_ages sample_swapchain_vd = Some [-1; -1; -1] /\
  vd_swapchain_image_layouts sample_swapchain_vd
  = Some [VK_IMAGE_LAYOUT_UNDEFINED; VK_IMAGE_LAYOUT_UNDEFINED; VK_IMAGE_LAYOUT_UNDEFINED].
Proof.
  destruct (create_swapchain_initial_state sample_swapchain_answers
              (set_vd_swapchain_image_count 0
                 (set_vd_swapchain_images None
                    (set_vd_swapchain_image_layouts None
                       (set_vd_swapchain_image_views None
                          (set_vd_buffer_ages None sample_vd)))))
              sample_swapchain_vd true [] (snd sample_swapchain_run))
    as (images & views & Himages & _ & _ & _ & _ & _ & Hlayouts & Hages & _).
  - vm_compute. reflexivity.
  - injection Himages as <-. split; [exact Hages|exact Hlayouts].
Defined.

Lemma vk_create_descriptor_pool_keeps_swapchain e vd :
  yields (fun p => swapchain_state (snd p) = swapchain_state vd)
    (vk_create_descriptor_pool e vd).
Proof. unfold vk_create_descriptor_pool. yields_steps; reflexivity. Qed.

Lemma vk_create_pipelines_keeps_swapchain e vd :
  yields (fun p => swapchain_state (snd p) = swapchain_state vd) (vk_create_pipelines e vd).
Proof. unfold vk_create_pipelines. yields_steps; reflexivity. Qed.

Lemma vk_create_command_pool_keeps_swapchain e vd :
  yields (fun p => swapchain_state (snd p) = swapchain_state vd)
    (vk_create_command_pool e vd).
Proof. unfold vk_create_command_pool. yields_steps; reflexivity. Qed.

(** The swap chain a started backend has is the one [vk_create_swapchain]
    left. *)
Lemma vk_init_swapchain e session window h vd h0 :
  vk_init e session window h = (Done (Some vd), h0) ->
  exists vd4 h4 vd5 h5,
    vk_create_swapchain (init_swapchain e) vd4 (o_vsync session) h4 = (Done (true, vd5), h5) /\
    swapchain_state vd = swapchain_state vd5.
Proof.
  intros Hrun. unfold vk_init in Hrun.
  apply init_step_some in Hrun as (vd1 & h1 & _ & Hrun).
  apply init_step_some in Hrun as (vd2 & h2 & _ & Hrun).
  apply init_step_some in Hrun as (vd3 & h3 & _ & Hrun).
  apply init_step_some in Hrun as (vd4 & h4 & _ & Hrun).
  apply init_step_some in Hrun as (vd5 & h5 & Hswap & Hrun).
  apply init_step_some in Hrun as (vd6 & h6 & Hpool & Hrun).
  apply init_step_some in Hrun as (vd7 & h7 & Hpipe & Hrun).
  apply init_step_some in Hrun as (vd8 & h8 & Hcmd & Hrun).
  injection Hrun as <- <-.
  exists vd4, h4, vd5, h5. split; [exact Hswap|].
  pose proof (vk_create_descriptor_pool_keeps_swapchain _ _ _ _ _ Hpool) as H6.
  pose proof (vk_create_pipelines_keeps_swapchain _ _ _ _ _ Hpipe) as H7.
  pose proof (vk_create_command_pool_keeps_swapchain _ _ _ _ _ Hcmd) as H8.
  cbn [snd] in H6, H7, H8.
  exact (eq_trans H8 (eq_trans H7 H6)).
Qed.

(** X11. A backend that has just started reports buffer age -1: nothing
    has been presented yet. *)
Theorem started_backend_buffer_age
    (e : init_answers) (session : session_t) (window : Z) (h h0 : list call)
    (vd : vulkan_data) :
  vk_init e session window h = (Done (Some vd), h0) ->
  0 <= vd_swapchain_image_index vd < vd_swapchain_image_count vd ->
  vk_buffer_age vd = -1.
Proof.
  intros Hrun Hindex.
  destruct (vk_init_swapchain _ _ _ _ _ _ Hrun) as (vd4 & h4 & vd5 & h5 & Hswap & Hstate).
  destruct (vk_create_swapchain_success _ _ _ _ _ _ Hswap)
    as (caps & images & views & index & _ & _ & _ & _ & _ & Hvd & _).
  unfold swapchain_state in Hstate. rewrite Hvd in Hstate. cbn in Hstate.
  injection Hstate as Hcount _ _ _ Hages Hi.
  unfold vk_buffer_age, array_get.
  rewrite_field Hages. rewrite_field_in Hcount Hindex.
  rewrite lookup_replicate_2 by lia. reflexivity.
Qed.

Lemma started_backend_buffer_age_witness : vk_buffer_age sample_started_vd = -1.
Proof.
  apply (started_backend_buffer_age (sample_init_answers [sample_device VK_API_VERSION_1_3])
           sample_session 9 [] sample_started_log).
  - vm_compute. reflexivity.
  - vm_compute. split; [discriminate|reflexivity].
Defined.

(** * Sessions, call by call *)

Lemma logs_weaken {A} (P Q : call -> bool) (m : M A) :
  (forall c, P c = true -> Q c = true) -> logs P m -> logs Q m.
Proof.
  intros HPQ Hm h. destruct (Hm h) as (t & Ht & HP). exists t. split; [exact Ht|].
  eapply Forall_impl; [exact HP|]. exact HPQ.
Qed.

Lemma logs_allocate_descriptor_set (P : call -> bool) device pool layout answer :
  (forall r, P (vkAllocateDescriptorSets device pool layout r) = true) ->
  logs P (allocate_descriptor_set device pool layout answer).
Proof.
  intros HP h. unfold allocate_descriptor_set. eexists [_]. split; [reflexivity|].
  constructor; [apply HP|constructor].
Qed.

Lemma vk_compose_draw_calls NDEBUG reply vd image image_coords reg_paint :
  logs draw_call (vk_compose NDEBUG reply vd image image_coords reg_paint).
Proof. unfold vk_compose, compose_refresh_shm, draw_rect. monad_steps. Qed.

Lemma vk_fill_draw_calls NDEBUG vd c region : logs draw_call (vk_fill NDEBUG vd c region).
Proof. unfold vk_fill, draw_rect. monad_steps. Qed.

Lemma vk_release_image_binder_calls wait_idle vd image :
  logs binder_call (vk_release_image wait_idle vd image).
Proof. unfold vk_release_image, vk_release_image_shm. monad_steps. Qed.

Lemma bind_transition_binder_calls e vd vi : logs binder_call (bind_transition e vd vi).
Proof. unfold bind_transition. monad_steps. Qed.

Lemma vk_bind_pixmap_binder_calls NDEBUG e vd pixmap visual_info owned :
  logs binder_call (vk_bind_pixmap NDEBUG e vd pixmap visual_info owned).
Proof.
  unfold vk_bind_pixmap. cbv zeta.
  apply logs_bind.
  - destruct (vd_bind_pixmap_strategy vd);
      [unfold vk_bind_pixmap_dri3|unfold vk_bind_pixmap_shm, bind_staging_buffer];
      monad_steps.
  - intros [ok vi].
    assert (forall vi0, logs binder_call
              (_ <- vk_release_image (ba_release_wait_idle e) vd (handle_of vi0) ;;
               ret (@None backend_image))) as Herr.
    { intros vi0. apply logs_bind; [apply vk_release_image_binder_calls|].
      intros ?. apply logs_ret. }
    destruct (negb ok); [apply Herr|].
    apply logs_bind; [apply logs_ask; reflexivity|]. intros [view|]; [|apply Herr].
    apply logs_bind; [apply logs_allocate_descriptor_set; reflexivity|].
    intros [set|]; [|apply Herr].
    apply logs_bind; [apply logs_emit; reflexivity|]. intros _.
    apply logs_bind; [apply bind_transition_binder_calls|]. intros ok1.
    destruct (negb ok1); [apply Herr|apply logs_ret].
Qed.

Lemma vk_prepare_run e vd h :
  vk_prepare e vd h = (Done (prepare_result vd), rev (prepare_calls e vd) ++ h).
Proof. reflexivity. Qed.

Lemma vk_present_run e vd h :
  vk_present e vd h = (Done (present_result e vd), rev (present_calls e vd) ++ h).
Proof.
  unfold vk_present, present_result, bind, ask, emit, ret. cbn.
  destruct (present_acquire_next_image e); reflexivity.
Qed.

(** ** Rendering scopes, compositionally *)

Lemma render_run_app s l1 l2 :
  render_run s (l1 ++ l2)
  = match render_run s l1 with
    | Some s' => render_run s' l2
    | None => None
    end.
Proof.
  revert s. induction l1 as [|c l1 IH]; intros s; [reflexivity|].
  cbn. destruct (render_step s c); [apply IH|reflexivity].
Qed.

Lemma moves_ret {A} s (a : A) : moves s s (ret a).
Proof. intros h a' h' [= <- <-]. now exists []. Qed.

Lemma moves_emit s s' c : render_step s c = Some s' -> moves s s' (emit c).
Proof. intros Hc h a h' [= <- <-]. exists [c]. cbn. now rewrite Hc. Qed.

Lemma moves_ask {R} s s' (c : R -> call) answer :
  render_step s (c answer) = Some s' -> moves s s' (ask c answer).
Proof. intros Hc h a h' [= <- <-]. exists [c answer]. cbn. now rewrite Hc. Qed.

Lemma moves_assert s NDEBUG b : moves s s (assert_ NDEBUG b).
Proof.
  intros h a h'. unfold assert_. destruct (NDEBUG || b); [|discriminate].
  intros [= <- <-]. now exists [].
Qed.

Lemma moves_bind {A B} s1 s2 s3 (m : M A) (k : A -> M B) :
  moves s1 s2 m -> (forall a, moves s2 s3 (k a)) -> moves s1 s3 (bind m k).
Proof.
  intros Hm Hk h b h' Hrun. unfold bind in Hrun.
  destruct (m h) as [[a| |] h1] eqn:Hmh; [|discriminate..].
  destruct (Hm _ _ _ Hmh) as (t1 & -> & Hr1).
  destruct (Hk a _ _ _ Hrun) as (t2 & -> & Hr2).
  exists (t2 ++ t1). split; [now rewrite app_assoc|].
  now rewrite rev_app_distr, render_run_app, Hr1.
Qed.

Lemma moves_when s b (m : M unit) : moves s s m -> moves s s (when b m).
Proof. intros Hm. destruct b; [exact Hm|apply moves_ret]. Qed.

Lemma moves_for_each {A} s (l : list A) (body : A -> M unit) :
  (forall x, moves s s (body x)) -> moves s s (for_each l body).
Proof.
  intros Hb. induction l as [|x l IH]; simpl.
  - apply moves_ret.
  - eapply moves_bind; [apply Hb|intros _; exact IH].
Qed.

(** One step of a proof of [moves s s' m], by the shape of [m]. *)
Ltac moves_step :=
  lazymatch goal with
  | |- moves _ _ (bind _ _) => eapply moves_bind; [|intros ?]
  | |- moves _ _ (ret _) => apply moves_ret
  | |- moves _ _ (emit _) => apply moves_emit; reflexivity
  | |- moves _ _ (ask _ _) => apply moves_ask; reflexivity
  | |- moves _ _ (when _ _) => apply moves_when
  | |- moves _ _ (assert_ _ _) => apply moves_assert
  | |- moves _ _ (for_each _ _) => apply moves_for_each; intros ?
  | |- moves _ _ (match ?x with _ => _ end) => destruct x
  end.

Ltac moves_steps := repeat (cbv zeta; moves_step).

Lemma vk_compose_moves NDEBUG reply vd image image_coords reg_paint :
  moves false false (vk_compose NDEBUG reply vd image image_coords reg_paint).
Proof. unfold vk_compose, compose_refresh_shm, draw_rect. moves_steps. Qed.

Lemma vk_fill_moves NDEBUG vd c region : moves false false (vk_fill NDEBUG vd c region).
Proof. unfold vk_fill, draw_rect. moves_steps. Qed.

Lemma run_draws_shape NDEBUG draws : forall vd h vd' h',
  run_draws NDEBUG draws vd h = (Done vd', h') ->
  vd' = vd /\
  exists t, h' = t ++ h /\ Forall (fun c => draw_call c = true) t /\
            render_run false (rev t) = Some false.
Proof.
  induction draws as [|d draws IH]; intros vd h vd' h' Hrun.
  - injection Hrun as <- <-. split; [reflexivity|]. exists [].
    split; [reflexivity|]. split; [constructor|reflexivity].
  - simpl in Hrun. unfold bind in Hrun.
    destruct (run_draw NDEBUG vd d h) as [[vd1| |] h1] eqn:Hd; [|discriminate..].
    assert (vd1 = vd /\
            exists t, h1 = t ++ h /\ Forall (fun c => draw_call c = true) t /\
                      render_run false (rev t) = Some false)
      as (-> & t1 & -> & Hq1 & Hr1).
    { destruct d as [reply image image_coords reg_paint|c region]; simpl in Hd.
      - split; [exact (vk_compose_same _ _ _ _ _ _ _ _ _ Hd)|].
        destruct (vk_compose_draw_calls NDEBUG reply vd image image_coords reg_paint h)
          as (t & Ht & Hq).
        rewrite Hd in Ht. cbn [snd] in Ht. exists t. split; [exact Ht|]. split; [exact Hq|].
        destruct (vk_compose_moves _ _ _ _ _ _ _ _ _ Hd) as (t' & Ht' & Hr).
        rewrite Ht in Ht'. apply app_inv_tail in Ht'. now subst t'.
      - split; [exact (vk_fill_same _ _ _ _ _ _ _ Hd)|].
        destruct (vk_fill_draw_calls NDEBUG vd c region h) as (t & Ht & Hq).
        rewrite Hd in Ht. cbn [snd] in Ht. exists t. split; [exact Ht|]. split; [exact Hq|].
        destruct (vk_fill_moves _ _ _ _ _ _ _ Hd) as (t' & Ht' & Hr).
        rewrite Ht in Ht'. apply app_inv_tail in Ht'. now subst t'. }
    apply IH in Hrun as (-> & t2 & -> & Hq2 & Hr2).
    split; [reflexivity|]. exists (t2 ++ t1). split; [now rewrite app_assoc|].
    split; [apply Forall_app; auto|].
    now rewrite rev_app_distr, render_run_app, Hr1.
Qed.

Lemma run_op_shape NDEBUG s o h s' h' :
  run_op NDEBUG s o h = (Done s', h') -> op_shape s o h s' h'.
Proof.
  destruct o as [f|e pixmap visual_info owned|i wait_idle]; simpl; intros Hrun.
  - unfold bind, run_frame in Hrun. unfold bind at 1 in Hrun.
    rewrite vk_prepare_run in Hrun. unfold bind in Hrun.
    destruct (run_draws NDEBUG (frame_draws f) _ _) as [[vd2| |] h2] eqn:Hdraws;
      [|discriminate..].
    apply run_draws_shape in Hdraws as (-> & td & -> & Hq & Hr).
    rewrite vk_present_run in Hrun. injection Hrun as <- <-.
    exists td. split; [exact Hq|].
    split; [unfold rendering_scoped; now rewrite Hr|].
    split; [reflexivity|]. split; [reflexivity|].
    reflexivity.
  - unfold bind in Hrun.
    destruct (vk_bind_pixmap NDEBUG e (ss_vd s) pixmap visual_info owned h)
      as [[r| |] h1] eqn:Hbind; [|discriminate..].
    destruct (vk_bind_pixmap_binder_calls NDEBUG e (ss_vd s) pixmap visual_info owned h)
      as (t & Ht & Hq).
    rewrite Hbind in Ht. cbn [snd] in Ht. subst h1.
    destruct r; injection Hrun as <- <-; exists t; (split; [exact Hq|]); split; reflexivity.
  - destruct (ss_images s !! i) as [image|].
    2:{ injection Hrun as <- <-. exists []. split; [constructor|]. split; reflexivity. }
    unfold bind in Hrun.
    destruct (vk_release_image wait_idle (ss_vd s) image h) as [[r| |] h1] eqn:Hrel;
      [|discriminate..].
    destruct (vk_release_image_binder_calls wait_idle (ss_vd s) image h) as (t & Ht & Hq).
    rewrite Hrel in Ht. cbn [snd] in Ht. subst h1.
    destruct r; injection Hrun as <- <-; exists t; (split; [exact Hq|]); split; reflexivity.
Qed.

(** An invariant of the single calls is an invariant of the session. *)
Lemma run_ops_invariant NDEBUG (C : op -> bool) (I : session_state -> list call -> Prop) :
  (forall s o h s' h', C o = true -> I s h -> op_shape s o h s' h' -> I s' h') ->
  forall ops s h s' h',
    forallb C ops = true -> I s h -> run_ops NDEBUG ops s h = (Done s', h') -> I s' h'.
Proof.
  intros Hstep. induction ops as [|o ops IH]; intros s h s' h' HC HI Hrun; simpl in Hrun.
  - now injection Hrun as <- <-.
  - unfold bind in Hrun.
    destruct (run_op NDEBUG s o h) as [[s1| |] h1] eqn:Hop; [|discriminate..].
    simpl in HC. apply andb_true_iff in HC as [Ho HC].
    apply run_op_shape in Hop.
    exact (IH s1 h1 s' h' HC (Hstep _ _ _ _ _ Ho HI Hop) Hrun).
Qed.

Lemma vk_deinit_init_calls wait_idle vd : logs init_call (vk_deinit wait_idle vd).
Proof. unfold vk_deinit, destroy_unless_null, vk_destroy_swapchain. monad_steps. Qed.

Lemma create_image_views_init_calls answers n : forall i vd,
  logs init_call (create_image_views answers n i vd).
Proof. induction n as [|n IH]; intros i vd; simpl; monad_steps. apply IH. Qed.

Lemma vk_init_init_calls e session window : logs init_call (vk_init e session window).
Proof.
  assert (forall step next, logs init_call step -> (forall vd, logs init_call (next vd)) ->
                            logs init_call (init_step e step next)) as Hstep.
  { intros step next Hs Hn. unfold init_step. monad_steps; [exact Hs| |apply Hn].
    apply vk_deinit_init_calls. }
  unfold vk_init.
  apply Hstep; [unfold vk_create_instance; monad_steps|intros ?].
  apply Hstep; [unfold vk_create_surface; monad_steps|intros ?].
  apply Hstep; [unfold vk_create_device; monad_steps|intros ?].
  apply Hstep; [unfold vk_create_fences_and_semaphore; monad_steps|intros ?].
  apply Hstep; [unfold vk_create_swapchain; monad_steps; apply create_image_views_init_calls
               |intros ?].
  apply Hstep; [unfold vk_create_descriptor_pool; monad_steps|intros ?].
  apply Hstep; [unfold vk_create_pipelines, vk_create_pipeline_shader_stage_create_infos,
                  vk_destroy_pipeline_shader_stage_create_infos; monad_steps|intros ?].
  apply Hstep; [unfold vk_create_command_pool; monad_steps|intros ?].
  apply logs_ret.
Qed.

(** ** Buffer ages over a session *)

Lemma present_requests_app t h :
  present_requests (t ++ h) = present_requests t ++ present_requests h.
Proof.
  induction t as [|c t IH]; [reflexivity|].
  destruct c; cbn; rewrite ?IH; reflexivity.
Qed.

Lemma present_requests_none (P : call -> bool) t :
  (forall c, P c = true -> present_requests [c] = []) ->
  Forall (fun c => P c = true) t -> present_requests t = [].
Proof.
  intros HP. induction 1 as [|c t Hc _ IH]; [reflexivity|].
  change (c :: t) with ([c] ++ t). now rewrite present_requests_app, (HP c Hc), IH.
Qed.

Lemma frames_since_bound i requests :
  frames_since i requests = -1 \/
  1 <= frames_since i requests <= Z.of_nat (length requests).
Proof.
  induction requests as [|r requests IH]; [now left|].
  cbn [frames_since length]. destruct (r =? i); [right; lia|].
  destruct (Z.eqb_spec (frames_since i requests) (-1)); [now left|right; lia].
Qed.

Lemma op_shape_present_requests s o h s' h' :
  op_shape s o h s' h' ->
  present_requests h'
  = match o with
    | Frame _ => vd_swapchain_image_index (ss_vd s) :: present_requests h
    | _ => present_requests h
    end.
Proof.
  assert (forall t, Forall (fun c => binder_call c = true) t -> present_requests t = [])
    as Hbinder.
  { intros t. apply (present_requests_none binder_call).
    intros c Hc. destruct c; try discriminate; reflexivity. }
  destruct o as [f|e pixmap visual_info owned|i wait_idle]; unfold op_shape.
  - intros (draws & Hdraws & _ & _ & _ & ->).
    rewrite !present_requests_app.
    rewrite (present_requests_none draw_call draws); [reflexivity| |exact Hdraws].
    intros c Hc. destruct c; try discriminate; reflexivity.
  - intros (t & Ht & _ & ->). now rewrite present_requests_app, Hbinder.
  - intros (t & Ht & _ & ->). now rewrite present_requests_app, Hbinder.
Qed.

Lemma ages_follow_requests_step n s o h s' h' :
  acquire_in_range (Z.of_nat n) o = true ->
  ages_follow_requests n s h -> op_shape s o h s' h' -> ages_follow_requests n s' h'.
Proof.
  intros Hrange (Hcount & Hindex & Hages) Hshape.
  pose proof (op_shape_present_requests _ _ _ _ _ Hshape) as Hreq.
  destruct o as [f|e pixmap visual_info owned|i wait_idle]; unfold op_shape in Hshape.
  - destruct Hshape as (draws & _ & _ & Hvd & _ & _).
    split; [rewrite Hvd; exact Hcount|]. split.
    + rewrite Hvd. cbn. cbn in Hrange.
      destruct (present_acquire_next_image (frame_present f)) as [next|]; cbn; [lia|].
      exact Hindex.
    + rewrite Hreq. cbn [length]. intros Hbound.
      destruct Hages as (ages & Ha & Hlen & Hlook); [lia|].
      destruct (update_buffer_ages_lookup (vd_swapchain_image_index (ss_vd s)) ages)
        as (ages' & Hupd & Hlen' & Hlook'); [lia|].
      exists ages'. split; [|split; [lia|]].
      * rewrite Hvd. cbn. rewrite_field Ha. rewrite_field Hcount. rewrite <- Hlen.
        exact Hupd.
      * intros i Hi. rewrite Hlook', (Hlook i Hi). cbn [fmap option_fmap option_map].
        f_equal. unfold age_after. cbn [frames_since].
        rewrite (Z.eqb_sym (Z.of_nat i)).
        destruct (_ =? Z.of_nat i); [reflexivity|].
        destruct (frames_since (Z.of_nat i) (present_requests h) =? -1); [reflexivity|].
        apply int32_add_no_overflow.
        destruct (frames_since_bound (Z.of_nat i) (present_requests h)); unfold INT32_MAX in *;
          lia.
  - destruct Hshape as (t & _ & Hvd & _).
    unfold ages_follow_requests. rewrite Hreq, Hvd. exact (conj Hcount (conj Hindex Hages)).
  - destruct Hshape as (t & _ & Hvd & _).
    unfold ages_follow_requests. rewrite Hreq, Hvd. exact (conj Hcount (conj Hindex Hages)).
Qed.

(** X12. Buffer ages count frames: in a session after a start-up, the age
    the backend keeps for a swap chain image is 1 when the image was the
    last one handed to [vkQueuePresentKHR], one more for every present
    request made since, and -1 when it has never been presented;
    [vk_buffer_age] reports this for the image acquired, so it is -1 or
    lies between 1 and the number of present requests made. *)
Theorem buffer_ages_count_present_requests
    (NDEBUG : bool) (e : init_answers) (session : session_t) (window : Z)
    (vd : vulkan_data) (h0 : list call) (ops : list op) (s' : session_state)
    (h' : list call) :
  vk_init e session window [] = (Done (Some vd), h0) ->
  0 <= vd_swapchain_image_index vd < vd_swapchain_image_count vd ->
  acquires_in_range (vd_swapchain_image_count vd) ops = true ->
  run_ops NDEBUG ops {| ss_vd := vd; ss_images := [] |} h0 = (Done s', h') ->
  Z.of_nat (length (present_requests h')) < INT32_MAX ->
  (forall i, 0 <= i < vd_swapchain_image_count vd ->
     array_get 0 (vd_buffer_ages (ss_vd s')) i = frames_since i (present_requests h')) /\
  vk_buffer_age (ss_vd s')
  = frames_since (vd_swapchain_image_index (ss_vd s')) (present_requests h') /\
  (vk_buffer_age (ss_vd s') = -1 \/
   1 <= vk_buffer_age (ss_vd s') <= Z.of_nat (length (present_requests h'))).
Proof.
  intros Hinit Hindex Hrange Hrun Hbound.
  destruct (vk_init_swapchain _ _ _ _ _ _ Hinit) as (vd4 & h4 & vd5 & h5 & Hswap & Hstate).
  destruct (vk_create_swapchain_success _ _ _ _ _ _ Hswap)
    as (caps & images & views & index & _ & _ & _ & _ & _ & Hvd & _).
  unfold swapchain_state in Hstate. rewrite Hvd in Hstate. cbn in Hstate.
  injection Hstate as Hcount _ _ _ Hages _.
  assert (present_requests h0 = []) as Hreq0.
  { destruct (vk_init_init_calls e session window []) as (t & Ht & Hq).
    rewrite Hinit in Ht. cbn [snd] in Ht. rewrite app_nil_r in Ht. subst h0.
    apply (present_requests_none init_call); [|exact Hq].
    intros c Hc. destruct c; try discriminate; reflexivity. }
  assert (ages_follow_requests (length images) {| ss_vd := vd; ss_images := [] |} h0) as Hinv.
  { split; [exact Hcount|]. split; [cbn; rewrite_field_in Hcount Hindex; exact Hindex|].
    intros _. exists (replicate (length images) (-1)).
    split; [exact Hages|]. split; [apply length_replicate|].
    intros i Hi. rewrite Hreq0. now apply lookup_replicate_2. }
  rewrite_field_in Hcount Hrange.
  pose proof (run_ops_invariant NDEBUG (acquire_in_range (Z.of_nat (length images)))
                (ages_follow_requests (length images))
                (ages_follow_requests_step (length images))
                ops _ _ _ _ Hrange Hinv Hrun) as (Hcount' & Hindex' & Hfollow).
  destruct (Hfollow Hbound) as (ages & Ha & Hlen & Hlook).
  assert (forall i, 0 <= i < Z.of_nat (length images) ->
            array_get 0 (vd_buffer_ages (ss_vd s')) i = frames_since i (present_requests h'))
    as Hall.
  { intros i Hi. unfold array_get. rewrite_field Ha.
    rewrite (Hlook (Z.to_nat i)) by lia. cbn. now rewrite Z2Nat.id by lia. }
  split; [intros i Hi; apply Hall; rewrite_field_in Hcount Hi; exact Hi|].
  assert (vk_buffer_age (ss_vd s')
          = frames_since (vd_swapchain_image_index (ss_vd s')) (present_requests h')) as Hage.
  { apply Hall. exact Hindex'. }
  split; [exact Hage|]. rewrite Hage. apply frames_since_bound.
Qed.

Lemma buffer_ages_count_present_requests_witness :
  vk_buffer_age (ss_vd (sample_final sample_ops_three_frames)) = 2.
Proof.
  destruct (buffer_ages_count_present_requests false
              (sample_init_answers [sample_device VK_API_VERSION_1_3]) sample_session 9
              sample_started_vd sample_started_log sample_ops_three_frames
              (sample_final sample_ops_three_frames)
              (sample_final_log sample_ops_three_frames)) as (_ & Hage & _).
  - vm_compute. reflexivity.
  - vm_compute. split; [discriminate|reflexivity].
  - vm_compute. reflexivity.
  - vm_compute. reflexivity.
  - vm_compute. reflexivity.
  - rewrite Hage. vm_compute. reflexivity.
Defined.

(** ** Rendering scopes over a session *)

Lemma render_run_outside (P : call -> bool) t :
  (forall c, P c = true -> render_step false c = Some false) ->
  Forall (fun c => P c = true) t -> render_run false t = Some false.
Proof.
  intros HP. induction 1 as [|c t Hc _ IH]; [reflexivity|].
  cbn. now rewrite (HP c Hc).
Qed.

Lemma rendering_scoped_step s o h s' h' :
  render_run false (rev h) = Some false -> op_shape s o h s' h' ->
  render_run false (rev h') = Some false.
Proof.
  intros Hh Hshape.
  assert (forall t, Forall (fun c => binder_call c = true) t ->
                    render_run false (rev (t ++ h)) = Some false) as Hbinder.
  { intros t Ht. rewrite rev_app_distr, render_run_app, Hh.
    apply (render_run_outside binder_call); [|now apply Forall_rev].
    intros c Hc. destruct c; try discriminate; reflexivity. }
  destruct o as [f|e pixmap visual_info owned|i wait_idle]; unfold op_shape in Hshape.
  - destruct Hshape as (draws & _ & Hscoped & _ & _ & ->).
    unfold rendering_scoped in Hscoped.
    destruct (render_run false (rev draws)) as [[|]|] eqn:Hd; try discriminate.
    rewrite !rev_app_distr, !rev_involutive, !render_run_app, Hh.
    cbn. rewrite Hd. reflexivity.
  - destruct Hshape as (t & Ht & _ & ->). now apply Hbinder.
  - destruct Hshape as (t & Ht & _ & ->). now apply Hbinder.
Qed.

(** X13. Rendering scopes are kept throughout a session: every
    [vkCmdBeginRendering] is closed by a [vkCmdEndRendering] before the next
    one; pipeline, scissor, descriptor, push-constant and draw commands are
    recorded inside a scope only; layout transitions, buffer copies, the end
    of the command buffer and its submission outside of one. *)
Theorem session_keeps_rendering_scopes
    (NDEBUG : bool) (e : init_answers) (session : session_t) (window : Z)
    (vd : vulkan_data) (h0 : list call) (ops : list op) (s' : session_state)
    (h' : list call) :
  vk_init e session window [] = (Done (Some vd), h0) ->
  run_ops NDEBUG ops {| ss_vd := vd; ss_images := [] |} h0 = (Done s', h') ->
  rendering_scoped (rev h') = true.
Proof.
  intros Hinit Hrun.
  assert (render_run false (rev h0) = Some false) as H0.
  { destruct (vk_init_init_calls e session window []) as (t & Ht & Hq).
    rewrite Hinit in Ht. cbn [snd] in Ht. rewrite app_nil_r in Ht. subst h0.
    apply (render_run_outside init_call); [|now apply Forall_rev].
    intros c Hc. destruct c; try discriminate; reflexivity. }
  pose proof (run_ops_invariant NDEBUG (fun _ => true)
                (fun _ h => render_run false (rev h) = Some false)
                (fun s o h s' h' _ => rendering_scoped_step s o h s' h')
                ops _ _ _ _ (proj2 (forallb_forall _ ops) (fun _ _ => eq_refl)) H0 Hrun)
    as Hr.
  unfold rendering_scoped. now rewrite Hr.
Qed.

Lemma session_keeps_rendering_scopes_witness :
  rendering_scoped (rev (sample_final_log sample_ops)) = true.
Proof.
  apply (session_keeps_rendering_scopes false
           (sample_init_answers [sample_device VK_API_VERSION_1_3]) sample_session 9
           sample_started_vd sample_started_log sample_ops (sample_final sample_ops)).
  - vm_compute. reflexivity.
  - vm_compute. reflexivity.
Defined.

(** ** Image layouts over a session *)

Lemma frames_since_never i requests :
  frames_since i requests = -1 <-> ~ In i requests.
Proof.
  induction requests as [|r requests IH]; [cbn; tauto|].
  cbn [frames_since In]. destruct (Z.eqb_spec r i) as [->|Hne].
  - split; [discriminate|tauto].
  - destruct (Z.eqb_spec (frames_since i requests) (-1)) as [Heq|Hneq].
    + split; [|reflexivity]. intros _ [H|H]; [contradiction|]. now apply IH.
    + destruct (frames_since_bound i requests) as [Hb|Hb]; [contradiction|].
      split; [lia|]. intros Hn. exfalso. apply Hneq, IH. tauto.
Qed.

Lemma layouts_follow_requests_step n s o h s' h' :
  acquire_in_range (Z.of_nat n) o = true ->
  layouts_follow_requests n s h -> op_shape s o h s' h' -> layouts_follow_requests n s' h'.
Proof.
  intros Hrange (Hindex & layouts & Hl & Hlen & Hlook) Hshape.
  pose proof (op_shape_present_requests _ _ _ _ _ Hshape) as Hreq.
  destruct o as [f|e pixmap visual_info owned|i wait_idle]; unfold op_shape in Hshape.
  - destruct Hshape as (draws & _ & _ & Hvd & _ & _).
    split.
    + rewrite Hvd. cbn. cbn in Hrange.
      destruct (present_acquire_next_image (frame_present f)) as [next|]; cbn; [lia|].
      exact Hindex.
    + exists (<[Z.to_nat (vd_swapchain_image_index (ss_vd s))
                := VK_IMAGE_LAYOUT_PRESENT_SRC_KHR]> layouts).
      split; [|split; [now rewrite length_insert|]].
      * rewrite Hvd. cbn. unfold array_set. rewrite_field Hl. cbn.
        now rewrite list_insert_insert_eq.
      * intros i Hi. rewrite Hreq. unfold layout_on_record. cbn [frames_since].
        destruct (Z.eqb_spec (vd_swapchain_image_index (ss_vd s)) (Z.of_nat i)) as [Heq|Hne].
        -- rewrite Heq, Nat2Z.id. cbn. apply list_lookup_insert_eq. lia.
        -- rewrite list_lookup_insert_ne by lia. rewrite (Hlook i Hi).
           unfold layout_on_record.
           destruct (Z.eqb_spec (frames_since (Z.of_nat i) (present_requests h)) (-1))
             as [Hn|Hn]; [reflexivity|].
           destruct (frames_since_bound (Z.of_nat i) (present_requests h)) as [Hb|Hb];
             [contradiction|].
           destruct (Z.eqb_spec (frames_since (Z.of_nat i) (present_requests h) + 1) (-1));
             [lia|reflexivity].
  - destruct Hshape as (t & _ & Hvd & _).
    unfold layouts_follow_requests. rewrite Hreq, Hvd. eauto.
  - destruct Hshape as (t & _ & Hvd & _).
    unfold layouts_follow_requests. rewrite Hreq, Hvd. eauto.
Qed.

(** X14. The layouts on record follow the presentations: between the
    frames of a session, the backend has every swap chain image on record
    in the undefined layout as long as the image has never been handed to
    [vkQueuePresentKHR], and in the layout of presentation from then on; the
    next [vk_prepare] moves the image acquired out of exactly that layout. *)
Theorem recorded_layouts_follow_presentations
    (NDEBUG : bool) (e : init_answers) (session : session_t) (window : Z)
    (vd : vulkan_data) (h0 : list call) (ops : list op) (s' : session_state)
    (h' : list call) :
  vk_init e session window [] = (Done (Some vd), h0) ->
  0 <= vd_swapchain_image_index vd < vd_swapchain_image_count vd ->
  acquires_in_range (vd_swapchain_image_count vd) ops = true ->
  run_ops NDEBUG ops {| ss_vd := vd; ss_images := [] |} h0 = (Done s', h') ->
  (forall i, 0 <= i < vd_swapchain_image_count vd ->
     array_get VK_IMAGE_LAYOUT_UNDEFINED (vd_swapchain_image_layouts (ss_vd s')) i
     = layout_on_record i (present_requests h') /\
     (layout_on_record i (present_requests h') = VK_IMAGE_LAYOUT_UNDEFINED
      <-> ~ In i (present_requests h'))) /\
  forall pa,
    In (vkCmdPipelineBarrier (vd_command_buffer (ss_vd s'))
          (array_get VK_NULL_HANDLE (vd_swapchain_images (ss_vd s'))
             (vd_swapchain_image_index (ss_vd s')))
          (layout_on_record (vd_swapchain_image_index (ss_vd s')) (present_requests h'))
          VK_IMAGE_LAYOUT_COLOR_ATTACHMENT_OPTIMAL)
      (calls (vk_prepare pa (ss_vd s'))).
Proof.
  intros Hinit Hindex Hrange Hrun.
  destruct (vk_init_swapchain _ _ _ _ _ _ Hinit) as (vd4 & h4 & vd5 & h5 & Hswap & Hstate).
  destruct (vk_create_swapchain_success _ _ _ _ _ _ Hswap)
    as (caps & images & views & index & _ & _ & _ & _ & _ & Hvd & _).
  unfold swapchain_state in Hstate. rewrite Hvd in Hstate. cbn in Hstate.
  injection Hstate as Hcount _ Hlayouts _ _ _.
  assert (present_requests h0 = []) as Hreq0.
  { destruct (vk_init_init_calls e session window []) as (t & Ht & Hq).
    rewrite Hinit in Ht. cbn [snd] in Ht. rewrite app_nil_r in Ht. subst h0.
    apply (present_requests_none init_call); [|exact Hq].
    intros c Hc. destruct c; try discriminate; reflexivity. }
  assert (layouts_follow_requests (length images) {| ss_vd := vd; ss_images := [] |} h0)
    as Hinv.
  { split; [cbn; rewrite_field_in Hcount Hindex; exact Hindex|].
    exists (replicate (length images) VK_IMAGE_LAYOUT_UNDEFINED).
    split; [exact Hlayouts|]. split; [apply length_replicate|].
    intros i Hi. rewrite Hreq0. now apply lookup_replicate_2. }
  rewrite_field_in Hcount Hrange.
  pose proof (run_ops_invariant NDEBUG (acquire_in_range (Z.of_nat (length images)))
                (layouts_follow_requests (length images))
                (layouts_follow_requests_step (length images))
                ops _ _ _ _ Hrange Hinv Hrun) as (Hindex' & layouts & Hl & Hlen & Hlook).
  assert (forall i, 0 <= i < Z.of_nat (length images) ->
            array_get VK_IMAGE_LAYOUT_UNDEFINED (vd_swapchain_image_layouts (ss_vd s')) i
            = layout_on_record i (present_requests h')) as Hall.
  { intros i Hi. unfold array_get. rewrite_field Hl.
    rewrite (Hlook (Z.to_nat i)) by lia. cbn. now rewrite Z2Nat.id by lia. }
  split.
  - intros i Hi. rewrite_field_in Hcount Hi. split; [now apply Hall|].
    unfold layout_on_record. rewrite <- frames_since_never.
    destruct (Z.eqb_spec (frames_since i (present_requests h')) (-1)); split;
      (discriminate || tauto).
  - intros pa. rewrite <- (Hall _ Hindex'). unfold calls. rewrite vk_prepare_run.
    cbn [snd]. rewrite app_nil_r, rev_involutive. unfold prepare_calls.
    do 4 right. left. reflexivity.
Qed.

Lemma recorded_layouts_follow_presentations_witness :
  vd_swapchain_image_layouts (ss_vd (sample_final sample_ops_three_frames))
  = Some [VK_IMAGE_LAYOUT_PRESENT_SRC_KHR; VK_IMAGE_LAYOUT_PRESENT_SRC_KHR] /\
  layout_on_record 1 (present_requests (sample_final_log sample_ops_three_frames))
  = VK_IMAGE_LAYOUT_PRESENT_SRC_KHR.
Proof.
  destruct (recorded_layouts_follow_presentations false
              (sample_init_answers [sample_device VK_API_VERSION_1_3]) sample_session 9
              sample_started_vd sample_started_log sample_ops_three_frames
              (sample_final sample_ops_three_frames)
              (sample_final_log sample_ops_three_frames)) as (Hall & _).
  - vm_compute. reflexivity.
  - vm_compute. split; [discriminate|reflexivity].
  - vm_compute. reflexivity.
  - vm_compute. reflexivity.
  - split; [vm_compute; reflexivity|].
    rewrite <- (proj1 (Hall 1 ltac:(vm_compute; split; [discriminate|reflexivity]))).
    vm_compute. reflexivity.
Defined.

(** * Objects created and destroyed *)

Lemma occurrences_app o l1 l2 :
  occurrences o (l1 ++ l2) = occurrences o l1 + occurrences o l2.
Proof. unfold occurrences. rewrite count_occ_app. lia. Qed.

Lemma occurrences_nil o : occurrences o [] = 0.
Proof. reflexivity. Qed.

Lemma occurrences_nonneg o l : 0 <= occurrences o l.
Proof. unfold occurrences. lia. Qed.

Lemma occurrences_shader_module o :
  fst o <> Shader_module -> forall x, occurrences o [(Shader_module, x)] = 0.
Proof.
  intros Ho x. unfold occurrences. cbn.
  destruct (object_eq_dec (Shader_module, x) o) as [<-|]; [now elim Ho|reflexivity].
Qed.

Lemma created_objects_cons c h : created_objects (c :: h) = creates c ++ created_objects h.
Proof. reflexivity. Qed.

Lemma destroyed_objects_cons c h :
  destroyed_objects (c :: h) = destroys c ++ destroyed_objects h.
Proof. reflexivity. Qed.

Lemma created_objects_app t h :
  created_objects (t ++ h) = created_objects t ++ created_objects h.
Proof. apply flat_map_app. Qed.

Lemma destroyed_objects_app t h :
  destroyed_objects (t ++ h) = destroyed_objects t ++ destroyed_objects h.
Proof. apply flat_map_app. Qed.

Lemma obj_new k p : obj k (new_handle p) = [(k, new_handle p)].
Proof. reflexivity. Qed.

Lemma obj_null k : obj k VK_NULL_HANDLE = [].
Proof. reflexivity. Qed.

(** Projections and setters of the two structs, for rewriting. *)
Ltac simpl_fields :=
  cbn [
    vd_instance vd_surface_connection vd_surface vd_bind_pixmap_strategy vd_physical_device
    vd_min_imported_host_pointer_alignment vd_queue_family_index vd_device vd_queue
    vd_acquire_next_image_fence vd_queue_submit_fence vd_semaphore vd_width vd_height
    vd_swapchain vd_swapchain_image_count vd_swapchain_images vd_swapchain_image_layouts
    vd_swapchain_image_views vd_buffer_ages vd_swapchain_image_index vd_descriptor_pool
    vd_descriptor_set_layout vd_sampler vd_compose_pipeline_layout vd_compose_pipeline
    vd_fill_pipeline_layout vd_fill_pipeline vd_command_pool vd_command_buffer
    set_vd_instance set_vd_surface_connection set_vd_surface set_vd_bind_pixmap_strategy
    set_vd_physical_device set_vd_min_imported_host_pointer_alignment
    set_vd_queue_family_index set_vd_device set_vd_queue set_vd_acquire_next_image_fence
    set_vd_queue_submit_fence set_vd_semaphore set_vd_width set_vd_height set_vd_swapchain
    set_vd_swapchain_image_count set_vd_swapchain_images set_vd_swapchain_image_layouts
    set_vd_swapchain_image_views set_vd_buffer_ages set_vd_swapchain_image_index
    set_vd_descriptor_pool set_vd_descriptor_set_layout set_vd_sampler
    set_vd_compose_pipeline_layout set_vd_compose_pipeline set_vd_fill_pipeline_layout
    set_vd_fill_pipeline set_vd_command_pool set_vd_command_buffer
    vi_refcount vi_has_alpha vi_pixmap vi_owned vi_width vi_height vi_image vi_memory
    vi_shm_id vi_shm_address vi_shm_segment vi_staging_buffer vi_staging_memory
    vi_image_view vi_descriptor_set set_vi_refcount set_vi_has_alpha set_vi_pixmap
    set_vi_owned set_vi_width set_vi_height set_vi_image set_vi_memory set_vi_shm_id
    set_vi_shm_address set_vi_shm_segment set_vi_staging_buffer set_vi_staging_memory
    set_vi_image_view set_vi_descriptor_set] in *.

Ltac unfold_all_fields :=
  unfold
    vd_instance, vd_surface_connection, vd_surface, vd_bind_pixmap_strategy,
    vd_physical_device, vd_min_imported_host_pointer_alignment, vd_queue_family_index,
    vd_device, vd_queue, vd_acquire_next_image_fence, vd_queue_submit_fence, vd_semaphore,
    vd_width, vd_height, vd_swapchain, vd_swapchain_image_count, vd_swapchain_images,
    vd_swapchain_image_layouts, vd_swapchain_image_views, vd_buffer_ages,
    vd_swapchain_image_index, vd_descriptor_pool, vd_descriptor_set_layout, vd_sampler,
    vd_compose_pipeline_layout, vd_compose_pipeline, vd_fill_pipeline_layout,
    vd_fill_pipeline, vd_command_pool, vd_command_buffer,
    vi_refcount, vi_has_alpha, vi_pixmap, vi_owned, vi_width, vi_height, vi_image,
    vi_memory, vi_shm_id, vi_shm_address, vi_shm_segment, vi_staging_buffer,
    vi_staging_memory, vi_image_view, vi_descriptor_set in *.

(** ** What the setters of [vulkan_data] do to the objects held *)

Lemma held_set_vd_instance o x vd :
  occurrences o (held (set_vd_instance x vd))
  = occurrences o (held vd) - occurrences o (obj Instance_object (vd_instance vd)) + occurrences o (obj Instance_object x).
Proof. unfold held, held_views. simpl_fields. rewrite !occurrences_app. unfold_all_fields. lia. Qed.

Lemma held_set_vd_surface_connection o x vd :
  occurrences o (held (set_vd_surface_connection x vd))
  = occurrences o (held vd) - occurrences o (obj Connection (vd_surface_connection vd)) + occurrences o (obj Connection x).
Proof. unfold held, held_views. simpl_fields. rewrite !occurrences_app. unfold_all_fields. lia. Qed.

Lemma held_set_vd_surface o x vd :
  occurrences o (held (set_vd_surface x vd))
  = occurrences o (held vd) - occurrences o (obj Surface (vd_surface vd)) + occurrences o (obj Surface x).
Proof. unfold held, held_views. simpl_fields. rewrite !occurrences_app. unfold_all_fields. lia. Qed.

Lemma held_set_vd_bind_pixmap_strategy o x vd :
  occurrences o (held (set_vd_bind_pixmap_strategy x vd)) = occurrences o (held vd).
Proof. reflexivity. Qed.

Lemma held_set_vd_physical_device o x vd :
  occurrences o (held (set_vd_physical_device x vd)) = occurrences o (held vd).
Proof. reflexivity. Qed.

Lemma held_set_vd_min_imported_host_pointer_alignment o x vd :
  occurrences o (held (set_vd_min_imported_host_pointer_alignment x vd)) = occurrences o (held vd).
Proof. reflexivity. Qed.

Lemma held_set_vd_queue_family_index o x vd :
  occurrences o (held (set_vd_queue_family_index x vd)) = occurrences o (held vd).
Proof. reflexivity. Qed.

Lemma held_set_vd_device o x vd :
  occurrences o (held (set_vd_device x vd))
  = occurrences o (held vd) - occurrences o (obj Device (vd_device vd)) + occurrences o (obj Device x).
Proof. unfold held, held_views. simpl_fields. rewrite !occurrences_app. unfold_all_fields. lia. Qed.

Lemma held_set_vd_queue o x vd :
  occurrences o (held (set_vd_queue x vd)) = occurrences o (held vd).
Proof. reflexivity. Qed.

Lemma held_set_vd_acquire_next_image_fence o x vd :
  occurrences o (held (set_vd_acquire_next_image_fence x vd))
  = occurrences o (held vd) - occurrences o (obj Fence (vd_acquire_next_image_fence vd)) + occurrences o (obj Fence x).
Proof. unfold held, held_views. simpl_fields. rewrite !occurrences_app. unfold_all_fields. lia. Qed.

Lemma held_set_vd_queue_submit_fence o x vd :
  occurrences o (held (set_vd_queue_submit_fence x vd))
  = occurrences o (held vd) - occurrences o (obj Fence (vd_queue_submit_fence vd)) + occurrences o (obj Fence x).
Proof. unfold held, held_views. simpl_fields. rewrite !occurrences_app. unfold_all_fields. lia. Qed.

Lemma held_set_vd_semaphore o x vd :
  occurrences o (held (set_vd_semaphore x vd))
  = occurrences o (held vd) - occurrences o (obj Semaphore (vd_semaphore vd)) + occurrences o (obj Semaphore x).
Proof. unfold held, held_views. simpl_fields. rewrite !occurrences_app. unfold_all_fields. lia. Qed.

Lemma held_set_vd_width o x vd :
  occurrences o (held (set_vd_width x vd)) = occurrences o (held vd).
Proof. reflexivity. Qed.

Lemma held_set_vd_height o x vd :
  occurrences o (held (set_vd_height x vd)) = occurrences o (held vd).
Proof. reflexivity. Qed.

Lemma held_set_vd_swapchain o x vd :
  occurrences o (held (set_vd_swapchain x vd))
  = occurrences o (held vd) - occurrences o (obj Swapchain (vd_swapchain vd)) + occurrences o (obj Swapchain x).
Proof. unfold held, held_views. simpl_fields. rewrite !occurrences_app. unfold_all_fields. lia. Qed.

Lemma held_set_vd_swapchain_image_count o x vd :
  occurrences o (held (set_vd_swapchain_image_count x vd))
  = occurrences o (held vd) - occurrences o (held_views vd)
    + occurrences o (held_views (set_vd_swapchain_image_count x vd)).
Proof. unfold held. simpl_fields. rewrite !occurrences_app. unfold_all_fields. lia. Qed.

Lemma held_set_vd_swapchain_images o x vd :
  occurrences o (held (set_vd_swapchain_images x vd)) = occurrences o (held vd).
Proof. reflexivity. Qed.

Lemma held_set_vd_swapchain_image_layouts o x vd :
  occurrences o (held (set_vd_swapchain_image_layouts x vd)) = occurrences o (held vd).
Proof. reflexivity. Qed.

Lemma held_set_vd_swapchain_image_views o x vd :
  occurrences o (held (set_vd_swapchain_image_views x vd))
  = occurrences o (held vd) - occurrences o (held_views vd)
    + occurrences o (held_views (set_vd_swapchain_image_views x vd)).
Proof. unfold held. simpl_fields. rewrite !occurrences_app. unfold_all_fields. lia. Qed.

Lemma held_set_vd_buffer_ages o x vd :
  occurrences o (held (set_vd_buffer_ages x vd)) = occurrences o (held vd).
Proof. reflexivity. Qed.

Lemma held_set_vd_swapchain_image_index o x vd :
  occurrences o (held (set_vd_swapchain_image_index x vd)) = occurrences o (held vd).
Proof. reflexivity. Qed.

Lemma held_set_vd_descriptor_pool o x vd :
  occurrences o (held (set_vd_descriptor_pool x vd))
  = occurrences o (held vd) - occurrences o (obj Descriptor_pool (vd_descriptor_pool vd)) + occurrences o (obj Descriptor_pool x).
Proof. unfold held, held_views. simpl_fields. rewrite !occurrences_app. unfold_all_fields. lia. Qed.

Lemma held_set_vd_descriptor_set_layout o x vd :
  occurrences o (held (set_vd_descriptor_set_layout x vd))
  = occurrences o (held vd) - occurrences o (obj Descriptor_set_layout (vd_descriptor_set_layout vd)) + occurrences o (obj Descriptor_set_layout x).
Proof. unfold held, held_views. simpl_fields. rewrite !occurrences_app. unfold_all_fields. lia. Qed.

Lemma held_set_vd_sampler o x vd :
  occurrences o (held (set_vd_sampler x vd))
  = occurrences o (held vd) - occurrences o (obj Sampler (vd_sampler vd)) + occurrences o (obj Sampler x).
Proof. unfold held, held_views. simpl_fields. rewrite !occurrences_app. unfold_all_fields. lia. Qed.

Lemma held_set_vd_compose_pipeline_layout o x vd :
  occurrences o (held (set_vd_compose_pipeline_layout x vd))
  = occurrences o (held vd) - occurrences o (obj Pipeline_layout (vd_compose_pipeline_layout vd)) + occurrences o (obj Pipeline_layout x).
Proof. unfold held, held_views. simpl_fields. rewrite !occurrences_app. unfold_all_fields. lia. Qed.

Lemma held_set_vd_compose_pipeline o x vd :
  occurrences o (held (set_vd_compose_pipeline x vd))
  = occurrences o (held vd) - occurrences o (obj Pipeline (vd_compose_pipeline vd)) + occurrences o (obj Pipeline x).
Proof. unfold held, held_views. simpl_fields. rewrite !occurrences_app. unfold_all_fields. lia. Qed.

Lemma held_set_vd_fill_pipeline_layout o x vd :
  occurrences o (held (set_vd_fill_pipeline_layout x vd))
  = occurrences o (held vd) - occurrences o (obj Pipeline_layout (vd_fill_pipeline_layout vd)) + occurrences o (obj Pipeline_layout x).
Proof. unfold held, held_views. simpl_fields. rewrite !occurrences_app. unfold_all_fields. lia. Qed.

Lemma held_set_vd_fill_pipeline o x vd :
  occurrences o (held (set_vd_fill_pipeline x vd))
  = occurrences o (held vd) - occurrences o (obj Pipeline (vd_fill_pipeline vd)) + occurrences o (obj Pipeline x).
Proof. unfold held, held_views. simpl_fields. rewrite !occurrences_app. unfold_all_fields. lia. Qed.

Lemma held_set_vd_command_pool o x vd :
  occurrences o (held (set_vd_command_pool x vd))
  = occurrences o (held vd) - occurrences o (obj Command_pool (vd_command_pool vd)) + occurrences o (obj Command_pool x).
Proof. unfold held, held_views. simpl_fields. rewrite !occurrences_app. unfold_all_fields. lia. Qed.

Lemma held_set_vd_command_buffer o x vd :
  occurrences o (held (set_vd_command_buffer x vd))
  = occurrences o (held vd) - occurrences o (obj Command_buffer (vd_command_buffer vd)) + occurrences o (obj Command_buffer x).
Proof. unfold held, held_views. simpl_fields. rewrite !occurrences_app. unfold_all_fields. lia. Qed.

(** Rewrite the objects held by a backend built with setters in terms of
    those held before. *)
Ltac held_setters :=
  repeat (first
    [ rewrite held_set_vd_instance
    | rewrite held_set_vd_surface_connection
    | rewrite held_set_vd_surface
    | rewrite held_set_vd_bind_pixmap_strategy
    | rewrite held_set_vd_physical_device
    | rewrite held_set_vd_min_imported_host_pointer_alignment
    | rewrite held_set_vd_queue_family_index
    | rewrite held_set_vd_device
    | rewrite held_set_vd_queue
    | rewrite held_set_vd_acquire_next_image_fence
    | rewrite held_set_vd_queue_submit_fence
    | rewrite held_set_vd_semaphore
    | rewrite held_set_vd_width
    | rewrite held_set_vd_height
    | rewrite held_set_vd_swapchain
    | rewrite held_set_vd_swapchain_image_count
    | rewrite held_set_vd_swapchain_images
    | rewrite held_set_vd_swapchain_image_layouts
    | rewrite held_set_vd_swapchain_image_views
    | rewrite held_set_vd_buffer_ages
    | rewrite held_set_vd_swapchain_image_index
    | rewrite held_set_vd_descriptor_pool
    | rewrite held_set_vd_descriptor_set_layout
    | rewrite held_set_vd_sampler
    | rewrite held_set_vd_compose_pipeline_layout
    | rewrite held_set_vd_compose_pipeline
    | rewrite held_set_vd_fill_pipeline_layout
    | rewrite held_set_vd_fill_pipeline
    | rewrite held_set_vd_command_pool
    | rewrite held_set_vd_command_buffer ];
    simpl_fields).

Lemma held_by_fields vd1 vd2 : held_fields vd1 = held_fields vd2 -> held vd1 = held vd2.
Proof.
  unfold held_fields, handle_fields. intros H.
  injection H as H1 H2 H3 H4 H5 H6 H7 H8 H9 H10 H11 H12 H13 H14 H15 H16 H17 Hviews Hcount.
  unfold held, held_views. unfold_all_fields.
  now rewrite H1, H2, H3, H4, H5, H6, H7, H8, H9, H10, H11, H12, H13, H14, H15, H16, H17,
    Hviews, Hcount.
Qed.

Lemma tracks_by_fields K vd1 vd2 h :
  held_fields vd1 = held_fields vd2 -> tracks K vd1 h -> tracks K vd2 h.
Proof. intros H Ht o Ho. rewrite <- (held_by_fields _ _ H). now apply Ht. Qed.

Lemma fresh_from_by_fields n vd1 vd2 :
  held_fields vd1 = held_fields vd2 -> fresh_from n vd1 -> fresh_from n vd2.
Proof.
  intros H.
  pose proof (f_equal (fun p => fst (fst p)) H) as Hh.
  pose proof (f_equal (fun p => snd (fst p)) H) as Hv.
  unfold held_fields in Hh, Hv. cbn [fst snd] in Hh, Hv.
  unfold fresh_from. now rewrite <- Hh, <- Hv.
Qed.

Lemma vk_select_physical_device_fields devices names : forall vd,
  held_fields (vk_select_physical_device vd devices names) = held_fields vd.
Proof.
  intros vd. rewrite vk_select_physical_device_find.
  destruct (List.find _ devices) as [d|]; [|reflexivity].
  cbn.
  match goal with
  | |- context [match ?s with BIND_PIXMAP_STRATEGY_DRI3 => _ | _ => _ end] => destruct s
  end; reflexivity.
Qed.

Lemma select_strategy_fields session devices vd :
  held_fields (fst (select_strategy session devices vd)) = held_fields vd.
Proof.
  unfold select_strategy.
  destruct (dri3_exists session).
  - match goal with
    | |- context [vk_select_physical_device ?v ?d ?n] =>
      pose proof (vk_select_physical_device_fields d n v) as Hsel;
      destruct (is_null (vd_physical_device (vk_select_physical_device v d n)) &&
                shm_exists session)
    end.
    + cbn. rewrite vk_select_physical_device_fields. cbn. exact Hsel.
    + exact Hsel.
  - destruct (is_null (vd_physical_device vd) && shm_exists session); [|reflexivity].
    cbn. now rewrite vk_select_physical_device_fields.
Qed.

(** ** The steps of the start-up keep track of what they create *)

Ltac use_freshness :=
  unfold_all_fields;
  repeat match goal with
         | H : _ = VK_NULL_HANDLE |- _ => rewrite H
         | H : _ = @None _ |- _ => rewrite H
         end.

(** With the step unfolded and its answers fixed: count the objects of the
    new log and of the new backend. *)
Ltac count_step Htracks :=
  let o := fresh "o" in
  let Ho := fresh "Ho" in
  intros o Ho; specialize (Htracks o Ho);
  rewrite ?created_objects_cons, ?destroyed_objects_cons, ?occurrences_app;
  held_setters;
  cbn [creates destroys obj_created];
  use_freshness;
  rewrite ?obj_new, ?obj_null, ?occurrences_nil;
  lia.

Ltac step_result := intros [= <- <- <-].

(** The handles the start-up has not come to yet, one by one. *)
Ltac split_fresh H :=
  let Hf := fresh "Hf" in
  let Hv := fresh "Hviews" in
  destruct H as [Hf Hv]; unfold handle_fields in Hf; cbn [skipn] in Hf;
  repeat (let Hnull := fresh "Hnull" in apply Forall_cons in Hf as [Hnull Hf]);
  clear Hf; try specialize (Hv ltac:(lia)).

Ltac prove_fresh :=
  split;
  [ unfold handle_fields; cbn [skipn]; simpl_fields; unfold_all_fields;
    repeat (apply Forall_cons; split; [assumption|]); constructor
  | intros; simpl_fields; unfold_all_fields; first [assumption | lia] ].

Ltac close_step Htracks := step_result; (split; [count_step Htracks|prove_fresh]).

Lemma vk_create_instance_tracks K e vd h ok vd' h' :
  fresh_from 0 vd -> tracks K vd h ->
  vk_create_instance e vd h = (Done (ok, vd'), h') ->
  tracks K vd' h' /\ fresh_from 1 vd'.
Proof.
  intros Hfresh Htracks. split_fresh Hfresh. unfold vk_create_instance.
  destruct (negb (ia_enumerate_count e)); [close_step Htracks|].
  destruct (ia_enumerate e) as [properties|]; [|close_step Htracks].
  destruct (negb _); [close_step Htracks|].
  unfold bind, ask, ret.
  destruct (ia_create_instance e) as [p|]; cbn [created fmap option_fmap option_map];
    close_step Htracks.
Qed.

Lemma vk_create_surface_tracks K e vd window h ok vd' h' :
  fresh_from 1 vd -> tracks K vd h ->
  vk_create_surface e vd window h = (Done (ok, vd'), h') ->
  tracks K vd' h' /\ fresh_from 3 vd'.
Proof.
  intros Hfresh Htracks. split_fresh Hfresh.
  unfold vk_create_surface, bind, ask, ret. cbv zeta.
  destruct (sfa_connection_has_error e);
    [|destruct (sfa_create_surface e) as [p|]];
    cbn [created fmap option_fmap option_map]; close_step Htracks.
Qed.

Lemma fresh_from_weaken n m vd : (n <= m)%nat -> fresh_from n vd -> fresh_from m vd.
Proof.
  intros Hnm [Hf Hv]. split; [|intros; apply Hv; lia].
  replace m with (n + (m - n))%nat by lia. rewrite <- drop_drop.
  apply Forall_drop. exact Hf.
Qed.

Lemma vk_create_device_tracks K e session vd h ok vd' h' :
  fresh_from 3 vd -> tracks K vd h ->
  vk_create_device e session vd h = (Done (ok, vd'), h') ->
  tracks K vd' h' /\ fresh_from 4 vd'.
Proof.
  intros Hfresh Htracks. unfold vk_create_device.
  assert (fresh_from 4 vd) as Hfresh4 by (apply (fresh_from_weaken 3); [lia|exact Hfresh]).
  destruct (negb (da_enumerate_count e)); [step_result; now split|].
  destruct (da_physical_devices e) as [devices|]; [|step_result; now split].
  clear Hfresh4.
  pose proof (select_strategy_fields session devices vd) as Hfields.
  destruct (select_strategy session devices vd) as [vd1 names]. cbn [fst] in Hfields.
  apply (tracks_by_fields _ _ _ _ (eq_sym Hfields)) in Htracks.
  apply (fresh_from_by_fields _ _ _ (eq_sym Hfields)) in Hfresh.
  clear Hfields. split_fresh Hfresh.
  destruct (is_null _); [close_step Htracks|].
  cbv zeta.
  match goal with
  | |- context [find_queue_family ?f 0] => destruct (find_queue_family f 0) as [index|]
  end; [|close_step Htracks].
  match goal with
  | |- context [?i =? UINT32_MAX] => destruct (i =? UINT32_MAX)
  end; [close_step Htracks|].
  unfold bind, ask, ret.
  destruct (da_create_device e) as [p|]; cbn [created fmap option_fmap option_map];
    [|close_step Htracks].
  match goal with |- context [negb ?b] => destruct b end; cbn [negb]; close_step Htracks.
Qed.

Lemma vk_create_fences_and_semaphore_tracks K e vd h ok vd' h' :
  fresh_from 4 vd -> tracks K vd h ->
  vk_create_fences_and_semaphore e vd h = (Done (ok, vd'), h') ->
  tracks K vd' h' /\ fresh_from 7 vd'.
Proof.
  intros Hfresh Htracks. split_fresh Hfresh.
  unfold vk_create_fences_and_semaphore, bind, ask, ret.
  destruct (sya_acquire_next_image_fence e) as [p1|];
    [destruct (sya_queue_submit_fence e) as [p2|];
     [destruct (sya_semaphore e) as [p3|]|]|];
    cbn [created fmap option_fmap option_map]; close_step Htracks.
Qed.

Lemma vk_create_descriptor_pool_tracks K e vd h ok vd' h' :
  fresh_from 8 vd -> tracks K vd h ->
  vk_create_descriptor_pool e vd h = (Done (ok, vd'), h') ->
  tracks K vd' h' /\ fresh_from 11 vd'.
Proof.
  intros Hfresh Htracks. split_fresh Hfresh.
  unfold vk_create_descriptor_pool, bind, ask, ret.
  destruct (dpa_descriptor_pool e) as [p1|];
    [destruct (dpa_descriptor_set_layout e) as [p2|];
     [destruct (dpa_sampler e) as [p3|]|]|];
    cbn [created fmap option_fmap option_map]; close_step Htracks.
Qed.

Lemma vk_create_command_pool_tracks K e vd h ok vd' h' :
  fresh_from 15 vd -> tracks K vd h ->
  vk_create_command_pool e vd h = (Done (ok, vd'), h') ->
  tracks K vd' h' /\ fresh_from 17 vd'.
Proof.
  intros Hfresh Htracks. split_fresh Hfresh.
  unfold vk_create_command_pool, bind, ask, ret.
  destruct (cpa_command_pool e) as [p1|]; [destruct (cpa_command_buffer e) as [p2|]|];
    cbn [created fmap option_fmap option_map]; close_step Htracks.
Qed.

(** Fix the next answer a run depends on. *)
Ltac answer_in H :=
  match type of H with
  | context [created ?a] =>
    destruct a as [?p|]; cbn [created fmap option_fmap option_map] in H
  | context [if negb ?b then _ else _] => destruct b; cbn [negb] in H
  | context [if ?b then _ else _] => destruct b
  | context [match ?x with Some _ => _ | None => _ end] => destruct x
  end.

(** As [count_step], where shader modules are not counted. *)
Ltac count_step_no_modules Htracks Hk :=
  let o := fresh "o" in
  let Ho := fresh "Ho" in
  intros o Ho; specialize (Htracks o Ho); apply Hk in Ho;
  rewrite ?created_objects_cons, ?destroyed_objects_cons, ?occurrences_app;
  held_setters;
  cbn [creates destroys obj_created];
  use_freshness;
  rewrite ?obj_new, ?obj_null, ?occurrences_nil, ?(occurrences_shader_module o Ho);
  lia.

Ltac run_result H Htracks Hk :=
  injection H as <- <- <-;
  (split;
   [first [ count_step Htracks
          | destruct Hk as [Hk|Hk]; [discriminate Hk|count_step_no_modules Htracks Hk] ]
   |prove_fresh]).

(** [vk_create_pipelines] keeps count of the layouts and pipelines, and,
    when it succeeds, of the shader modules. *)
Lemma vk_create_pipelines_tracks K e vd h ok vd' h' :
  fresh_from 11 vd -> tracks K vd h ->
  vk_create_pipelines e vd h = (Done (ok, vd'), h') ->
  ok = true \/ (forall k, K k -> k <> Shader_module) ->
  tracks K vd' h' /\ fresh_from 15 vd'.
Proof.
  intros Hfresh Htracks Hrun Hk. split_fresh Hfresh.
  unfold vk_create_pipelines, vk_create_pipeline_shader_stage_create_infos,
    vk_destroy_pipeline_shader_stage_create_infos, bind, ask, ret, emit, when in Hrun.
  cbv zeta in Hrun.
  repeat (answer_in Hrun; cbn in Hrun).
  all: first [discriminate Hrun|run_result Hrun Htracks Hk].
Qed.
(** ** The views of the swap chain images *)

Lemma occurrences_rev_flat_map {A} (f : A -> list object) o l :
  occurrences o (flat_map f (rev l)) = occurrences o (flat_map f l).
Proof.
  induction l as [|a l IH]; [reflexivity|].
  cbn [rev flat_map]. rewrite flat_map_app, !occurrences_app, IH. cbn [flat_map].
  rewrite app_nil_r. lia.
Qed.

Lemma created_objects_view_calls vd vs : forall k,
  created_objects (view_calls vd k vs) = map (pair Image_view) vs.
Proof.
  unfold view_calls, created_objects.
  induction vs as [|v vs IH]; intros k; [reflexivity|].
  rewrite imap_cons. cbn [flat_map map creates view_call obj_created app]. f_equal.
  rewrite <- (IH (S k)). f_equal. apply imap_ext. intros j x _. cbn.
  f_equal. lia.
Qed.

Lemma destroyed_objects_view_calls vd vs : forall k,
  destroyed_objects (view_calls vd k vs) = [].
Proof.
  unfold view_calls, destroyed_objects.
  induction vs as [|v vs IH]; intros k; [reflexivity|].
  rewrite imap_cons. cbn [flat_map destroys view_call app].
  rewrite <- (IH (S k)). f_equal. apply imap_ext. intros j x _. cbn.
  f_equal. lia.
Qed.

Lemma flat_map_obj_null k n : flat_map (obj k) (replicate n VK_NULL_HANDLE) = [].
Proof. induction n as [|n IH]; [reflexivity|]. cbn. exact IH. Qed.

Lemma flat_map_obj_not_null k vs :
  Forall (fun v => v <> VK_NULL_HANDLE) vs -> flat_map (obj k) vs = map (pair k) vs.
Proof.
  induction 1 as [|v vs Hv _ IH]; [reflexivity|].
  cbn [flat_map map]. rewrite IH. unfold obj, is_null.
  destruct (Z.eqb_spec v VK_NULL_HANDLE); [contradiction|reflexivity].
Qed.

(** The views held once the loop is through with [vs], the remaining
    entries still null. *)
Lemma held_new_views k vs a m n :
  Forall (fun v => v <> VK_NULL_HANDLE) vs ->
  flat_map (obj k) (take a (vs ++ drop m (replicate n VK_NULL_HANDLE)))
  = map (pair k) (take a vs).
Proof.
  intros Hvs. rewrite drop_replicate, take_app, flat_map_app, take_replicate, flat_map_obj_null.
  rewrite app_nil_r. apply flat_map_obj_not_null. now apply Forall_take.
Qed.

(** Only the views differ. *)
Lemma held_views_only o vd1 vd2 :
  handle_fields vd1 = handle_fields vd2 ->
  occurrences o (held vd1)
  = occurrences o (held vd2) - occurrences o (held_views vd2) + occurrences o (held_views vd1).
Proof.
  unfold handle_fields. intros H.
  injection H as H1 H2 H3 H4 H5 H6 H7 H8 H9 H10 H11 H12 H13 H14 H15 H16 H17.
  unfold held. rewrite !occurrences_app. unfold_all_fields.
  rewrite H1, H2, H3, H4, H5, H6, H7, H8, H9, H10, H11, H12, H13, H14, H15, H16, H17.
  lia.
Qed.

Lemma held_views_null vd n :
  vd_swapchain_image_views vd = Some (replicate n VK_NULL_HANDLE) -> held_views vd = [].
Proof.
  intros H. unfold held_views. rewrite_field H.
  rewrite take_replicate. apply flat_map_obj_null.
Qed.

(** The loop of [vk_create_swapchain]: the views it creates are the views
    the backend holds afterwards. *)
Lemma create_image_views_tracks K answers n vd h ok vd' h' ls ags :
  vd_swapchain_image_layouts vd = Some ls ->
  vd_swapchain_image_views vd = Some (replicate n VK_NULL_HANDLE) ->
  vd_buffer_ages vd = Some ags ->
  length ls = n -> length ags = n ->
  vd_swapchain_image_count vd = Z.of_nat n ->
  tracks K vd h ->
  create_image_views answers n 0 vd h = (Done (ok, vd'), h') ->
  tracks K vd' h' /\ handle_fields vd' = handle_fields vd.
Proof.
  intros Hls Hvs Hags Hl1 Hl2 Hcount Htracks Hrun.
  change 0 with (Z.of_nat 0) in Hrun.
  eapply (create_image_views_spec _ _ 0 _ _ _ _ _ ls (replicate n VK_NULL_HANDLE) ags) in Hrun;
    [|assumption|assumption|assumption|rewrite ?length_replicate; assumption || reflexivity..].
  destruct Hrun as (views & ls' & vs' & ags' & Hm & _ & _ & Hnn & Hlog & Hvd & _ & -> & _).
  cbv zeta in *. cbn [firstn app Nat.add] in *.
  assert (Hfields : handle_fields vd' = handle_fields vd) by (rewrite Hvd; reflexivity).
  split; [|exact Hfields].
  intros o Ho. specialize (Htracks o Ho).
  rewrite (held_views_only o vd' vd Hfields), (held_views_null vd n Hvs), occurrences_nil.
  rewrite Hlog, !created_objects_app, !destroyed_objects_app, !occurrences_app.
  unfold created_objects at 2, destroyed_objects at 2.
  rewrite !occurrences_rev_flat_map.
  fold (created_objects (view_calls vd 0 views)).
  fold (destroyed_objects (view_calls vd 0 views)).
  rewrite created_objects_view_calls, destroyed_objects_view_calls, occurrences_nil.
  assert (Hheld : held_views vd' = map (pair Image_view) views).
  { rewrite Hvd. unfold held_views. simpl_fields. rewrite_field Hcount.
    rewrite take_0. cbn [app]. rewrite Nat2Z.id, held_new_views by assumption.
    now rewrite take_ge by lia. }
  rewrite Hheld.
  destruct ok; cbn; rewrite ?occurrences_nil; lia.
Qed.

Lemma vk_create_swapchain_tracks K e vd vsync h ok vd' h' :
  fresh_from 7 vd -> tracks K vd h ->
  vk_create_swapchain e vd vsync h = (Done (ok, vd'), h') ->
  tracks K vd' h' /\ fresh_from 8 vd'.
Proof.
  intros Hfresh Htracks Hrun. split_fresh Hfresh.
  unfold vk_create_swapchain in Hrun.
  destruct (swa_surface_capabilities e) as [caps|]; [|revert Hrun; close_step Htracks].
  destruct (negb (swa_surface_format_count e)); [revert Hrun; close_step Htracks|].
  destruct (is_UNDEFINED _); [revert Hrun; close_step Htracks|].
  unfold bind, ask, ret in Hrun.
  destruct (swa_create_swapchain e) as [p|]; cbn [created fmap option_fmap option_map] in Hrun;
    [|revert Hrun; close_step Htracks].
  destruct (swa_swapchain_images e) as [images|]; [|revert Hrun; close_step Htracks].
  match type of Hrun with
  | context [create_image_views ?a ?n ?i ?v ?l] =>
    destruct (create_image_views a n i v l) as [[[ok1 vd1]| |] h1] eqn:Hloop;
    [|discriminate Hrun..]
  end.
  eapply create_image_views_tracks in Hloop;
    [|reflexivity|reflexivity|reflexivity|rewrite length_replicate; reflexivity..|reflexivity|].
  - destruct Hloop as [Htracks1 Hfields].
    assert (Hfresh1 : fresh_from 8 vd1).
    { split; [|lia]. rewrite Hfields. unfold handle_fields. cbn [skipn]. simpl_fields.
      unfold_all_fields. repeat (apply Forall_cons; split; [assumption|]). constructor. }
    clear Hnull Hnull0 Hnull1 Hnull2 Hnull3 Hnull4 Hnull5 Hnull6 Hnull7 Hnull8 Hviews Hfields
      Htracks.
    split_fresh Hfresh1.
    destruct ok1; cbn [negb] in Hrun; [|revert Hrun; close_step Htracks1].
    destruct (swa_acquire_next_image e) as [index|]; [|revert Hrun; close_step Htracks1].
    destruct (swa_wait_for_fences e); [|revert Hrun; close_step Htracks1].
    destruct (swa_reset_fences e); revert Hrun; close_step Htracks1.
  - intros o Ho. specialize (Htracks o Ho).
    rewrite created_objects_cons, destroyed_objects_cons, !occurrences_app.
    cbn [creates destroys obj_created].
    match goal with
    | |- context [held ?v] =>
      rewrite (held_views_only o v (set_vd_swapchain (new_handle p) vd) eq_refl);
      rewrite (held_views_null v (length images) eq_refl)
    end.
    rewrite held_set_vd_swapchain.
    unfold held_views at 1. simpl_fields. rewrite_field Hviews. rewrite_field Hnull.
    rewrite ?obj_new, ?obj_null, ?occurrences_nil. lia.
Qed.
(** ** Teardown *)

Lemma releases_ret : releases [] (ret tt).
Proof. intros h. exists []. repeat split. Qed.

Lemma releases_emit c objs :
  creates c = [] -> destroys c = objs -> releases objs (emit c).
Proof.
  intros Hc Hd h. exists [c]. split; [reflexivity|]. split.
  - cbn. now rewrite Hc.
  - intros o. cbn. now rewrite Hd, app_nil_r.
Qed.

Lemma releases_ask {R} (c : R -> call) answer :
  creates (c answer) = [] -> destroys (c answer) = [] ->
  releases [] (_ <- ask c answer ;; ret tt).
Proof.
  intros Hc Hd h. exists [c answer]. split; [reflexivity|]. split.
  - cbn. now rewrite Hc.
  - intros o. cbn. now rewrite Hd.
Qed.

Lemma releases_seq a b m1 m2 :
  releases a m1 -> releases b m2 -> releases (a ++ b) (m1 ;;; m2).
Proof.
  intros H1 H2 h. destruct (H1 h) as (t1 & E1 & C1 & D1).
  destruct (H2 (t1 ++ h)) as (t2 & E2 & C2 & D2).
  exists (t2 ++ t1). unfold bind. rewrite E1, E2, app_assoc.
  split; [reflexivity|]. split.
  - now rewrite created_objects_app, C1, C2.
  - intros o. rewrite destroyed_objects_app, !occurrences_app, D1, D2. lia.
Qed.

Lemma releases_when (b : bool) objs m :
  releases objs m -> releases (if b then objs else []) (when b m).
Proof. destruct b; [trivial|intros _; apply releases_ret]. Qed.

Lemma releases_destroy_unless_null k x c :
  creates c = [] -> destroys c = [(k, x)] -> releases (obj k x) (destroy_unless_null x c).
Proof.
  intros Hc Hd. unfold destroy_unless_null, obj.
  destruct (is_null x); cbn [negb when]; [apply releases_ret|now apply releases_emit].
Qed.

Lemma releases_for_each {A} (f : A -> list object) body l :
  (forall x, releases (f x) (body x)) -> releases (flat_map f l) (for_each l body).
Proof.
  intros Hbody. induction l as [|x l IH]; cbn [for_each flat_map].
  - apply releases_ret.
  - now apply releases_seq.
Qed.

Lemma releases_same objs1 objs2 m :
  (forall o, occurrences o objs1 = occurrences o objs2) ->
  releases objs1 m -> releases objs2 m.
Proof.
  intros Hsame H h. destruct (H h) as (t & E & C & D).
  exists t. repeat split; try assumption. intros o. now rewrite D.
Qed.

(** [vk_destroy_swapchain] destroys the swap chain and the views the
    backend holds. *)
Lemma vk_destroy_swapchain_releases vd :
  releases (held_views vd ++ obj Swapchain (vd_swapchain vd)) (vk_destroy_swapchain vd).
Proof.
  unfold vk_destroy_swapchain.
  eapply releases_same; [|
    apply releases_seq; [apply releases_when, releases_emit; reflexivity|];
    apply releases_seq; [|
    apply releases_seq; [apply releases_when, releases_emit; reflexivity|];
    apply releases_seq; [apply releases_when, releases_emit; reflexivity|];
    apply (releases_destroy_unless_null Swapchain); reflexivity ] ].
  2: { instantiate (1 := held_views vd). unfold held_views.
       destruct (vd_swapchain_image_views vd) as [views|]; [|apply releases_ret].
       rewrite <- (app_nil_r (flat_map _ _)).
       apply releases_seq; [|now apply releases_emit].
       apply releases_for_each. intros view. unfold obj.
       destruct (is_null view); cbn [negb when]; [apply releases_ret|now apply releases_emit]. }
  intros o. rewrite !occurrences_app. repeat match goal with |- context [if ?b then _ else _] => destruct b end;
    rewrite ?occurrences_nil; lia.
Qed.

(** [vk_deinit] destroys what the backend holds, and nothing else. *)
Lemma vk_deinit_releases wait_idle vd : releases (held vd) (vk_deinit wait_idle vd).
Proof.
  unfold vk_deinit.
  eapply releases_same; [|
    apply releases_seq; [apply releases_when, releases_ask; reflexivity|];
    repeat (apply releases_seq;
            [first [ eapply releases_destroy_unless_null; reflexivity
                   | apply vk_destroy_swapchain_releases
                   | apply releases_emit; reflexivity ]|]);
    apply releases_emit; reflexivity ].
  intros o. unfold held. rewrite !occurrences_app.
  cbn [destroys]. 
  repeat match goal with |- context [if ?b then _ else _] => destruct b end;
    rewrite ?occurrences_nil; lia.
Qed.
(** ** Start-up as a whole *)

Lemma init_step_cases e step next h r h' :
  init_step e step next h = (Done r, h') ->
  exists ok vd1 h1,
    step h = (Done (ok, vd1), h1) /\
    if ok then next vd1 h1 = (Done r, h')
    else r = None /\ vk_deinit (init_deinit_wait_idle e) vd1 h1 = (Done tt, h').
Proof.
  unfold init_step, bind. intros Hrun.
  destruct (step h) as [[[ok vd1]| |] h1]; [|discriminate..].
  exists ok, vd1, h1. split; [reflexivity|].
  destruct ok; cbn [negb] in Hrun; [exact Hrun|].
  destruct (vk_deinit _ vd1 h1) as [[[]| |] h2]; [|discriminate..].
  injection Hrun as <- <-. now split.
Qed.

(** Once [vk_deinit] is through, nothing is left. *)
Lemma vk_deinit_all_destroyed K wait_idle vd h :
  tracks K vd h ->
  exists h', vk_deinit wait_idle vd h = (Done tt, h') /\ all_destroyed K h'.
Proof.
  intros Htracks. destruct (vk_deinit_releases wait_idle vd h) as (t & Hrun & Hc & Hd).
  exists (t ++ h). split; [exact Hrun|].
  intros o Ho. specialize (Htracks o Ho).
  rewrite created_objects_app, destroyed_objects_app, !occurrences_app, Hc, Hd, occurrences_nil.
  lia.
Qed.

Lemma tracks_nothing K : tracks K vulkan_data_zero [].
Proof. intros o _. reflexivity. Qed.

Lemma fresh_from_nothing : fresh_from 0 vulkan_data_zero.
Proof. split; [|reflexivity]. cbn. repeat constructor. Qed.

(** One step of the start-up that failed: the teardown that follows. *)
Ltac failed_step Hrest Htracks :=
  let Hnone := fresh in
  let h2 := fresh in
  let Hrun := fresh in
  let Hall := fresh in
  destruct Hrest as [Hnone Hrest]; subst;
  match type of Hrest with
  | vk_deinit ?w ?vd ?h = _ =>
    destruct (vk_deinit_all_destroyed _ w vd h Htracks) as (h2 & Hrun & Hall)
  end;
  rewrite Hrun in Hrest; injection Hrest as <-; intros _; exact Hall.

(** The start-up keeps count of what it creates: a backend it hands out
    holds what is left of it, and after a start-up that fails nothing is
    left, shader modules aside. *)
Lemma vk_init_tracks K e session window r h :
  vk_init e session window [] = (Done r, h) ->
  match r with
  | Some vd => tracks K vd h
  | None => (forall k, K k -> k <> Shader_module) -> all_destroyed K h
  end.
Proof.
  unfold vk_init. intros Hrun.
  pose proof (tracks_nothing K) as Ht0. pose proof fresh_from_nothing as Hf0.
  apply init_step_cases in Hrun as (ok1 & vd1 & h1 & Hstep & Hrun).
  apply (vk_create_instance_tracks K) in Hstep as [Ht1 Hf1]; [|assumption..].
  destruct ok1; [|failed_step Hrun Ht1].
  apply init_step_cases in Hrun as (ok2 & vd2 & h2 & Hstep & Hrun).
  apply (vk_create_surface_tracks K) in Hstep as [Ht2 Hf2]; [|assumption..].
  destruct ok2; [|failed_step Hrun Ht2].
  apply init_step_cases in Hrun as (ok3 & vd3 & h3 & Hstep & Hrun).
  apply (vk_create_device_tracks K) in Hstep as [Ht3 Hf3]; [|assumption..].
  destruct ok3; [|failed_step Hrun Ht3].
  apply init_step_cases in Hrun as (ok4 & vd4 & h4 & Hstep & Hrun).
  apply (vk_create_fences_and_semaphore_tracks K) in Hstep as [Ht4 Hf4]; [|assumption..].
  destruct ok4; [|failed_step Hrun Ht4].
  apply init_step_cases in Hrun as (ok5 & vd5 & h5 & Hstep & Hrun).
  apply (vk_create_swapchain_tracks K) in Hstep as [Ht5 Hf5]; [|assumption..].
  destruct ok5; [|failed_step Hrun Ht5].
  apply init_step_cases in Hrun as (ok6 & vd6 & h6 & Hstep & Hrun).
  apply (vk_create_descriptor_pool_tracks K) in Hstep as [Ht6 Hf6]; [|assumption..].
  destruct ok6; [|failed_step Hrun Ht6].
  apply init_step_cases in Hrun as (ok7 & vd7 & h7 & Hstep & Hrun).
  destruct ok7.
  - apply (vk_create_pipelines_tracks K) in Hstep as [Ht7 Hf7]; [|assumption|assumption|now left].
    apply init_step_cases in Hrun as (ok8 & vd8 & h8 & Hstep & Hrun).
    apply (vk_create_command_pool_tracks K) in Hstep as [Ht8 Hf8]; [|assumption..].
    destruct ok8; [|failed_step Hrun Ht8].
    injection Hrun as <- <-. exact Ht8.
  - destruct Hrun as [-> Hrun]. intros HK.
    apply (vk_create_pipelines_tracks K) in Hstep as [Ht7 Hf7]; [|assumption|assumption|now right].
    destruct (vk_deinit_all_destroyed _ (init_deinit_wait_idle e) _ _ Ht7) as (h' & Hrun' & Hall).
    rewrite Hrun' in Hrun. injection Hrun as <-. exact Hall.
Qed.
(** ** Shader modules *)

(** The calls of a log that came after the log [h]. *)
Ltac calls_since l h :=
  match l with
  | h => constr:(@nil call)
  | ?c :: ?l' => let t := calls_since l' h in constr:(c :: t)
  end.

Lemma occurrences_cons_other (o a : object) l :
  a <> o -> occurrences o (a :: l) = occurrences o l.
Proof. intros Hne. unfold occurrences. now rewrite count_occ_cons_neq. Qed.

Lemma occurrences_other_kind k k' x y :
  k' <> k -> occurrences (k, x) [(k', y)] = 0.
Proof. intros Hne. rewrite occurrences_cons_other; [reflexivity|congruence]. Qed.

Lemma occurrences_cons (o a : object) l :
  occurrences o (a :: l) = occurrences o [a] + occurrences o l.
Proof. apply (occurrences_app o [a] l). Qed.

(** Fix the next answer a run depends on, the answers being variables. *)
Ltac answer_var H :=
  match type of H with
  | context [if negb ?b then _ else _] => is_var b; destruct b; cbn [negb] in H
  | context [if ?b then _ else _] => is_var b; destruct b
  | context [match ?x with Some _ => _ | None => _ end] => is_var x; destruct x
  | context [new_handle <$> ?x] => is_var x; destruct x
  end.

(** ** Binding and releasing *)

Lemma occurrences_one_by_one o l : occurrences o l = occurrences_each o l.
Proof.
  induction l as [|a l IH]; [reflexivity|].
  cbn [occurrences_each]. rewrite <- IH. apply occurrences_cons.
Qed.

(** A reply with one file descriptor. *)
Lemma reply_fds_one r :
  (r_nfd r =? 1) = true -> reply_fds r = [default 0 (r_buffers r !! 0%nat)].
Proof. intros H. apply Z.eqb_eq in H. unfold reply_fds. rewrite H. reflexivity. Qed.

(** Count the objects of two lists that are given call by call. *)
Ltac count_objects :=
  rewrite ?reply_fds_one by assumption;
  cbn [created_objects destroyed_objects flat_map creates destroys obj_created app
       fmap list_fmap];
  repeat (match goal with |- context [if ?b then _ else _] => destruct b end; cbn [app]);
  rewrite !occurrences_one_by_one; cbn [occurrences_each].

Lemma occurrences_shared_memory o k x :
  outside_shared_memory (fst o) = true -> outside_shared_memory k = false -> occurrences o [(k, x)] = 0.
Proof.
  intros Ho Hk. apply occurrences_cons_other. intros <-. cbn in Ho. congruence.
Qed.

(** The answer a run is waiting for: what its outermost case looks at. *)
Ltac stuck X :=
  lazymatch X with
  | (_, _) => fail
  | (if ?b then _ else _) => stuck b
  | match ?x with Some _ => _ | None => _ end => stuck x
  | match ?x with Done _ => _ | Aborted => _ | Undefined => _ end => stuck x
  | (let (_, _) := ?x in _) => stuck x
  | negb ?b => stuck b
  | created ?a => stuck a
  | (new_handle <$> ?a) => stuck a
  | ?f ?a =>
    lazymatch f with
    | (if _ then _ else _) => stuck f
    | match _ with Some _ => _ | None => _ end => stuck f
    | match _ with Done _ => _ | Aborted => _ | Undefined => _ end => stuck f
    | (let (_, _) := _ in _) => stuck f
    | _ => constr:(X)
    end
  | _ => constr:(X)
  end.

(** Use what was answered before for the objects of a call. *)
Ltac use_answers :=
  cbn [created_objects destroyed_objects flat_map creates destroys obj_created app];
  repeat match goal with
         | E : ?c = _ |- context [if ?c then _ else _] => rewrite E
         end.

(** Fix the answer a run is waiting for, unless it was fixed before. *)
Ltac next_answer_once H :=
  lazymatch type of H with
  | ?X = _ =>
    let s := stuck X in
    first [ match goal with E : s = _ |- _ => rewrite E in H end
          | destruct s eqn:? ]
  end.

(** The file descriptors a bind leaves open, by the answers it got. *)
Ltac left_open :=
  unfold descriptors_left_open, import_succeeds;
  repeat match goal with
         | E : ?x = _ |- _ =>
           lazymatch x with
           | d3_buffers_from_pixmap _ => idtac
           | d3_create_image _ => idtac
           | d3_memory_fd_properties _ => idtac
           | d3_allocate_memory _ => idtac
           | (_ =? _) => idtac
           end;
           rewrite E
         end;
  rewrite ?reply_fds_one by assumption;
  cbn [answered andb negb fmap list_fmap].

(** What a bind leaves behind: the objects of the image it hands out, and
    the file descriptors it has left open; and a bind that fails frees the
    pixmap when it owns it. *)
Lemma vk_bind_pixmap_objects NDEBUG e vd pixmap visual_info owned h r h' :
  vk_bind_pixmap NDEBUG e vd pixmap visual_info owned h = (Done r, h') ->
  exists t,
    h' = t ++ h /\
    (forall o,
       counted vd o ->
       occurrences o (created_objects t)
       = occurrences o (destroyed_objects t)
         + occurrences o match r with
                         | Some image =>
                           image_objects (vd_bind_pixmap_strategy vd) (bi_inner image)
                         | None => []
                         end
         + occurrences o (descriptors_left_open (vd_bind_pixmap_strategy vd) e)) /\
    (r = None ->
     pixmap_frees pixmap t = if owned && negb (pixmap =? XCB_NONE) then 1%nat else 0%nat).
Proof.
  intros Hrun.
  unfold vk_bind_pixmap, vk_bind_pixmap_dri3, vk_bind_pixmap_shm, bind_staging_buffer,
    bind_transition, allocate_descriptor_set, vk_release_image, vk_release_image_shm,
    assert_, bind, ask, ret, emit, when in Hrun.
  cbv zeta in Hrun. cbn in Hrun.
  repeat (first [ progress change (0 <? int32_sub 1 1) with false in Hrun
                | next_answer_once Hrun ]; cbn in Hrun).
  all: try discriminate Hrun.
  all: injection Hrun as <- <-.
  all: match goal with
       | |- exists t, ?l = t ++ ?h /\ _ => let t := calls_since l h in exists t
       end.
  all: split; [reflexivity|].
  all: split; [|try discriminate; intros _; cbn; rewrite ?Z.eqb_refl; reflexivity].
  all: intros o [Hs|Ho]; [try congruence|];
    unfold descriptors_left_open, import_succeeds;
    repeat match goal with
           | E : vd_bind_pixmap_strategy _ = _ |- _ => progress rewrite_field E
           end;
    cbn -[occurrences created_objects destroyed_objects];
    left_open; use_answers; count_objects;
    rewrite ?(occurrences_shared_memory o Shm_segment _ Ho eq_refl),
      ?(occurrences_shared_memory o Shm_attachment _ Ho eq_refl),
      ?(occurrences_shared_memory o X_shm_segment _ Ho eq_refl);
    cbv delta [object handle]; lia.
Qed.

(** ** Releasing an image *)

Lemma releases_to_ret {A} (Q : A -> Prop) a : Q a -> releases_to Q [] (ret a).
Proof. intros Ha h. exists a, []. repeat split. exact Ha. Qed.

Lemma releases_to_seq {A} (Q : A -> Prop) a b m1 (m2 : M A) :
  releases a m1 -> releases_to Q b m2 -> releases_to Q (a ++ b) (m1 ;;; m2).
Proof.
  intros H1 H2 h. destruct (H1 h) as (t1 & E1 & C1 & D1).
  destruct (H2 (t1 ++ h)) as (x & t2 & E2 & Hx & C2 & D2).
  exists x, (t2 ++ t1). unfold bind. rewrite E1, E2, app_assoc.
  split; [reflexivity|]. split; [exact Hx|]. split.
  - now rewrite created_objects_app, C1, C2.
  - intros o. rewrite destroyed_objects_app, !occurrences_app, D1, D2. lia.
Qed.

Lemma releases_to_ask {A R} (Q : A -> Prop) (c : R -> call) answer objs (m : M A) :
  creates (c answer) = [] -> destroys (c answer) = [] ->
  releases_to Q objs m -> releases_to Q objs (_ <- ask c answer ;; m).
Proof.
  intros Hc Hd Hm h. destruct (Hm (c answer :: h)) as (x & t & E & Hx & C & D).
  exists x, (t ++ [c answer]). unfold bind, ask. rewrite E, <- app_assoc.
  split; [reflexivity|]. split; [exact Hx|]. split.
  - rewrite created_objects_app, C. cbn. now rewrite Hc.
  - intros o. rewrite destroyed_objects_app, occurrences_app, D. cbn. rewrite Hd.
    cbn. rewrite occurrences_nil. lia.
Qed.

Lemma releases_to_same {A} (Q : A -> Prop) objs1 objs2 (m : M A) :
  (forall o, occurrences o objs1 = occurrences o objs2) ->
  releases_to Q objs1 m -> releases_to Q objs2 m.
Proof.
  intros Hsame H h. destruct (H h) as (x & t & E & Hx & C & D).
  exists x, t. repeat split; try assumption. intros o. now rewrite D.
Qed.

Lemma releases_when_not_null k x c :
  creates c = [] -> destroys c = [(k, x)] ->
  releases (obj k x) (when (negb (x =? VK_NULL_HANDLE)) (emit c)).
Proof. apply releases_destroy_unless_null. Qed.

Lemma releases_when_not (x sentinel : Z) k c :
  creates c = [] -> destroys c = [(k, x)] ->
  releases (if x =? sentinel then [] else [(k, x)]) (when (negb (x =? sentinel)) (emit c)).
Proof.
  intros Hc Hd. destruct (x =? sentinel); cbn [negb when];
    [apply releases_ret|now apply releases_emit].
Qed.

(** [vk_release_image] hands the image back when references are left, and
    destroys its objects when not. *)
Lemma vk_release_image_objects wait_idle vd image h :
  let vi := set_vi_refcount (int32_sub (vi_refcount (bi_inner image)) 1) (bi_inner image) in
  exists t,
    vk_release_image wait_idle vd image h
    = (Done (if 0 <? vi_refcount vi then Some vi else None), t ++ h) /\
    created_objects t = [] /\
    forall o,
      occurrences o (destroyed_objects t)
      = if 0 <? vi_refcount vi then 0
        else occurrences o (image_objects (vd_bind_pixmap_strategy vd) (bi_inner image)).
Proof.
  intros vi. unfold vk_release_image. fold vi.
  unfold bind at 1. unfold emit at 1.
  destruct (0 <? vi_refcount vi).
  { exists [free Backend_image]. repeat split. }
  assert (Hrel : releases_to (fun r : option vulkan_image => r = None)
            (image_objects (vd_bind_pixmap_strategy vd) (bi_inner image))
            (_ <- ask (vkDeviceWaitIdle (vd_device vd)) wait_idle ;;
             when (negb (vi_descriptor_set vi =? VK_NULL_HANDLE))
               (emit (vkFreeDescriptorSets (vd_device vd) (vd_descriptor_pool vd)
                        (vi_descriptor_set vi))) ;;;
             when (negb (vi_image_view vi =? VK_NULL_HANDLE))
               (emit (vkDestroyImageView (vd_device vd) (vi_image_view vi))) ;;;
             match vd_bind_pixmap_strategy vd with
             | BIND_PIXMAP_STRATEGY_SHM => vk_release_image_shm vd vi
             | BIND_PIXMAP_STRATEGY_DRI3 => ret tt
             end ;;;
             when (negb (vi_image vi =? VK_NULL_HANDLE))
               (emit (vkDestroyImage (vd_device vd) (vi_image vi))) ;;;
             when (negb (vi_memory vi =? VK_NULL_HANDLE))
               (emit (vkFreeMemory (vd_device vd) (vi_memory vi))) ;;;
             when (vi_owned vi && negb (vi_pixmap vi =? XCB_NONE))
               (emit (xcb_free_pixmap (vi_pixmap vi))) ;;;
             emit (free Vulkan_image) ;;;
             ret None)).
  { eapply releases_to_same; [|
      apply releases_to_ask; [reflexivity..|];
      apply releases_to_seq; [apply (releases_when_not_null Descriptor_set); reflexivity|];
      apply releases_to_seq; [apply (releases_when_not_null Image_view); reflexivity|];
      apply releases_to_seq; [|
      apply releases_to_seq; [apply (releases_when_not_null Image); reflexivity|];
      apply releases_to_seq; [apply (releases_when_not_null Memory); reflexivity|];
      apply releases_to_seq; [apply releases_when, releases_emit; reflexivity|];
      apply releases_to_seq; [apply releases_emit; reflexivity|];
      apply releases_to_ret; reflexivity ] ].
    2: { instantiate (1 := match vd_bind_pixmap_strategy vd with
                           | BIND_PIXMAP_STRATEGY_SHM => _
                           | BIND_PIXMAP_STRATEGY_DRI3 => []
                           end).
         destruct (vd_bind_pixmap_strategy vd); [apply releases_ret|].
         unfold vk_release_image_shm.
         apply releases_seq; [apply (releases_when_not_null Buffer); reflexivity|].
         apply releases_seq; [apply (releases_when_not_null Memory); reflexivity|].
         apply releases_seq; [apply (releases_when_not _ _ X_shm_segment); reflexivity|].
         apply releases_seq; [apply (releases_when_not _ _ Shm_attachment); reflexivity|].
         apply (releases_when_not _ _ Shm_segment); reflexivity. }
    intros o. unfold image_objects. subst vi. cbn -[occurrences obj].
    unfold_all_fields. unfold bi_inner.
    match goal with |- context [match ?s with BIND_PIXMAP_STRATEGY_SHM => _ | _ => _ end] =>
      destruct s
    end;
      rewrite !occurrences_app;
      repeat match goal with |- context [if ?b then _ else _] => destruct b end;
      rewrite ?occurrences_app, ?occurrences_nil; lia. }
  destruct (Hrel (free Backend_image :: h)) as (r & t & Hrun & -> & Hc & Hd).
  exists (t ++ [free Backend_image]).
  rewrite Hrun, <- app_assoc. split; [reflexivity|]. split.
  - rewrite created_objects_app, Hc. reflexivity.
  - intros o. rewrite destroyed_objects_app, occurrences_app, Hd. cbn.
    rewrite occurrences_nil. lia.
Qed.

(** ** Sessions *)

Lemma draw_call_no_objects c : draw_call c = true -> creates c = [] /\ destroys c = [].
Proof. destruct c; try discriminate; now split. Qed.

Lemma draw_calls_no_objects t :
  Forall (fun c => draw_call c = true) t -> created_objects t = [] /\ destroyed_objects t = [].
Proof.
  induction 1 as [|c t Hc _ [IHc IHd]]; [now split|].
  apply draw_call_no_objects in Hc as [Hc Hd].
  rewrite created_objects_cons, destroyed_objects_cons, Hc, Hd. now split.
Qed.

Lemma occurrences_flat_map_delete {A} (f : A -> list object) o x : forall l i,
  l !! i = Some x ->
  occurrences o (flat_map f l) = occurrences o (f x) + occurrences o (flat_map f (delete i l)).
Proof.
  induction l as [|a l IH]; intros [|i] Hl; try discriminate.
  - injection Hl as ->. cbn. now rewrite occurrences_app.
  - cbn in Hl. cbn [flat_map]. change (delete (S i) (a :: l)) with (a :: delete i l).
    cbn [flat_map]. rewrite !occurrences_app, (IH i Hl). lia.
Qed.

Lemma occurrences_flat_map_insert {A} (f : A -> list object) o x y : forall l i,
  l !! i = Some x ->
  occurrences o (flat_map f (<[i := y]> l))
  = occurrences o (flat_map f l) - occurrences o (f x) + occurrences o (f y).
Proof.
  induction l as [|a l IH]; intros [|i] Hl; try discriminate.
  - injection Hl as ->. cbn. rewrite !occurrences_app. lia.
  - cbn in Hl. cbn [flat_map]. change (<[S i := y]> (a :: l)) with (a :: <[i := y]> l).
    cbn [flat_map]. rewrite !occurrences_app, (IH i Hl). lia.
Qed.

Lemma image_objects_refcount strategy x vi :
  image_objects strategy (set_vi_refcount x vi) = image_objects strategy vi.
Proof. reflexivity. Qed.

(** One call of the orchestrator keeps count of the objects, the file
    descriptors a bind leaves open being lost; and it keeps the strategy. *)
Lemma run_op_tracks NDEBUG lost s o h s' h' :
  session_tracks lost s h -> run_op NDEBUG s o h = (Done s', h') ->
  session_tracks
    (lost ++ session_descriptors_left_open (vd_bind_pixmap_strategy (ss_vd s)) [o]) s' h' /\
  vd_bind_pixmap_strategy (ss_vd s') = vd_bind_pixmap_strategy (ss_vd s).
Proof.
  intros Htracks Hrun.
  destruct o as [f|e pixmap visual_info owned|i wait_idle];
    cbn [session_descriptors_left_open flat_map]; rewrite ?app_nil_r.
  - apply run_op_shape in Hrun. destruct Hrun as (draws & Hq & _ & Hvd & Himg & ->).
    apply draw_calls_no_objects in Hq as [Hc Hd].
    assert (Hs : vd_bind_pixmap_strategy (ss_vd s') = vd_bind_pixmap_strategy (ss_vd s))
      by (rewrite Hvd; reflexivity).
    split; [|exact Hs].
    intros ob Hob.
    assert (Hh : held (ss_vd s') = held (ss_vd s))
      by (apply held_by_fields; rewrite Hvd; reflexivity).
    unfold images_objects. rewrite Hh, Himg, Hs.
    unfold counted in Hob. rewrite Hs in Hob. specialize (Htracks ob Hob).
    rewrite !created_objects_app, !destroyed_objects_app, !occurrences_app, Hc, Hd.
    unfold images_objects in Htracks.
    change (created_objects (rev (present_calls ?e ?v))) with (@nil object).
    change (destroyed_objects (rev (present_calls ?e ?v))) with (@nil object).
    change (created_objects (rev (prepare_calls ?e ?v))) with (@nil object).
    change (destroyed_objects (rev (prepare_calls ?e ?v))) with (@nil object).
    rewrite !occurrences_nil. lia.
  - cbn [run_op] in Hrun. unfold bind in Hrun.
    destruct (vk_bind_pixmap _ _ _ _ _ _ h) as [[r| |] h1] eqn:Hbind; [|discriminate..].
    apply vk_bind_pixmap_objects in Hbind as (t & -> & Hcount & _).
    split; [|destruct r; injection Hrun as <- <-; reflexivity].
    intros ob Hob.
    destruct r as [image|]; injection Hrun as <- <-.
    + specialize (Htracks ob Hob). specialize (Hcount ob Hob). cbn [ss_vd ss_images] in *.
      unfold images_objects in *. cbn [flat_map].
      rewrite created_objects_app, destroyed_objects_app, !occurrences_app. lia.
    + specialize (Htracks ob Hob). specialize (Hcount ob Hob).
      rewrite created_objects_app, destroyed_objects_app, !occurrences_app.
      rewrite occurrences_nil in Hcount. lia.
  - cbn [run_op] in Hrun.
    destruct (ss_images s !! i) as [image|] eqn:Hi;
      [|injection Hrun as <- <-; split; [exact Htracks|reflexivity]].
    unfold bind in Hrun.
    destruct (vk_release_image_objects wait_idle (ss_vd s) image h) as (t & Hrel & Hc & Hd).
    cbv zeta in Hrel, Hd. rewrite Hrel in Hrun.
    split; [|destruct (0 <? _); injection Hrun as <- <-; reflexivity].
    intros ob Hob.
    destruct (0 <? _); injection Hrun as <- <-; cbn [ss_vd ss_images] in *;
      specialize (Htracks ob Hob); specialize (Hd ob);
      rewrite created_objects_app, destroyed_objects_app, !occurrences_app, Hc, Hd,
        occurrences_nil; unfold images_objects in *.
    + rewrite (occurrences_flat_map_insert _ _ _ _ _ _ Hi). cbn [bi_inner handle_of].
      rewrite image_objects_refcount. lia.
    + rewrite (occurrences_flat_map_delete _ _ _ _ _ Hi) in Htracks. lia.
Qed.

Lemma session_tracks_same lost1 lost2 s h :
  lost1 = lost2 -> session_tracks lost1 s h -> session_tracks lost2 s h.
Proof. now intros ->. Qed.

Lemma run_ops_tracks NDEBUG : forall ops lost s h s' h',
  session_tracks lost s h -> run_ops NDEBUG ops s h = (Done s', h') ->
  session_tracks
    (lost ++ session_descriptors_left_open (vd_bind_pixmap_strategy (ss_vd s)) ops) s' h' /\
  vd_bind_pixmap_strategy (ss_vd s') = vd_bind_pixmap_strategy (ss_vd s).
Proof.
  induction ops as [|o ops IH]; intros lost s h s' h' Htracks Hrun; simpl in Hrun.
  - injection Hrun as <- <-. cbn. rewrite app_nil_r. now split.
  - unfold bind in Hrun.
    destruct (run_op NDEBUG s o h) as [[s1| |] h1] eqn:Hop; [|discriminate..].
    destruct (run_op_tracks _ _ _ _ _ _ _ Htracks Hop) as [Htracks1 Hs1].
    destruct (IH _ _ _ _ _ Htracks1 Hrun) as [Htracks2 Hs2].
    split; [|exact (eq_trans Hs2 Hs1)].
    refine (session_tracks_same _ _ _ _ _ Htracks2).
    rewrite Hs1. unfold session_descriptors_left_open. cbn [flat_map].
    rewrite app_nil_r, <- app_assoc. reflexivity.
Qed.

(** What is left open is file descriptors. *)
Lemma occurrences_file_descriptors o (fds : list Z) :
  fst o <> File_descriptor ->
  occurrences o ((fun fd => (File_descriptor, fd)) <$> fds) = 0.
Proof.
  intros Ho. induction fds as [|fd fds IH]; [reflexivity|].
  rewrite fmap_cons, occurrences_cons, IH.
  rewrite occurrences_cons_other; [reflexivity|]. intros <-. now apply Ho.
Qed.

Lemma descriptors_left_open_kind strategy e o :
  fst o <> File_descriptor -> occurrences o (descriptors_left_open strategy e) = 0.
Proof.
  intros Ho. unfold descriptors_left_open.
  destruct strategy, (d3_buffers_from_pixmap (ba_dri3 e)); try reflexivity.
  destruct (import_succeeds (ba_dri3 e)); [reflexivity|]. now apply occurrences_file_descriptors.
Qed.

Lemma session_descriptors_left_open_kind strategy ops o :
  fst o <> File_descriptor ->
  occurrences o (session_descriptors_left_open strategy ops) = 0.
Proof.
  intros Ho. unfold session_descriptors_left_open.
  induction ops as [|[f|ba pixmap visual_info owned|i w] ops IH]; cbn [flat_map app];
    rewrite ?occurrences_app, ?IH, ?(descriptors_left_open_kind _ _ _ Ho); reflexivity.
Qed.

(** * What is created is destroyed *)

(** X15. A start-up that fails leaves nothing behind: when [vk_init]
    returns no backend, every object it created, shader modules aside, has
    been destroyed exactly once by the time it returns, and nothing was
    destroyed that it had not created. *)
Theorem failed_startup_destroys_what_it_created e session window h :
  vk_init e session window [] = (Done None, h) ->
  forall o,
    fst o <> Shader_module ->
    occurrences o (created_objects h) = occurrences o (destroyed_objects h).
Proof.
  intros Hrun o Ho.
  exact (vk_init_tracks no_shader_module _ _ _ _ _ Hrun (fun k Hk => Hk) o Ho).
Qed.

Lemma failed_startup_destroys_what_it_created_witness :
  fst sample_failed_start = Done None /\
  occurrences (Surface, 3) (created_objects (snd sample_failed_start))
  = occurrences (Surface, 3) (destroyed_objects (snd sample_failed_start)).
Proof.
  split; [vm_compute; reflexivity|].
  apply (failed_startup_destroys_what_it_created (sample_init_answers []) sample_session 9);
    [vm_compute; reflexivity|discriminate].
Defined.

(** X16. Start-up and teardown are inverse to each other: when [vk_init]
    hands out a backend and [vk_deinit] is called on it, [vk_deinit]
    returns, and afterwards every object that was created, of whatever
    kind, has been destroyed exactly once. *)
Theorem startup_then_teardown_destroys_everything e session window vd h wait_idle :
  vk_init e session window [] = (Done (Some vd), h) ->
  exists h',
    vk_deinit wait_idle vd h = (Done tt, h') /\
    forall o, occurrences o (created_objects h') = occurrences o (destroyed_objects h').
Proof.
  intros Hrun.
  pose proof (vk_init_tracks any_kind _ _ _ _ _ Hrun) as Htracks.
  destruct (vk_deinit_all_destroyed any_kind wait_idle vd h Htracks) as (h' & Hd & Hall).
  exists h'. split; [exact Hd|]. intros o. now apply Hall.
Qed.

Lemma startup_then_teardown_destroys_everything_witness :
  exists h',
    vk_deinit true sample_started_vd sample_started_log = (Done tt, h') /\
    forall o, occurrences o (created_objects h') = occurrences o (destroyed_objects h').
Proof.
  apply (startup_then_teardown_destroys_everything
           (sample_init_answers [sample_device VK_API_VERSION_1_3]) sample_session 9).
  vm_compute. reflexivity.
Defined.

(** X17. The shader stages of [vk_create_pipelines]: every shader module
    the function creates it destroys once, and each of the two arrays of
    stages is freed once.  The function returns, except when the compose
    pipeline was created and the layout or the pipeline for fill was not:
    the array of compose stages was freed when the compose pipeline came
    into being, and the error path, having torn down the fill stages,
    reads the modules from the freed array and frees it again.  What the C
    program does from there on is undefined. *)
Theorem create_pipelines_shader_stage_teardown e vd h :
  exists r t,
    vk_create_pipelines e vd h = (r, t ++ h) /\
    (forall o, fst o = Shader_module ->
       occurrences o (destroyed_objects t) = occurrences o (created_objects t)) /\
    stage_array_frees t = 2%nat /\
    if fails_after_compose_pipeline e then r = Undefined
    else exists ok vd', r = Done (ok, vd').
Proof.
  destruct e as [[ci cv cvm cf cfm] [fi fv fvm ff ffm] cl cp fl fp].
  destruct (vk_create_pipelines _ vd h) as [r h'] eqn:Hrun.
  unfold vk_create_pipelines, vk_create_pipeline_shader_stage_create_infos,
    vk_destroy_pipeline_shader_stage_create_infos, undefined, bind, ask, ret, emit, when
    in Hrun.
  cbv zeta in Hrun. cbn in Hrun.
  repeat (answer_var Hrun; cbn in Hrun).
  all: injection Hrun as <- <-.
  all: match goal with
       | |- exists r t, (?r0, ?l) = _ /\ _ =>
         let t := calls_since l h in exists r0, t
       end.
  all: split; [reflexivity|].
  all: split; [|split; [reflexivity|cbn; try reflexivity; eexists _, _; reflexivity]].
  all: intros [k x] Hk; cbn in Hk; subst k.
  all: rewrite ?created_objects_cons, ?destroyed_objects_cons, ?occurrences_app.
  all: cbn [creates destroys obj_created answered andb negb created fmap option_fmap
            option_map created_objects destroyed_objects flat_map app].
  all: rewrite ?(occurrences_cons _ _ (_ :: _)).
  all: rewrite ?occurrences_nil, ?occurrences_app,
         ?(occurrences_other_kind Shader_module Pipeline),
         ?(occurrences_other_kind Shader_module Pipeline_layout) by discriminate.
  all: cbv delta [object handle]; lia.
Qed.

(** X18. What a bind that fails leaves behind: when [vk_bind_pixmap]
    returns no handle, every object it created has been destroyed exactly
    once (under the shared-memory strategy: every object outside shared
    memory), except the file descriptor that came with the reply under
    DRI3: unless [vkAllocateMemory] imported it, it stays open, and nothing
    refers to it any more.  The pixmap has been freed exactly when the
    backend owns it and it is not [XCB_NONE]. *)
Theorem failed_bind_leaves_only_descriptors NDEBUG e vd pixmap visual_info owned h h' :
  vk_bind_pixmap NDEBUG e vd pixmap visual_info owned h = (Done None, h') ->
  exists t,
    h' = t ++ h /\
    (forall o,
       counted vd o ->
       occurrences o (created_objects t)
       = occurrences o (destroyed_objects t)
         + occurrences o (descriptors_left_open (vd_bind_pixmap_strategy vd) e)) /\
    (forall o, fst o <> File_descriptor ->
       occurrences o (descriptors_left_open (vd_bind_pixmap_strategy vd) e) = 0) /\
    pixmap_frees pixmap t = if owned && negb (pixmap =? XCB_NONE) then 1%nat else 0%nat.
Proof.
  intros Hrun.
  destruct (vk_bind_pixmap_objects _ _ _ _ _ _ _ _ _ Hrun) as (t & Ht & Hcount & Hfree).
  exists t. split; [exact Ht|]. split; [|split; [|now apply Hfree]].
  - intros o Ho. rewrite (Hcount o Ho), occurrences_nil. lia.
  - intros o Ho. now apply descriptors_left_open_kind.
Qed.

Lemma failed_bind_leaves_only_descriptors_witness :
  exists t,
    snd (vk_bind_pixmap true sample_bind_answers_no_memory sample_vd 77
           {| alpha_size := 8 |} true []) = t ++ [] /\
    (forall o,
       counted sample_vd o ->
       occurrences o (created_objects t)
       = occurrences o (destroyed_objects t)
         + occurrences o (descriptors_left_open (vd_bind_pixmap_strategy sample_vd)
                            sample_bind_answers_no_memory)) /\
    (forall o, fst o <> File_descriptor ->
       occurrences o (descriptors_left_open (vd_bind_pixmap_strategy sample_vd)
                        sample_bind_answers_no_memory) = 0) /\
    pixmap_frees 77 t = 1%nat.
Proof.
  apply (failed_bind_leaves_only_descriptors true sample_bind_answers_no_memory sample_vd 77
           {| alpha_size := 8 |} true []).
  vm_compute. reflexivity.
Defined.

(** The bind of the sample for which no memory can be allocated leaves the
    file descriptor 5 of the reply open. *)
Lemma failed_bind_leaves_descriptor_open :
  fst (vk_bind_pixmap true sample_bind_answers_no_memory sample_vd 77
         {| alpha_size := 8 |} true []) = Done None /\
  descriptors_left_open (vd_bind_pixmap_strategy sample_vd) sample_bind_answers_no_memory
  = [(File_descriptor, 5)].
Proof. split; vm_compute; reflexivity. Qed.

(** X19. Binding and releasing are inverse to each other: when
    [vk_bind_pixmap] hands out a handle and [vk_release_image] is called on
    it, the release drops the image, and afterwards every object the two
    calls created has been destroyed exactly once; the pixmap is freed
    exactly when the backend owns it.  Under the shared-memory strategy
    this needs the segment id handed out by the X connection not to be
    [XCB_NONE]. *)
Theorem bind_then_release_destroys_everything
    NDEBUG e vd pixmap visual_info owned wait_idle h image h1 :
  (vd_bind_pixmap_strategy vd = BIND_PIXMAP_STRATEGY_SHM ->
   sh_new_id (ba_shm e) <> XCB_NONE) ->
  vk_bind_pixmap NDEBUG e vd pixmap visual_info owned h = (Done (Some image), h1) ->
  exists t,
    vk_release_image wait_idle vd image h1 = (Done None, t ++ h) /\
    (forall o, occurrences o (created_objects t) = occurrences o (destroyed_objects t)) /\
    pixmap_frees pixmap t = if owned && negb (pixmap =? XCB_NONE) then 1%nat else 0%nat.
Proof.
  intros Hid Hbind.
  destruct (vk_release_image_returns wait_idle vd image h1) as [y Hy].
  destruct (vk_release_image wait_idle vd image h1) as [r h2] eqn:Hrel.
  cbn in Hy. subst r.
  assert (Hrun :
    (x <- vk_bind_pixmap NDEBUG e vd pixmap visual_info owned ;;
     y <- match x with
          | Some i => vk_release_image wait_idle vd i
          | None => ret None
          end ;;
     ret (x, y)) h
    = (Done (Some image, y), h2)).
  { unfold bind. now rewrite Hbind, Hrel. }
  clear Hbind Hrel.
  unfold vk_bind_pixmap, vk_bind_pixmap_dri3, vk_bind_pixmap_shm, bind_staging_buffer,
    bind_transition, allocate_descriptor_set, vk_release_image, vk_release_image_shm,
    assert_, bind, ask, ret, emit, when in Hrun.
  cbv zeta in Hrun. cbn in Hrun.
  repeat (first [ progress change (0 <? int32_sub 1 1) with false in Hrun
                | next_answer_once Hrun ]; cbn in Hrun).
  all: try discriminate Hrun.
  all: injection Hrun; clear Hrun; intros; subst.
  all: try solve [exfalso;
                  match goal with
                  | E : (sh_new_id _ =? XCB_NONE) = true |- _ =>
                    apply Z.eqb_eq in E; exact (Hid eq_refl E)
                  end].
  all: match goal with
       | |- exists t, (_, ?l) = (_, t ++ ?h) /\ _ => let t := calls_since l h in exists t
       end.
  all: split; [reflexivity|].
  all: split; [|cbn; rewrite ?Z.eqb_refl; try reflexivity].
  all: intros o; use_answers; count_objects; cbv delta [object handle]; lia.
Qed.

Lemma bind_then_release_destroys_everything_witness :
  exists image h1 t,
    vk_bind_pixmap true sample_bind_answers sample_vd_shm 77 {| alpha_size := 8 |} false []
    = (Done (Some image), h1) /\
    vk_release_image true sample_vd_shm image h1 = (Done None, t ++ []) /\
    (forall o, occurrences o (created_objects t) = occurrences o (destroyed_objects t)) /\
    pixmap_frees 77 t = 0%nat.
Proof.
  destruct (vk_bind_pixmap true sample_bind_answers sample_vd_shm 77 {| alpha_size := 8 |}
              false []) as [r h1] eqn:Hbind.
  vm_compute in Hbind. injection Hbind as <- <-.
  eexists _, _.
  destruct (bind_then_release_destroys_everything true sample_bind_answers sample_vd_shm 77
              {| alpha_size := 8 |} false true [] _ _
              ltac:(intros _; discriminate) ltac:(vm_compute; reflexivity))
    as (t & Hrel & Hcount & Hfree).
  exists t. split; [reflexivity|]. split; [exact Hrel|]. split; [exact Hcount|exact Hfree].
Defined.

(** X20. What a session loses: after a start-up that succeeded and any
    sequence of frames, binds and releases, a call of [vk_deinit] returns,
    and then every object created since the start of [vk_init] has been
    destroyed exactly once, or belongs to an image the orchestrator still
    holds a handle of, or is a file descriptor that a bind under DRI3 has
    left open.  Under the shared-memory strategy this is about the objects
    outside shared memory. *)
Theorem session_loses_only_descriptors NDEBUG e session window vd h0 ops s h wait_idle :
  vk_init e session window [] = (Done (Some vd), h0) ->
  run_ops NDEBUG ops {| ss_vd := vd; ss_images := [] |} h0 = (Done s, h) ->
  exists h',
    vk_deinit wait_idle (ss_vd s) h = (Done tt, h') /\
    (forall o,
       counted (ss_vd s) o ->
       occurrences o (created_objects h')
       = occurrences o (destroyed_objects h')
         + occurrences o (images_objects (ss_vd s) (ss_images s))
         + occurrences o
             (session_descriptors_left_open (vd_bind_pixmap_strategy vd) ops)) /\
    (forall o, fst o <> File_descriptor ->
       occurrences o (session_descriptors_left_open (vd_bind_pixmap_strategy vd) ops) = 0).
Proof.
  intros Hinit Hrun.
  pose proof (vk_init_tracks any_kind _ _ _ _ _ Hinit) as Htracks.
  assert (Hstart : session_tracks [] {| ss_vd := vd; ss_images := [] |} h0).
  { intros o _. cbn. rewrite (Htracks o I), !occurrences_nil. lia. }
  destruct (run_ops_tracks _ _ _ _ _ _ _ Hstart Hrun) as [Hend _].
  cbn [app ss_vd] in Hend.
  destruct (vk_deinit_releases wait_idle (ss_vd s) h) as (t & Hd & Hc & Hobjs).
  exists (t ++ h). split; [exact Hd|]. split.
  - intros o Ho. specialize (Hend o Ho).
    rewrite created_objects_app, destroyed_objects_app, !occurrences_app, Hc, Hobjs,
      occurrences_nil.
    lia.
  - intros o Ho. now apply session_descriptors_left_open_kind.
Qed.

Lemma session_loses_only_descriptors_witness :
  exists h',
    vk_deinit true (ss_vd (sample_final sample_ops_all_released))
      (sample_final_log sample_ops_all_released) = (Done tt, h') /\
    (forall o,
       counted (ss_vd (sample_final sample_ops_all_released)) o ->
       occurrences o (created_objects h')
       = occurrences o (destroyed_objects h')
         + occurrences o (images_objects (ss_vd (sample_final sample_ops_all_released))
                            (ss_images (sample_final sample_ops_all_released)))
         + occurrences o
             (session_descriptors_left_open (vd_bind_pixmap_strategy sample_started_vd)
                sample_ops_all_released)) /\
    (forall o, fst o <> File_descriptor ->
       occurrences o
         (session_descriptors_left_open (vd_bind_pixmap_strategy sample_started_vd)
            sample_ops_all_released) = 0).
Proof.
  apply (session_loses_only_descriptors false
           (sample_init_answers [sample_device VK_API_VERSION_1_3]) sample_session 9
           sample_started_vd sample_started_log sample_ops_all_released).
  - vm_compute. reflexivity.
  - vm_compute. reflexivity.
Defined.
